(** * pspg export engine: a shallow embedding of [src/export.c]

    The development follows the C file top-down: the byte-level memory the
    routines walk over, the three quoting routines and [trim_str], the
    per-token state machine [process_item], and the orchestrator
    [export_data].  Every C function keeps its name.

    Conventions.
    - A [char] is modelled by its unsigned value (0..255) as a [Z].  All
      comparisons the file makes are against ASCII constants, so they give
      the same answer whether [char] is signed or not.
    - [int] lengths and counters inside the helpers are byte counts of one
      in-memory row and are kept as plain [Z]; the caller-supplied [int]s
      that [export_data] does arithmetic on are wrapped to 32 bits.
    - A pointer is [NULL] or a block number with a byte offset.  Reading
      through [NULL], outside a block or through a freed block is a
      [Fault]: the C program has no defined behaviour there. *)

From Stdlib Require Import ZArith List Bool Lia String Ascii SpecFloat DecimalString.
From stdpp Require Import base list.

Local Open Scope Z_scope.

(** ** Outcomes and the state-and-fault monad *)

Inductive fault : Type :=
| NullDeref      (* a read or write through a null pointer *)
| OutOfBounds    (* an access past the ends of an allocated block *)
| BadPointer     (* a pointer to a block that does not exist or was freed *)
| OutOfFuel.     (* a loop of the model ran longer than its bound *)

Inductive res (A : Type) : Type :=
| Ok (a : A)
| Fault (f : fault).
Arguments Ok {A} a.
Arguments Fault {A} f.

Definition ST (S A : Type) : Type := S -> res (A * S).

Definition ret {S A : Type} (a : A) : ST S A := fun s => Ok (a, s).

Definition fail {S A : Type} (f : fault) : ST S A := fun _ => Fault f.

Definition bind {S A B : Type} (m : ST S A) (k : A -> ST S B) : ST S B :=
  fun s => match m s with
           | Ok (a, s') => k a s'
           | Fault f => Fault f
           end.

Definition lift_res {S A : Type} (r : res A) : ST S A :=
  fun s => match r with Ok a => Ok (a, s) | Fault f => Fault f end.

Declare Scope st_scope.
Delimit Scope st_scope with st.
Notation "'do' x <- m ; k" := (bind m (fun x => k))
  (at level 10, x name, m at level 100, k at level 200) : st_scope.
Notation "'do' ' pat <- m ; k" := (bind m (fun x => match x with pat => k end))
  (at level 10, pat pattern, m at level 100, k at level 200) : st_scope.
Notation "m ;; k" := (bind m (fun _ => k))
  (at level 100, k at level 200, right associativity) : st_scope.
Local Open Scope st_scope.

(** ** Memory *)

Inductive cptr : Type :=
| NULL
| Ptr (blk : nat) (off : Z).

(** A heap is the list of blocks allocated so far; a freed block is [None]. *)
Abbreviation heap := (list (option (list Z))).

Definition cptr_eqb (p q : cptr) : bool :=
  match p, q with
  | NULL, NULL => true
  | Ptr b o, Ptr b' o' => Nat.eqb b b' && (o =? o')
  | _, _ => false
  end.

Definition is_null (p : cptr) : bool :=
  match p with NULL => true | Ptr _ _ => false end.

(** [p + n] on [char *]. *)
Definition ptr_add (p : cptr) (n : Z) : cptr :=
  match p with
  | NULL => NULL
  | Ptr b o => Ptr b (o + n)
  end.

(** The bytes from [p] to the end of the block [p] points into. *)
Definition view (p : cptr) (h : heap) : res (list Z) :=
  match p with
  | NULL => Fault NullDeref
  | Ptr b o =>
      match h !! b with
      | Some (Some blk) =>
          if (0 <=? o) && (o <=? Z.of_nat (length blk))
          then Ok (drop (Z.to_nat o) blk)
          else Fault OutOfBounds
      | _ => Fault BadPointer
      end
  end.

(** [*p] *)
Definition load (p : cptr) : ST heap Z :=
  fun h => match view p h with
           | Ok (c :: _) => Ok (c, h)
           | Ok [] => Fault OutOfBounds
           | Fault f => Fault f
           end.

(** The [n] bytes at [p], as [fwrite (p, n, 1, fp)] and the inner copy loops
    read them.  Nothing is read when [n] is 0. *)
Definition load_bytes (p : cptr) (n : Z) : ST heap (list Z) :=
  fun h =>
    if n =? 0 then Ok ([], h)
    else if n <? 0 then Fault OutOfBounds
    else match view p h with
         | Ok v => if Z.of_nat (length v) <? n then Fault OutOfBounds
                   else Ok (take (Z.to_nat n) v, h)
         | Fault f => Fault f
         end.

(** The bytes of a list up to its first NUL; [None] when there is none. *)
Fixpoint until_nul (l : list Z) : option (list Z) :=
  match l with
  | [] => None
  | c :: r => if c =? 0 then Some []
              else match until_nul r with
                   | Some s => Some (c :: s)
                   | None => None
                   end
  end.

(** The NUL-terminated string at [p], as [strlen], [fputs] and [%s] read it. *)
Definition cstring (p : cptr) : ST heap (list Z) :=
  fun h => match view p h with
           | Ok v => match until_nul v with
                     | Some s => Ok (s, h)
                     | None => Fault OutOfBounds
                     end
           | Fault f => Fault f
           end.

(** Allocation: a new block holding [content]; its number is the next free
    one, so the pointer differs from every pointer into the heap as it
    was.  A failed allocation ends the process and is not modelled. *)
Definition alloc (content : list Z) : ST heap cptr :=
  fun h => Ok (Ptr (length h) 0, h ++ [Some content]).

(** [free(p)] *)
Definition free (p : cptr) : ST heap unit :=
  fun h => match p with
           | NULL => Ok (tt, h)
           | Ptr b o =>
               match h !! b with
               | Some (Some _) =>
                   if o =? 0 then Ok (tt, <[b := None]> h) else Fault BadPointer
               | _ => Fault BadPointer
               end
           end.

(** Modelled from the spec: [sstrdup] is a duplication helper that is not in
    [export.c]; it returns a fresh NUL-terminated copy of its argument,
    which is a string constant at every call of this file. *)
Definition sstrdup (lit : list Z) : ST heap cptr := alloc (lit ++ [0]).

(** What [%.*s] prints for precision [n] and the bytes [v] under the
    pointer: at most [n] bytes, up to the first NUL; a negative precision
    counts as none given. *)
Fixpoint str_prefix (n : nat) (v : list Z) : option (list Z) :=
  match n with
  | O => Some []
  | S n' => match v with
            | [] => None
            | c :: r => if c =? 0 then Some []
                        else match str_prefix n' r with
                             | Some s => Some (c :: s)
                             | None => None
                             end
            end
  end.

(** The read of [%.*s] with precision [n] at [p].  With precision 0 no
    byte is read, so the pointer is not used: the extended line copy prints
    a null [_field] with [size] 0 for a blank cell, and what reaches the
    stream is the name and the comma. *)
Definition cstring_prec (p : cptr) (n : Z) : ST heap (list Z) :=
  if n <? 0 then cstring p
  else if n =? 0 then ret []
  else fun h => match view p h with
                | Ok v => match str_prefix (Z.to_nat n) v with
                          | Some s => Ok (s, h)
                          | None => Fault OutOfBounds
                          end
                | Fault f => Fault f
                end.

(** Modelled from the spec: [sstrndup(p, n)] is an allocation helper that
    is not in [export.c]; it returns a fresh NUL-terminated copy of at most
    [n] bytes of the string at [p]. *)
Definition sstrndup (p : cptr) (n : Z) : ST heap cptr :=
  do s <- cstring_prec p (Z.max 0 n);
  alloc (s ++ [0]).

(** The bytes of a string constant of the source. *)
Definition bytes_of_string (s : string) : list Z :=
  map (fun a => Z.of_nat (nat_of_ascii a)) (list_ascii_of_string s).

(** A block holding a string constant and its terminator. *)
Definition cstr (s : string) : option (list Z) := Some (bytes_of_string s ++ [0]).

(** ** Collaborators that are not part of [export.c]

    [utf8charlen], [utf_dsplen] and [utf_string_dsplen] live in
    [unicode.c]; [smalloc2] is an allocation helper whose buffer contents
    before the first store are whatever the allocator left there;
    [set_line_info] belongs to the pager; the two [LINEINFO_*] masks are
    header constants.  They are taken as parameters. *)
Class Collaborators : Type := {
  utf8charlen : Z -> Z;
  utf_dsplen : list Z -> Z;
  utf_string_dsplen : list Z -> Z;
  heap_junk : nat -> Z -> Z;
  LINEINFO_BOOKMARK : Z;
  LINEINFO_FOUNDSTR : Z;
  set_line_info : heap -> cptr -> option Z
}.

Section Quoting.
Context `{Collaborators}.

(** *** Output buffers of the quoting routines

    [smalloc2(cap, ...)] returns block number [blk] (the next free one).
    The routines store through a cursor that only moves forward by one after
    each store, so the buffer is the list [w] of the bytes stored so far
    (offsets [0 .. length w - 1]); every offset from [length w] on still
    holds the allocator's byte [heap_junk blk off]. *)

(** [*ptr++ = c] *)
Definition push (cap : Z) (w : list Z) (c : Z) : res (list Z) :=
  if Z.of_nat (length w) <? cap then Ok (w ++ [c]) else Fault OutOfBounds.

(** [while (size--) *ptr++ = *str++;] for the bytes [bs] read at [str]. *)
Definition push_all (cap : Z) (w : list Z) (bs : list Z) : res (list Z) :=
  if Z.of_nat (length w) + Z.of_nat (length bs) <=? cap then Ok (w ++ bs)
  else Fault OutOfBounds.

(** [*ptr] for the write cursor: a byte nothing was stored into yet. *)
Definition peek (blk : nat) (cap : Z) (w : list Z) : res Z :=
  if Z.of_nat (length w) <? cap then Ok (heap_junk blk (Z.of_nat (length w)))
  else Fault OutOfBounds.

(** The whole block once the routine returns. *)
Definition buffer_block (blk : nat) (cap : Z) (w : list Z) : list Z :=
  w ++ map (heap_junk blk) (seqZ (Z.of_nat (length w)) (cap - Z.of_nat (length w))).

(** The second loop of [csv_format], [quote_sql_identifier] and
    [quote_sql_literal]; the three copies differ in the quote character [q]
    only.  [slen] is the caller's [*slen], [_slen] the local countdown.

<<
    while (_slen > 0)
    {
        int size = force8bit ? 1 : utf8charlen( *ptr);
        if ( *str == q) *ptr++ = q;
        _slen -= size;
        *slen += size;
        while (size--) *ptr++ = *str++;
    }
>> *)
Fixpoint quote_copy (fuel : nat) (q : Z) (force8bit : bool) (blk : nat) (cap : Z)
    (w : list Z) (str : cptr) (_slen slen : Z) : ST heap (list Z * Z) :=
  if _slen <=? 0 then ret (w, slen)
  else match fuel with
       | O => fail OutOfFuel
       | S fuel' =>
           do size <- (if force8bit then ret 1
                       else do c <- lift_res (peek blk cap w); ret (utf8charlen c));
           do c <- load str;
           do w1 <- lift_res (if c =? q then push cap w q else Ok w);
           do bs <- load_bytes str size;
           do w2 <- lift_res (push_all cap w1 bs);
           quote_copy fuel' q force8bit blk cap w2 (ptr_add str size)
                      (_slen - size) (slen + size)
       end.

(** The allocation, the opening quote, the copy loop, the closing quote
    and the terminator: the common tail of the three routines.  The size
    [slen * 2 + 2 + 1] is taken as an integer; it is the value of the
    source's [int] expression as long as it does not exceed [INT_MAX], that
    is for fields of less than [2^30 - 1] bytes. *)
Definition quote_wrap (q : Z) (force8bit : bool) (str : cptr) (slen : Z)
  : ST heap (cptr * Z) :=
  fun h =>
    let blk := length h in
    let cap := slen * 2 + 2 + 1 in
    (do w0 <- lift_res (push cap [] q);
     do '(w1, slen1) <- quote_copy (Z.to_nat slen) q force8bit blk cap w0 str slen 1;
     do w2 <- lift_res (push cap w1 q);
     do w3 <- lift_res (push cap w2 0);
     do p <- alloc (buffer_block blk cap w3);
     ret (p, slen1 + 1)) h.

(** [strncmp(p, lit, n) == 0] for a string constant [lit]. *)
Fixpoint strncmp_eq (n : nat) (p : cptr) (lit : list Z) : ST heap bool :=
  match n with
  | O => ret true
  | S n' =>
      do a <- load p;
      if negb (a =? hd 0 lit) then ret false
      else if a =? 0 then ret true
      else strncmp_eq n' (ptr_add p 1) (tl lit)
  end.

(** The NULL symbol of the table renderer, ["\342\210\205"]. *)
Definition NULL_SYMBOL : list Z := [226; 136; 133].

(** *** [csv_format] *)

(** Double quote (34), comma (44), tab (9), CR (13), LF (10). *)
Definition csv_special (c : Z) : bool :=
  (c =? 34) || (c =? 44) || (c =? 9) || (c =? 13) || (c =? 10).

(** The first loop of [csv_format]: does the field need quoting? *)
Fixpoint csv_scan (fuel : nat) (force8bit : bool) (ptr : cptr) (_slen : Z)
  : ST heap bool :=
  if _slen <=? 0 then ret false
  else match fuel with
       | O => fail OutOfFuel
       | S fuel' =>
           do c <- load ptr;
           if csv_special c then ret true
           else
             let size := if force8bit then 1 else utf8charlen c in
             csv_scan fuel' force8bit (ptr_add ptr size) (_slen - size)
       end.

(** [csv_format], lines 26-98.  The result is the returned pointer and the
    new [*slen]. *)
Definition csv_format (str : cptr) (slen : Z) (force8bit empty_string_is_null : bool)
  : ST heap (cptr * Z) :=
  do is_null_symbol <-
     (if negb force8bit && (slen =? 3) then strncmp_eq 3 str NULL_SYMBOL
      else ret false);
  if is_null_symbol then ret (NULL, 0)
  else if slen =? 0 then
    if empty_string_is_null then ret (NULL, slen)
    else do p <- sstrdup [34; 34]; ret (p, 2)
  else
    do needs_quoting <- csv_scan (Z.to_nat slen) force8bit str slen;
    if negb needs_quoting then ret (str, slen)
    else quote_wrap 34 force8bit str slen.

(** *** [quote_sql_identifier] *)

(** A lower-case letter (97..122), a digit (48..57) or the underscore (95). *)
Definition ident_char (c : Z) : bool :=
  ((97 <=? c) && (c <=? 122)) || ((48 <=? c) && (c <=? 57)) || (c =? 95).

(** The loop [while ( *ptr && _slen > 0)] of [quote_sql_identifier]: the
    byte under the cursor is read before the countdown is tested. *)
Fixpoint ident_scan (fuel : nat) (force8bit : bool) (ptr : cptr) (_slen : Z)
  : ST heap bool :=
  do c <- load ptr;
  if (c =? 0) || (_slen <=? 0) then ret false
  else match fuel with
       | O => fail OutOfFuel
       | S fuel' =>
           let size := if force8bit then 1 else utf8charlen c in
           if negb (ident_char c) then ret true
           else ident_scan fuel' force8bit (ptr_add ptr size) (_slen - size)
       end.

(** [quote_sql_identifier], lines 103-171.  The result is the returned
    pointer and the new [*slen].  The double quote is 34, the blank 32. *)
Definition quote_sql_identifier (str : cptr) (slen : Z) (force8bit : bool)
  : ST heap (cptr * Z) :=
  (* the already-quoted test reads *str before str itself is tested *)
  do c0 <- load str;
  if c0 =? 34 then ret (str, slen)
  else
    (* !str || *str == 0 || *slen == 0 *)
    if is_null str then ret (str, slen)
    else
      do c1 <- load str;
      if (c1 =? 0) || (slen =? 0) then ret (str, slen)
      else
        do c2 <- load str;
        do needs_quoting <-
           (if negb (c2 =? 32) && ((c2 <? 97) || (122 <? c2)) then ret true
            else ident_scan (Z.to_nat slen) force8bit str slen);
        if negb needs_quoting then ret (str, slen)
        else quote_wrap 34 force8bit str slen.

(** *** [quote_sql_literal] *)

(** The loop of [quote_sql_literal]; [has_dot] is threaded through.  The
    point is 46, the digits are 48..57. *)
Fixpoint literal_scan (fuel : nat) (force8bit : bool) (has_dot : bool)
    (ptr : cptr) (_slen : Z) : ST heap bool :=
  do c <- load ptr;
  if (c =? 0) || (_slen <=? 0) then ret false
  else match fuel with
       | O => fail OutOfFuel
       | S fuel' =>
           let size := if force8bit then 1 else utf8charlen c in
           if c =? 46 then
             if has_dot then ret true
             else literal_scan fuel' force8bit true (ptr_add ptr size) (_slen - size)
           else if negb ((48 <=? c) && (c <=? 57)) then ret true
           else literal_scan fuel' force8bit has_dot (ptr_add ptr size) (_slen - size)
       end.

(** [quote_sql_literal], lines 173-266.  The result is the returned pointer
    and the new [*slen].  The single quote is 39. *)
Definition quote_sql_literal (str : cptr) (slen : Z)
    (force8bit empty_string_is_null : bool) : ST heap (cptr * Z) :=
  if slen =? 0 then
    if empty_string_is_null
    then do p <- sstrdup (bytes_of_string "NULL"); ret (p, 4)
    else do p <- sstrdup [39; 39]; ret (p, 2)
  else
    do is_null_text <-
       (if slen =? 4 then
          do upper <- strncmp_eq (Z.to_nat slen) str (bytes_of_string "NULL");
          if upper then ret true
          else strncmp_eq (Z.to_nat slen) str (bytes_of_string "null")
        else ret false);
    if is_null_text then ret (str, slen)
    else
      do is_null_symbol <-
         (if negb force8bit && (slen =? 3) then strncmp_eq 3 str NULL_SYMBOL
          else ret false);
      if is_null_symbol then do p <- sstrdup (bytes_of_string "NULL"); ret (p, 4)
      else
        do needs_quoting <- literal_scan (Z.to_nat slen) force8bit false str slen;
        if negb needs_quoting then ret (str, slen)
        else quote_wrap 39 force8bit str slen.

End Quoting.

(** ** [trim_str] *)

(** [p - q] for two pointers into one block. *)
Definition ptr_diff (p q : cptr) : res Z :=
  match p, q with
  | Ptr b o, Ptr b' o' => if Nat.eqb b b' then Ok (o - o') else Fault BadPointer
  | _, _ => Fault NullDeref
  end.

Section Trim.
Context `{Collaborators}.

(** The first loop: the byte is read before [*size] is tested. *)
Fixpoint trim_leading (fuel : nat) (str : cptr) (size : Z) : ST heap (cptr * Z) :=
  do c <- load str;
  if (c =? 32) && (0 <? size) then
    match fuel with
    | O => fail OutOfFuel
    | S fuel' => trim_leading fuel' (ptr_add str 1) (size - 1)
    end
  else ret (str, size).

(** The second loop; the result is the final [after_nspc_chr]. *)
Fixpoint trim_trailing (fuel : nat) (force8bit : bool) (str : cptr) (size : Z)
    (after_nspc_chr : cptr) : ST heap cptr :=
  if size <=? 0 then ret after_nspc_chr
  else match fuel with
       | O => fail OutOfFuel
       | S fuel' =>
           do c <- load str;
           let charlen := if force8bit then 1 else utf8charlen c in
           let after := if negb (c =? 32) then ptr_add str charlen
                        else after_nspc_chr in
           trim_trailing fuel' force8bit (ptr_add str charlen) (size - charlen) after
       end.

(** [trim_str], lines 335-367.  The result is the returned pointer and the
    new [*size]. *)
Definition trim_str (str : cptr) (size : Z) (force8bit : bool) : ST heap (cptr * Z) :=
  do '(str1, size1) <- trim_leading (Z.to_nat size) str size;
  if 0 <? size1 then
    do after <- trim_trailing (Z.to_nat size1) force8bit str1 size1 NULL;
    do n <- lift_res (ptr_diff after str1);
    ret (str1, n)
  else ret (NULL, size1).

End Trim.

(** ** The output stream and the machine state

    Modelled from the spec: the output sink is a collaborator that either
    takes the bytes or reports a write failure in [errno].  The stream is
    the list of bytes it took so far and the room left on the device
    ([None]: unlimited); a write that does not fit keeps what fits and sets
    [errno] to [ENOSPC]. *)
Record FILE : Type := mkFILE {
  f_bytes : list Z;
  f_room : option nat
}.

Record machine : Type := mkMachine {
  m_heap : heap;
  m_errno : Z;
  m_out : FILE
}.

Definition ENOSPC : Z := 28.

Definition on_heap {A : Type} (f : ST heap A) : ST machine A :=
  fun m => match f (m_heap m) with
           | Ok (a, h') => Ok (a, mkMachine h' (m_errno m) (m_out m))
           | Fault e => Fault e
           end.

Definition get_errno : ST machine Z := fun m => Ok (m_errno m, m).

Definition set_errno (e : Z) : ST machine unit :=
  fun m => Ok (tt, mkMachine (m_heap m) e (m_out m)).

(** One write call on the stream. *)
Definition write_out (bs : list Z) : ST machine unit :=
  fun m =>
    let fp := m_out m in
    match f_room fp with
    | None => Ok (tt, mkMachine (m_heap m) (m_errno m) (mkFILE (f_bytes fp ++ bs) None))
    | Some room =>
        if Nat.leb (length bs) room
        then Ok (tt, mkMachine (m_heap m) (m_errno m)
                       (mkFILE (f_bytes fp ++ bs) (Some (room - length bs)%nat)))
        else Ok (tt, mkMachine (m_heap m) ENOSPC
                       (mkFILE (f_bytes fp ++ take room bs) (Some 0%nat)))
    end.

(** [fputs(s, fp)] *)
Definition fputs (s : cptr) : ST machine unit :=
  do bs <- on_heap (cstring s); write_out bs.

(** [fputs("...", fp)] and [fputc] for constants of the source. *)
Definition fputs_lit (s : string) : ST machine unit := write_out (bytes_of_string s).

Definition fputc (c : Z) : ST machine unit := write_out [c].

(** [fwrite(p, size, 1, fp)] *)
Definition fwrite (p : cptr) (size : Z) : ST machine unit :=
  do bs <- on_heap (load_bytes p size); write_out bs.

(** What [%d] prints. *)
Definition decimal (n : Z) : list Z := bytes_of_string (NilZero.string_of_int (Z.to_int n)).

(** ** Export state *)

(** Modelled from the spec: the [ClipboardFormat] enumeration and the two
    format-class macros of [pspg.h] are not in [export.c]; the formats are
    CSV, TSV, plain text and SQL INSERT, terse or commented. *)
Inductive ClipboardFormat : Type :=
| CLIPBOARD_FORMAT_CSV
| CLIPBOARD_FORMAT_TSVC
| CLIPBOARD_FORMAT_TEXT
| CLIPBOARD_FORMAT_INSERT
| CLIPBOARD_FORMAT_INSERT_WITH_COMMENTS.

Definition INSERT_FORMAT_TYPE (f : ClipboardFormat) : bool :=
  match f with
  | CLIPBOARD_FORMAT_INSERT | CLIPBOARD_FORMAT_INSERT_WITH_COMMENTS => true
  | _ => false
  end.

Definition DSV_FORMAT_TYPE (f : ClipboardFormat) : bool :=
  match f with
  | CLIPBOARD_FORMAT_CSV | CLIPBOARD_FORMAT_TSVC => true
  | _ => false
  end.

Definition format_eqb (f g : ClipboardFormat) : bool :=
  match f, g with
  | CLIPBOARD_FORMAT_CSV, CLIPBOARD_FORMAT_CSV
  | CLIPBOARD_FORMAT_TSVC, CLIPBOARD_FORMAT_TSVC
  | CLIPBOARD_FORMAT_TEXT, CLIPBOARD_FORMAT_TEXT
  | CLIPBOARD_FORMAT_INSERT, CLIPBOARD_FORMAT_INSERT
  | CLIPBOARD_FORMAT_INSERT_WITH_COMMENTS, CLIPBOARD_FORMAT_INSERT_WITH_COMMENTS => true
  | _, _ => false
  end.

(** [ExportState]; the stream behind [fp] is the machine's [m_out], and
    [colnames] is [None] while the array pointer is null. *)
Record ExportState : Type := mkExportState {
  format : ClipboardFormat;
  xmin : Z;
  xmax : Z;
  copy_line_extended : bool;
  table_name : cptr;
  columns : Z;
  force8bit : bool;
  empty_string_is_null : bool;
  colno : Z;
  colnames : option (list cptr)
}.

Definition set_colno (st : ExportState) (n : Z) : ExportState :=
  mkExportState (format st) (xmin st) (xmax st) (copy_line_extended st)
    (table_name st) (columns st) (force8bit st) (empty_string_is_null st)
    n (colnames st).

Definition set_colnames (st : ExportState) (names : option (list cptr)) : ExportState :=
  mkExportState (format st) (xmin st) (xmax st) (copy_line_extended st)
    (table_name st) (columns st) (force8bit st) (empty_string_is_null st)
    (colno st) names.

(** Index into an array with a C [int]. *)
Definition lookupZ {A : Type} (l : list A) (i : Z) : option A :=
  if i <? 0 then None else l !! Z.to_nat i.

(** [expstate->colnames[i]] as an rvalue. *)
Definition colname_at (st : ExportState) (i : Z) : res cptr :=
  match colnames st with
  | None => Fault NullDeref
  | Some names => match lookupZ names i with
                  | Some p => Ok p
                  | None => Fault OutOfBounds
                  end
  end.

(** [expstate->colnames[i] = p] *)
Definition colname_store (st : ExportState) (i : Z) (p : cptr) : res ExportState :=
  match colnames st with
  | None => Fault NullDeref
  | Some names =>
      if (0 <=? i) && (i <? Z.of_nat (length names))
      then Ok (set_colnames st (Some (<[Z.to_nat i := p]> names)))
      else Fault OutOfBounds
  end.

(** The test that opens the data branch of each format:
    [xmin != -1 && (xpos <= xmin || xmax <= xpos)]. *)
Definition outside_range (st : ExportState) (xpos : Z) : bool :=
  negb (xmin st =? -1) && ((xpos <=? xmin st) || (xmax st <=? xpos)).

(** The names captured so far: the array up to its first null entry, as
    the loops [for (i = 0; i < columns; i++) if (colnames[i]) ... else break;]
    walk it. *)
Fixpoint leading_names (names : list cptr) : list cptr :=
  match names with
  | [] => []
  | p :: r => if is_null p then [] else p :: leading_names r
  end.

(** ** [process_item] *)

Section ProcessItem.
Context `{Collaborators}.

(** The tail of [process_item]: [if (errno != 0) return false; return true;]. *)
Definition finish (st : ExportState) : ST machine (bool * ExportState) :=
  do e <- get_errno; ret (e =? 0, st).

(** [if (!expstate->colnames) { smalloc; memset 0 }].  The array of name
    pointers is kept in the export state, as the list of its entries; the
    heap of the model holds the byte blocks only, so the block of the array
    itself (allocated here, freed by the cleanup) is not counted in it. *)
Definition ensure_colnames (st : ExportState) : ExportState :=
  match colnames st with
  | Some _ => st
  | None => set_colnames st (Some (replicate (Z.to_nat (columns st)) NULL))
  end.

(** The three-way assignment to [colnames[colno]] and [colno += 1].
    [field] is the trimmed field, [_field] what the quoting routine gave. *)
Definition capture_colname (st : ExportState) (field _field : cptr) (size : Z)
  : ST machine ExportState :=
  do p <- (if is_null _field then on_heap (sstrdup [])
           else if negb (cptr_eqb _field field) then ret _field
           else on_heap (sstrndup field size));
  do st' <- lift_res (colname_store st (colno st) p);
  ret (set_colno st' (colno st' + 1)).

(** The column list of the terse INSERT head. *)
Fixpoint emit_names_terse (is_first : bool) (names : list cptr) : ST machine unit :=
  match names with
  | [] => ret tt
  | p :: r =>
      (if negb is_first then fputs_lit ", " else ret tt) ;;
      fputs p ;;
      emit_names_terse false r
  end.

(** The column list of the commented INSERT head; [ncols] is the local
    [columns] counted by the loop before. *)
Fixpoint emit_names_commented (indent_spaces ncols loc_colno : Z) (names : list cptr)
  : ST machine unit :=
  match names with
  | [] => ret tt
  | p :: r =>
      (if 0 <? loc_colno
       then write_out (replicate (Z.to_nat (Z.abs indent_spaces)) 32)
       else ret tt) ;;
      fputs p ;;
      write_out ((if loc_colno <? ncols - 1 then [44] else [41])
                 ++ [9; 9] ++ bytes_of_string " -- " ++ decimal (loc_colno + 1)
                 ++ bytes_of_string "." ++ [10]) ;;
      emit_names_commented indent_spaces ncols (loc_colno + 1) r
  end.

(** The block under [if (expstate->colno == 0)]: the INSERT head. *)
Definition emit_insert_head (st : ExportState) : ST machine unit :=
  set_errno 0 ;;
  fputs_lit "INSERT INTO " ;;
  fputs (table_name st) ;;
  (match colnames st with
   | None => ret tt
   | Some names =>
       let captured := leading_names (take (Z.to_nat (columns st)) names) in
       fputc 40 ;;
       if format_eqb (format st) CLIPBOARD_FORMAT_INSERT then
         emit_names_terse true captured ;;
         fputc 41
       else
         do tn <- on_heap (cstring (table_name st));
         let indent_spaces :=
           (if force8bit st then Z.of_nat (length tn) else utf_string_dsplen tn)
           + 1 + 12 in
         emit_names_commented indent_spaces (Z.of_nat (length captured)) 0 captured
   end) ;;
  if format_eqb (format st) CLIPBOARD_FORMAT_INSERT
  then fputs_lit " VALUES("
  else fputs_lit "   VALUES(".

(** What [", tab tab  -- %d. %s newline"] or [");tab tab  -- %d. %s newline"]
    print for [colno] and [colnames[colno - 1]]. *)
Definition emit_column_comment (st : ExportState) (lead : list Z) : ST machine unit :=
  do name <- lift_res (colname_at st (colno st - 1));
  do s <- on_heap (cstring name);
  write_out (lead ++ [9; 9] ++ bytes_of_string " -- " ++ decimal (colno st)
             ++ bytes_of_string ". " ++ s ++ [10]).

(** The SQL INSERT formats. *)
Definition process_item_insert (st : ExportState) (typ : Z) (field : cptr)
    (size xpos : Z) (is_colname : bool) : ST machine (bool * ExportState) :=
  set_errno 0 ;;
  if (typ =? 78) && negb is_colname then
    (if format_eqb (format st) CLIPBOARD_FORMAT_INSERT
     then write_out (bytes_of_string ");" ++ [10])
     else emit_column_comment st (bytes_of_string ");")) ;;
    finish st
  else if typ =? 100 then
    if outside_range st xpos then ret (true, st)
    else if is_colname then
      let st1 := ensure_colnames st in
      do '(field1, size1) <- on_heap (trim_str field size (force8bit st));
      do '(_field, size2) <- on_heap (quote_sql_identifier field1 size1 (force8bit st));
      do st2 <- capture_colname st1 field1 _field size2;
      finish st2
    else
      (if colno st =? 0 then emit_insert_head st else ret tt) ;;
      (if format_eqb (format st) CLIPBOARD_FORMAT_INSERT then
         if 0 <? colno st then fputs_lit ", " else ret tt
       else
         if 0 <? colno st then
           emit_column_comment st [44] ;;
           fputs_lit "          "
         else ret tt) ;;
      do '(field1, size1) <- on_heap (trim_str field size (force8bit st));
      do '(_field, size2) <-
         on_heap (quote_sql_literal field1 size1 (force8bit st) (empty_string_is_null st));
      fwrite _field size2 ;;
      let st' := set_colno st (colno st + 1) in
      (if negb (cptr_eqb _field field1) then on_heap (free _field) else ret tt) ;;
      finish st'
  else finish st.

(** The formatted text format. *)
Definition process_item_text (st : ExportState) (typ : Z) (field : cptr)
    (size xpos : Z) : ST machine (bool * ExportState) :=
  set_errno 0 ;;
  if negb (typ =? 78) then
    if ((typ =? 73) || (typ =? 100)) && outside_range st xpos then ret (true, st)
    else fwrite field size ;; finish st
  else fputc 10 ;; finish st.

(** The CSV and TSV formats. *)
Definition process_item_dsv (st : ExportState) (typ : Z) (field : cptr)
    (size xpos : Z) (is_colname : bool) : ST machine (bool * ExportState) :=
  if (typ =? 78) && negb (copy_line_extended st) then
    set_errno 0 ;; fputc 10 ;; finish st
  else if typ =? 100 then
    if outside_range st xpos then ret (true, st)
    else
      do '(field1, size1) <- on_heap (trim_str field size (force8bit st));
      do '(_field, size2) <-
         on_heap (csv_format field1 size1 (force8bit st) (empty_string_is_null st));
      if copy_line_extended st && is_colname then
        do st2 <- capture_colname (ensure_colnames st) field1 _field size2;
        ret (true, st2)
      else
        set_errno 0 ;;
        (if negb (copy_line_extended st) then
           (if 0 <? colno st then
              if format_eqb (format st) CLIPBOARD_FORMAT_CSV then fputc 44
              else if format_eqb (format st) CLIPBOARD_FORMAT_TSVC then fputc 9
              else ret tt
            else ret tt) ;;
           do e <- get_errno;
           if negb (is_null _field) && (e =? 0)
           then set_errno 0 ;; fwrite _field size2
           else ret tt
         else
           do name <- lift_res (colname_at st (colno st));
           do s <- on_heap (cstring name);
           do v <- on_heap (cstring_prec _field size2);
           write_out (s ++ [44] ++ v ++ [10])) ;;
        do saved_errno <- get_errno;
        let st' := set_colno st (colno st + 1) in
        (if negb (cptr_eqb _field field1) then on_heap (free _field) else ret tt) ;;
        set_errno saved_errno ;;
        finish st'
  else finish st.

(** [process_item], lines 372-654.  The result is the returned [bool] and
    the export state as the call leaves it.  The token types are the characters of the template line:
    78 is N (end of row), 100 is d (data), 73 is I (inner border). *)
Definition process_item (st : ExportState) (typ : Z) (field : cptr)
    (size xpos : Z) (is_colname : bool) : ST machine (bool * ExportState) :=
  if INSERT_FORMAT_TYPE (format st) then process_item_insert st typ field size xpos is_colname
  else if format_eqb (format st) CLIPBOARD_FORMAT_TEXT then process_item_text st typ field size xpos
  else if DSV_FORMAT_TYPE (format st) then process_item_dsv st typ field size xpos is_colname
  else finish st.

End ProcessItem.

(** ** The field iterator: [FmtLineIter] and [next_char] *)

Record FmtLineIter : Type := mkFmtLineIter {
  row : cptr;
  headline : cptr;
  iter_force8bit : bool;
  iter_xpos : Z
}.

Section Iterator.
Context `{Collaborators}.

(** [next_char], lines 279-313.  The result is [None] for a null return;
    otherwise the returned pointer with the four outputs [typ], [size],
    [width], [xpos], in that order.  The iterator after the call comes
    second. *)
Definition next_char (iter : FmtLineIter)
  : ST heap (option (cptr * Z * Z * Z * Z) * FmtLineIter) :=
  let result := row iter in
  if is_null (row iter) || is_null (headline iter) then ret (None, iter)
  else
    do r <- load (row iter);
    if r =? 0 then ret (None, iter)
    else
      do t <- load (headline iter);
      if t =? 10 then ret (None, iter)
      else
        do '(size, width) <-
           (if iter_force8bit iter then ret (1, 1)
            else do c <- load result;
                 do s <- cstring result;
                 ret (utf8charlen c, utf_dsplen s));
        ret (Some (result, t, size, width, iter_xpos iter),
             mkFmtLineIter (ptr_add (row iter) size)
                           (ptr_add (headline iter) width)
                           (iter_force8bit iter)
                           (iter_xpos iter + width)).

End Iterator.

(** ** [export_data] *)

(** IEEE 754 binary64 for the [double percent] argument. *)
Definition double : Type := spec_float.

Definition double_of_int (n : Z) : double := binary_normalize 53 1024 n 0 false.

Definition INT_MIN : Z := - 2 ^ 31.
Definition INT_MAX : Z := 2 ^ 31 - 1.

(** The conversion [(int) d] truncates toward zero.  ISO C leaves it
    undefined when the value does not fit; the model then takes [INT_MIN],
    the value the x86-64 conversion instruction gives. *)
Definition int_of_double (d : double) : Z :=
  match d with
  | S754_zero _ => 0
  | S754_finite s m e =>
      let a := if 0 <=? e then Z.pos m * 2 ^ e else Z.pos m / 2 ^ (- e) in
      let v := if s then - a else a in
      if (INT_MIN <=? v) && (v <=? INT_MAX) then v else INT_MIN
  | _ => INT_MIN
  end.

(** Two's complement wrap-around of [int] arithmetic. *)
Definition int32 (z : Z) : Z := (z + 2 ^ 31) mod 2 ^ 32 - 2 ^ 31.

(** Modelled from the spec: the copy commands of [commands.h] that
    [export_data] tells apart; [cmd_CopyAllLines] stands for the whole-table
    variant, which takes none of the branches. *)
Inductive PspgCommand : Type :=
| cmd_Copy
| cmd_CopyAllLines
| cmd_CopyLine
| cmd_CopyLineExtended
| cmd_CopyColumn
| cmd_CopyTopLines
| cmd_CopyBottomLines
| cmd_CopyMarkedLines
| cmd_CopySearchedLines
| cmd_CopySelected.

Definition cmd_eqb (c d : PspgCommand) : bool :=
  match c, d with
  | cmd_Copy, cmd_Copy
  | cmd_CopyAllLines, cmd_CopyAllLines
  | cmd_CopyLine, cmd_CopyLine
  | cmd_CopyLineExtended, cmd_CopyLineExtended
  | cmd_CopyColumn, cmd_CopyColumn
  | cmd_CopyTopLines, cmd_CopyTopLines
  | cmd_CopyBottomLines, cmd_CopyBottomLines
  | cmd_CopyMarkedLines, cmd_CopyMarkedLines
  | cmd_CopySearchedLines, cmd_CopySearchedLines
  | cmd_CopySelected, cmd_CopySelected => true
  | _, _ => false
  end.

(** The fields of [Options], [ScrDesc] and [DataDesc] that [export_data]
    reads.  A [CRange] is the pair of its [xmin] and [xmax]. *)
Record Options : Type := mkOptions {
  opt_force8bit : bool;
  opt_empty_string_is_null : bool;
  no_cursor : bool;
  vertical_cursor : bool
}.

Record ScrDesc : Type := mkScrDesc {
  selected_first_row : Z;
  selected_rows : Z;
  selected_first_column : Z;
  selected_columns : Z
}.

(** Modelled from the spec: one step of the line source, as
    [lbi_set_mark_next] and [lbm_get_line] yield it: the row text, the
    line metadata mask if the line has any, and the row number. *)
Record Line : Type := mkLine {
  rowstr : cptr;
  linfo : option Z;
  rn : Z
}.

Record DataDesc : Type := mkDataDesc {
  first_data_row : Z;
  last_data_row : Z;
  last_row : Z;
  desc_columns : Z;
  cranges : list (Z * Z);
  headline_transl : cptr;
  border_top_row : Z;
  border_bottom_row : Z;
  border_head_row : Z;
  fixed_rows : Z;
  footer_row : Z;
  lines : list Line
}.

(** The locals of [export_data] that the row loop reads. *)
Record ExportPlan : Type := mkExportPlan {
  min_row : Z;
  max_row : Z;
  print_header : bool;
  print_footer : bool;
  print_border : bool;
  print_header_line : bool
}.

Section ExportData.
Context `{Collaborators}.

Definition has_selection (scrdesc : ScrDesc) : bool :=
  (negb (selected_first_row scrdesc =? -1) && (0 <? selected_rows scrdesc))
  || (negb (selected_first_column scrdesc =? -1) && (0 <? selected_columns scrdesc)).

(** [rows] after [if (percent != 0.0) rows = (double) (...) * (percent / 100.0);]. *)
Definition rows_of_percent (desc : DataDesc) (rows : Z) (percent : double) : Z :=
  let data_rows := int32 (last_data_row desc - first_data_row desc + 1) in
  if negb (SFeqb percent (S754_zero false))
  then int_of_double (SFmul 53 1024 (double_of_int data_rows)
                            (SFdiv 53 1024 percent (double_of_int 100)))
  else rows.

(** The block for [cmd_CopyTopLines] and [cmd_CopyBottomLines], after its
    argument check: the new [min_row] and [max_row]. *)
Definition top_bottom_range (desc : DataDesc) (cmd : PspgCommand)
    (rows : Z) (percent : double) (min_row0 : Z) : Z * Z :=
  let data_rows := int32 (last_data_row desc - first_data_row desc + 1) in
  let rows1 := rows_of_percent desc rows percent in
  let skip_data_rows :=
    if cmd_eqb cmd cmd_CopyBottomLines then int32 (data_rows - rows1) else 0 in
  (int32 (min_row0 + skip_data_rows),
   int32 (first_data_row desc + rows1 - 1 + skip_data_rows)).

(** [slen = strlen(table_name)] and the call of [quote_sql_identifier] on
    the table name. *)
Definition quote_table_name (opts : Options) (tbl : cptr) : ST machine cptr :=
  do s <- on_heap (cstring tbl);
  do '(p, _) <- on_heap (quote_sql_identifier tbl (Z.of_nat (length s))
                                               (opt_force8bit opts));
  ret p.

(** Everything [export_data] does before the row loop.  [None] is the
    early [return false] of the argument check; otherwise the locals and the
    initial export state. *)
Definition export_setup (opts : Options) (scrdesc : ScrDesc) (desc : DataDesc)
    (cursor_row cursor_column rows : Z) (percent : double) (tbl : cptr)
    (cmd : PspgCommand) (fmt : ClipboardFormat)
  : ST machine (option (ExportPlan * ExportState)) :=
  let cmd_is c := cmd_eqb cmd c in
  let has_sel := has_selection scrdesc in
  let format1 :=
    if cmd_is cmd_CopyLineExtended && negb (DSV_FORMAT_TYPE fmt)
    then CLIPBOARD_FORMAT_CSV else fmt in
  do quoted_name <-
     (if (cmd_is cmd_CopyLineExtended || INSERT_FORMAT_TYPE format1)
         && INSERT_FORMAT_TYPE format1
      then quote_table_name opts tbl
      else ret NULL);
  let save_column_names := cmd_is cmd_CopyLineExtended || INSERT_FORMAT_TYPE format1 in
  let line_only :=
    cmd_is cmd_CopyLine || cmd_is cmd_CopyLineExtended
    || (cmd_is cmd_Copy && negb (no_cursor opts) && negb has_sel) in
  let min1 := if line_only then int32 (cursor_row + first_data_row desc)
              else first_data_row desc in
  let max1 := if line_only then int32 (cursor_row + first_data_row desc)
              else last_row desc in
  let footer1 := negb line_only in
  let column_only := (cmd_is cmd_Copy && vertical_cursor opts) || cmd_is cmd_CopyColumn in
  do '(xmin1, xmax1) <-
     (if column_only
      then match lookupZ (cranges desc) (cursor_column - 1) with
           | Some r => ret r
           | None => fail OutOfBounds
           end
      else ret (-1, -1));
  let footer2 := footer1 && negb column_only in
  let cell_only := cmd_is cmd_Copy && negb (no_cursor opts) && vertical_cursor opts in
  let header3 := negb cell_only in
  let header_line3 := negb cell_only in
  let border3 := negb cell_only in
  let top_bottom := cmd_is cmd_CopyTopLines || cmd_is cmd_CopyBottomLines in
  if top_bottom && ((rows <? 0) || SFltb percent (S754_zero false)) then ret None
  else
    let '(min4, max4) :=
      if top_bottom then top_bottom_range desc cmd rows percent min1
      else (min1, max1) in
    let footer4 := footer2 && negb top_bottom in
    let footer5 := footer4 && negb (cmd_is cmd_CopyMarkedLines || cmd_is cmd_CopySearchedLines) in
    let by_selection := (cmd_is cmd_Copy && has_sel) || cmd_is cmd_CopySelected in
    let min6 :=
      if by_selection && negb (selected_first_row scrdesc =? -1)
      then int32 (selected_first_row scrdesc + first_data_row desc) else min4 in
    let max6 :=
      if by_selection && negb (selected_first_row scrdesc =? -1)
      then int32 (min6 + selected_rows scrdesc - 1) else max4 in
    let column_sel :=
      by_selection && negb (selected_first_column scrdesc =? -1)
      && (0 <? selected_columns scrdesc) in
    let xmin6 := if column_sel then selected_first_column scrdesc else xmin1 in
    let xmax6 := if column_sel then int32 (xmin6 + selected_columns scrdesc - 1)
                 else xmax1 in
    let footer6 :=
      footer5 && negb (by_selection
                       && ((first_data_row desc <? min6) || (max6 <? last_data_row desc))) in
    let not_text := negb (format_eqb format1 CLIPBOARD_FORMAT_TEXT) in
    ret (Some
           (mkExportPlan min6 max6
              (header3 || save_column_names)
              (footer6 && negb not_text)
              (border3 && negb not_text)
              (header_line3 && negb not_text),
            mkExportState fmt xmin6 xmax6 (cmd_is cmd_CopyLineExtended) quoted_name
              (desc_columns desc) (opt_force8bit opts) (opt_empty_string_is_null opts)
              0 None)).

(** The head of the row loop: [None] for [continue], otherwise the
    [is_colname] flag of the row. *)
Definition select_row (opts : Options) (desc : DataDesc) (plan : ExportPlan)
    (cmd : PspgCommand) (cursor_row : Z) (l : Line) : ST machine (option bool) :=
  if (first_data_row desc <=? rn l) && (rn l <=? last_data_row desc) then
    if (rn l <? min_row plan) || (max_row plan <? rn l) then ret None
    else if cmd_eqb cmd cmd_CopyMarkedLines
            && match linfo l with
               | None => true
               | Some mask => Z.land mask LINEINFO_BOOKMARK =? 0
               end
    then ret None
    else if negb (cmd_eqb cmd cmd_CopyMarkedLines) && cmd_eqb cmd cmd_CopyLine
            && negb (int32 (rn l - first_data_row desc) =? cursor_row)
    then ret None
    else if cmd_eqb cmd cmd_CopySearchedLines then
      fun m =>
        match set_line_info (m_heap m) (rowstr l) with
        | None => Ok (None, m)
        | Some mask => if Z.land mask LINEINFO_FOUNDSTR =? 0 then Ok (None, m)
                       else Ok (Some false, m)
        end
    else ret (Some false)
  else
    let is_colname :=
      negb (rn l =? border_top_row desc) && negb (rn l =? border_bottom_row desc)
      && negb (rn l =? border_head_row desc) && (rn l <=? fixed_rows desc) in
    if negb (print_border plan)
       && ((rn l =? border_top_row desc) || (rn l =? border_bottom_row desc))
    then ret None
    else if negb (print_header_line plan) && (rn l =? border_head_row desc) then ret None
    else if negb (print_header plan) && (rn l <? fixed_rows desc) then ret None
    else if negb (print_footer plan) && negb (footer_row desc =? -1)
            && (footer_row desc <=? rn l)
    then ret None
    else ret (Some is_colname).

(** The line parser [while ((ptr = next_char(...)))].  The result is
    [isok], the export state, and the pending [field], [field_size],
    [field_xpos] when the loop ends. *)
Fixpoint row_tokens (fuel : nat) (iter : FmtLineIter) (field : cptr)
    (field_size field_xpos : Z) (is_colname : bool) (st : ExportState)
  : ST machine (bool * ExportState * (cptr * Z * Z)) :=
  match fuel with
  | O => fail OutOfFuel
  | S fuel' =>
      do '(tok, iter') <- on_heap (next_char iter);
      match tok with
      | None => ret (true, st, (field, field_size, field_xpos))
      | Some (ptr, typ, size, width, xpos) =>
          if typ =? 100 then
            row_tokens fuel' iter' (if is_null field then ptr else field)
                       (field_size + size) xpos is_colname st
          else
            do '(isok1, st1) <-
               (if negb (is_null field)
                then process_item st 100 field field_size field_xpos is_colname
                else ret (true, st));
            if negb isok1 then ret (false, st1, (field, field_size, field_xpos))
            else
              let '(field', field_size', field_xpos') :=
                if negb (is_null field) then (NULL, 0, -1)
                else (field, field_size, field_xpos) in
              do '(isok2, st2) <- process_item st1 typ ptr size xpos is_colname;
              if negb isok2 then ret (false, st2, (field', field_size', field_xpos'))
              else row_tokens fuel' iter' field' field_size' field_xpos' is_colname st2
      end
  end.

(** A bound on the number of [next_char] calls for one row: every call that
    yields a token moves [iter->row] forward inside its block. *)
Definition row_fuel (p : cptr) : ST heap nat :=
  fun h => match view p h with
           | Ok v => Ok (S (length v), h)
           | Fault _ => Ok (1%nat, h)
           end.

(** The body of the row loop for a row that was not skipped. *)
Definition export_row (opts : Options) (desc : DataDesc) (l : Line)
    (is_colname : bool) (st : ExportState) : ST machine (bool * ExportState) :=
  let iter := mkFmtLineIter (rowstr l) (headline_transl desc) (opt_force8bit opts) 0 in
  let st0 := set_colno st 0 in
  do fuel <- on_heap (row_fuel (rowstr l));
  do '(isok, st1, (field, field_size, field_xpos)) <-
     row_tokens fuel iter NULL 0 (-1) is_colname st0;
  if negb isok then ret (false, st1)
  else
    do '(isok2, st2) <-
       (if negb (is_null field)
        then process_item st1 100 field field_size field_xpos is_colname
        else ret (true, st1));
    if negb isok2 then ret (false, st2)
    else process_item st2 78 NULL 0 (-1) is_colname.

(** [while (lbi_set_mark_next(&lbi, &lbm))] *)
Fixpoint export_lines (opts : Options) (desc : DataDesc) (plan : ExportPlan)
    (cmd : PspgCommand) (cursor_row : Z) (ls : list Line) (st : ExportState)
  : ST machine (bool * ExportState) :=
  match ls with
  | [] => ret (true, st)
  | l :: rest =>
      do sel <- select_row opts desc plan cmd cursor_row l;
      match sel with
      | None => export_lines opts desc plan cmd cursor_row rest st
      | Some is_colname =>
          do '(isok, st') <- export_row opts desc l is_colname st;
          if negb isok then ret (false, st')
          else export_lines opts desc plan cmd cursor_row rest st'
      end
  end.

(** The code under [exit_export]. *)
Fixpoint free_all (ps : list cptr) : ST heap unit :=
  match ps with
  | [] => ret tt
  | p :: r => free p ;; free_all r
  end.

Definition export_cleanup (st : ExportState) (tbl : cptr) : ST machine unit :=
  (match colnames st with
   | Some names => on_heap (free_all (take (Z.to_nat (columns st)) names))
   | None => ret tt
   end) ;;
  if negb (is_null (table_name st)) && negb (cptr_eqb (table_name st) tbl)
  then on_heap (free (table_name st))
  else ret tt.

(** [export_data], lines 660-948.  The result is the returned [bool]; the
    stream [fp] is the machine's [m_out]. *)
Definition export_data (opts : Options) (scrdesc : ScrDesc) (desc : DataDesc)
    (cursor_row cursor_column rows : Z) (percent : double) (tbl : cptr)
    (cmd : PspgCommand) (fmt : ClipboardFormat) : ST machine bool :=
  do setup <- export_setup opts scrdesc desc cursor_row cursor_column rows percent
                           tbl cmd fmt;
  match setup with
  | None => ret false
  | Some (plan, st) =>
      do '(isok, st') <- export_lines opts desc plan cmd cursor_row (lines desc) st;
      export_cleanup st' tbl ;;
      ret isok
  end.

End ExportData.

(** ** Vocabulary of the statements *)

(** A field with every occurrence of [q] doubled, and the same between two
    [q]. *)
Definition doubled (q : Z) (bs : list Z) : list Z :=
  flat_map (fun c => if c =? q then [q; q] else [c]) bs.

Definition wrapped (q : Z) (bs : list Z) : list Z := q :: doubled q bs ++ [q].

Definition count_byte (q : Z) (bs : list Z) : nat :=
  length (List.filter (fun c => c =? q) bs).

Definition has_byte (q : Z) (bs : list Z) : bool := existsb (fun c => c =? q) bs.

(** Digits and at most one decimal point. *)
Definition is_digit (c : Z) : bool := (48 <=? c) && (c <=? 57).

Definition numeric_shape (bs : list Z) : bool :=
  forallb (fun c => is_digit c || (c =? 46)) bs && Nat.leb (count_byte 46 bs) 1.

(** What the scan of [quote_sql_literal] decides on the bytes of a field,
    read one by one: [true] when the field must be quoted. *)
Fixpoint literal_needs_quoting (has_dot : bool) (bs : list Z) : bool :=
  match bs with
  | [] => false
  | c :: r =>
      if c =? 46 then
        if has_dot then true else literal_needs_quoting true r
      else if negb (is_digit c) then true
      else literal_needs_quoting has_dot r
  end.

(** The pointer the next allocation in [h] returns. *)
Definition fresh_ptr (h : heap) : cptr := Ptr (length h) 0.

(** A data token ['d'] that [process_item] skipped: it returned [true], the
    export state is as it was, nothing reached the stream and the heap is
    as it was. *)
Definition skipped (r : res ((bool * ExportState) * machine))
    (st : ExportState) (m : machine) : Prop :=
  exists m', r = Ok ((true, st), m') /\ m_out m' = m_out m /\ m_heap m' = m_heap m.

(** The character sizes the loops step by: [force8bit ? 1 : utf8charlen(c)]. *)
Definition char_size `{Collaborators} (force8bit : bool) (c : Z) : Z :=
  if force8bit then 1 else utf8charlen c.

(** Every character steps by a positive number of bytes. *)
Definition sizes_positive `{Collaborators} (force8bit : bool) : Prop :=
  forall c, 0 < char_size force8bit c.

(** Digits and the decimal point step by one byte. *)
Definition numeric_sizes_one `{Collaborators} (force8bit : bool) : Prop :=
  forall c, is_digit c || (c =? 46) = true -> char_size force8bit c = 1.

(** The bytes of a new buffer in block [blk], before anything is stored,
    make the second loop of the quoting routines step by one: always so in
    force-8-bit mode, and otherwise when they decode as one-byte
    characters (a zeroed buffer, for one). *)
Definition buffer_steps_one `{Collaborators} (force8bit : bool) (blk : nat) : Prop :=
  force8bit = true \/ forall off, utf8charlen (heap_junk blk off) = 1.

(** The row tests of the loop in [export_data]. *)
Definition is_data_row (desc : DataDesc) (l : Line) : bool :=
  (first_data_row desc <=? rn l) && (rn l <=? last_data_row desc).

Definition in_row_range (plan : ExportPlan) (l : Line) : bool :=
  (min_row plan <=? rn l) && (rn l <=? max_row plan).

(** The data rows of the line source, and those inside the row range. *)
Definition total_data_rows (desc : DataDesc) : nat :=
  length (List.filter (is_data_row desc) (lines desc)).

Definition rows_selected (desc : DataDesc) (plan : ExportPlan) : nat :=
  length (List.filter (fun l => is_data_row desc l && in_row_range plan l) (lines desc)).

(** The two ways into the column-name read at the end of a row.  First, a
    selection one display column wide over a two-column table in the
    commented INSERT format: every data token of the header row and of the
    data row is skipped, so the terminator of the data row finds
    [colno = 0] and no column-name array. *)
Definition scenario_all_tokens_skipped `{Collaborators} : Prop :=
  let h := [Some (bytes_of_string "dddIddd" ++ [10; 0]);
            cstr " a | b "; cstr " 1 | 2 "; cstr "orders"] in
  let desc := mkDataDesc 1 1 1 2 [(0, 3); (3, 7)] (Ptr 0 0) (-1) (-1) (-1) 1 (-1)
                [mkLine (Ptr 1 0) None 0; mkLine (Ptr 2 0) None 1] in
  let opts := mkOptions true false false false in
  let scr := mkScrDesc (-1) 0 5 1 in
  let m := mkMachine h 0 (mkFILE [] None) in
  let st := mkExportState CLIPBOARD_FORMAT_INSERT_WITH_COMMENTS 5 5 false (Ptr 3 0)
              2 true false 0 None in
  let iter := mkFmtLineIter (Ptr 2 0) (Ptr 0 0) true 0 in
  export_setup opts scr desc 0 1 0 (S754_zero false) (Ptr 3 0) cmd_CopySelected
    CLIPBOARD_FORMAT_INSERT_WITH_COMMENTS m
  = Ok (Some (mkExportPlan 1 1 true false false false, st), m)
  /\ export_row opts desc (mkLine (Ptr 1 0) None 0) true st m = Ok ((true, st), m)
  /\ row_tokens 8 iter NULL 0 (-1) false st m = Ok ((true, st, (Ptr 2 4, 3, 6)), m)
  /\ process_item st 100 (Ptr 2 4) 3 6 false m = Ok ((true, st), m)
  /\ colno st = 0 /\ colnames st = None
  /\ process_item st 78 NULL 0 (-1) false m = Fault NullDeref
  /\ export_data opts scr desc 0 1 0 (S754_zero false) (Ptr 3 0) cmd_CopySelected
       CLIPBOARD_FORMAT_INSERT_WITH_COMMENTS m
     = Fault NullDeref.

(** Second, a one-column table without a header row: the data token of the
    row is written, and the terminator finds [colno = 1] and still no
    column-name array. *)
Definition scenario_no_header_row `{Collaborators} : Prop :=
  let h := [Some (bytes_of_string "ddd" ++ [10; 0]); cstr " 1 "; cstr "t"] in
  let desc := mkDataDesc 0 0 0 1 [(0, 3)] (Ptr 0 0) (-1) (-1) (-1) (-1) (-1)
                [mkLine (Ptr 1 0) None 0] in
  let opts := mkOptions true false false false in
  let scr := mkScrDesc (-1) 0 (-1) 0 in
  let m := mkMachine h 0 (mkFILE [] None) in
  let st := mkExportState CLIPBOARD_FORMAT_INSERT_WITH_COMMENTS (-1) (-1) false
              (Ptr 2 0) 1 true false 0 None in
  let m1 := mkMachine h 0 (mkFILE (bytes_of_string "INSERT INTO t   VALUES(1") None) in
  process_item st 100 (Ptr 1 0) 3 2 false m = Ok ((true, set_colno st 1), m1)
  /\ colnames (set_colno st 1) = None
  /\ process_item (set_colno st 1) 78 NULL 0 (-1) false m1 = Fault NullDeref
  /\ export_data opts scr desc 0 1 0 (S754_zero false) (Ptr 2 0) cmd_CopyAllLines
       CLIPBOARD_FORMAT_INSERT_WITH_COMMENTS m
     = Fault NullDeref.

(** Collaborators for the worked examples: UTF-8 lengths by lead byte, one
    display column per character, an allocator that hands out zeroed
    memory, and a search that matches nothing. *)
Definition example_collaborators : Collaborators := {|
  utf8charlen c :=
    if c <? 128 then 1
    else if 240 <=? c then 4
    else if 224 <=? c then 3
    else if 192 <=? c then 2
    else 1;
  utf_dsplen _ := 1;
  utf_string_dsplen s := Z.of_nat (length s);
  heap_junk _ _ := 0;
  LINEINFO_BOOKMARK := 1;
  LINEINFO_FOUNDSTR := 2;
  set_line_info _ _ := None
|}.

(** The same with an allocator that hands out memory full of [0xF0]. *)
Definition dirty_heap_collaborators : Collaborators := {|
  utf8charlen := @utf8charlen example_collaborators;
  utf_dsplen _ := 1;
  utf_string_dsplen s := Z.of_nat (length s);
  heap_junk _ _ := 240;
  LINEINFO_BOOKMARK := 1;
  LINEINFO_FOUNDSTR := 2;
  set_line_info _ _ := None
|}.

(** ** Vocabulary of the further statements *)

(** A run of [n] blanks. *)
Definition blanks (n : nat) : list Z := replicate n 32.

(** What the second loop of [trim_str] leaves in [after_nspc_chr] after
    walking the bytes [bs] from [p] in one-byte steps. *)
Fixpoint after_last_nonblank (p after : cptr) (bs : list Z) : cptr :=
  match bs with
  | [] => after
  | c :: r =>
      after_last_nonblank (ptr_add p 1) (if c =? 32 then after else ptr_add p 1) r
  end.

(** An identifier that [quote_sql_identifier] leaves as it is: a lower-case
    letter first, then lower-case letters, digits and underscores. *)
Definition plain_identifier (s : list Z) : bool :=
  match s with
  | c :: _ => (97 <=? c) && (c <=? 122) && forallb ident_char s
  | [] => false
  end.

(** The fields of the export state that [export_data] sets before the row
    loop: everything but [colno] and [colnames]. *)
Definition same_settings (st st' : ExportState) : Prop :=
  format st' = format st /\ xmin st' = xmin st /\ xmax st' = xmax st
  /\ copy_line_extended st' = copy_line_extended st
  /\ table_name st' = table_name st /\ columns st' = columns st
  /\ force8bit st' = force8bit st
  /\ empty_string_is_null st' = empty_string_is_null st.

(** The body of the row loop after the token loop, as [export_row] has it:
    the pending field is exported, then the end-of-row token. *)
Definition finish_row `{Collaborators} (is_colname : bool)
    (r : bool * ExportState * (cptr * Z * Z)) : ST machine (bool * ExportState) :=
  let '(isok, st1, (field, field_size, field_xpos)) := r in
  if negb isok then ret (false, st1)
  else
    do '(isok2, st2) <-
       (if negb (is_null field)
        then process_item st1 100 field field_size field_xpos is_colname
        else ret (true, st1));
    if negb isok2 then ret (false, st2)
    else process_item st2 78 NULL 0 (-1) is_colname.

(** The row at [rowp] under the template at [hp], as the token loop walks
    them in one-byte steps: [s] are the bytes of the row and [t] the
    template bytes above them, none of them a line feed or the end-of-row
    letter N, up to the NUL of the row or the line feed of the template,
    whichever comes first. *)
Definition row_layout (h : heap) (rowp hp : cptr) (t s : list Z) : Prop :=
  exists sstop tstop,
    view rowp h = Ok (s ++ sstop) /\ view hp h = Ok (t ++ tstop)
    /\ length t = length s
    /\ Forall (fun c => c <> 0) s
    /\ Forall (fun c => c <> 10 /\ c <> 78) t
    /\ ((exists r, sstop = 0 :: r) \/ (exists c r r', sstop = c :: r /\ tstop = 10 :: r')).

(** The bytes [s] of the row at [rowp] that the token loop walks. *)
Definition row_text (h : heap) (rowp hp : cptr) (s : list Z) : Prop :=
  exists t, row_layout h rowp hp t s.

(** A field without the blanks at its two ends. *)
Fixpoint drop_blanks (bs : list Z) : list Z :=
  match bs with
  | c :: r => if c =? 32 then drop_blanks r else bs
  | [] => []
  end.

Definition trimmed (bs : list Z) : list Z := rev (drop_blanks (rev (drop_blanks bs))).

(** The data cells of a row: the maximal runs of bytes under the data
    letter d (100) of the template; [pend] is the run that is open. *)
Definition flush_cell (pend : list Z) : list (list Z) :=
  match pend with
  | [] => []
  | _ => [pend]
  end.

Fixpoint row_cells (t s pend : list Z) : list (list Z) :=
  match t, s with
  | ty :: t', c :: s' =>
      if ty =? 100 then row_cells t' s' (pend ++ [c])
      else flush_cell pend ++ row_cells t' s' []
  | _, _ => flush_cell pend
  end.

(** A cell as a CSV value: nothing or two double quotes for a blank cell,
    the trimmed cell itself, or the trimmed cell between double quotes when
    it holds a comma, a tab, a CR or a LF. *)
Definition csv_cell (empty_string_is_null : bool) (cell : list Z) : list Z :=
  match trimmed cell with
  | [] => if empty_string_is_null then [] else [34; 34]
  | core => if existsb csv_special core then wrapped 34 core else core
  end.

(** Values with the separator [sep] before each but the first; [k] is the
    number of values before them on the line. *)
Fixpoint csv_fields (sep : Z) (k : Z) (values : list (list Z)) : list Z :=
  match values with
  | [] => []
  | v :: r => (if 0 <? k then [sep] else []) ++ v ++ csv_fields sep (k + 1) r
  end.

(** A row as a line of CSV or TSV: the values of its data cells, separated
    by [sep], and a line feed. *)
Definition csv_line (sep : Z) (empty_string_is_null : bool) (t s : list Z) : list Z :=
  csv_fields sep 0 (map (csv_cell empty_string_is_null) (row_cells t s [])) ++ [10].

(** No data cell of the row holds a double quote after trimming. *)
Definition cells_without_quote (t s : list Z) : Prop :=
  Forall (fun cell => has_byte 34 (trimmed cell) = false) (row_cells t s []).

(** The lines that are exported when all lines are copied in a format
    other than text: the data rows, and outside them every line that is
    neither a border, nor the line under the header, nor a footer line. *)
Definition csv_selected (desc : DataDesc) (l : Line) : bool :=
  is_data_row desc l
  || (negb (rn l =? border_top_row desc) && negb (rn l =? border_bottom_row desc)
      && negb (rn l =? border_head_row desc)
      && negb (negb (footer_row desc =? -1) && (footer_row desc <=? rn l))).

(** A computation on the heap that only reads, and a computation on the
    machine that leaves the heap as it is. *)
Definition reads_only {A : Type} (f : ST heap A) : Prop :=
  forall h a h', f h = Ok (a, h') -> h' = h.

Definition keeps_heap {A : Type} (c : ST machine A) : Prop :=
  forall m a m', c m = Ok (a, m') -> m_heap m' = m_heap m.

(** What a quoting routine gives for the field at [str]: the field itself
    or the null pointer with the heap as it was, or a block that was not
    there before. *)
Definition quoted_result (str : cptr) (h : heap) (p : cptr) (h' : heap) : Prop :=
  (h' = h /\ (p = str \/ p = NULL))
  \/ (p = fresh_ptr h /\ exists blk, h' = h ++ [Some blk]).

(** A pointer that is null or points into a block that was not there when
    the heap was [h0]; the captured column names are of this kind. *)
Definition own_ptr (h0 : heap) (p : cptr) : Prop :=
  match p with
  | NULL => True
  | Ptr b _ => (length h0 <= b)%nat
  end.

Definition names_own (h0 : heap) (st : ExportState) : Prop :=
  match colnames st with
  | Some names => Forall (own_ptr h0) names
  | None => True
  end.

(** The state of an export that has not touched the heap [h0] it started
    from: the heap is [h0] followed by blocks of the export's own, the
    captured names are of its own, and so is the table name unless it is
    the caller's [tbl]. *)
Definition caller_kept (h0 : heap) (tbl : cptr) (st : ExportState) (m : machine) : Prop :=
  (exists t, m_heap m = h0 ++ t)
  /\ names_own h0 st
  /\ (table_name st = tbl \/ own_ptr h0 (table_name st)).

(** A cell as an SQL value, as the INSERT formats write it in
    force-8-bit mode: NULL or two single quotes for a blank cell, the
    trimmed cell itself when it is the text NULL or null or a number
    (digits with at most one decimal point), and the trimmed cell between
    single quotes otherwise. *)
Definition sql_value (empty_string_is_null : bool) (cell : list Z) : list Z :=
  match trimmed cell with
  | [] => if empty_string_is_null then bytes_of_string "NULL" else [39; 39]
  | core =>
      if bool_decide (core = bytes_of_string "NULL")
         || bool_decide (core = bytes_of_string "null")
      then core
      else if literal_needs_quoting false core then wrapped 39 core
      else core
  end.

(** Items separated by a comma and a blank. *)
Fixpoint comma_list (is_first : bool) (items : list (list Z)) : list Z :=
  match items with
  | [] => []
  | s :: r => (if is_first then [] else [44; 32]) ++ s ++ comma_list false r
  end.

(** The head of an INSERT statement for the table [tn]: with the column
    names between parentheses when a header row was captured. *)
Definition insert_head (tn : list Z) (names : option (list (list Z))) : list Z :=
  bytes_of_string "INSERT INTO " ++ tn
  ++ match names with
     | None => []
     | Some ss => [40] ++ comma_list true ss ++ [41]
     end
  ++ bytes_of_string " VALUES(".

(** The values of a row after [k] others: the head before the first value
    of the row, a comma and a blank before every other. *)
Fixpoint insert_fields (head : list Z) (k : Z) (values : list (list Z)) : list Z :=
  match values with
  | [] => []
  | v :: r =>
      (if k =? 0 then head else []) ++ (if 0 <? k then [44; 32] else [])
      ++ v ++ insert_fields head (k + 1) r
  end.

(** A row as a line of the INSERT format. *)
Definition insert_line (tn : list Z) (names : option (list (list Z)))
    (empty_string_is_null : bool) (t s : list Z) : list Z :=
  insert_fields (insert_head tn names) 0
    (map (sql_value empty_string_is_null) (row_cells t s []))
  ++ bytes_of_string ");" ++ [10].

(** The captured column names read as the strings [names] in the heap
    [h]. *)
Definition names_read (h : heap) (st : ExportState) (names : option (list (list Z)))
  : Prop :=
  match colnames st, names with
  | None, None => True
  | Some ps, Some ss =>
      Forall2 (fun p s => cstring p h = Ok (s, h))
              (leading_names (take (Z.to_nat (columns st)) ps)) ss
  | _, _ => False
  end.

(** No data cell of the row holds a single quote after trimming. *)
Definition cells_without_apostrophe (t s : list Z) : Prop :=
  Forall (fun cell => has_byte 39 (trimmed cell) = false) (row_cells t s []).

(** A name as an SQL identifier, as [quote_sql_identifier] gives it in
    force-8-bit mode: the name itself when it is empty, starts with a
    double quote or is a plain identifier, and the name between double
    quotes otherwise. *)
Definition sql_identifier (s : list Z) : list Z :=
  match s with
  | [] => []
  | c :: _ => if (c =? 34) || plain_identifier s then s else wrapped 34 s
  end.

(** The pointers to [n] blocks allocated one after the other, the first of
    them as block [b]. *)
Definition fresh_run (b n : nat) : list cptr := map (fun i => Ptr i 0) (seq b n).

(** The export state [st'] and the heap [h'] after a header row that
    started from [st] and [h], with the names [done] (read as [dnames])
    captured before it in the row and the entries [todo] of the name array
    after them: the row stored one new block per cell, in order, holding
    the name that [namef] makes of the trimmed cell. *)
Definition captured_as (namef : list Z -> list Z) (h : heap) (st : ExportState)
    (done todo : list cptr) (dnames cells : list (list Z)) (st' : ExportState)
    (h' : heap) : Prop :=
  exists t ptrs,
    h' = h ++ t
    /\ length t = length cells
    /\ Forall (fun b => b <> None) t
    /\ ptrs = fresh_run (length h) (length cells)
    /\ same_settings st st'
    /\ colno st' = colno st + Z.of_nat (length cells)
    /\ colnames (ensure_colnames st')
       = Some (done ++ ptrs ++ drop (length cells) todo)
    /\ (colnames st <> None \/ cells <> [] ->
        colnames st' = Some (done ++ ptrs ++ drop (length cells) todo))
    /\ Forall (fun p => is_null p = false) ptrs
    /\ Forall2 (fun p s => cstring p h' = Ok (s, h'))
               (done ++ ptrs)
               (dnames ++ map (fun cell => namef (trimmed cell)) cells).

(** The same for the SQL INSERT formats, where a name is an SQL
    identifier. *)
Definition header_captured : heap -> ExportState -> list cptr -> list cptr ->
    list (list Z) -> list (list Z) -> ExportState -> heap -> Prop :=
  captured_as sql_identifier.

(** A line-info mask that is there and has the bit [flag], as the tests
    [!linfo || ((linfo->mask & flag) == 0)] of the row loop read it. *)
Definition has_flag (flag : Z) (mask : option Z) : bool :=
  match mask with
  | Some mask => negb (Z.land mask flag =? 0)
  | None => false
  end.

(** What the extended line copy writes for a data row: one line per cell,
    the column name, a comma, the cell as a CSV value. *)
Fixpoint extended_lines (empty_string_is_null : bool) (names cells : list (list Z))
  : list Z :=
  match names, cells with
  | name :: names', cell :: cells' =>
      name ++ [44] ++ csv_cell empty_string_is_null cell ++ [10]
      ++ extended_lines empty_string_is_null names' cells'
  | _, _ => []
  end.

(** Cells without a double quote that are not blank when a blank cell has
    no CSV value. *)
Definition printable_cells (empty_string_is_null : bool) (cells : list (list Z)) : Prop :=
  Forall (fun cell => has_byte 34 (trimmed cell) = false
                      /\ (empty_string_is_null = true -> trimmed cell <> []))
         cells.

(** A trimmed cell that is not blank as a CSV value: between double quotes
    when it holds a comma, a tab, a CR or a LF. *)
Definition csv_value (core : list Z) : list Z :=
  if existsb csv_special core then wrapped 34 core else core.

(** What the row loop does with a line for the extended line copy:
    [None] when the line is skipped, otherwise whether it is a header row.
    Of the data rows only the cursor row is kept; outside them the borders,
    the line under the header and the footer lines are skipped. *)
Definition extended_kind (desc : DataDesc) (cursor_row : Z) (l : Line) : option bool :=
  if is_data_row desc l then
    if rn l =? int32 (cursor_row + first_data_row desc) then Some false else None
  else if (rn l =? border_top_row desc) || (rn l =? border_bottom_row desc)
          || (rn l =? border_head_row desc)
          || (negb (footer_row desc =? -1) && (footer_row desc <=? rn l))
  then None
  else Some (rn l <=? fixed_rows desc).

(** What the row loop does with a line when all lines are copied in a
    format other than text: [None] when the line is skipped, otherwise
    whether it is a header row.  The data rows up to the last row are kept;
    outside them the borders, the line under the header and the footer
    lines are skipped. *)
Definition all_lines_kind (desc : DataDesc) (l : Line) : option bool :=
  if is_data_row desc l then
    if rn l <=? last_row desc then Some false else None
  else if (rn l =? border_top_row desc) || (rn l =? border_bottom_row desc)
          || (rn l =? border_head_row desc)
          || (negb (footer_row desc =? -1) && (footer_row desc <=? rn l))
  then None
  else Some (rn l <=? fixed_rows desc).

(** The lines of a table that are kept as data rows. *)
Definition kept_rows (desc : DataDesc) (ls : list Line) : list Line :=
  List.filter (fun l => bool_decide (all_lines_kind desc l = Some false)) ls.

(** What the commented INSERT format prints after a value: [lead] (a comma,
    or the closing parenthesis and semicolon), two tabs, the number and
    the name of the column. *)
Definition column_comment (lead : list Z) (k : Z) (name : list Z) : list Z :=
  lead ++ [9; 9] ++ bytes_of_string " -- " ++ decimal k ++ bytes_of_string ". "
  ++ name ++ [10].

(** The column list of the commented INSERT format: one name on each line
    with its number, the names after the first indented by [indent]
    blanks, a comma after each name but the last of [n], which has the
    closing parenthesis. *)
Fixpoint commented_names (indent : nat) (n i : Z) (names : list (list Z)) : list Z :=
  match names with
  | [] => []
  | name :: r =>
      (if 0 <? i then replicate indent 32 else [])
      ++ name
      ++ (if i <? n - 1 then [44] else [41])
      ++ [9; 9] ++ bytes_of_string " -- " ++ decimal (i + 1) ++ bytes_of_string "."
      ++ [10]
      ++ commented_names indent n (i + 1) r
  end.

Definition commented_head (tn : list Z) (names : option (list (list Z))) : list Z :=
  bytes_of_string "INSERT INTO " ++ tn
  ++ match names with
     | None => []
     | Some ss => [40] ++ commented_names (length tn + 13) (Z.of_nat (length ss)) 0 ss
     end
  ++ bytes_of_string "   VALUES(".

(** The values of a row after [k] others in the commented INSERT format:
    the head before the first value of the row, and before every other the
    comment that ends the line of the value before it and ten blanks. *)
Fixpoint commented_fields (head : list Z) (k : Z) (names values : list (list Z))
  : list Z :=
  match values with
  | [] => []
  | v :: r =>
      (if k =? 0 then head
       else column_comment [44] k (nth (Z.to_nat (k - 1)) names [])
            ++ replicate 10 32)
      ++ v ++ commented_fields head (k + 1) names r
  end.

(** A data row as a statement of the commented INSERT format. *)
Definition commented_line (tn : list Z) (names : list (list Z))
    (empty_string_is_null : bool) (t s : list Z) : list Z :=
  commented_fields (commented_head tn (Some names)) 0 names
    (map (sql_value empty_string_is_null) (row_cells t s []))
  ++ column_comment (bytes_of_string ");") (Z.of_nat (length (row_cells t s [])))
       (nth (length (row_cells t s []) - 1) names []).

(** What comes before the value of a cell in the commented format. *)
Definition commented_prefix (tn : list Z) (names : list (list Z)) (k : Z) : list Z :=
  if k =? 0 then commented_head tn (Some names)
  else column_comment [44] k (nth (Z.to_nat (k - 1)) names []) ++ replicate 10 32.


(** * Proofs *)

(** ** The monad *)

Lemma bind_ok {S A B : Type} (m : ST S A) (k : A -> ST S B) s a s' :
  m s = Ok (a, s') -> bind m k s = k a s'.
Proof. intros Hm. unfold bind. rewrite Hm. reflexivity. Qed.

Lemma bind_inv {S A B : Type} (m : ST S A) (k : A -> ST S B) s r :
  bind m k s = Ok r -> exists a s', m s = Ok (a, s') /\ k a s' = Ok r.
Proof.
  unfold bind. destruct (m s) as [[a s']|f]; [|discriminate].
  intros Hk. exists a, s'. split; [reflexivity|exact Hk].
Qed.

Lemma lift_res_inv {S A : Type} (r : res A) (s : S) a s' :
  lift_res r s = Ok (a, s') -> r = Ok a /\ s' = s.
Proof. unfold lift_res. destruct r; [|discriminate]. intros [= -> ->]. auto. Qed.

(** Split a hypothesis [bind m k s = Ok r] into its two halves. *)
Ltac bind_inv H :=
  let a := fresh "a" in
  let s := fresh "s" in
  let Hm := fresh "Hm" in
  apply bind_inv in H as (a & s & Hm & H).

(** ** Memory *)

Lemma ptr_add_add p a b : ptr_add (ptr_add p a) b = ptr_add p (a + b).
Proof. destruct p; simpl; [reflexivity|]. f_equal. lia. Qed.

Lemma ptr_add_0 p : ptr_add p 0 = p.
Proof. destruct p; simpl; [reflexivity|]. f_equal. lia. Qed.

Lemma view_add p h v n :
  view p h = Ok v -> 0 <= n <= Z.of_nat (length v) ->
  view (ptr_add p n) h = Ok (drop (Z.to_nat n) v).
Proof.
  destruct p as [|b o]; simpl; [discriminate|].
  destruct (h !! b) as [[blk|]|]; try discriminate.
  destruct ((0 <=? o) && (o <=? Z.of_nat (length blk))) eqn:E; [|discriminate].
  apply andb_true_iff in E as [Ho1 Ho2].
  apply Z.leb_le in Ho1. apply Z.leb_le in Ho2.
  intros [= <-] Hn. rewrite length_drop in Hn.
  replace ((0 <=? o + n) && (o + n <=? Z.of_nat (length blk))) with true.
  - rewrite drop_drop. f_equal. f_equal. lia.
  - symmetry. apply andb_true_iff. split; apply Z.leb_le; lia.
Qed.

Lemma view_next p h c v :
  view p h = Ok (c :: v) -> view (ptr_add p 1) h = Ok v.
Proof.
  intros Hv. rewrite (view_add _ _ _ 1 Hv); [reflexivity|]. simpl. lia.
Qed.

Lemma load_head p h c v : view p h = Ok (c :: v) -> load p h = Ok (c, h).
Proof. intros Hv. unfold load. rewrite Hv. reflexivity. Qed.

Lemma load_inv p h c h' : load p h = Ok (c, h') -> h' = h /\ exists v, view p h = Ok (c :: v).
Proof.
  unfold load. destruct (view p h) as [[|c' v]|]; try discriminate.
  intros [= -> ->]. split; [reflexivity|]. exists v. reflexivity.
Qed.

Lemma load_at p h v (i : Z) c :
  view p h = Ok v -> 0 <= i -> v !! Z.to_nat i = Some c ->
  load (ptr_add p i) h = Ok (c, h).
Proof.
  intros Hv Hi Hc. unfold load.
  assert (Z.to_nat i < length v)%nat by (eapply lookup_lt_Some; eauto).
  rewrite (view_add _ _ _ i Hv) by lia.
  rewrite (drop_S _ _ _ Hc). reflexivity.
Qed.

Lemma load_bytes_one p h c v : view p h = Ok (c :: v) -> load_bytes p 1 h = Ok ([c], h).
Proof.
  intros Hv. unfold load_bytes. simpl. rewrite Hv.
  replace (Z.of_nat (length (c :: v)) <? 1) with false; [reflexivity|].
  symmetry. apply Z.ltb_ge. simpl. lia.
Qed.

Lemma load_bytes_take p h bs rest :
  view p h = Ok (bs ++ rest) ->
  load_bytes p (Z.of_nat (length bs)) h = Ok (bs, h).
Proof.
  intros Hv. unfold load_bytes.
  destruct bs as [|c bs]; [reflexivity|].
  replace (Z.of_nat (length (c :: bs)) =? 0) with false
    by (symmetry; apply Z.eqb_neq; simpl; lia).
  replace (Z.of_nat (length (c :: bs)) <? 0) with false
    by (symmetry; apply Z.ltb_ge; lia).
  rewrite Hv.
  replace (Z.of_nat (length ((c :: bs) ++ rest)) <? Z.of_nat (length (c :: bs)))
    with false by (symmetry; apply Z.ltb_ge; rewrite length_app; lia).
  rewrite Nat2Z.id, take_app_length. reflexivity.
Qed.

(** A fresh block is readable from its start and leaves older memory alone. *)
Lemma view_fresh h blk : view (fresh_ptr h) (h ++ [Some blk]) = Ok blk.
Proof.
  unfold fresh_ptr, view. rewrite (list_lookup_middle h [] (Some blk) (length h) eq_refl).
  simpl. replace (0 <=? Z.of_nat (length blk)) with true
    by (symmetry; apply Z.leb_le; lia).
  reflexivity.
Qed.

Lemma view_fresh_invalid h : view (fresh_ptr h) h = Fault BadPointer.
Proof.
  unfold fresh_ptr, view. rewrite (lookup_ge_None_2 h (length h)) by lia. reflexivity.
Qed.

Lemma view_alloc_old p h v blk :
  view p h = Ok v -> view p (h ++ [Some blk]) = Ok v.
Proof.
  destruct p as [|b o]; simpl; [discriminate|].
  destruct (h !! b) as [x|] eqn:E; [|discriminate].
  rewrite (lookup_app_l h) by (eapply lookup_lt_Some; eauto).
  rewrite E. auto.
Qed.

Lemma until_nul_app s t :
  Forall (fun c => c <> 0) s -> until_nul (s ++ 0 :: t) = Some s.
Proof.
  induction 1 as [|c s Hc _ IH]; simpl; [reflexivity|].
  replace (c =? 0) with false by (symmetry; apply Z.eqb_neq; exact Hc).
  rewrite IH. reflexivity.
Qed.

Lemma cstring_fresh h s t :
  Forall (fun c => c <> 0) s ->
  cstring (fresh_ptr h) (h ++ [Some (s ++ 0 :: t)]) = Ok (s, h ++ [Some (s ++ 0 :: t)]).
Proof.
  intros Hs. unfold cstring. rewrite view_fresh, until_nul_app by exact Hs. reflexivity.
Qed.

(** ** The loops of the quoting routines *)

Section QuotingFacts.
Context `{Collaborators}.

Lemma strncmp_eq_same lit : forall p h rest,
  Forall (fun c => c <> 0) lit ->
  view p h = Ok (lit ++ rest) ->
  strncmp_eq (length lit) p lit h = Ok (true, h).
Proof.
  induction lit as [|c lit IH]; intros p h rest Hnz Hv; [reflexivity|].
  inversion Hnz as [|? ? Hc Hnz']; subst.
  simpl. rewrite (bind_ok _ _ _ _ _ (load_head _ _ _ _ Hv)).
  rewrite Z.eqb_refl. simpl.
  replace (c =? 0) with false by (symmetry; apply Z.eqb_neq; exact Hc).
  apply (IH _ _ rest Hnz'). exact (view_next _ _ _ _ Hv).
Qed.

Lemma strncmp_eq_diff lit : forall bs p h rest,
  Forall (fun c => c <> 0) lit ->
  length bs = length lit -> bs <> lit ->
  view p h = Ok (bs ++ rest) ->
  strncmp_eq (length lit) p lit h = Ok (false, h).
Proof.
  induction lit as [|c lit IH]; intros [|b bs] p h rest Hnz Hlen Hne Hv;
    try discriminate; [congruence|].
  inversion Hnz as [|? ? Hc Hnz']; subst.
  simpl. rewrite (bind_ok _ _ _ _ _ (load_head _ _ _ _ Hv)).
  destruct (Z.eqb_spec b c) as [->|Hbc]; simpl; [|reflexivity].
  replace (c =? 0) with false by (symmetry; apply Z.eqb_neq; exact Hc).
  apply (IH bs _ _ rest Hnz').
  - simpl in Hlen. lia.
  - congruence.
  - exact (view_next _ _ _ _ Hv).
Qed.

Lemma length_doubled_le q bs : (length (doubled q bs) <= 2 * length bs)%nat.
Proof.
  unfold doubled. induction bs as [|c bs IH]; simpl; [lia|].
  rewrite length_app. destruct (c =? q); simpl; lia.
Qed.

Lemma length_doubled q bs :
  length (doubled q bs) = (length bs + count_byte q bs)%nat.
Proof.
  unfold count_byte, doubled. induction bs as [|c bs IH]; simpl; [reflexivity|].
  rewrite length_app. destruct (c =? q); simpl; lia.
Qed.

Lemma length_wrapped q bs :
  length (wrapped q bs) = (length bs + count_byte q bs + 2)%nat.
Proof.
  unfold wrapped. simpl. rewrite length_app, length_doubled. simpl. lia.
Qed.

(** The copy loop with one-byte steps appends the doubled field. *)
Lemma quote_copy_one_byte_steps q f8 blk cap bs : forall fuel w str slen h rest,
  buffer_steps_one f8 blk ->
  view str h = Ok (bs ++ rest) ->
  (length bs <= fuel)%nat ->
  Z.of_nat (length w) + 2 * Z.of_nat (length bs) <= cap ->
  quote_copy fuel q f8 blk cap w str (Z.of_nat (length bs)) slen h
  = Ok ((w ++ doubled q bs, slen + Z.of_nat (length bs)), h).
Proof.
  induction bs as [|c bs IH]; intros fuel w str slen h rest Hstep Hv Hfuel Hcap.
  - destruct fuel; simpl; unfold ret; rewrite app_nil_r, Z.add_0_r; reflexivity.
  - destruct fuel as [|fuel]; [simpl in Hfuel; lia|].
    cbn [quote_copy].
    replace (Z.of_nat (length (c :: bs)) <=? 0) with false
      by (symmetry; apply Z.leb_gt; simpl; lia).
    assert (Hsize : (if f8 then ret 1
                     else do c0 <- lift_res (peek blk cap w); ret (utf8charlen c0)) h
                    = Ok (1, h)).
    { destruct Hstep as [-> | Hjunk]; [reflexivity|].
      destruct f8; [reflexivity|].
      unfold bind, lift_res, peek, ret.
      replace (Z.of_nat (length w) <? cap) with true
        by (symmetry; apply Z.ltb_lt; simpl in Hcap; lia).
      rewrite Hjunk. reflexivity. }
    rewrite (bind_ok _ _ _ _ _ Hsize).
    rewrite (bind_ok _ _ _ _ _ (load_head _ _ _ _ Hv)).
    assert (Hw1 : exists w1, (if c =? q then push cap w q else Ok w) = Ok w1
                             /\ w1 ++ [c] = w ++ (if c =? q then [q; q] else [c])
                             /\ Z.of_nat (length w1) <= Z.of_nat (length w) + 1).
    { destruct (Z.eqb_spec c q) as [->|Hne].
      - unfold push. replace (Z.of_nat (length w) <? cap) with true
          by (symmetry; apply Z.ltb_lt; simpl in Hcap; lia).
        eexists; split; [reflexivity|]. rewrite <- app_assoc, length_app. simpl.
        split; [reflexivity|lia].
      - eexists; split; [reflexivity|]. split; [reflexivity|lia]. }
    destruct Hw1 as (w1 & -> & Hw1 & Hlen1).
    unfold bind at 1. unfold lift_res at 1.
    rewrite (bind_ok _ _ _ _ _ (load_bytes_one _ _ _ _ Hv)).
    unfold bind at 1. unfold lift_res at 1. unfold push_all.
    replace (Z.of_nat (length w1) + Z.of_nat (length [c]) <=? cap) with true
      by (symmetry; apply Z.leb_le; simpl in *; lia).
    replace (Z.of_nat (length (c :: bs)) - 1) with (Z.of_nat (length bs))
      by (simpl; lia).
    rewrite (IH fuel (w1 ++ [c]) (ptr_add str 1) (slen + 1) h rest Hstep).
    + rewrite Hw1. unfold doubled. simpl. rewrite <- !app_assoc.
      replace (slen + 1 + Z.of_nat (length bs))
        with (slen + Z.pos (Pos.of_succ_nat (length bs))) by lia.
      reflexivity.
    + exact (view_next _ _ _ _ Hv).
    + simpl in Hfuel. lia.
    + rewrite length_app. simpl in *. lia.
Qed.

(** The common tail of the three routines when the loop steps by one: the
    field between two quotes, doubled inside, and a terminator.  The length
    it reports is the length of the field plus 2. *)
Lemma quote_wrap_one_byte_steps q f8 str bs rest h :
  buffer_steps_one f8 (length h) ->
  view str h = Ok (bs ++ rest) ->
  quote_wrap q f8 str (Z.of_nat (length bs)) h
  = Ok ((fresh_ptr h, Z.of_nat (length bs) + 2),
        h ++ [Some (buffer_block (length h) (Z.of_nat (length bs) * 2 + 2 + 1)
                                 (wrapped q bs ++ [0]))]).
Proof.
  intros Hstep Hv. unfold quote_wrap.
  set (cap := Z.of_nat (length bs) * 2 + 2 + 1).
  unfold bind at 1. unfold lift_res at 1. unfold push at 1.
  replace (Z.of_nat (length (@nil Z)) <? cap) with true
    by (symmetry; apply Z.ltb_lt; unfold cap; simpl; lia).
  rewrite Nat2Z.id.
  rewrite (bind_ok _ _ _ _ _
             (quote_copy_one_byte_steps q f8 (length h) cap bs _ ([] ++ [q]) str 1 h rest
                Hstep Hv (Nat.le_refl _) ltac:(unfold cap; simpl; lia))).
  pose proof (length_doubled_le q bs) as Hd.
  unfold bind at 1. unfold lift_res at 1. unfold push at 1.
  replace (Z.of_nat (length (([] ++ [q]) ++ doubled q bs)) <? cap) with true
    by (symmetry; apply Z.ltb_lt; unfold cap; rewrite length_app; simpl; lia).
  unfold bind at 1. unfold lift_res at 1. unfold push at 1.
  replace (Z.of_nat (length ((([] ++ [q]) ++ doubled q bs) ++ [q])) <? cap) with true
    by (symmetry; apply Z.ltb_lt; unfold cap; rewrite !length_app; simpl; lia).
  unfold bind, alloc, ret, fresh_ptr, wrapped. simpl.
  rewrite <- !app_assoc. simpl.
  replace (1 + Z.of_nat (length bs) + 1) with (Z.of_nat (length bs) + 2) by lia.
  reflexivity.
Qed.

Lemma quote_wrap_8bit q str bs rest h :
  view str h = Ok (bs ++ rest) ->
  quote_wrap q true str (Z.of_nat (length bs)) h
  = Ok ((fresh_ptr h, Z.of_nat (length bs) + 2),
        h ++ [Some (buffer_block (length h) (Z.of_nat (length bs) * 2 + 2 + 1)
                                 (wrapped q bs ++ [0]))]).
Proof. apply quote_wrap_one_byte_steps. left. reflexivity. Qed.

(** In any mode the copy loop only appends, and leaves the heap alone. *)
Lemma quote_copy_extends q f8 blk cap : forall fuel w str _slen slen h w' n h',
  quote_copy fuel q f8 blk cap w str _slen slen h = Ok ((w', n), h') ->
  h' = h /\ exists t, w' = w ++ t.
Proof.
  induction fuel as [|fuel IH]; intros w str _slen slen h w' n h' Hq;
    simpl in Hq; destruct (_slen <=? 0).
  - injection Hq as <- <- <-. split; [reflexivity|]. exists []. symmetry. apply app_nil_r.
  - discriminate.
  - injection Hq as <- <- <-. split; [reflexivity|]. exists []. symmetry. apply app_nil_r.
  - bind_inv Hq. rename a into size, s into h1.
    assert (h1 = h) as ->.
    { destruct f8; [injection Hm as _ <-; reflexivity|].
      bind_inv Hm. apply lift_res_inv in Hm0 as [_ ->].
      injection Hm as _ <-. reflexivity. }
    clear Hm.
    bind_inv Hq. apply load_inv in Hm as [-> _].
    bind_inv Hq. apply lift_res_inv in Hm as [Hw1 ->].
    bind_inv Hq. rename a1 into bs.
    assert (s = h) as ->.
    { unfold load_bytes in Hm. destruct (size =? 0); [injection Hm as _ <-; reflexivity|].
      destruct (size <? 0); [discriminate|].
      destruct (view str h); [|discriminate].
      destruct (_ <? size); [discriminate|]. injection Hm as _ <-. reflexivity. }
    bind_inv Hq. apply lift_res_inv in Hm0 as [Hw2 ->].
    apply IH in Hq as [-> [t ->]]. split; [reflexivity|].
    unfold push_all in Hw2. destruct (_ <=? cap); [|discriminate].
    injection Hw2 as <-.
    destruct (a =? q).
    + unfold push in Hw1. destruct (_ <? cap); [|discriminate].
      injection Hw1 as <-. exists ([q] ++ bs ++ t). rewrite <- !app_assoc. reflexivity.
    + injection Hw1 as <-. exists (bs ++ t). rewrite <- !app_assoc. reflexivity.
Qed.

(** Whatever [quote_wrap] returns is a fresh block that starts with the
    quote character. *)
Lemma quote_wrap_starts_quoted q f8 str slen h p n h' :
  quote_wrap q f8 str slen h = Ok ((p, n), h') ->
  p = fresh_ptr h /\ exists t, h' = h ++ [Some (q :: t)].
Proof.
  unfold quote_wrap. intros Hq.
  bind_inv Hq. apply lift_res_inv in Hm as [Hw0 ->].
  unfold push in Hw0. destruct (_ <? _); [|discriminate]. injection Hw0 as <-.
  bind_inv Hq. destruct a as [w1 slen1].
  apply quote_copy_extends in Hm as [-> [t ->]].
  bind_inv Hq. apply lift_res_inv in Hm as [Hw2 ->].
  unfold push in Hw2. destruct (_ <? _); [|discriminate]. injection Hw2 as <-.
  bind_inv Hq. apply lift_res_inv in Hm as [Hw3 ->].
  unfold push in Hw3. destruct (_ <? _); [|discriminate]. injection Hw3 as <-.
  unfold bind, alloc, ret in Hq. injection Hq as <- _ <-.
  split; [reflexivity|]. unfold buffer_block. simpl. eexists. reflexivity.
Qed.

End QuotingFacts.

(** ** The scans *)

Section ScanFacts.
Context `{Collaborators}.

(** With one-byte steps the scan of [csv_format] looks at every byte. *)
Lemma csv_scan_8bit bs : forall fuel str h rest,
  view str h = Ok (bs ++ rest) ->
  (length bs <= fuel)%nat ->
  csv_scan fuel true str (Z.of_nat (length bs)) h = Ok (existsb csv_special bs, h).
Proof.
  induction bs as [|c bs IH]; intros fuel str h rest Hv Hfuel.
  - destruct fuel; reflexivity.
  - destruct fuel as [|fuel]; [simpl in Hfuel; lia|].
    cbn [csv_scan].
    replace (Z.of_nat (length (c :: bs)) <=? 0) with false
      by (symmetry; apply Z.leb_gt; simpl; lia).
    rewrite (bind_ok _ _ _ _ _ (load_head _ _ _ _ Hv)).
    cbn [existsb]. destruct (csv_special c); [reflexivity|]. simpl orb.
    replace (Z.of_nat (length (c :: bs)) - 1) with (Z.of_nat (length bs))
      by (simpl; lia).
    apply (IH fuel _ h rest); [exact (view_next _ _ _ _ Hv)|simpl in Hfuel; lia].
Qed.

(** A field without special characters passes the scan, whatever the
    character sizes, as long as they are positive. *)
Lemma csv_scan_clean f8 str h v slen :
  view str h = Ok v ->
  slen <= Z.of_nat (length v) ->
  (forall i c, v !! i = Some c -> Z.of_nat i < slen -> csv_special c = false) ->
  sizes_positive f8 ->
  forall fuel o, 0 <= o -> slen - o <= Z.of_nat fuel ->
  csv_scan fuel f8 (ptr_add str o) (slen - o) h = Ok (false, h).
Proof.
  intros Hv Hlen Hclean Hpos.
  induction fuel as [|fuel IH]; intros o Ho Hfuel.
  - simpl. replace (slen - o <=? 0) with true by (symmetry; apply Z.leb_le; lia).
    reflexivity.
  - cbn [csv_scan]. destruct (Z.leb_spec (slen - o) 0) as [Hend|Hmore]; [reflexivity|].
    assert (Hlt : (Z.to_nat o < length v)%nat) by lia.
    apply lookup_lt_is_Some_2 in Hlt as [c Hc].
    rewrite (bind_ok _ _ _ _ _ (load_at _ _ _ _ _ Hv Ho Hc)).
    rewrite (Hclean _ _ Hc) by lia.
    rewrite ptr_add_add.
    specialize (Hpos c). unfold char_size in Hpos.
    replace (slen - o - (if f8 then 1 else utf8charlen c))
      with (slen - (o + (if f8 then 1 else utf8charlen c))) by lia.
    apply IH; lia.
Qed.

Lemma literal_needs_quoting_shape bs : forall has_dot,
  literal_needs_quoting has_dot bs
  = negb (forallb (fun c => is_digit c || (c =? 46)) bs
          && Nat.leb (count_byte 46 bs + (if has_dot then 1 else 0)) 1).
Proof.
  unfold count_byte.
  induction bs as [|c bs IH]; intros has_dot; simpl.
  - destruct has_dot; reflexivity.
  - destruct (Z.eqb_spec c 46) as [->|Hne].
    + simpl. destruct has_dot.
      * rewrite andb_comm. simpl.
        destruct (length _); reflexivity.
      * rewrite IH, Nat.add_0_r, Nat.add_1_r. reflexivity.
    + rewrite orb_false_r. destruct (is_digit c); simpl; [|reflexivity].
      apply IH.
Qed.

Lemma numeric_shape_needs_no_quoting bs :
  numeric_shape bs = negb (literal_needs_quoting false bs).
Proof.
  rewrite literal_needs_quoting_shape, negb_involutive, Nat.add_0_r. reflexivity.
Qed.

Lemma literal_needs_quoting_has has_dot bs c :
  In c bs -> is_digit c || (c =? 46) = false -> literal_needs_quoting has_dot bs = true.
Proof.
  intros Hin Hc. rewrite literal_needs_quoting_shape.
  replace (forallb _ bs) with false; [reflexivity|].
  symmetry. apply not_true_is_false. intros Hall.
  rewrite forallb_forall in Hall. rewrite (Hall c Hin) in Hc. discriminate.
Qed.

(** The scan of [quote_sql_literal] decides [literal_needs_quoting]; when
    it runs to the end of the field it reads the byte that follows. *)
Lemma literal_scan_spec f8 bs : forall fuel has_dot str h rest,
  numeric_sizes_one f8 ->
  view str h = Ok (bs ++ rest) ->
  Forall (fun c => c <> 0) bs ->
  (length bs <= fuel)%nat ->
  literal_needs_quoting has_dot bs = true \/ rest <> [] ->
  literal_scan fuel f8 has_dot str (Z.of_nat (length bs)) h
  = Ok (literal_needs_quoting has_dot bs, h).
Proof.
  induction bs as [|c bs IH]; intros fuel has_dot str h rest Hsz Hv Hnz Hfuel Hend.
  - destruct Hend as [Hq|Hrest]; [discriminate|].
    destruct rest as [|c rest]; [congruence|].
    destruct fuel; simpl; rewrite (bind_ok _ _ _ _ _ (load_head _ _ _ _ Hv));
      rewrite orb_true_r; reflexivity.
  - destruct fuel as [|fuel]; [simpl in Hfuel; lia|].
    inversion Hnz as [|? ? Hc Hnz']; subst.
    cbn [literal_scan].
    rewrite (bind_ok _ _ _ _ _ (load_head _ _ _ _ Hv)).
    replace (c =? 0) with false by (symmetry; apply Z.eqb_neq; exact Hc).
    replace (Z.of_nat (length (c :: bs)) <=? 0) with false
      by (symmetry; apply Z.leb_gt; simpl; lia).
    cbn [orb literal_needs_quoting].
    fold (char_size f8 c). fold (is_digit c).
    replace (Z.of_nat (length (c :: bs)) - char_size f8 c)
      with (if is_digit c || (c =? 46) then Z.of_nat (length bs)
            else Z.of_nat (length (c :: bs)) - char_size f8 c).
    2:{ destruct (is_digit c || (c =? 46)) eqn:E; [|reflexivity].
        rewrite (Hsz c E). simpl. lia. }
    replace (ptr_add str (char_size f8 c))
      with (if is_digit c || (c =? 46) then ptr_add str 1
            else ptr_add str (char_size f8 c)).
    2:{ destruct (is_digit c || (c =? 46)) eqn:E; [|reflexivity].
        rewrite (Hsz c E). reflexivity. }
    simpl in Hfuel, Hend.
    destruct (c =? 46) eqn:E46.
    + rewrite orb_true_r. destruct has_dot; [reflexivity|].
      apply (IH fuel true _ h rest); auto; [exact (view_next _ _ _ _ Hv)|lia].
    + rewrite orb_false_r. destruct (is_digit c) eqn:Ed; simpl; [|reflexivity].
      simpl in Hend.
      apply (IH fuel has_dot _ h rest); auto; [exact (view_next _ _ _ _ Hv)|lia].
Qed.

End ScanFacts.

(** ** The quoting routines *)

Section QuotingCases.
Context `{Collaborators}.

Lemma null_symbol_nonzero : Forall (fun c => c <> 0) NULL_SYMBOL.
Proof. unfold NULL_SYMBOL. repeat constructor; lia. Qed.

(** The test for the NULL symbol fails on every other field. *)
Lemma null_symbol_check_other f8 str bs rest h :
  view str h = Ok (bs ++ rest) ->
  (f8 = false -> bs <> NULL_SYMBOL) ->
  (if negb f8 && (Z.of_nat (length bs) =? 3) then strncmp_eq 3 str NULL_SYMBOL
   else ret false) h = Ok (false, h).
Proof.
  intros Hv Hne. destruct f8; [reflexivity|]. simpl negb. cbn [andb].
  destruct (Z.eqb_spec (Z.of_nat (length bs)) 3) as [Hlen|_]; [|reflexivity].
  apply (strncmp_eq_diff NULL_SYMBOL bs str h rest null_symbol_nonzero);
    [simpl; lia|auto|exact Hv].
Qed.

Lemma doubled_nonzero q bs :
  q <> 0 -> Forall (fun c => c <> 0) bs -> Forall (fun c => c <> 0) (doubled q bs).
Proof.
  intros Hq. unfold doubled. induction 1 as [|c bs Hc _ IH]; simpl; [constructor|].
  destruct (c =? q); repeat constructor; auto.
Qed.

Lemma wrapped_nonzero q bs :
  q <> 0 -> Forall (fun c => c <> 0) bs -> Forall (fun c => c <> 0) (wrapped q bs).
Proof.
  intros Hq Hbs. unfold wrapped. constructor; [exact Hq|].
  apply Forall_app. split; [apply doubled_nonzero; assumption|].
  repeat constructor. exact Hq.
Qed.

(** The buffer [quote_wrap] fills in force-8-bit mode reads back as the
    wrapped field. *)
Lemma cstring_wrapped q bs h cap :
  q <> 0 -> Forall (fun c => c <> 0) bs ->
  let h' := h ++ [Some (buffer_block (length h) cap (wrapped q bs ++ [0]))] in
  cstring (fresh_ptr h) h' = Ok (wrapped q bs, h').
Proof.
  intros Hq Hbs h'. subst h'. unfold buffer_block.
  rewrite <- app_assoc.
  apply (cstring_fresh h (wrapped q bs)). apply wrapped_nonzero; assumption.
Qed.

Lemma has_byte_In q bs : has_byte q bs = true -> In q bs.
Proof.
  unfold has_byte. rewrite existsb_exists. intros (c & Hin & Hc).
  apply Z.eqb_eq in Hc. subst. exact Hin.
Qed.

Lemma fresh_ptr_not_valid h p v : view p h = Ok v -> fresh_ptr h <> p.
Proof. intros Hv <-. rewrite view_fresh_invalid in Hv. discriminate. Qed.

(** [csv_format] on a field that has a special character, force-8-bit mode. *)
Lemma csv_format_quotes_8bit str bs rest esn h :
  view str h = Ok (bs ++ rest) ->
  existsb csv_special bs = true ->
  csv_format str (Z.of_nat (length bs)) true esn h
  = Ok ((fresh_ptr h, Z.of_nat (length bs) + 2),
        h ++ [Some (buffer_block (length h) (Z.of_nat (length bs) * 2 + 2 + 1)
                                 (wrapped 34 bs ++ [0]))]).
Proof.
  intros Hv Hsp. unfold csv_format. simpl negb. cbn [andb].
  unfold bind at 1. unfold ret at 1.
  destruct bs as [|c bs]; [discriminate|].
  replace (Z.of_nat (length (c :: bs)) =? 0) with false
    by (symmetry; apply Z.eqb_neq; simpl; lia).
  rewrite Nat2Z.id.
  rewrite (bind_ok _ _ _ _ _ (csv_scan_8bit _ _ _ _ rest Hv (Nat.le_refl _))).
  rewrite Hsp. simpl negb. cbv iota.
  apply (quote_wrap_8bit 34 str (c :: bs) rest h Hv).
Qed.

(** The two tests for the text NULL fail on a field that is neither. *)
Lemma null_text_check_other str bs rest h :
  view str h = Ok (bs ++ rest) ->
  bs <> bytes_of_string "NULL" -> bs <> bytes_of_string "null" ->
  (if Z.of_nat (length bs) =? 4 then
     do upper <- strncmp_eq (Z.to_nat (Z.of_nat (length bs))) str (bytes_of_string "NULL");
     if upper then ret true
     else strncmp_eq (Z.to_nat (Z.of_nat (length bs))) str (bytes_of_string "null")
   else ret false) h = Ok (false, h).
Proof.
  intros Hv Hu Hl.
  destruct (Z.eqb_spec (Z.of_nat (length bs)) 4) as [Hlen|_]; [|reflexivity].
  rewrite Nat2Z.id.
  assert (Hnz : forall s, s = bytes_of_string "NULL" \/ s = bytes_of_string "null" ->
                          Forall (fun c => c <> 0) s)
    by (intros s [-> | ->]; repeat constructor; discriminate).
  assert (Hl4 : length bs = 4%nat) by lia.
  rewrite Hl4.
  rewrite (bind_ok _ _ _ _ _
             (strncmp_eq_diff (bytes_of_string "NULL") bs str h rest
                (Hnz _ (or_introl eq_refl)) Hl4 Hu Hv)).
  exact (strncmp_eq_diff (bytes_of_string "null") bs str h rest
           (Hnz _ (or_intror eq_refl)) Hl4 Hl Hv).
Qed.

(** [quote_sql_literal] on a field that is not the text NULL, not the NULL
    symbol outside force-8-bit mode, and has no NUL byte: the scan decides. *)
Lemma quote_sql_literal_scan str bs c rest f8 esn h :
  view str h = Ok ((c :: bs) ++ rest) ->
  Forall (fun c => c <> 0) (c :: bs) ->
  c :: bs <> bytes_of_string "NULL" -> c :: bs <> bytes_of_string "null" ->
  (f8 = false -> c :: bs <> NULL_SYMBOL) ->
  numeric_sizes_one f8 ->
  literal_needs_quoting false (c :: bs) = true \/ rest <> [] ->
  quote_sql_literal str (Z.of_nat (length (c :: bs))) f8 esn h
  = if literal_needs_quoting false (c :: bs)
    then quote_wrap 39 f8 str (Z.of_nat (length (c :: bs))) h
    else Ok ((str, Z.of_nat (length (c :: bs))), h).
Proof.
  intros Hv Hnz Hu Hl Hsym Hsz Hend. unfold quote_sql_literal.
  replace (Z.of_nat (length (c :: bs)) =? 0) with false
    by (symmetry; apply Z.eqb_neq; simpl; lia).
  rewrite (bind_ok _ _ _ _ _ (null_text_check_other str _ rest h Hv Hu Hl)).
  rewrite (bind_ok _ _ _ _ _ (null_symbol_check_other f8 str _ rest h Hv Hsym)).
  rewrite Nat2Z.id.
  rewrite (bind_ok _ _ _ _ _
             (literal_scan_spec f8 _ _ false str h rest Hsz Hv Hnz (Nat.le_refl _) Hend)).
  destruct (literal_needs_quoting false (c :: bs)); reflexivity.
Qed.

Lemma numeric_shape_nonzero bs :
  numeric_shape bs = true -> Forall (fun c => c <> 0) bs.
Proof.
  unfold numeric_shape. intros Hn. apply andb_true_iff in Hn as [Hall _].
  rewrite forallb_forall in Hall. apply List.Forall_forall. intros c Hin ->.
  specialize (Hall 0 Hin). discriminate.
Qed.

Lemma numeric_shape_all bs c :
  numeric_shape bs = true -> In c bs -> is_digit c || (c =? 46) = true.
Proof.
  unfold numeric_shape. intros Hn. apply andb_true_iff in Hn as [Hall _].
  rewrite forallb_forall in Hall. apply Hall.
Qed.

End QuotingCases.

(** ** Properties of the quoting routines *)

(** C7.  [csv_format] on an empty field (length 0): with the
    null-as-empty flag off the result is a fresh block holding exactly the
    two double quotes and the reported length is 2; with the flag on the
    result is the null pointer and the reported length stays 0.  The field
    pointer is not read, so this holds for every pointer and both modes. *)
Theorem C7_csv_format_empty_field `{Collaborators}
    (str : cptr) (force8bit : bool) (h : heap) :
  (csv_format str 0 force8bit false h
     = Ok ((fresh_ptr h, 2), h ++ [Some [34; 34; 0]])
   /\ cstring (fresh_ptr h) (h ++ [Some [34; 34; 0]])
      = Ok ([34; 34], h ++ [Some [34; 34; 0]]))
  /\ csv_format str 0 force8bit true h = Ok ((NULL, 0), h).
Proof.
  split; [split|].
  - unfold csv_format. destruct force8bit; reflexivity.
  - apply (cstring_fresh h [34; 34] []). repeat constructor; lia.
  - unfold csv_format. destruct force8bit; reflexivity.
Qed.

(** C4 (code defect).  [quote_sql_identifier] reads [*str] for its
    already-quoted test before it tests [str] itself, so on the null
    pointer the call is a read through null, not a return of the input. *)
Theorem C4_quote_sql_identifier_null_is_read `{Collaborators}
    (slen : Z) (force8bit : bool) (h : heap) :
  quote_sql_identifier NULL slen force8bit h = Fault NullDeref.
Proof. reflexivity. Qed.

(** The rest of that sentence holds: an empty string (first byte NUL) and a
    readable pointer with reported length 0 come back unchanged. *)
Lemma quote_sql_identifier_empty_unchanged `{Collaborators}
    (str : cptr) (slen : Z) (force8bit : bool) (h : heap) (c : Z) (v : list Z) :
  view str h = Ok (c :: v) -> c = 0 \/ slen = 0 ->
  quote_sql_identifier str slen force8bit h = Ok ((str, slen), h).
Proof.
  intros Hv Hc. unfold quote_sql_identifier.
  rewrite (bind_ok _ _ _ _ _ (load_head _ _ _ _ Hv)).
  destruct (c =? 34); [reflexivity|].
  destruct str as [|b o]; [discriminate|]. cbn [is_null].
  rewrite (bind_ok _ _ _ _ _ (load_head _ _ _ _ Hv)).
  destruct Hc as [-> | ->]; [reflexivity|].
  rewrite orb_true_r. reflexivity.
Qed.

(** The null pointer does reach the routine: [trim_str] returns it for a
    header cell of blanks, and [process_item] passes it on. *)
Example blank_header_cell_reads_null `{Collaborators} :
  let st := mkExportState CLIPBOARD_FORMAT_INSERT (-1) (-1) false (Ptr 1 0) 1
                          true false 0 None in
  let m := mkMachine [cstr "   "; cstr "t"] 0 (mkFILE [] None) in
  on_heap (trim_str (Ptr 0 0) 3 true) m = Ok ((NULL, 0), m)
  /\ process_item st 100 (Ptr 0 0) 3 2 true m = Fault NullDeref.
Proof. split; reflexivity. Qed.

(** C8.  [quote_sql_identifier] is idempotent.  A string whose first byte
    is a double quote comes back as the same pointer with the same length;
    and whatever a call returned, a second call on that result returns it
    again, heap unchanged: for a result the routine produced by quoting
    this is the first case, since the fresh buffer starts with the quote. *)
Theorem C8_quote_sql_identifier_idempotent `{Collaborators}
    (str : cptr) (slen : Z) (force8bit : bool) (h : heap) :
  (forall v, view str h = Ok (34 :: v) ->
             quote_sql_identifier str slen force8bit h = Ok ((str, slen), h))
  /\ (forall p n h',
        quote_sql_identifier str slen force8bit h = Ok ((p, n), h') ->
        quote_sql_identifier p n force8bit h' = Ok ((p, n), h')).
Proof.
  assert (Hquoted : forall p n h0 v, view p h0 = Ok (34 :: v) ->
            quote_sql_identifier p n force8bit h0 = Ok ((p, n), h0)).
  { intros p n h0 v Hv. unfold quote_sql_identifier.
    rewrite (bind_ok _ _ _ _ _ (load_head _ _ _ _ Hv)). reflexivity. }
  split; [intros v; apply Hquoted|].
  intros p n h' Hq.
  assert (Hcases : (p, n, h') = (str, slen, h)
                   \/ quote_wrap 34 force8bit str slen h = Ok ((p, n), h')).
  { revert Hq. unfold quote_sql_identifier. intros Hq.
    bind_inv Hq. apply load_inv in Hm as [-> _].
    destruct (a =? 34); [injection Hq as <- <- <-; auto|].
    destruct (is_null str); [injection Hq as <- <- <-; auto|].
    bind_inv Hq. apply load_inv in Hm as [-> _].
    destruct ((a0 =? 0) || (slen =? 0)); [injection Hq as <- <- <-; auto|].
    bind_inv Hq. apply load_inv in Hm as [-> _].
    bind_inv Hq.
    assert (s = h) as ->.
    { destruct (negb (a1 =? 32) && ((a1 <? 97) || (122 <? a1)));
        [injection Hm as _ <-; reflexivity|].
      clear Hq. revert Hm. generalize slen at 2. generalize str.
      induction (Z.to_nat slen) as [|fuel IH]; intros p0 n0 Hm; simpl in Hm.
      - bind_inv Hm. apply load_inv in Hm0 as [-> _].
        destruct ((a3 =? 0) || (n0 <=? 0)); [injection Hm as _ <-; reflexivity|discriminate].
      - bind_inv Hm. apply load_inv in Hm0 as [-> _].
        destruct ((a3 =? 0) || (n0 <=? 0)); [injection Hm as _ <-; reflexivity|].
        destruct (negb (ident_char a3)); [injection Hm as _ <-; reflexivity|].
        exact (IH _ _ Hm). }
    destruct (negb a2); [injection Hq as <- <- <-; auto|auto]. }
  destruct Hcases as [[= -> -> ->]|Hw]; [exact Hq|].
  apply quote_wrap_starts_quoted in Hw as [-> [t ->]].
  apply (Hquoted _ _ _ t). apply view_fresh.
Qed.

Lemma C8_witness :
  let h := [Some [34; 97; 34; 0]; cstr "Order Total"] in
  (view (Ptr 0 0) h = Ok (34 :: [97; 34; 0])
   /\ quote_sql_identifier (H := example_collaborators) (Ptr 0 0) 3 true h
      = Ok ((Ptr 0 0, 3), h))
  /\ (let h' := h ++ [Some ([34] ++ bytes_of_string "Order Total" ++ [34; 0]
                            ++ replicate 11 0)] in
      quote_sql_identifier (H := example_collaborators) (Ptr 1 0) 11 true h
      = Ok ((Ptr 2 0, 13), h')
      /\ quote_sql_identifier (H := example_collaborators) (Ptr 2 0) 13 true h'
         = Ok ((Ptr 2 0, 13), h')).
Proof.
  intros h. split.
  - split; [reflexivity|].
    apply (proj1 (C8_quote_sql_identifier_idempotent (H := example_collaborators)
                    (Ptr 0 0) 3 true h) [97; 34; 0]).
    reflexivity.
  - intros h'. split; [reflexivity|].
    apply (proj2 (C8_quote_sql_identifier_idempotent (H := example_collaborators)
                    (Ptr 1 0) 11 true h) (Ptr 2 0) 13 h').
    reflexivity.
Defined.

(** C3 (amended).  For every non-empty field that contains none of double
    quote, comma, tab, CR, LF, and that is not the three-byte NULL symbol
    in a run without force-8-bit mode, [csv_format] returns the input
    pointer itself and leaves the length as it was (character lengths being
    positive).  The NULL symbol without force-8-bit mode is taken by the
    test at the head of the routine: the result is the null pointer and
    length 0. *)
Theorem C3_csv_format_clean_field_unchanged `{Collaborators}
    (str : cptr) (bs rest : list Z) (force8bit esn : bool) (h : heap) :
  (view str h = Ok (bs ++ rest) ->
   bs <> [] ->
   existsb csv_special bs = false ->
   sizes_positive force8bit ->
   (force8bit = false -> bs <> NULL_SYMBOL) ->
   csv_format str (Z.of_nat (length bs)) force8bit esn h
   = Ok ((str, Z.of_nat (length bs)), h))
  /\ (view str h = Ok (NULL_SYMBOL ++ rest) ->
      csv_format str 3 false esn h = Ok ((NULL, 0), h)).
Proof.
  split.
  - intros Hv Hne Hclean Hpos Hsym. unfold csv_format.
    rewrite (bind_ok _ _ _ _ _
               (null_symbol_check_other force8bit str bs rest h Hv Hsym)).
    replace (Z.of_nat (length bs) =? 0) with false
      by (symmetry; apply Z.eqb_neq; destruct bs; [congruence|simpl; lia]).
    assert (Hall : forall i c, (bs ++ rest) !! i = Some c ->
              Z.of_nat i < Z.of_nat (length bs) -> csv_special c = false).
    { intros i c Hc Hi.
      rewrite lookup_app_l in Hc by lia.
      destruct (csv_special c) eqn:E; [|reflexivity].
      rewrite <- Hclean. symmetry. apply existsb_exists. exists c. split; [|exact E].
      apply list_elem_of_In. eapply list_elem_of_lookup_2. exact Hc. }
    assert (Hlen : Z.of_nat (length bs) <= Z.of_nat (length (bs ++ rest)))
      by (rewrite length_app; lia).
    pose proof (csv_scan_clean force8bit str h (bs ++ rest) (Z.of_nat (length bs))
                  Hv Hlen Hall Hpos (Z.to_nat (Z.of_nat (length bs))) 0
                  ltac:(lia) ltac:(lia)) as Hscan.
    rewrite ptr_add_0, Z.sub_0_r in Hscan.
    rewrite (bind_ok _ _ _ _ _ Hscan). reflexivity.
  - intros Hv. unfold csv_format. simpl (negb false && (3 =? 3)). cbv iota.
    pose proof (strncmp_eq_same NULL_SYMBOL str h rest null_symbol_nonzero Hv) as Hs.
    change (length NULL_SYMBOL) with 3%nat in Hs.
    rewrite (bind_ok _ _ _ _ _ Hs). reflexivity.
Qed.

Lemma C3_witness :
  let h := [cstr "hello world"; Some (NULL_SYMBOL ++ [0])] in
  (view (Ptr 0 0) h = Ok (bytes_of_string "hello" ++ bytes_of_string " world" ++ [0])
   /\ csv_format (H := example_collaborators) (Ptr 0 0) 5 false false h
      = Ok ((Ptr 0 0, 5), h))
  /\ (view (Ptr 1 0) h = Ok (NULL_SYMBOL ++ [0])
      /\ csv_format (H := example_collaborators) (Ptr 1 0) 3 false false h
         = Ok ((NULL, 0), h)).
Proof.
  intros h. split; (split; [reflexivity|]).
  - apply (proj1 (C3_csv_format_clean_field_unchanged (H := example_collaborators)
                    (Ptr 0 0) (bytes_of_string "hello") (bytes_of_string " world" ++ [0])
                    false false h)).
    + reflexivity.
    + discriminate.
    + reflexivity.
    + intros c. unfold char_size. simpl.
      destruct (c <? 128); [lia|]. destruct (240 <=? c); [lia|].
      destruct (224 <=? c); [lia|]. destruct (192 <=? c); lia.
    + discriminate.
  - apply (proj2 (C3_csv_format_clean_field_unchanged (H := example_collaborators)
                    (Ptr 1 0) [] [0] false false h)).
    reflexivity.
Defined.

(** C3 as stated fails on the NULL symbol: it is a non-empty field without
    any of the five characters, and outside force-8-bit mode [csv_format]
    answers with the null pointer and length 0. *)
Lemma C3_counterexample :
  let h := [Some (NULL_SYMBOL ++ [0])] in
  let r := csv_format (H := example_collaborators) (Ptr 0 0) 3 false false h in
  view (Ptr 0 0) h = Ok (NULL_SYMBOL ++ [0])
  /\ existsb csv_special NULL_SYMBOL = false
  /\ r = Ok ((NULL, 0), h)
  /\ r <> Ok ((Ptr 0 0, 3), h).
Proof. repeat split; try reflexivity. discriminate. Qed.

(** The scenario of the specification: a padded field with a comma is
    trimmed to 12 bytes and then quoted into 14. *)
Example trim_then_csv_format `{Collaborators} :
  let h := [cstr "  hello, world  "] in
  trim_str (Ptr 0 0) 16 true h = Ok ((Ptr 0 2, 12), h)
  /\ exists blk,
       csv_format (Ptr 0 2) 12 true false h = Ok ((Ptr 1 0, 14), h ++ [Some blk])
       /\ cstring (Ptr 1 0) (h ++ [Some blk])
          = Ok ([34] ++ bytes_of_string "hello, world" ++ [34], h ++ [Some blk]).
Proof. split; [reflexivity|]. eexists. split; reflexivity. Qed.

(** A field that holds the byte has at least one occurrence of it. *)
Lemma has_byte_count (q : Z) (bs : list Z) :
  has_byte q bs = true -> (0 < count_byte q bs)%nat.
Proof.
  unfold has_byte, count_byte. induction bs as [|c bs IH]; simpl.
  - discriminate.
  - destruct (c =? q); simpl; [lia|exact IH].
Qed.

(** C1.  The length that the quoting routines report is short of the text
    they build.  In force-8-bit mode, for every field without NUL bytes
    that contains the respective quote character, [csv_format] (double
    quote) and [quote_sql_literal] (single quote) return a fresh buffer,
    distinct from the input, whose NUL-terminated content is the field
    between two quote characters with every embedded quote doubled.  That
    text is [original_length + quote_count + 2] bytes long; the length
    stored through [slen] is [original_length + 2].  It is less than the
    length of the text, by the number of quotes, and it is not the
    [original_length + 2 * quote_count + 2] either. *)
Theorem C1_quoting_reports_short_length `{Collaborators}
    (str : cptr) (bs rest : list Z) (esn : bool) (h : heap) :
  view str h = Ok (bs ++ rest) ->
  Forall (fun c => c <> 0) bs ->
  (has_byte 34 bs = true ->
   exists blk,
     csv_format str (Z.of_nat (length bs)) true esn h
     = Ok ((fresh_ptr h, Z.of_nat (length bs) + 2), h ++ [Some blk])
     /\ fresh_ptr h <> str
     /\ cstring (fresh_ptr h) (h ++ [Some blk]) = Ok (wrapped 34 bs, h ++ [Some blk])
     /\ Z.of_nat (length (wrapped 34 bs))
        = Z.of_nat (length bs) + Z.of_nat (count_byte 34 bs) + 2
     /\ Z.of_nat (length bs) + 2 < Z.of_nat (length (wrapped 34 bs))
     /\ Z.of_nat (length bs) + 2
        <> Z.of_nat (length bs) + 2 * Z.of_nat (count_byte 34 bs) + 2)
  /\ (has_byte 39 bs = true ->
      exists blk,
        quote_sql_literal str (Z.of_nat (length bs)) true esn h
        = Ok ((fresh_ptr h, Z.of_nat (length bs) + 2), h ++ [Some blk])
        /\ fresh_ptr h <> str
        /\ cstring (fresh_ptr h) (h ++ [Some blk]) = Ok (wrapped 39 bs, h ++ [Some blk])
        /\ Z.of_nat (length (wrapped 39 bs))
           = Z.of_nat (length bs) + Z.of_nat (count_byte 39 bs) + 2
        /\ Z.of_nat (length bs) + 2 < Z.of_nat (length (wrapped 39 bs))
        /\ Z.of_nat (length bs) + 2
           <> Z.of_nat (length bs) + 2 * Z.of_nat (count_byte 39 bs) + 2).
Proof.
  intros Hv Hnz. split; intros Hq; pose proof (has_byte_count _ _ Hq) as Hc.
  - eexists. split; [|split; [|split; [|split; [|split]]]].
    + apply (csv_format_quotes_8bit str bs rest esn h Hv).
      apply existsb_exists. exists 34. split; [apply has_byte_In; exact Hq|reflexivity].
    + exact (fresh_ptr_not_valid _ _ _ Hv).
    + apply cstring_wrapped; [lia|exact Hnz].
    + rewrite length_wrapped. lia.
    + rewrite length_wrapped. lia.
    + lia.
  - assert (Hin := has_byte_In _ _ Hq).
    destruct bs as [|c bs]; [destruct Hin|].
    assert (Hneed : literal_needs_quoting false (c :: bs) = true)
      by (apply (literal_needs_quoting_has false _ 39 Hin); reflexivity).
    eexists. split; [|split; [|split; [|split; [|split]]]].
    + rewrite (quote_sql_literal_scan str bs c rest true esn h Hv Hnz).
      * rewrite Hneed. apply (quote_wrap_8bit 39 str (c :: bs) rest h Hv).
      * intros E. rewrite E in Hin. simpl in Hin. intuition discriminate.
      * intros E. rewrite E in Hin. simpl in Hin. intuition discriminate.
      * discriminate.
      * intros x _. reflexivity.
      * left. exact Hneed.
    + exact (fresh_ptr_not_valid _ _ _ Hv).
    + apply cstring_wrapped; [lia|exact Hnz].
    + rewrite length_wrapped. lia.
    + rewrite length_wrapped. lia.
    + lia.
Qed.

Lemma C1_witness :
  let h := [Some [97; 34; 98; 39; 0]] in
  let bs := [97; 34; 98; 39] in
  (view (Ptr 0 0) h = Ok (bs ++ [0]) /\ Forall (fun c => c <> 0) bs)
  /\ (exists blk,
        csv_format (H := example_collaborators) (Ptr 0 0) 4 true false h
        = Ok ((Ptr 1 0, 6), h ++ [Some blk])
        /\ cstring (Ptr 1 0) (h ++ [Some blk])
           = Ok ([34; 97; 34; 34; 98; 39; 34], h ++ [Some blk])
        /\ 6 < 7)
  /\ (exists blk,
        quote_sql_literal (H := example_collaborators) (Ptr 0 0) 4 true false h
        = Ok ((Ptr 1 0, 6), h ++ [Some blk])
        /\ cstring (Ptr 1 0) (h ++ [Some blk])
           = Ok ([39; 97; 34; 98; 39; 39; 39], h ++ [Some blk])
        /\ 6 < 7).
Proof.
  intros h bs.
  assert (Hv : view (Ptr 0 0) h = Ok (bs ++ [0])) by reflexivity.
  assert (Hnz : Forall (fun c => c <> 0) bs) by (repeat constructor; lia).
  destruct (C1_quoting_reports_short_length (H := example_collaborators)
              (Ptr 0 0) bs [0] false h Hv Hnz) as [Hcsv Hsql].
  split; [split; assumption|]. split.
  - destruct (Hcsv eq_refl) as (blk & Hr & _ & Hs & _ & Hlt & _). exists blk.
    split; [exact Hr|]. split; [exact Hs|exact Hlt].
  - destruct (Hsql eq_refl) as (blk & Hr & _ & Hs & _ & Hlt & _). exists blk.
    split; [exact Hr|]. split; [exact Hs|exact Hlt].
Defined.

(** What both routines store through [slen] on the quoting path in
    force-8-bit mode: the original length plus 2.  The bytes added by the
    doubling are not counted, so a caller that writes [*slen] bytes loses
    the tail of the quoted text. *)
Lemma quoting_reports_length_plus_two `{Collaborators}
    (str : cptr) (bs rest : list Z) (esn : bool) (h : heap) :
  view str h = Ok (bs ++ rest) ->
  has_byte 34 bs = true ->
  exists h', csv_format str (Z.of_nat (length bs)) true esn h
             = Ok ((fresh_ptr h, Z.of_nat (length bs) + 2), h').
Proof.
  intros Hv Hq. eexists.
  apply (csv_format_quotes_8bit str bs rest esn h Hv).
  apply existsb_exists. exists 34. split; [apply has_byte_In; exact Hq|reflexivity].
Qed.

(** The one-byte fields made of the quote character: the text built is four
    bytes long, both routines report 3, and
    [original_length + 2 * quote_count + 2] is 5. *)
Example quoting_a_single_quote_byte :
  csv_format (H := example_collaborators) (Ptr 0 0) 1 true false [Some [34; 0]]
  = Ok ((Ptr 1 0, 3), [Some [34; 0]; Some [34; 34; 34; 34; 0]])
  /\ quote_sql_literal (H := example_collaborators) (Ptr 0 0) 1 true false [Some [39; 0]]
     = Ok ((Ptr 1 0, 3), [Some [39; 0]; Some [39; 39; 39; 39; 0]])
  /\ length (wrapped 34 [34]) = 4%nat
  /\ 1 + 2 * Z.of_nat (count_byte 34 [34]) + 2 = 5.
Proof. repeat split; reflexivity. Qed.

(** The caller writes as many bytes as were reported, so the end of the
    quoted text is lost: the CSV cell of the three bytes a, double quote,
    b is written without its closing quote. *)
Example quoted_cell_loses_its_tail :
  let st := mkExportState CLIPBOARD_FORMAT_CSV (-1) (-1) false NULL 1 true false 0 None in
  let m := mkMachine [Some [97; 34; 98; 0]] 0 (mkFILE [] None) in
  csv_format (H := example_collaborators) (Ptr 0 0) 3 true false (m_heap m)
  = Ok ((Ptr 1 0, 5), m_heap m ++ [Some [34; 97; 34; 34; 98; 34; 0; 0; 0]])
  /\ process_item (H := example_collaborators) st 100 (Ptr 0 0) 3 2 false m
     = Ok ((true, set_colno st 1),
           mkMachine [Some [97; 34; 98; 0]; None] 0 (mkFILE [34; 97; 34; 34; 98] None)).
Proof. split; reflexivity. Qed.

(** Outside force-8-bit mode the second loop takes its step from the byte
    under the write cursor, which nothing was stored into yet.  With memory
    that reads as [0xF0] there, the step is 4 and the copy runs off the
    one-byte field. *)
Example copy_step_comes_from_output_buffer :
  csv_format (H := dirty_heap_collaborators) (Ptr 0 0) 1 false false [Some [34; 0]]
  = Fault OutOfBounds.
Proof. reflexivity. Qed.

(** C6 (amended).  [quote_sql_literal]:
    - an empty field gives the fresh text NULL (length 4) when the
      null-as-empty flag is set and the fresh text of two single quotes
      (length 2) otherwise;
    - a four-byte field equal to NULL or null comes back unchanged;
    - the three-byte NULL symbol gives the fresh text NULL when
      force-8-bit mode is off;
    - a non-empty field of digits with at most one decimal point, with a
      readable byte after it as in any terminated string, comes back
      unchanged (digits and the point being one-byte characters);
    - in force-8-bit mode every other field without NUL bytes, the NULL
      symbol included, comes back as a fresh buffer holding the field
      between single quotes with the embedded single quotes doubled. *)
Theorem C6_quote_sql_literal_cases `{Collaborators}
    (str : cptr) (bs rest : list Z) (force8bit esn : bool) (h : heap) :
  (quote_sql_literal str 0 force8bit true h
     = Ok ((fresh_ptr h, 4), h ++ [cstr "NULL"])
   /\ quote_sql_literal str 0 force8bit false h
      = Ok ((fresh_ptr h, 2), h ++ [Some [39; 39; 0]]))
  /\ (view str h = Ok (bs ++ rest) ->
      bs = bytes_of_string "NULL" \/ bs = bytes_of_string "null" ->
      quote_sql_literal str 4 force8bit esn h = Ok ((str, 4), h))
  /\ (view str h = Ok (NULL_SYMBOL ++ rest) ->
      quote_sql_literal str 3 false esn h
      = Ok ((fresh_ptr h, 4), h ++ [cstr "NULL"]))
  /\ (view str h = Ok (bs ++ rest) ->
      bs <> [] -> rest <> [] ->
      numeric_shape bs = true ->
      numeric_sizes_one force8bit ->
      quote_sql_literal str (Z.of_nat (length bs)) force8bit esn h
      = Ok ((str, Z.of_nat (length bs)), h))
  /\ (view str h = Ok (bs ++ rest) ->
      bs <> [] ->
      Forall (fun c => c <> 0) bs ->
      bs <> bytes_of_string "NULL" -> bs <> bytes_of_string "null" ->
      numeric_shape bs = false ->
      exists n blk,
        quote_sql_literal str (Z.of_nat (length bs)) true esn h
        = Ok ((fresh_ptr h, n), h ++ [Some blk])
        /\ cstring (fresh_ptr h) (h ++ [Some blk])
           = Ok (wrapped 39 bs, h ++ [Some blk])).
Proof.
  split; [split; reflexivity|]. split; [|split; [|split]].
  - intros Hv Hb. unfold quote_sql_literal. simpl (4 =? 0). cbv iota.
    simpl (4 =? 4). cbv iota.
    assert (Hnz : forall s, s = bytes_of_string "NULL" \/ s = bytes_of_string "null" ->
                            Forall (fun c => c <> 0) s)
      by (intros s [-> | ->]; repeat constructor; discriminate).
    change (Z.to_nat 4) with 4%nat.
    destruct Hb as [-> | ->].
    + pose proof (strncmp_eq_same (bytes_of_string "NULL") str h rest
                    (Hnz _ (or_introl eq_refl)) Hv) as Hs.
      change (length (bytes_of_string "NULL")) with 4%nat in Hs.
      unfold bind at 1. unfold bind at 1. rewrite Hs. reflexivity.
    + assert (Hd : bytes_of_string "null" <> bytes_of_string "NULL") by discriminate.
      pose proof (strncmp_eq_diff (bytes_of_string "NULL") (bytes_of_string "null")
                    str h rest (Hnz _ (or_introl eq_refl)) eq_refl Hd Hv) as Hs1.
      pose proof (strncmp_eq_same (bytes_of_string "null") str h rest
                    (Hnz _ (or_intror eq_refl)) Hv) as Hs2.
      change (length (bytes_of_string "NULL")) with 4%nat in Hs1.
      change (length (bytes_of_string "null")) with 4%nat in Hs2.
      unfold bind at 1. unfold bind at 1. rewrite Hs1. cbv iota. rewrite Hs2.
      reflexivity.
  - intros Hv. unfold quote_sql_literal. simpl (3 =? 0). cbv iota.
    simpl (3 =? 4). cbv iota. unfold bind at 1. unfold ret at 1.
    simpl (negb false && (3 =? 3)). cbv iota.
    pose proof (strncmp_eq_same NULL_SYMBOL str h rest null_symbol_nonzero Hv) as Hs.
    change (length NULL_SYMBOL) with 3%nat in Hs.
    rewrite (bind_ok _ _ _ _ _ Hs). reflexivity.
  - intros Hv Hne Hrest Hnum Hsz.
    destruct bs as [|c bs]; [congruence|].
    rewrite (quote_sql_literal_scan str bs c rest force8bit esn h Hv).
    + rewrite numeric_shape_needs_no_quoting in Hnum.
      apply negb_true_iff in Hnum. rewrite Hnum. reflexivity.
    + apply numeric_shape_nonzero. exact Hnum.
    + intros E. rewrite E in Hnum. discriminate.
    + intros E. rewrite E in Hnum. discriminate.
    + intros _ E. rewrite E in Hnum. discriminate.
    + exact Hsz.
    + right. exact Hrest.
  - intros Hv Hne Hnz Hu Hl Hnum.
    destruct bs as [|c bs]; [congruence|].
    rewrite numeric_shape_needs_no_quoting in Hnum.
    apply negb_false_iff in Hnum.
    eexists _, _. split.
    + rewrite (quote_sql_literal_scan str bs c rest true esn h Hv Hnz Hu Hl).
      * rewrite Hnum. apply (quote_wrap_8bit 39 str (c :: bs) rest h Hv).
      * discriminate.
      * intros x _. reflexivity.
      * left. exact Hnum.
    + apply cstring_wrapped; [lia|exact Hnz].
Qed.

Lemma C6_witness :
  let h := [cstr "NULL"; Some (NULL_SYMBOL ++ [0]); cstr "3.14"; cstr "it's"] in
  let q := quote_sql_literal (H := example_collaborators) in
  q (Ptr 0 0) 4 false false h = Ok ((Ptr 0 0, 4), h)
  /\ q (Ptr 1 0) 3 false false h = Ok ((Ptr 4 0, 4), h ++ [cstr "NULL"])
  /\ q (Ptr 2 0) 4 false false h = Ok ((Ptr 2 0, 4), h)
  /\ exists n blk,
       q (Ptr 3 0) 4 true false h = Ok ((Ptr 4 0, n), h ++ [Some blk])
       /\ cstring (Ptr 4 0) (h ++ [Some blk])
          = Ok (bytes_of_string "'it''s'", h ++ [Some blk]).
Proof.
  intros h q. subst q.
  split; [|split; [|split]].
  - apply (proj1 (proj2 (C6_quote_sql_literal_cases (H := example_collaborators)
             (Ptr 0 0) (bytes_of_string "NULL") [0] false false h)));
      [reflexivity|left; reflexivity].
  - apply (proj1 (proj2 (proj2 (C6_quote_sql_literal_cases (H := example_collaborators)
             (Ptr 1 0) [] [0] false false h)))).
    reflexivity.
  - apply (proj1 (proj2 (proj2 (proj2 (C6_quote_sql_literal_cases
             (H := example_collaborators)
             (Ptr 2 0) (bytes_of_string "3.14") [0] false false h)))));
      [reflexivity|discriminate|discriminate|reflexivity|].
    intros c Hc. unfold char_size. simpl.
    replace (c <? 128) with true; [reflexivity|].
    symmetry. apply Z.ltb_lt. unfold is_digit in Hc.
    apply orb_true_iff in Hc as [Hc|Hc]; [apply andb_true_iff in Hc as [_ Hc]|]; lia.
  - apply (proj2 (proj2 (proj2 (proj2 (C6_quote_sql_literal_cases
             (H := example_collaborators)
             (Ptr 3 0) (bytes_of_string "it's") [0] true false h)))));
      [reflexivity|discriminate|repeat constructor; discriminate
      |discriminate|discriminate|reflexivity].
Defined.

(** C6 as stated fails in force-8-bit mode: there the NULL symbol is not
    mapped to NULL but quoted like any other text. *)
Lemma C6_counterexample :
  let h := [Some (NULL_SYMBOL ++ [0])] in
  let r := quote_sql_literal (H := example_collaborators) (Ptr 0 0) 3 true false h in
  r = Ok ((Ptr 1 0, 5), h ++ [Some ([39] ++ NULL_SYMBOL ++ [39; 0; 0; 0; 0])])
  /\ r <> Ok ((Ptr 1 0, 4), h ++ [cstr "NULL"]).
Proof. split; [reflexivity|discriminate]. Qed.

(** The quoting case of [quote_sql_literal] in either mode, under the two
    conditions that make its loops step by one: digits and the point are
    one-byte characters, and so are the bytes of the new buffer. *)
Lemma quote_sql_literal_quotes_any_mode `{Collaborators}
    (str : cptr) (bs rest : list Z) (force8bit esn : bool) (h : heap) :
  view str h = Ok (bs ++ rest) ->
  bs <> [] ->
  Forall (fun c => c <> 0) bs ->
  bs <> bytes_of_string "NULL" -> bs <> bytes_of_string "null" ->
  (force8bit = false -> bs <> NULL_SYMBOL) ->
  numeric_sizes_one force8bit ->
  buffer_steps_one force8bit (length h) ->
  numeric_shape bs = false ->
  quote_sql_literal str (Z.of_nat (length bs)) force8bit esn h
  = Ok ((fresh_ptr h, Z.of_nat (length bs) + 2),
        h ++ [Some (buffer_block (length h) (Z.of_nat (length bs) * 2 + 2 + 1)
                                 (wrapped 39 bs ++ [0]))]).
Proof.
  intros Hv Hne Hnz Hu Hl Hsym Hsz Hstep Hnum.
  destruct bs as [|c bs]; [congruence|].
  rewrite numeric_shape_needs_no_quoting in Hnum. apply negb_false_iff in Hnum.
  rewrite (quote_sql_literal_scan str bs c rest force8bit esn h Hv Hnz Hu Hl Hsym Hsz
             (or_introl Hnum)).
  rewrite Hnum. exact (quote_wrap_one_byte_steps 39 force8bit str (c :: bs) rest h Hstep Hv).
Qed.

(** ** [process_item] *)

Section ProcessItemFacts.
Context `{Collaborators}.

Lemma on_heap_inv {A : Type} (f : ST heap A) m a m' :
  on_heap f m = Ok (a, m') ->
  exists h', f (m_heap m) = Ok (a, h') /\ m' = mkMachine h' (m_errno m) (m_out m).
Proof.
  unfold on_heap. destruct (f (m_heap m)) as [[a' h']|]; [|discriminate].
  intros [= -> <-]. exists h'. auto.
Qed.

Lemma finish_inv st m b st' m' :
  finish st m = Ok ((b, st'), m') -> st' = st /\ m' = m /\ b = (m_errno m =? 0).
Proof. unfold finish, bind, get_errno, ret. intros [= <- <- <-]. auto. Qed.

Lemma colno_ensure_colnames st : colno (ensure_colnames st) = colno st.
Proof. unfold ensure_colnames. destruct (colnames st); reflexivity. Qed.

Lemma capture_colname_colno st field _field size m st2 m2 :
  capture_colname st field _field size m = Ok (st2, m2) ->
  colno st2 = colno st + 1.
Proof.
  unfold capture_colname. intros Hc.
  bind_inv Hc. clear Hm. bind_inv Hc. apply lift_res_inv in Hm as [Hs ->].
  injection Hc as <- _.
  unfold colname_store in Hs. destruct (colnames st); [|discriminate].
  destruct (_ && _); [|discriminate]. injection Hs as <-. reflexivity.
Qed.

(** One step of reading a hypothesis [H] about monadic code backwards. *)
Ltac run_back H :=
  match type of H with
  | bind _ _ _ = Ok _ =>
      let a := fresh "a" in
      let s := fresh "s" in
      let Hm := fresh "Hm" in
      apply bind_inv in H as (a & s & Hm & H)
  | (let (_, _) := ?x in _) _ = Ok _ => destruct x
  | (if ?c then _ else _) _ = Ok _ => destruct c eqn:?
  end.

(** A data token inside the range moves the column counter on in the SQL
    INSERT formats ... *)
Lemma process_item_insert_counts st field size xpos is_colname m b st' m' :
  outside_range st xpos = false ->
  process_item_insert st 100 field size xpos is_colname m = Ok ((b, st'), m') ->
  colno st' = colno st + 1.
Proof.
  intros Hin Hp. unfold process_item_insert in Hp.
  rewrite Hin in Hp. simpl (100 =? 78) in Hp. simpl (100 =? 100) in Hp.
  cbn [andb] in Hp. cbv iota in Hp.
  run_back Hp. clear Hm.
  destruct is_colname.
  - repeat run_back Hp.
    apply finish_inv in Hp as (-> & _ & _).
    rewrite (capture_colname_colno _ _ _ _ _ _ _ Hm1), colno_ensure_colnames.
    reflexivity.
  - repeat run_back Hp; apply finish_inv in Hp as (-> & _ & _); reflexivity.
Qed.

(** ... and in the CSV and TSV formats. *)
Lemma process_item_dsv_counts st field size xpos is_colname m b st' m' :
  outside_range st xpos = false ->
  process_item_dsv st 100 field size xpos is_colname m = Ok ((b, st'), m') ->
  colno st' = colno st + 1.
Proof.
  intros Hin Hp. unfold process_item_dsv in Hp.
  rewrite Hin in Hp. simpl (100 =? 78) in Hp. simpl (100 =? 100) in Hp.
  cbn [andb] in Hp. cbv iota in Hp.
  do 4 run_back Hp.
  destruct (copy_line_extended st && is_colname).
  - run_back Hp. injection Hp as _ <- _.
    rewrite (capture_colname_colno _ _ _ _ _ _ _ Hm1), colno_ensure_colnames.
    reflexivity.
  - repeat run_back Hp; apply finish_inv in Hp as (-> & _ & _); reflexivity.
Qed.

Lemma write_out_changes bs m m' :
  bs <> [] -> write_out bs m = Ok (tt, m') ->
  m_errno m' = ENOSPC \/ m_out m' <> m_out m.
Proof.
  intros Hbs. unfold write_out.
  assert (Hneq : forall l room room', mkFILE (l ++ bs) room <> mkFILE l room').
  { intros l room room' [= E _]. apply (f_equal length) in E.
    rewrite length_app in E. destruct bs; [congruence|simpl in E; lia]. }
  destruct (m_out m) as [l [room|]]; simpl.
  - destruct (Nat.leb (length bs) room).
    + intros [= <-]. right. simpl. apply Hneq.
    + intros [= <-]. left. reflexivity.
  - intros [= <-]. right. simpl. apply Hneq.
Qed.

(** In the text format a non-empty data token inside the range reaches the
    stream, or the write fails and the call returns [false]. *)
Lemma process_item_text_writes st field size xpos m b st' m' :
  outside_range st xpos = false -> 0 < size ->
  process_item_text st 100 field size xpos m = Ok ((b, st'), m') ->
  b = false \/ m_out m' <> m_out m.
Proof.
  intros Hin Hsize Hp. unfold process_item_text in Hp.
  rewrite Hin in Hp. simpl (100 =? 78) in Hp. simpl (100 =? 100) in Hp.
  rewrite orb_true_r in Hp. cbn [andb negb] in Hp. cbv iota in Hp.
  run_back Hp. injection Hm as _ <-.
  run_back Hp. unfold fwrite in Hm.
  run_back Hm. apply on_heap_inv in Hm0 as (h' & Hl & ->).
  apply finish_inv in Hp as (_ & -> & ->).
  assert (Hbs : a1 <> []).
  { unfold load_bytes in Hl. simpl in Hl.
    replace (size =? 0) with false in Hl by (symmetry; apply Z.eqb_neq; lia).
    replace (size <? 0) with false in Hl by (symmetry; apply Z.ltb_ge; lia).
    destruct (view field (m_heap m)) as [v|]; [|discriminate].
    destruct (Z.ltb_spec (Z.of_nat (length v)) size); [discriminate|].
    injection Hl as <- _. intros E. apply (f_equal length) in E.
    rewrite length_take in E. simpl in E. lia. }
  destruct a0. apply (write_out_changes _ _ _ Hbs) in Hm as [He|Ho].
  - left. rewrite He. reflexivity.
  - right. exact Ho.
Qed.

(** Outside the range every format returns at once. *)
Lemma process_item_outside st field size xpos is_colname m :
  outside_range st xpos = true ->
  skipped (process_item st 100 field size xpos is_colname m) st m.
Proof.
  intros Hout. unfold skipped, process_item, process_item_insert,
    process_item_text, process_item_dsv.
  destruct (format st); simpl; rewrite Hout; eexists; (split; [reflexivity|]);
    split; reflexivity.
Qed.

Lemma process_item_inside st field size xpos is_colname m :
  outside_range st xpos = false -> 0 < size ->
  ~ skipped (process_item st 100 field size xpos is_colname m) st m.
Proof.
  intros Hin Hsize (m' & Hp & Hout & _). unfold process_item in Hp.
  destruct (INSERT_FORMAT_TYPE (format st)) eqn:Ei.
  { apply (process_item_insert_counts _ _ _ _ _ _ _ _ _ Hin) in Hp. lia. }
  destruct (format_eqb (format st) CLIPBOARD_FORMAT_TEXT) eqn:Et.
  { apply (process_item_text_writes _ _ _ _ _ _ _ _ Hin Hsize) in Hp as [?|?];
      [congruence|contradiction]. }
  destruct (DSV_FORMAT_TYPE (format st)) eqn:Ed.
  { apply (process_item_dsv_counts _ _ _ _ _ _ _ _ _ Hin) in Hp. lia. }
  revert Ei Et Ed. clear. destruct (format st); discriminate.
Qed.

End ProcessItemFacts.

(** C2 (amended).  For a data token with an active column range
    ([xmin] other than -1) and a non-empty field, [process_item] skips the
    token -- returns [true] with the export state, the stream and the heap
    as they were, the column counter included -- exactly when its x
    position is at or outside a bound: [xpos <= xmin] or [xmax <= xpos].
    The token is processed exactly when [xmin < xpos < xmax]; the bounds
    themselves are excluded. *)
Theorem C2_data_token_skipped_iff_outside `{Collaborators}
    (st : ExportState) (field : cptr) (size xpos : Z) (is_colname : bool)
    (m : machine) :
  xmin st <> -1 ->
  0 < size ->
  (skipped (process_item st 100 field size xpos is_colname m) st m
   <-> (xpos <= xmin st \/ xmax st <= xpos))
  /\ (~ skipped (process_item st 100 field size xpos is_colname m) st m
      <-> xmin st < xpos < xmax st).
Proof.
  intros Hx Hsize.
  assert (Hr : outside_range st xpos = true <-> (xpos <= xmin st \/ xmax st <= xpos)).
  { unfold outside_range.
    replace (xmin st =? -1) with false by (symmetry; apply Z.eqb_neq; exact Hx).
    cbn [negb andb]. rewrite orb_true_iff, !Z.leb_le. reflexivity. }
  destruct (outside_range st xpos) eqn:Hout.
  - pose proof (process_item_outside st field size xpos is_colname m Hout) as Hs.
    split; split; intros; try (apply Hr; reflexivity); try exact Hs; try contradiction.
    assert (xpos <= xmin st \/ xmax st <= xpos) by (apply Hr; reflexivity). lia.
  - pose proof (process_item_inside st field size xpos is_colname m Hout Hsize) as Hs.
    assert (Hno : ~ (xpos <= xmin st \/ xmax st <= xpos))
      by (intros Hc; apply Hr in Hc; discriminate).
    split; split; intros; try contradiction; try exact Hs; try lia.
Qed.

Lemma C2_witness :
  let st := mkExportState CLIPBOARD_FORMAT_CSV 3 9 false NULL 2 true false 0 None in
  let m := mkMachine [cstr " ab | cd "] 0 (mkFILE [] None) in
  (xmin st <> -1 /\ 0 < 2)
  /\ skipped (process_item (H := example_collaborators) st 100 (Ptr 0 0) 2 2 false m) st m
  /\ ~ skipped (process_item (H := example_collaborators) st 100 (Ptr 0 6) 2 7 false m) st m.
Proof.
  intros st m.
  assert (Hx : xmin st <> -1) by (simpl; lia).
  assert (Hs : 0 < 2) by lia.
  split; [split; assumption|]. split.
  - apply (proj1 (C2_data_token_skipped_iff_outside (H := example_collaborators)
                    st (Ptr 0 0) 2 2 false m Hx Hs)).
    simpl. lia.
  - apply (proj2 (C2_data_token_skipped_iff_outside (H := example_collaborators)
                    st (Ptr 0 6) 2 7 false m Hx Hs)).
    simpl. lia.
Defined.

(** C2 as stated fails on the bounds: a data token at [xpos = xmin] (and
    likewise at [xpos = xmax]) lies within the inclusive bounds and is
    skipped all the same. *)
Lemma C2_counterexample :
  let st := mkExportState CLIPBOARD_FORMAT_CSV 3 9 false NULL 2 true false 0 None in
  let m := mkMachine [cstr " ab | cd "] 0 (mkFILE [] None) in
  (xmin st <> -1 /\ xmin st <= 3 <= xmax st /\ xmin st <= 9 <= xmax st)
  /\ process_item (H := example_collaborators) st 100 (Ptr 0 2) 2 3 false m
     = Ok ((true, st), m)
  /\ process_item (H := example_collaborators) st 100 (Ptr 0 6) 2 9 false m
     = Ok ((true, st), m)
  /\ process_item (H := example_collaborators) st 100 (Ptr 0 6) 2 8 false m
     = Ok ((true, set_colno st 1),
           mkMachine (m_heap m) 0 (mkFILE (bytes_of_string "cd") None)).
Proof. repeat split; try reflexivity; simpl; lia. Qed.

(** ** [export_data] *)

Section ExportFacts.
Context `{Collaborators}.

Lemma on_heap_out {A : Type} (f : ST heap A) m a m' :
  on_heap f m = Ok (a, m') -> m_out m' = m_out m.
Proof. intros Hf. apply on_heap_inv in Hf as (h' & _ & ->). reflexivity. Qed.

Lemma quote_table_name_out opts tbl m p m' :
  quote_table_name opts tbl m = Ok (p, m') -> m_out m' = m_out m.
Proof.
  unfold quote_table_name. intros Hq.
  bind_inv Hq. apply on_heap_out in Hm.
  bind_inv Hq. destruct a0. apply on_heap_out in Hm0.
  injection Hq as _ <-. congruence.
Qed.

Lemma until_nul_inv v : forall s,
  until_nul v = Some s ->
  exists rest, v = s ++ 0 :: rest /\ Forall (fun c => c <> 0) s.
Proof.
  induction v as [|c v IH]; intros s; simpl; [discriminate|].
  destruct (Z.eqb_spec c 0) as [->|Hc].
  - intros [= <-]. exists v. split; [reflexivity|constructor].
  - destruct (until_nul v) as [s'|]; [|discriminate]. intros [= <-].
    destruct (IH s' eq_refl) as (rest & -> & Hs').
    exists rest. split; [reflexivity|constructor; assumption].
Qed.

Lemma ident_scan_8bit_returns s : forall fuel str h rest,
  view str h = Ok (s ++ 0 :: rest) ->
  Forall (fun c => c <> 0) s ->
  (length s <= fuel)%nat ->
  exists b, ident_scan fuel true str (Z.of_nat (length s)) h = Ok (b, h).
Proof.
  induction s as [|c s IH]; intros fuel str h rest Hv Hnz Hfuel.
  - exists false. destruct fuel; simpl;
      rewrite (bind_ok _ _ _ _ _ (load_head _ _ _ _ Hv)); reflexivity.
  - destruct fuel as [|fuel]; [simpl in Hfuel; lia|].
    inversion Hnz as [|? ? Hc Hnz']; subst.
    cbn [ident_scan]. rewrite (bind_ok _ _ _ _ _ (load_head _ _ _ _ Hv)).
    replace (c =? 0) with false by (symmetry; apply Z.eqb_neq; exact Hc).
    replace (Z.of_nat (length (c :: s)) <=? 0) with false
      by (symmetry; apply Z.leb_gt; simpl; lia).
    cbn [orb]. destruct (negb (ident_char c)); [exists true; reflexivity|].
    replace (Z.of_nat (length (c :: s)) - 1) with (Z.of_nat (length s))
      by (simpl; lia).
    apply (IH fuel _ h rest); [exact (view_next _ _ _ _ Hv)|exact Hnz'|simpl in Hfuel; lia].
Qed.

(** In force-8-bit mode [quote_sql_identifier] returns on every string. *)
Lemma quote_sql_identifier_8bit_returns str s rest h :
  view str h = Ok (s ++ 0 :: rest) ->
  Forall (fun c => c <> 0) s ->
  exists p n h', quote_sql_identifier str (Z.of_nat (length s)) true h = Ok ((p, n), h').
Proof.
  intros Hv Hnz. unfold quote_sql_identifier.
  destruct s as [|c s].
  - rewrite (bind_ok _ _ _ _ _ (load_head _ _ _ _ Hv)). simpl (0 =? 34). cbv iota.
    destruct str; [discriminate|]. cbn [is_null].
    rewrite (bind_ok _ _ _ _ _ (load_head _ _ _ _ Hv)). eexists _, _, _. reflexivity.
  - rewrite (bind_ok _ _ _ _ _ (load_head _ _ _ _ Hv)).
    destruct (c =? 34); [eexists _, _, _; reflexivity|].
    destruct str as [|b o]; [discriminate|]. cbn [is_null].
    rewrite (bind_ok _ _ _ _ _ (load_head _ _ _ _ Hv)).
    destruct ((c =? 0) || (Z.of_nat (length (c :: s)) =? 0));
      [eexists _, _, _; reflexivity|].
    rewrite (bind_ok _ _ _ _ _ (load_head _ _ _ _ Hv)).
    assert (Hscan : exists b0,
               (if negb (c =? 32) && ((c <? 97) || (122 <? c)) then ret true
                else ident_scan (Z.to_nat (Z.of_nat (length (c :: s)))) true (Ptr b o)
                                (Z.of_nat (length (c :: s)))) h = Ok (b0, h)).
    { destruct (negb (c =? 32) && ((c <? 97) || (122 <? c))); [exists true; reflexivity|].
      rewrite Nat2Z.id.
      exact (ident_scan_8bit_returns (c :: s) _ _ h rest Hv Hnz (Nat.le_refl _)). }
    destruct Hscan as [b0 Hscan]. rewrite (bind_ok _ _ _ _ _ Hscan).
    destruct b0; cbn [negb]; [|eexists _, _, _; reflexivity].
    rewrite (quote_wrap_8bit 34 (Ptr b o) (c :: s) (0 :: rest) h Hv).
    eexists _, _, _. reflexivity.
Qed.

(** So the quoting of the table name returns in force-8-bit mode whenever
    the table name is a string. *)
Lemma quote_table_name_8bit_returns opts tbl m s :
  opt_force8bit opts = true ->
  cstring tbl (m_heap m) = Ok (s, m_heap m) ->
  exists r, quote_table_name opts tbl m = Ok r.
Proof.
  intros Hf Hc. unfold quote_table_name, on_heap at 1. unfold bind at 1.
  rewrite Hc. cbn [m_heap m_errno m_out].
  unfold cstring in Hc. destruct (view tbl (m_heap m)) as [v|] eqn:Hv; [|discriminate].
  destruct (until_nul v) as [s'|] eqn:Hu; [|discriminate]. injection Hc as ->.
  destruct (until_nul_inv v s Hu) as (rest & -> & Hnz).
  destruct (quote_sql_identifier_8bit_returns tbl s rest (m_heap m) Hv Hnz)
    as (p & n & h' & Hq).
  unfold bind, on_heap. cbn [m_heap m_errno m_out]. rewrite Hf, Hq.
  eexists. reflexivity.
Qed.

(** The setup for the top and bottom commands up to the argument check. *)
Lemma export_setup_top_bottom opts scrdesc desc cursor_row cursor_column rows
    percent tbl cmd fmt m :
  cmd = cmd_CopyTopLines \/ cmd = cmd_CopyBottomLines ->
  (INSERT_FORMAT_TYPE fmt = true -> exists r, quote_table_name opts tbl m = Ok r) ->
  exists quoted m',
    m_out m' = m_out m
    /\ export_setup opts scrdesc desc cursor_row cursor_column rows percent tbl cmd fmt m
       = if (rows <? 0) || SFltb percent (S754_zero false) then Ok (None, m')
         else
           let '(lo, hi) := top_bottom_range desc cmd rows percent (first_data_row desc) in
           Ok (Some (mkExportPlan lo hi true false
                       (negb (negb (format_eqb fmt CLIPBOARD_FORMAT_TEXT)))
                       (negb (negb (format_eqb fmt CLIPBOARD_FORMAT_TEXT))),
                     mkExportState fmt (-1) (-1) false quoted (desc_columns desc)
                       (opt_force8bit opts) (opt_empty_string_is_null opts) 0 None),
               m').
Proof.
  intros Hcmd Hq. unfold export_setup.
  assert (Hname : exists quoted m',
             m_out m' = m_out m
             /\ (if INSERT_FORMAT_TYPE fmt then quote_table_name opts tbl else ret NULL) m
                = Ok (quoted, m')).
  { destruct (INSERT_FORMAT_TYPE fmt).
    - destruct (Hq eq_refl) as [[p m'] Hr]. exists p, m'.
      split; [exact (quote_table_name_out _ _ _ _ _ Hr)|exact Hr].
    - exists NULL, m. split; reflexivity. }
  destruct Hname as (quoted & m' & Hout & Hname).
  exists quoted, m'. split; [exact Hout|].
  destruct Hcmd as [-> | ->]; cbn [cmd_eqb andb orb negb];
    rewrite andb_diag, (bind_ok _ _ _ _ _ Hname); unfold bind at 1; unfold ret at 1;
    (destruct ((rows <? 0) || SFltb percent (S754_zero false)); [reflexivity|]);
    destruct (top_bottom_range _ _ _ _ _); reflexivity.
Qed.

Lemma filter_and_le {A : Type} (p q : A -> bool) (l : list A) :
  (length (List.filter (fun x => p x && q x) l) <= length (List.filter p l))%nat.
Proof.
  induction l as [|x l IH]; simpl; [lia|].
  destruct (p x); simpl; [destruct (q x); simpl; lia|exact IH].
Qed.

(** For the top-lines command the row loop keeps a data row exactly when
    it lies in the row range. *)
Lemma select_row_top opts desc plan cursor_row l m :
  is_data_row desc l = true ->
  select_row opts desc plan cmd_CopyTopLines cursor_row l m
  = Ok ((if in_row_range plan l then Some false else None), m).
Proof.
  unfold is_data_row, in_row_range, select_row. intros ->.
  cbn [cmd_eqb andb negb].
  destruct (Z.ltb_spec (rn l) (min_row plan)), (Z.ltb_spec (max_row plan) (rn l)),
    (Z.leb_spec (min_row plan) (rn l)), (Z.leb_spec (rn l) (max_row plan));
    try lia; reflexivity.
Qed.

End ExportFacts.

(** C5.  For [cmd_CopyTopLines] and [cmd_CopyBottomLines] with a negative
    [rows] or a negative [percent], [export_data] returns [false] and the
    output stream is as it was: no byte was written.  The only step before
    the check that touches memory is the quoting of the table name for the
    SQL INSERT formats, which is assumed to return. *)
Theorem C5_negative_arguments_fail_before_output `{Collaborators}
    (opts : Options) (scrdesc : ScrDesc) (desc : DataDesc)
    (cursor_row cursor_column rows : Z) (percent : double) (tbl : cptr)
    (cmd : PspgCommand) (fmt : ClipboardFormat) (m : machine) :
  cmd = cmd_CopyTopLines \/ cmd = cmd_CopyBottomLines ->
  rows < 0 \/ SFltb percent (S754_zero false) = true ->
  (INSERT_FORMAT_TYPE fmt = true -> exists r, quote_table_name opts tbl m = Ok r) ->
  exists m',
    export_data opts scrdesc desc cursor_row cursor_column rows percent tbl cmd fmt m
    = Ok (false, m')
    /\ m_out m' = m_out m.
Proof.
  intros Hcmd Hneg Hq.
  destruct (export_setup_top_bottom opts scrdesc desc cursor_row cursor_column rows
              percent tbl cmd fmt m Hcmd Hq) as (quoted & m' & Hout & Hs).
  replace ((rows <? 0) || SFltb percent (S754_zero false)) with true in Hs.
  - exists m'. split; [|exact Hout].
    unfold export_data. rewrite (bind_ok _ _ _ _ _ Hs). reflexivity.
  - symmetry. apply orb_true_iff.
    destruct Hneg as [Hr|Hp]; [left; apply Z.ltb_lt; exact Hr|right; exact Hp].
Qed.

Lemma C5_witness :
  let h := [cstr "dddIddd"; cstr " a | b "; cstr " 1 | 2 "; cstr "Orders"] in
  let desc := mkDataDesc 1 1 1 2 [(0, 3); (3, 7)] (Ptr 0 0) (-1) (-1) (-1) 1 (-1)
                [mkLine (Ptr 1 0) None 0; mkLine (Ptr 2 0) None 1] in
  let opts := mkOptions true false false false in
  let m := mkMachine h 0 (mkFILE [] None) in
  exists m',
    export_data (H := example_collaborators) opts (mkScrDesc (-1) 0 (-1) 0) desc
      0 1 (-1) (S754_zero false) (Ptr 3 0) cmd_CopyTopLines CLIPBOARD_FORMAT_INSERT m
    = Ok (false, m')
    /\ m_out m' = mkFILE [] None.
Proof.
  intros h desc opts m.
  apply (C5_negative_arguments_fail_before_output (H := example_collaborators)).
  - left. reflexivity.
  - left. lia.
  - intros _. eexists. vm_compute. reflexivity.
Defined.

(** ** Counting the rows of a range *)

Lemma count_seqZ_between lo hi : forall (n : nat) start,
  length (List.filter (fun i => (lo <=? i) && (i <=? hi)) (seqZ start (Z.of_nat n)))
  = Z.to_nat (Z.max 0 (Z.min hi (start + Z.of_nat n - 1) - Z.max lo start + 1)).
Proof.
  induction n as [|n IH]; intros start.
  - rewrite seqZ_nil by lia. simpl. lia.
  - rewrite seqZ_cons by lia.
    replace (Z.pred (Z.of_nat (S n))) with (Z.of_nat n) by lia.
    cbn [List.filter]. specialize (IH (Z.succ start)).
    destruct (Z.leb_spec lo start), (Z.leb_spec start hi); cbn [andb length];
      rewrite IH; lia.
Qed.

Lemma filter_map_length {A B : Type} (f : A -> B) (p : B -> bool) (l : list A) :
  length (List.filter (fun x => p (f x)) l) = length (List.filter p (map f l)).
Proof.
  induction l as [|x l IH]; simpl; [reflexivity|].
  destruct (p (f x)); simpl; rewrite IH; reflexivity.
Qed.

Lemma filter_ext_length {A : Type} (p q : A -> bool) (l : list A) :
  (forall x, p x = q x) ->
  length (List.filter p l) = length (List.filter q l).
Proof.
  intros Hpq. induction l as [|x l IH]; simpl; [reflexivity|].
  rewrite Hpq. destruct (q x); simpl; rewrite IH; reflexivity.
Qed.

(** When the line source numbers its rows [0 .. last_row], the rows a range
    selects are the integers of an interval. *)
Lemma rows_selected_numbered desc plan :
  map rn (lines desc) = seqZ 0 (last_row desc + 1) ->
  0 <= last_row desc + 1 ->
  rows_selected desc plan
  = Z.to_nat (Z.max 0 (Z.min (Z.min (last_data_row desc) (max_row plan)) (last_row desc)
                       - Z.max (Z.max (first_data_row desc) (min_row plan)) 0 + 1)).
Proof.
  intros Hrn Hlast. unfold rows_selected, is_data_row, in_row_range.
  rewrite (filter_ext_length _
             (fun l => (fun i => (Z.max (first_data_row desc) (min_row plan) <=? i)
                                 && (i <=? Z.min (last_data_row desc) (max_row plan)))
                         (rn l))).
  - rewrite (filter_map_length rn
               (fun i => (Z.max (first_data_row desc) (min_row plan) <=? i)
                         && (i <=? Z.min (last_data_row desc) (max_row plan)))), Hrn.
    rewrite <- (Z2Nat.id (last_row desc + 1)) by lia.
    rewrite count_seqZ_between. rewrite Z2Nat.id by lia. f_equal. lia.
  - intros l.
    destruct (Z.leb_spec (first_data_row desc) (rn l)),
      (Z.leb_spec (rn l) (last_data_row desc)),
      (Z.leb_spec (min_row plan) (rn l)), (Z.leb_spec (rn l) (max_row plan)),
      (Z.leb_spec (Z.max (first_data_row desc) (min_row plan)) (rn l)),
      (Z.leb_spec (rn l) (Z.min (last_data_row desc) (max_row plan)));
      try reflexivity; lia.
Qed.

Lemma int32_small z : INT_MIN <= z <= INT_MAX -> int32 z = z.
Proof.
  unfold int32, INT_MIN, INT_MAX. intros Hz.
  rewrite Z.mod_small by lia. lia.
Qed.

Lemma int_of_double_range d : INT_MIN <= int_of_double d <= INT_MAX.
Proof.
  unfold int_of_double.
  destruct d as [s| | |s m e]; try (unfold INT_MIN, INT_MAX; lia).
  destruct ((INT_MIN <=? _) && (_ <=? INT_MAX)) eqn:E.
  - apply andb_true_iff in E as [E1 E2]. apply Z.leb_le in E1. apply Z.leb_le in E2. lia.
  - unfold INT_MIN, INT_MAX. lia.
Qed.

(** Top lines of a table whose rows are numbered [0 .. last_row], by count
    or by percentage: with [r] the row count after the percentage was
    applied, the range selects [r] data rows, or all of them when there are
    fewer. *)
Lemma top_rows_selected_exact desc rows percent plan :
  map rn (lines desc) = seqZ 0 (last_row desc + 1) ->
  0 <= first_data_row desc -> first_data_row desc <= last_data_row desc + 1 ->
  last_data_row desc <= last_row desc -> last_row desc < INT_MAX ->
  0 <= rows_of_percent desc rows percent ->
  first_data_row desc + rows_of_percent desc rows percent <= INT_MAX ->
  (min_row plan, max_row plan)
  = top_bottom_range desc cmd_CopyTopLines rows percent (first_data_row desc) ->
  rows_selected desc plan
  = Z.to_nat (Z.min (rows_of_percent desc rows percent)
                    (last_data_row desc - first_data_row desc + 1)).
Proof.
  intros Hrn Hf Hfl Hl Hmax Hrows Hfit Hplan.
  unfold top_bottom_range in Hplan. cbn [cmd_eqb] in Hplan. cbv iota in Hplan.
  unfold INT_MAX in *.
  rewrite !int32_small in Hplan by (unfold INT_MIN, INT_MAX; lia).
  injection Hplan as Hlo Hhi.
  rewrite (rows_selected_numbered desc plan Hrn) by lia.
  rewrite Hlo, Hhi. f_equal. lia.
Qed.

(** 150 percent of four rows asks for six and gets the four there are. *)
Example top_150_percent_of_four_rows :
  let desc := mkDataDesc 0 3 3 1 [(0, 3)] NULL (-1) (-1) (-1) (-1) (-1)
                [mkLine NULL None 0; mkLine NULL None 1;
                 mkLine NULL None 2; mkLine NULL None 3] in
  rows_of_percent desc 0 (double_of_int 150) = 6
  /\ rows_selected desc (mkExportPlan 0 5 true false false false) = 4%nat.
Proof. split; reflexivity. Qed.

(** C9.  For [cmd_CopyTopLines] with a percent argument that is not
    negative (and a [rows] argument that passes the same check),
    [export_data] computes a row range, the row loop keeps exactly the data
    rows inside it, and their number lies between 0 and the number of data
    rows, whatever the percentage: beyond 100 the range only runs past the
    last data row. *)
Theorem C9_top_percent_selects_within_data_rows `{Collaborators}
    (opts : Options) (scrdesc : ScrDesc) (desc : DataDesc)
    (cursor_row cursor_column rows : Z) (percent : double) (tbl : cptr)
    (fmt : ClipboardFormat) (m : machine) :
  0 <= rows ->
  SFltb percent (S754_zero false) = false ->
  (INSERT_FORMAT_TYPE fmt = true -> exists r, quote_table_name opts tbl m = Ok r) ->
  exists plan st m',
    export_setup opts scrdesc desc cursor_row cursor_column rows percent tbl
                 cmd_CopyTopLines fmt m
    = Ok (Some (plan, st), m')
    /\ (min_row plan, max_row plan)
       = top_bottom_range desc cmd_CopyTopLines rows percent (first_data_row desc)
    /\ (forall l m0,
          is_data_row desc l = true ->
          select_row opts desc plan cmd_CopyTopLines cursor_row l m0
          = Ok ((if in_row_range plan l then Some false else None), m0))
    /\ (0 <= rows_selected desc plan <= total_data_rows desc)%nat.
Proof.
  intros Hrows Hpct Hq.
  destruct (export_setup_top_bottom opts scrdesc desc cursor_row cursor_column rows
              percent tbl cmd_CopyTopLines fmt m (or_introl eq_refl) Hq)
    as (quoted & m' & _ & Hs).
  replace ((rows <? 0) || SFltb percent (S754_zero false)) with false in Hs
    by (symmetry; apply orb_false_iff; split; [apply Z.ltb_ge; exact Hrows|exact Hpct]).
  destruct (top_bottom_range desc cmd_CopyTopLines rows percent (first_data_row desc))
    as [lo hi] eqn:Hrange.
  eexists _, _, m'. split; [exact Hs|]. split; [reflexivity|]. split.
  - intros l m0. apply select_row_top.
  - split; [lia|]. apply filter_and_le.
Qed.

Lemma C9_witness :
  let h := [cstr "ddd"; cstr " 1 "; cstr " 2 "; cstr " 3 "; cstr " 4 "] in
  let desc := mkDataDesc 0 3 3 1 [(0, 3)] (Ptr 0 0) (-1) (-1) (-1) (-1) (-1)
                [mkLine (Ptr 1 0) None 0; mkLine (Ptr 2 0) None 1;
                 mkLine (Ptr 3 0) None 2; mkLine (Ptr 4 0) None 3] in
  let m := mkMachine h 0 (mkFILE [] None) in
  let percent150 := double_of_int 150 in
  exists plan st m',
    export_setup (H := example_collaborators) (mkOptions true false false false)
      (mkScrDesc (-1) 0 (-1) 0) desc 0 1 0 percent150 NULL cmd_CopyTopLines
      CLIPBOARD_FORMAT_CSV m
    = Ok (Some (plan, st), m')
    /\ (min_row plan, max_row plan) = (0, 5)
    /\ rows_selected desc plan = 4%nat
    /\ total_data_rows desc = 4%nat.
Proof.
  intros h desc m percent150.
  destruct (C9_top_percent_selects_within_data_rows (H := example_collaborators)
              (mkOptions true false false false) (mkScrDesc (-1) 0 (-1) 0) desc
              0 1 0 percent150 NULL CLIPBOARD_FORMAT_CSV m)
    as (plan & st & m' & Hs & Hr & _ & _).
  - lia.
  - reflexivity.
  - discriminate.
  - exists plan, st, m'. split; [exact Hs|].
    assert (Hr' : (min_row plan, max_row plan) = (0, 5)) by (rewrite Hr; reflexivity).
    split; [exact Hr'|].
    injection Hr' as Hlo Hhi. unfold rows_selected, in_row_range.
    rewrite Hlo, Hhi. split; reflexivity.
Defined.

(** Top 50 percent of seven data rows: three rows and a half, rounded down. *)
Example top_half_of_seven_rows :
  let desc := mkDataDesc 2 8 9 1 [] NULL 0 9 1 2 (-1) [] in
  top_bottom_range desc cmd_CopyTopLines 0 (double_of_int 50) 2 = (2, 4)
  /\ top_bottom_range desc cmd_CopyBottomLines 0 (double_of_int 50) 2 = (6, 8).
Proof. split; reflexivity. Qed.

(** ** The column-name read at the end of a row *)

Section ColumnComment.
Context `{Collaborators}.

(** In the commented SQL INSERT format the terminator of a data row is the
    call of [emit_column_comment]. *)
Lemma process_item_terminator_commented st field size xpos m :
  format st = CLIPBOARD_FORMAT_INSERT_WITH_COMMENTS ->
  process_item st 78 field size xpos false m
  = (emit_column_comment st (bytes_of_string ");") ;; finish st)
      (mkMachine (m_heap m) 0 (m_out m)).
Proof.
  intros Hf. unfold process_item, process_item_insert. rewrite Hf. reflexivity.
Qed.

Lemma cstring_heap p h s h' : cstring p h = Ok (s, h') -> h' = h.
Proof.
  unfold cstring. destruct (view p h) as [v|]; [|discriminate].
  destruct (until_nul v); [|discriminate]. intros [= _ <-]. reflexivity.
Qed.

Lemma write_out_ok bs m : exists m', write_out bs m = Ok (tt, m').
Proof.
  unfold write_out. destruct (f_room (m_out m)) as [room|]; [|eexists; reflexivity].
  destruct (Nat.leb (length bs) room); eexists; reflexivity.
Qed.

Lemma emit_column_comment_ok st lead names p s m :
  colnames st = Some names ->
  lookupZ names (colno st - 1) = Some p ->
  cstring p (m_heap m) = Ok (s, m_heap m) ->
  emit_column_comment st lead m
  = write_out (lead ++ [9; 9] ++ bytes_of_string " -- " ++ decimal (colno st)
               ++ bytes_of_string ". " ++ s ++ [10]) m.
Proof.
  intros Hn Hl Hc. unfold emit_column_comment, colname_at. rewrite Hn, Hl.
  unfold bind, lift_res, on_heap. rewrite Hc. destruct m; reflexivity.
Qed.

Lemma lookupZ_Some_bounds {A : Type} (l : list A) i x :
  lookupZ l i = Some x -> 0 <= i < Z.of_nat (length l).
Proof.
  unfold lookupZ. destruct (Z.ltb_spec i 0); [discriminate|].
  intros Hl. apply lookup_lt_Some in Hl. lia.
Qed.

End ColumnComment.

(** Both scenarios run as described. *)
Example terminator_after_all_tokens_skipped `{Collaborators} :
  scenario_all_tokens_skipped.
Proof. unfold scenario_all_tokens_skipped. repeat split; reflexivity. Qed.

Example terminator_without_header_row `{Collaborators} : scenario_no_header_row.
Proof. unfold scenario_no_header_row. repeat split; reflexivity. Qed.

(** C10.  In the commented SQL INSERT format the terminator token of a
    non-header row reads [colnames[colno - 1]] and prints it.  The call is
    defined exactly when the column-name array exists, [colno - 1] indexes
    it, and the entry is a string; so it is defined only if
    [1 <= colno <= length of the array]; without the array the read goes
    through a null pointer, and with [colno = 0] it is the element before
    the array.  Both ways around the precondition occur in runs of
    [export_data]: a row all of whose data tokens the column range skipped
    (with [colno = 0] and no array), and an export without a header row
    (with no array). *)
Theorem C10_terminator_reads_previous_column_name `{Collaborators}
    (st : ExportState) (field : cptr) (size xpos : Z) (m : machine) :
  format st = CLIPBOARD_FORMAT_INSERT_WITH_COMMENTS ->
  ((exists r, process_item st 78 field size xpos false m = Ok r)
   <-> (exists names p s,
          colnames st = Some names
          /\ lookupZ names (colno st - 1) = Some p
          /\ cstring p (m_heap m) = Ok (s, m_heap m)))
  /\ ((exists r, process_item st 78 field size xpos false m = Ok r) ->
      exists names, colnames st = Some names
                    /\ 1 <= colno st <= Z.of_nat (length names))
  /\ (colnames st = None ->
      process_item st 78 field size xpos false m = Fault NullDeref)
  /\ (forall names, colnames st = Some names -> colno st = 0 ->
      process_item st 78 field size xpos false m = Fault OutOfBounds)
  /\ scenario_all_tokens_skipped
  /\ scenario_no_header_row.
Proof.
  intros Hf. rewrite (process_item_terminator_commented st field size xpos m Hf).
  assert (Hiff : (exists r, (emit_column_comment st (bytes_of_string ");") ;; finish st)
                              (mkMachine (m_heap m) 0 (m_out m)) = Ok r)
                 <-> (exists names p s,
                        colnames st = Some names
                        /\ lookupZ names (colno st - 1) = Some p
                        /\ cstring p (m_heap m) = Ok (s, m_heap m))).
  { unfold emit_column_comment, colname_at. split.
    - intros [r Hr]. bind_inv Hr. bind_inv Hm. apply lift_res_inv in Hm0 as [Hn ->].
      bind_inv Hm. apply on_heap_inv in Hm0 as (h' & Hc & ->). simpl in Hc.
      destruct (colnames st) as [names|]; [|discriminate].
      destruct (lookupZ names (colno st - 1)) as [p|] eqn:Hl; [|discriminate].
      injection Hn as <-. exists names, p. eexists. split; [reflexivity|].
      split; [exact Hl|].
      rewrite Hc. f_equal. f_equal. exact (cstring_heap _ _ _ _ Hc).
    - intros (names & p & s & Hn & Hl & Hc).
      set (m0 := mkMachine (m_heap m) 0 (m_out m)).
      pose proof (emit_column_comment_ok st (bytes_of_string ");") names p s m0
                    Hn Hl Hc) as He.
      destruct (write_out_ok
                  (bytes_of_string ");" ++ [9; 9] ++ bytes_of_string " -- "
                   ++ decimal (colno st) ++ bytes_of_string ". " ++ s ++ [10]) m0)
        as [m1 Hw].
      rewrite Hw in He. fold emit_column_comment.
      change (exists r, bind (emit_column_comment st (bytes_of_string ");"))
                             (fun _ => finish st) m0 = Ok r).
      rewrite (bind_ok _ _ _ _ _ He). eexists. reflexivity. }
  split; [exact Hiff|]. split; [|split; [|split; [|split]]];
    [| | |exact terminator_after_all_tokens_skipped|exact terminator_without_header_row].
  - intros Hr. apply Hiff in Hr as (names & p & s & Hn & Hl & _).
    exists names. split; [exact Hn|]. apply lookupZ_Some_bounds in Hl. lia.
  - intros Hn. unfold emit_column_comment, colname_at. rewrite Hn. reflexivity.
  - intros names Hn H0. unfold emit_column_comment, colname_at. rewrite Hn, H0.
    reflexivity.
Qed.

Lemma C10_witness :
  let h := [cstr "a"; cstr "b"] in
  let m := mkMachine h 0 (mkFILE [] None) in
  let st := mkExportState CLIPBOARD_FORMAT_INSERT_WITH_COMMENTS (-1) (-1) false NULL
              2 true false 2 (Some [Ptr 0 0; Ptr 1 0]) in
  let item st' := process_item (H := example_collaborators) st' 78 NULL 0 (-1) false m in
  format st = CLIPBOARD_FORMAT_INSERT_WITH_COMMENTS
  /\ (exists r, item st = Ok r)
  /\ (exists names, colnames st = Some names /\ 1 <= colno st <= Z.of_nat (length names))
  /\ item (set_colnames st None) = Fault NullDeref
  /\ item (set_colno st 0) = Fault OutOfBounds.
Proof.
  intros h m st item. subst item.
  assert (Hf : format st = CLIPBOARD_FORMAT_INSERT_WITH_COMMENTS) by reflexivity.
  assert (Hr : exists r, process_item (H := example_collaborators) st 78 NULL 0 (-1) false m
                         = Ok r) by (eexists; reflexivity).
  split; [exact Hf|]. split; [exact Hr|]. split; [|split].
  - exact (proj1 (proj2 (C10_terminator_reads_previous_column_name
                           (H := example_collaborators) st NULL 0 (-1) m Hf)) Hr).
  - apply (proj1 (proj2 (proj2 (C10_terminator_reads_previous_column_name
                                  (H := example_collaborators) (set_colnames st None)
                                  NULL 0 (-1) m eq_refl))));
      reflexivity.
  - apply (proj1 (proj2 (proj2 (proj2 (C10_terminator_reads_previous_column_name
                                         (H := example_collaborators) (set_colno st 0)
                                         NULL 0 (-1) m eq_refl))))
             [Ptr 0 0; Ptr 1 0]);
      reflexivity.
Defined.

(** * Further properties *)

(** ** [trim_str] *)

Section TrimFacts.
Context `{Collaborators}.

Lemma view_blanks_skip p h a v :
  view p h = Ok (blanks a ++ v) -> view (ptr_add p (Z.of_nat a)) h = Ok v.
Proof.
  intros Hv. rewrite (view_add _ _ _ _ Hv).
  - rewrite Nat2Z.id. unfold blanks.
    rewrite drop_app_length' by (rewrite length_replicate; reflexivity). reflexivity.
  - rewrite length_app. unfold blanks. rewrite length_replicate. lia.
Qed.

(** The first loop runs over the leading blanks. *)
Lemma trim_leading_skips a : forall fuel str size h v,
  view str h = Ok (blanks a ++ v) ->
  (a <= fuel)%nat -> Z.of_nat a <= size ->
  trim_leading fuel str size h
  = trim_leading (fuel - a) (ptr_add str (Z.of_nat a)) (size - Z.of_nat a) h.
Proof.
  induction a as [|a IH]; intros fuel str size h v Hv Hfuel Hsize.
  - rewrite ptr_add_0, Nat.sub_0_r, Z.sub_0_r. reflexivity.
  - destruct fuel as [|fuel]; [lia|].
    cbn [trim_leading]. change (blanks (S a) ++ v) with (32 :: blanks a ++ v) in Hv.
    rewrite (bind_ok _ _ _ _ _ (load_head _ _ _ _ Hv)).
    replace (0 <? size) with true by (symmetry; apply Z.ltb_lt; lia).
    cbn [Z.eqb Pos.eqb andb].
    rewrite (IH fuel (ptr_add str 1) (size - 1) h v (view_next _ _ _ _ Hv))
      by lia.
    rewrite ptr_add_add. cbn [Nat.sub].
    replace (1 + Z.of_nat a) with (Z.of_nat (S a)) by lia.
    replace (size - 1 - Z.of_nat a) with (size - Z.of_nat (S a)) by lia.
    reflexivity.
Qed.

Lemma trim_leading_stops fuel str size h c v :
  view str h = Ok (c :: v) -> c <> 32 \/ size <= 0 ->
  trim_leading fuel str size h = Ok ((str, size), h).
Proof.
  intros Hv Hstop.
  assert (Hc : (c =? 32) && (0 <? size) = false).
  { destruct Hstop as [Hc|Hs].
    - replace (c =? 32) with false by (symmetry; apply Z.eqb_neq; exact Hc). reflexivity.
    - replace (0 <? size) with false by (symmetry; apply Z.ltb_ge; exact Hs).
      apply andb_false_r. }
  destruct fuel; simpl; rewrite (bind_ok _ _ _ _ _ (load_head _ _ _ _ Hv)), Hc;
    reflexivity.
Qed.

(** The second loop in one-byte steps. *)
Lemma trim_trailing_8bit xs : forall fuel p after h rest,
  view p h = Ok (xs ++ rest) ->
  (length xs <= fuel)%nat ->
  trim_trailing fuel true p (Z.of_nat (length xs)) after h
  = Ok (after_last_nonblank p after xs, h).
Proof.
  induction xs as [|c xs IH]; intros fuel p after h rest Hv Hfuel.
  - destruct fuel; reflexivity.
  - destruct fuel as [|fuel]; [simpl in Hfuel; lia|].
    cbn [trim_trailing].
    replace (Z.of_nat (length (c :: xs)) <=? 0) with false
      by (symmetry; apply Z.leb_gt; simpl; lia).
    rewrite (bind_ok _ _ _ _ _ (load_head _ _ _ _ Hv)).
    replace (Z.of_nat (length (c :: xs)) - 1) with (Z.of_nat (length xs))
      by (simpl; lia).
    rewrite (IH fuel (ptr_add p 1) _ h rest (view_next _ _ _ _ Hv))
      by (simpl in Hfuel; lia).
    cbn [after_last_nonblank]. destruct (c =? 32); reflexivity.
Qed.

Lemma after_last_nonblank_app xs : forall p after ys,
  after_last_nonblank p after (xs ++ ys)
  = after_last_nonblank (ptr_add p (Z.of_nat (length xs)))
      (after_last_nonblank p after xs) ys.
Proof.
  induction xs as [|c xs IH]; intros p after ys.
  - simpl. rewrite ptr_add_0. reflexivity.
  - cbn [app after_last_nonblank length]. rewrite IH, ptr_add_add.
    replace (1 + Z.of_nat (length xs)) with (Z.of_nat (S (length xs))) by lia.
    reflexivity.
Qed.

Lemma after_last_nonblank_blanks b : forall p after,
  after_last_nonblank p after (blanks b) = after.
Proof. induction b as [|b IH]; intros p after; simpl; [reflexivity|apply IH]. Qed.

Lemma after_last_nonblank_core core p after :
  core <> [] -> List.last core 32 <> 32 ->
  after_last_nonblank p after core = ptr_add p (Z.of_nat (length core)).
Proof.
  intros Hne Hlast.
  destruct (exists_last Hne) as (core' & c & ->).
  rewrite last_last in Hlast.
  rewrite after_last_nonblank_app. cbn [after_last_nonblank].
  replace (c =? 32) with false by (symmetry; apply Z.eqb_neq; exact Hlast).
  rewrite ptr_add_add, length_app. simpl. f_equal. lia.
Qed.

(** [trim_str] on blanks, a core that starts and ends with another byte,
    and blanks again. *)
Lemma trim_str_8bit_core str a core b rest h :
  view str h = Ok (blanks a ++ core ++ blanks b ++ rest) ->
  core <> [] -> hd 32 core <> 32 -> List.last core 32 <> 32 ->
  trim_str str (Z.of_nat (a + length core + b)) true h
  = Ok ((ptr_add str (Z.of_nat a), Z.of_nat (length core)), h).
Proof.
  intros Hv Hne Hhd Hlast. unfold trim_str.
  rewrite Nat2Z.id.
  pose proof (view_blanks_skip _ _ _ _ Hv) as Hv1.
  assert (Hlead : trim_leading (a + length core + b) str
                    (Z.of_nat (a + length core + b)) h
                  = Ok ((ptr_add str (Z.of_nat a), Z.of_nat (length core + b)), h)).
  { rewrite (trim_leading_skips a _ _ _ _ _ Hv) by lia.
    destruct core as [|c core]; [congruence|].
    replace (Z.of_nat (a + length (c :: core) + b) - Z.of_nat a)
      with (Z.of_nat (length (c :: core) + b)) by lia.
    apply (trim_leading_stops _ _ _ _ c (core ++ blanks b ++ rest) Hv1).
    left. exact Hhd. }
  rewrite (bind_ok _ _ _ _ _ Hlead).
  replace (0 <? Z.of_nat (length core + b)) with true
    by (symmetry; apply Z.ltb_lt; destruct core; [congruence|simpl; lia]).
  rewrite Nat2Z.id.
  assert (Htrail : trim_trailing (length core + b) true (ptr_add str (Z.of_nat a))
                     (Z.of_nat (length core + b)) NULL h
                   = Ok (ptr_add (ptr_add str (Z.of_nat a)) (Z.of_nat (length core)), h)).
  { replace (length core + b)%nat with (length (core ++ blanks b))
      by (rewrite length_app; unfold blanks; rewrite length_replicate; reflexivity).
    rewrite (trim_trailing_8bit (core ++ blanks b) _ _ NULL h rest)
      by (rewrite <- ?app_assoc; auto).
    rewrite after_last_nonblank_app, after_last_nonblank_blanks.
    rewrite (after_last_nonblank_core core _ _ Hne Hlast). reflexivity. }
  rewrite (bind_ok _ _ _ _ _ Htrail).
  destruct str as [|blk off]; [discriminate|].
  unfold bind, lift_res, ptr_diff, ret. simpl. rewrite Nat.eqb_refl.
  repeat f_equal. lia.
Qed.

(** A field of blanks gives the null pointer, when the byte after the field
    can be read. *)
Lemma trim_str_blank_field str a c rest f8 h :
  view str h = Ok (blanks a ++ c :: rest) ->
  trim_str str (Z.of_nat a) f8 h = Ok ((NULL, 0), h).
Proof.
  intros Hv. unfold trim_str. rewrite Nat2Z.id.
  assert (Hlead : trim_leading a str (Z.of_nat a) h
                  = Ok ((ptr_add str (Z.of_nat a), 0), h)).
  { rewrite (trim_leading_skips a _ _ _ _ _ Hv) by lia.
    rewrite Z.sub_diag.
    apply (trim_leading_stops _ _ 0 _ c rest (view_blanks_skip _ _ _ _ Hv)).
    right. lia. }
  rewrite (bind_ok _ _ _ _ _ Hlead). reflexivity.
Qed.

Lemma trim_str_blank_field_at_end str a f8 h :
  view str h = Ok (blanks a) ->
  trim_str str (Z.of_nat a) f8 h = Fault OutOfBounds.
Proof.
  intros Hv. unfold trim_str. rewrite Nat2Z.id.
  rewrite <- (app_nil_r (blanks a)) in Hv.
  pose proof (view_blanks_skip _ _ _ _ Hv) as Hv1.
  assert (Hlead : trim_leading a str (Z.of_nat a) h = Fault OutOfBounds).
  { rewrite (trim_leading_skips a _ _ _ _ _ Hv) by lia.
    destruct (a - a)%nat; simpl; unfold bind, load; rewrite Hv1; reflexivity. }
  unfold bind at 1. rewrite Hlead. reflexivity.
Qed.

(** Every list of bytes is blanks, or blanks around a core. *)
Lemma blanks_split bs :
  (exists a, bs = blanks a)
  \/ (exists a core b, bs = blanks a ++ core ++ blanks b
                       /\ core <> [] /\ hd 32 core <> 32 /\ List.last core 32 <> 32).
Proof.
  induction bs as [|c bs IH].
  - left. exists 0%nat. reflexivity.
  - destruct (Z.eq_dec c 32) as [->|Hc].
    + destruct IH as [[a ->]|(a & core & b & -> & Hne & Hhd & Hlast)].
      * left. exists (S a). reflexivity.
      * right. exists (S a), core, b. auto.
    + right. destruct IH as [[b ->]|(a & core & b & -> & Hne & Hhd & Hlast)].
      * exists 0%nat, [c], b. simpl. repeat split; auto; discriminate.
      * exists 0%nat, (c :: blanks a ++ core), b.
        split; [simpl; rewrite <- app_assoc; reflexivity|].
        split; [discriminate|]. split; [exact Hc|].
        destruct (exists_last Hne) as (core' & z & ->).
        rewrite List.last_last in Hlast.
        replace (c :: blanks a ++ core' ++ [z]) with ((c :: blanks a ++ core') ++ [z])
          by (simpl; rewrite <- app_assoc; reflexivity).
        rewrite List.last_last. exact Hlast.
Qed.

(** X1.  In force-8-bit mode [trim_str] removes the blanks around a field
    and nothing else: for a field made of [a] blanks, a core that neither
    starts nor ends with a blank (blanks inside it are allowed) and [b]
    blanks, the result points [a] bytes after the start of the field, the
    new size is the length of the core, the bytes in that range are the
    core, and memory is not changed. *)
Theorem trim_str_strips_outer_blanks str a core b rest h :
  view str h = Ok (blanks a ++ core ++ blanks b ++ rest) ->
  core <> [] -> hd 32 core <> 32 -> List.last core 32 <> 32 ->
  trim_str str (Z.of_nat (a + length core + b)) true h
  = Ok ((ptr_add str (Z.of_nat a), Z.of_nat (length core)), h)
  /\ load_bytes (ptr_add str (Z.of_nat a)) (Z.of_nat (length core)) h = Ok (core, h).
Proof.
  intros Hv Hne Hhd Hlast. split.
  - apply (trim_str_8bit_core _ _ _ _ rest); assumption.
  - apply (load_bytes_take _ _ _ (blanks b ++ rest)).
    apply (view_blanks_skip _ _ _ _ Hv).
Qed.

(** X2.  A field that holds blanks only (an empty field included) is
    trimmed to the null pointer with size 0, in either mode, provided the
    byte after the field can be read: the first loop reads it before it
    tests the size.  When the field ends where its block ends, that read is
    outside the block. *)
Theorem trim_str_blank_field_is_null str a f8 h :
  (forall c rest, view str h = Ok (blanks a ++ c :: rest) ->
     trim_str str (Z.of_nat a) f8 h = Ok ((NULL, 0), h))
  /\ (view str h = Ok (blanks a) ->
      trim_str str (Z.of_nat a) f8 h = Fault OutOfBounds).
Proof.
  split.
  - intros c rest Hv. exact (trim_str_blank_field _ _ _ _ _ _ Hv).
  - intros Hv. exact (trim_str_blank_field_at_end _ _ _ _ Hv).
Qed.

(** X3.  Trimming is idempotent in force-8-bit mode: when [trim_str]
    returns a pointer other than null for a readable field, trimming the
    returned range again returns the same pointer and size.  (A null result
    cannot be trimmed again: the routine reads through the pointer.) *)
Theorem trim_str_idempotent str bs rest h p k h' :
  view str h = Ok (bs ++ rest) ->
  trim_str str (Z.of_nat (length bs)) true h = Ok ((p, k), h') ->
  p <> NULL ->
  trim_str p k true h' = Ok ((p, k), h').
Proof.
  intros Hv Hrun Hp.
  destruct (blanks_split bs) as [[a ->]|(a & core & b & -> & Hne & Hhd & Hlast)].
  - replace (length (blanks a)) with a in Hrun
      by (unfold blanks; rewrite length_replicate; reflexivity).
    destruct rest as [|c rest].
    + rewrite app_nil_r in Hv.
      rewrite (trim_str_blank_field_at_end _ _ _ _ Hv) in Hrun. discriminate.
    + rewrite (trim_str_blank_field _ _ _ _ _ _ Hv) in Hrun.
      injection Hrun as <- <- <-. congruence.
  - rewrite <- !app_assoc in Hv.
    replace (length (blanks a ++ core ++ blanks b))
      with (a + length core + b)%nat in Hrun
      by (rewrite !length_app; unfold blanks; rewrite !length_replicate; lia).
    rewrite (trim_str_8bit_core _ _ _ _ _ _ Hv Hne Hhd Hlast) in Hrun.
    injection Hrun as <- <- <-.
    pose proof (view_blanks_skip _ _ _ _ Hv) as Hv1.
    pose proof (trim_str_8bit_core (ptr_add str (Z.of_nat a)) 0 core 0
                  (blanks b ++ rest) h Hv1 Hne Hhd Hlast) as Hagain.
    rewrite ptr_add_0 in Hagain.
    replace (0 + length core + 0)%nat with (length core) in Hagain by lia.
    exact Hagain.
Qed.

End TrimFacts.

Lemma trim_str_strips_outer_blanks_witness :
  let h := [Some [32; 32; 97; 32; 98; 32; 0]] in
  view (Ptr 0 0) h = Ok (blanks 2 ++ [97; 32; 98] ++ blanks 1 ++ [0])
  /\ trim_str (H := example_collaborators) (Ptr 0 0) 6 true h = Ok ((Ptr 0 2, 3), h)
  /\ load_bytes (Ptr 0 2) 3 h = Ok ([97; 32; 98], h).
Proof.
  intros h. split; [reflexivity|].
  apply (trim_str_strips_outer_blanks (H := example_collaborators)
           (Ptr 0 0) 2 [97; 32; 98] 1 [0] h);
    [reflexivity | discriminate | discriminate | discriminate].
Defined.

Lemma trim_str_blank_field_is_null_witness :
  let h := [Some [32; 32; 32; 124; 0]; Some [32; 32]] in
  trim_str (H := example_collaborators) (Ptr 0 0) 3 false h = Ok ((NULL, 0), h)
  /\ trim_str (H := example_collaborators) (Ptr 1 0) 2 false h = Fault OutOfBounds.
Proof.
  intros h. split.
  - apply (proj1 (trim_str_blank_field_is_null (H := example_collaborators)
                    (Ptr 0 0) 3 false h) 124 [0]).
    reflexivity.
  - apply (proj2 (trim_str_blank_field_is_null (H := example_collaborators)
                    (Ptr 1 0) 2 false h)).
    reflexivity.
Defined.

Lemma trim_str_idempotent_witness :
  let h := [Some [32; 97; 32; 98; 32; 32; 0]] in
  trim_str (H := example_collaborators) (Ptr 0 0) 6 true h = Ok ((Ptr 0 1, 3), h)
  /\ trim_str (H := example_collaborators) (Ptr 0 1) 3 true h = Ok ((Ptr 0 1, 3), h).
Proof.
  intros h. split; [reflexivity|].
  apply (trim_str_idempotent (H := example_collaborators)
           (Ptr 0 0) [32; 97; 32; 98; 32; 32] [0] h (Ptr 0 1) 3 h);
    [reflexivity | reflexivity | discriminate].
Defined.

(** ** The quoting routines *)

Section QuotingFacts.
Context `{Collaborators}.

(** The scan of [quote_sql_identifier] in one-byte steps, over a string
    with a readable byte after it (its terminator, or the next byte of the
    row): that byte is read before the countdown is tested. *)
Lemma ident_scan_8bit s : forall fuel str h rest,
  view str h = Ok (s ++ rest) -> rest <> [] ->
  Forall (fun c => c <> 0) s ->
  (length s <= fuel)%nat ->
  ident_scan fuel true str (Z.of_nat (length s)) h = Ok (negb (forallb ident_char s), h).
Proof.
  induction s as [|c s IH]; intros fuel str h rest Hv Hrest Hnz Hfuel.
  - destruct rest as [|r rest]; [congruence|].
    destruct fuel; simpl;
      rewrite (bind_ok _ _ _ _ _ (load_head _ _ _ _ Hv)), orb_true_r; reflexivity.
  - destruct fuel as [|fuel]; [simpl in Hfuel; lia|].
    inversion Hnz as [|? ? Hc Hnz']; subst.
    cbn [ident_scan]. rewrite (bind_ok _ _ _ _ _ (load_head _ _ _ _ Hv)).
    replace (c =? 0) with false by (symmetry; apply Z.eqb_neq; exact Hc).
    replace (Z.of_nat (length (c :: s)) <=? 0) with false
      by (symmetry; apply Z.leb_gt; simpl; lia).
    cbn [orb forallb]. destruct (ident_char c); [|reflexivity].
    cbn [negb andb].
    replace (Z.of_nat (length (c :: s)) - 1) with (Z.of_nat (length s))
      by (simpl; lia).
    apply (IH fuel _ h rest);
      [exact (view_next _ _ _ _ Hv)|exact Hrest|exact Hnz'|simpl in Hfuel; lia].
Qed.

(** [quote_sql_identifier] on a non-empty string without NUL bytes that has
    a readable byte after it. *)
Lemma quote_sql_identifier_8bit str s rest h :
  view str h = Ok (s ++ rest) -> rest <> [] ->
  Forall (fun c => c <> 0) s -> s <> [] ->
  quote_sql_identifier str (Z.of_nat (length s)) true h
  = if (hd 0 s =? 34) || plain_identifier s
    then Ok ((str, Z.of_nat (length s)), h)
    else quote_wrap 34 true str (Z.of_nat (length s)) h.
Proof.
  intros Hv Hrest Hnz Hne.
  destruct s as [|c s]; [congruence|]. cbn [hd].
  inversion Hnz as [|? ? Hc Hnz']; subst.
  unfold quote_sql_identifier.
  rewrite (bind_ok _ _ _ _ _ (load_head _ _ _ _ Hv)).
  destruct (c =? 34) eqn:Eq; [reflexivity|]. cbn [orb].
  destruct str as [|b o]; [discriminate|]. cbn [is_null].
  rewrite (bind_ok _ _ _ _ _ (load_head _ _ _ _ Hv)).
  replace (c =? 0) with false by (symmetry; apply Z.eqb_neq; exact Hc).
  replace (Z.of_nat (length (c :: s)) =? 0) with false
    by (symmetry; apply Z.eqb_neq; simpl; lia).
  cbn [orb]. rewrite (bind_ok _ _ _ _ _ (load_head _ _ _ _ Hv)).
  unfold plain_identifier.
  destruct (negb (c =? 32) && ((c <? 97) || (122 <? c))) eqn:Efirst.
  - unfold bind at 1. unfold ret at 1. cbn [negb].
    replace ((97 <=? c) && (c <=? 122)) with false; [reflexivity|].
    apply andb_true_iff in Efirst as [_ Eout]. apply orb_true_iff in Eout.
    symmetry. apply andb_false_iff. destruct Eout as [E|E]; [left|right]; lia.
  - unfold bind at 1.
    rewrite (ident_scan_8bit (c :: s) _ _ h rest Hv Hrest Hnz) by (rewrite Nat2Z.id; lia).
    destruct (forallb ident_char (c :: s)) eqn:Eall; cbn [negb].
    + cbn [forallb] in Eall. apply andb_true_iff in Eall as [Ec _].
      assert (Haz : (97 <=? c) && (c <=? 122) = true).
      { apply andb_false_iff in Efirst as [E|E].
        - apply negb_false_iff, Z.eqb_eq in E. subst c. discriminate.
        - apply orb_false_iff in E as [E1 E2]. apply andb_true_iff. split; lia. }
      rewrite Haz. reflexivity.
    + rewrite andb_false_r. reflexivity.
Qed.

(** X4.  What [quote_sql_identifier] decides, in force-8-bit mode, for a
    terminated non-empty string that does not start with a double quote:
    the string comes back as it is exactly when it starts with a lower-case
    letter and holds lower-case letters, digits and underscores only;
    every other string (one that starts with a blank included) comes back
    in a new buffer, between double quotes with every double quote inside
    doubled, and the input is not the returned pointer. *)
Theorem quote_sql_identifier_decision str s rest h :
  view str h = Ok (s ++ 0 :: rest) ->
  Forall (fun c => c <> 0) s ->
  s <> [] -> hd 0 s <> 34 ->
  if plain_identifier s
  then quote_sql_identifier str (Z.of_nat (length s)) true h
       = Ok ((str, Z.of_nat (length s)), h)
  else exists h',
       quote_sql_identifier str (Z.of_nat (length s)) true h
       = Ok ((fresh_ptr h, Z.of_nat (length s) + 2), h')
       /\ cstring (fresh_ptr h) h' = Ok (wrapped 34 s, h')
       /\ fresh_ptr h <> str.
Proof.
  intros Hv Hnz Hne Hq.
  rewrite (quote_sql_identifier_8bit str s (0 :: rest) h Hv ltac:(discriminate) Hnz Hne).
  replace (hd 0 s =? 34) with false by (symmetry; apply Z.eqb_neq; exact Hq).
  cbn [orb]. destruct (plain_identifier s); [reflexivity|].
  eexists. split; [|split].
  - apply (quote_wrap_8bit 34 str s (0 :: rest) h Hv).
  - apply cstring_wrapped; [lia|exact Hnz].
  - exact (fresh_ptr_not_valid _ _ _ Hv).
Qed.

(** X5.  The output buffer of the quoting loops is never overrun in
    force-8-bit mode, as long as its size [slen * 2 + 2 + 1] is at most
    [INT_MAX], so that the [int] expression of the source does not wrap:
    for every readable field of such a length the common quoting tail of
    [csv_format], [quote_sql_identifier] and [quote_sql_literal] returns,
    the size it asks for is the [2 * slen + 3] of the integers, the block
    it allocated has that many bytes, and the quoted text with its
    terminator takes at most that many; it takes all of them when every
    byte of the field is the quote character.  Nothing is stated for a
    longer field, where the size wraps. *)
Theorem quote_buffer_suffices q str bs rest h :
  view str h = Ok (bs ++ rest) ->
  Z.of_nat (length bs) * 2 + 2 + 1 <= INT_MAX ->
  exists blk,
    quote_wrap q true str (Z.of_nat (length bs)) h
    = Ok ((fresh_ptr h, Z.of_nat (length bs) + 2), h ++ [Some blk])
    /\ int32 (Z.of_nat (length bs) * 2 + 2 + 1) = Z.of_nat (2 * length bs + 3)
    /\ length blk = (2 * length bs + 3)%nat
    /\ take (length (wrapped q bs) + 1) blk = wrapped q bs ++ [0]
    /\ (length (wrapped q bs) + 1 <= 2 * length bs + 3)%nat
    /\ (Forall (fun c => c = q) bs -> blk = wrapped q bs ++ [0]).
Proof.
  intros Hv Hfit. eexists. split; [apply (quote_wrap_8bit q str bs rest h Hv)|].
  split.
  { unfold int32. unfold INT_MAX in Hfit. rewrite Z.mod_small by lia. lia. }
  assert (Hlen1 : length (wrapped q bs ++ [0]) = (length (wrapped q bs) + 1)%nat)
    by (rewrite length_app; reflexivity).
  assert (Hlen : (length (wrapped q bs) + 1 <= 2 * length bs + 3)%nat).
  { rewrite length_wrapped. unfold count_byte.
    pose proof (List.filter_length_le (fun c => c =? q) bs). lia. }
  unfold buffer_block.
  split; [|split; [|split]].
  - rewrite length_app, length_map, length_seqZ. lia.
  - rewrite <- Hlen1. rewrite take_app_length. reflexivity.
  - exact Hlen.
  - intros Hall.
    assert (Hfull : length (wrapped q bs ++ [0]) = (2 * length bs + 3)%nat).
    { rewrite Hlen1, length_wrapped. unfold count_byte.
      rewrite (List.forallb_filter_id (fun c => c =? q) bs).
      - lia.
      - apply forallb_forall. intros c Hin. apply Z.eqb_eq.
        exact (proj1 (List.Forall_forall _ _) Hall c Hin). }
    replace (Z.of_nat (length bs) * 2 + 2 + 1 - Z.of_nat (length (wrapped q bs ++ [0])))
      with 0 by lia.
    simpl. rewrite app_nil_r. reflexivity.
Qed.

End QuotingFacts.

Lemma quote_sql_identifier_decision_witness :
  let h := [cstr "order_id"; cstr " total"] in
  quote_sql_identifier (H := example_collaborators) (Ptr 0 0) 8 true h
  = Ok ((Ptr 0 0, 8), h)
  /\ exists h',
       quote_sql_identifier (H := example_collaborators) (Ptr 1 0) 6 true h
       = Ok ((Ptr 2 0, 8), h')
       /\ cstring (Ptr 2 0) h' = Ok ([34; 32; 116; 111; 116; 97; 108; 34], h')
       /\ Ptr 2 0 <> Ptr 1 0.
Proof.
  intros h. split.
  - apply (quote_sql_identifier_decision (H := example_collaborators)
             (Ptr 0 0) (bytes_of_string "order_id") [] h);
      [reflexivity | repeat constructor; discriminate | discriminate | discriminate].
  - apply (quote_sql_identifier_decision (H := example_collaborators)
             (Ptr 1 0) (bytes_of_string " total") [] h);
      [reflexivity | repeat constructor; discriminate | discriminate | discriminate].
Defined.

Lemma quote_buffer_suffices_witness :
  let h := [Some [39; 39; 0]] in
  exists blk,
    quote_wrap (H := example_collaborators) 39 true (Ptr 0 0) 2 h
    = Ok ((Ptr 1 0, 4), h ++ [Some blk])
    /\ int32 7 = 7
    /\ length blk = 7%nat
    /\ take 7 blk = [39; 39; 39; 39; 39; 39; 0]
    /\ (7 <= 7)%nat
    /\ (Forall (fun c => c = 39) [39; 39] -> blk = [39; 39; 39; 39; 39; 39; 0]).
Proof.
  intros h.
  apply (quote_buffer_suffices (H := example_collaborators) 39 (Ptr 0 0) [39; 39] [0] h).
  - reflexivity.
  - unfold INT_MAX. simpl. lia.
Defined.

(** ** Invariants of [process_item] *)

(** One step of reading a hypothesis about monadic code backwards. *)
Ltac step_back H :=
  match type of H with
  | bind _ _ _ = Ok _ =>
      let a := fresh "a" in
      let s := fresh "s" in
      let Hm := fresh "Hm" in
      apply bind_inv in H as (a & s & Hm & H)
  | (let (_, _) := ?x in _) _ = Ok _ => destruct x
  | (if ?c then _ else _) _ = Ok _ => destruct c eqn:?
  end.

Section ProcessItemInvariants.
Context `{Collaborators}.

Lemma same_settings_refl st : same_settings st st.
Proof. repeat split. Qed.

Lemma same_settings_set_colno st n : same_settings st (set_colno st n).
Proof. repeat split. Qed.

Lemma same_settings_ensure_colnames st : same_settings st (ensure_colnames st).
Proof. unfold ensure_colnames. destruct (colnames st); repeat split. Qed.

Lemma capture_colname_settings st field _field size m st2 m2 :
  capture_colname st field _field size m = Ok (st2, m2) ->
  same_settings st st2.
Proof.
  unfold capture_colname. intros Hc.
  bind_inv Hc. clear Hm. bind_inv Hc. apply lift_res_inv in Hm as [Hs ->].
  injection Hc as <- _.
  unfold colname_store in Hs. destruct (colnames st); [|discriminate].
  destruct (_ && _); [|discriminate]. injection Hs as <-. repeat split.
Qed.

Lemma same_settings_trans st1 st2 st3 :
  same_settings st1 st2 -> same_settings st2 st3 -> same_settings st1 st3.
Proof. unfold same_settings. intuition congruence. Qed.

(** What a call of [process_item] may change in the export state. *)
Lemma process_item_settings st typ field size xpos is_colname m b st' m' :
  process_item st typ field size xpos is_colname m = Ok ((b, st'), m') ->
  same_settings st st'
  /\ (colno st' = colno st \/ colno st' = colno st + 1)
  /\ (is_colname = false -> colnames st' = colnames st)
  /\ (typ <> 100 -> st' = st).
Proof.
  intros Hp. unfold process_item in Hp.
  destruct (INSERT_FORMAT_TYPE (format st)).
  { unfold process_item_insert in Hp.
    step_back Hp. clear Hm.
    destruct ((typ =? 78) && negb is_colname).
    { step_back Hp. apply finish_inv in Hp as (-> & _ & _).
      repeat split; auto using same_settings_refl. }
    destruct (Z.eqb_spec typ 100) as [->|Htyp].
    2:{ apply finish_inv in Hp as (-> & _ & _). repeat split; auto. }
    destruct (outside_range st xpos).
    { injection Hp as _ <- _. repeat split; auto; congruence. }
    destruct is_colname.
    - repeat step_back Hp. apply finish_inv in Hp as (-> & _ & _).
      pose proof (capture_colname_settings _ _ _ _ _ _ _ Hm1) as Hs.
      pose proof (capture_colname_colno _ _ _ _ _ _ _ Hm1) as Hc.
      rewrite colno_ensure_colnames in Hc.
      split; [exact (same_settings_trans _ _ _ (same_settings_ensure_colnames st) Hs)|].
      split; [right; exact Hc|]. split; congruence.
    - repeat step_back Hp; apply finish_inv in Hp as (-> & _ & _);
        (split; [apply same_settings_set_colno|]);
        (split; [right; reflexivity|]); split; [reflexivity|congruence]. }
  destruct (format_eqb (format st) CLIPBOARD_FORMAT_TEXT).
  { unfold process_item_text in Hp.
    repeat step_back Hp;
      first [apply finish_inv in Hp as (-> & _ & _) | injection Hp as _ <- _];
      repeat split; auto. }
  destruct (DSV_FORMAT_TYPE (format st)).
  2:{ apply finish_inv in Hp as (-> & _ & _). repeat split; auto. }
  unfold process_item_dsv in Hp.
  destruct ((typ =? 78) && negb (copy_line_extended st)).
  { repeat step_back Hp. apply finish_inv in Hp as (-> & _ & _).
    repeat split; auto. }
  destruct (Z.eqb_spec typ 100) as [->|Htyp].
  2:{ apply finish_inv in Hp as (-> & _ & _). repeat split; auto. }
  destruct (outside_range st xpos).
  { injection Hp as _ <- _. repeat split; auto; congruence. }
  do 4 step_back Hp.
  destruct (copy_line_extended st && is_colname) eqn:Ecap.
  - step_back Hp. injection Hp as _ <- _.
    pose proof (capture_colname_settings _ _ _ _ _ _ _ Hm1) as Hs.
    pose proof (capture_colname_colno _ _ _ _ _ _ _ Hm1) as Hc.
    rewrite colno_ensure_colnames in Hc.
    split; [exact (same_settings_trans _ _ _ (same_settings_ensure_colnames st) Hs)|].
    split; [right; exact Hc|].
    split; [|congruence].
    intros ->. rewrite andb_false_r in Ecap. discriminate.
  - repeat step_back Hp; apply finish_inv in Hp as (-> & _ & _);
      (split; [apply same_settings_set_colno|]);
      (split; [right; reflexivity|]); split; [reflexivity|congruence].
Qed.

(** X6.  [process_item] never changes the settings of the export: format,
    column range, extended-line flag, table name, column count and the two
    options are after the call what they were before.  The column counter
    stays or goes up by one, the captured header names change on header
    rows only, and a token that is not a data token changes nothing in the
    export state. *)
Theorem process_item_keeps_settings st typ field size xpos is_colname m b st' m' :
  process_item st typ field size xpos is_colname m = Ok ((b, st'), m') ->
  same_settings st st'
  /\ (colno st' = colno st \/ colno st' = colno st + 1)
  /\ (is_colname = false -> colnames st' = colnames st)
  /\ (typ <> 100 -> st' = st).
Proof.
  intros Hp. exact (process_item_settings _ _ _ _ _ _ _ _ _ _ Hp).
Qed.

Lemma capture_colname_out st field _field size m st2 m2 :
  capture_colname st field _field size m = Ok (st2, m2) ->
  m_out m2 = m_out m.
Proof.
  unfold capture_colname. intros Hc.
  bind_inv Hc.
  assert (Ho : m_out s = m_out m).
  { destruct (is_null _field); [exact (on_heap_out _ _ _ _ Hm)|].
    destruct (negb (cptr_eqb _field field));
      [injection Hm as _ <-; reflexivity|exact (on_heap_out _ _ _ _ Hm)]. }
  bind_inv Hc. apply lift_res_inv in Hm0 as [_ ->].
  injection Hc as _ <-. exact Ho.
Qed.

(** X7.  A header row writes nothing in the SQL INSERT formats, nor in the
    CSV and TSV formats of the extended line copy: whatever the token,
    [process_item] called with [is_colname] leaves the stream as it was
    (the row only fills the array of column names). *)
Theorem header_row_writes_nothing st typ field size xpos m b st' m' :
  INSERT_FORMAT_TYPE (format st) = true
  \/ (DSV_FORMAT_TYPE (format st) = true /\ copy_line_extended st = true) ->
  process_item st typ field size xpos true m = Ok ((b, st'), m') ->
  m_out m' = m_out m.
Proof.
  intros Hfmt Hp. unfold process_item in Hp.
  destruct (INSERT_FORMAT_TYPE (format st)) eqn:Ei.
  { unfold process_item_insert in Hp.
    step_back Hp. injection Hm as _ <-.
    rewrite andb_false_r in Hp.
    destruct (typ =? 100).
    2:{ apply finish_inv in Hp as (_ & -> & _). reflexivity. }
    destruct (outside_range st xpos); [injection Hp as _ _ <-; reflexivity|].
    repeat step_back Hp. apply finish_inv in Hp as (_ & -> & _).
    rewrite (capture_colname_out _ _ _ _ _ _ _ Hm1).
    rewrite (on_heap_out _ _ _ _ Hm0). exact (on_heap_out _ _ _ _ Hm). }
  destruct Hfmt as [Hf|[Hd Hcle]]; [discriminate|].
  destruct (format_eqb (format st) CLIPBOARD_FORMAT_TEXT) eqn:Et.
  { destruct (format st); discriminate. }
  rewrite Hd in Hp. unfold process_item_dsv in Hp. rewrite Hcle in Hp.
  rewrite andb_false_r in Hp. cbn [andb] in Hp.
  destruct (typ =? 100).
  2:{ apply finish_inv in Hp as (_ & -> & _). reflexivity. }
  destruct (outside_range st xpos); [injection Hp as _ _ <-; reflexivity|].
  repeat step_back Hp. injection Hp as _ _ <-.
  rewrite (capture_colname_out _ _ _ _ _ _ _ Hm1).
  rewrite (on_heap_out _ _ _ _ Hm0). exact (on_heap_out _ _ _ _ Hm).
Qed.

(** A [false] comes from the final test of [errno] only. *)
Lemma process_item_false_errno st typ field size xpos is_colname m st' m' :
  process_item st typ field size xpos is_colname m = Ok ((false, st'), m') ->
  m_errno m' <> 0.
Proof.
  intros Hp.
  assert (Hfin : forall st0 m0, finish st0 m0 = Ok ((false, st'), m') -> m_errno m' <> 0).
  { intros st0 m0 Hf. apply finish_inv in Hf as (_ & -> & Hb).
    symmetry in Hb. apply Z.eqb_neq in Hb. exact Hb. }
  unfold process_item, process_item_insert, process_item_text, process_item_dsv in Hp.
  repeat step_back Hp; first [exact (Hfin _ _ Hp) | discriminate].
Qed.

(** X8.  [process_item] returns [false] only with [errno] set: every
    [false] comes from the final test [errno == 0], so the caller's error
    report has an error number to show. *)
Theorem process_item_false_sets_errno st typ field size xpos is_colname m st' m' :
  process_item st typ field size xpos is_colname m = Ok ((false, st'), m') ->
  m_errno m' <> 0.
Proof.
  intros Hp. exact (process_item_false_errno _ _ _ _ _ _ _ _ _ Hp).
Qed.

End ProcessItemInvariants.

Lemma process_item_keeps_settings_witness :
  let st := mkExportState CLIPBOARD_FORMAT_CSV (-1) (-1) false NULL 2 true false 1 None in
  let m := mkMachine [cstr " ab "] 0 (mkFILE [120] None) in
  let st' := set_colno st 2 in
  process_item (H := example_collaborators) st 100 (Ptr 0 0) 4 3 false m
  = Ok ((true, st'), mkMachine [cstr " ab "] 0 (mkFILE [120; 44; 97; 98] None))
  /\ same_settings st st'
  /\ (colno st' = colno st \/ colno st' = colno st + 1)
  /\ (false = false -> colnames st' = colnames st)
  /\ (100 <> 100 -> st' = st).
Proof.
  intros st m st'. split; [reflexivity|].
  apply (process_item_keeps_settings (H := example_collaborators)
           st 100 (Ptr 0 0) 4 3 false m true st'
           (mkMachine [cstr " ab "] 0 (mkFILE [120; 44; 97; 98] None))).
  reflexivity.
Defined.

Lemma header_row_writes_nothing_witness :
  let st := mkExportState CLIPBOARD_FORMAT_INSERT (-1) (-1) false NULL 1 true false 0 None in
  let m := mkMachine [cstr " id "] 0 (mkFILE [] None) in
  let st' := mkExportState CLIPBOARD_FORMAT_INSERT (-1) (-1) false NULL 1 true false 1
               (Some [Ptr 1 0]) in
  let m' := mkMachine [cstr " id "; cstr "id"] 0 (mkFILE [] None) in
  process_item (H := example_collaborators) st 100 (Ptr 0 0) 4 3 true m
  = Ok ((true, st'), m')
  /\ m_out m' = m_out m.
Proof.
  intros st m st' m'. split; [reflexivity|].
  apply (header_row_writes_nothing (H := example_collaborators)
           st 100 (Ptr 0 0) 4 3 m true st' m').
  - left. reflexivity.
  - reflexivity.
Defined.

Lemma process_item_false_sets_errno_witness :
  let st := mkExportState CLIPBOARD_FORMAT_TEXT (-1) (-1) false NULL 1 true false 0 None in
  let m := mkMachine [cstr "abcd"] 0 (mkFILE [] (Some 2%nat)) in
  let m' := mkMachine [cstr "abcd"] ENOSPC (mkFILE [97; 98] (Some 0%nat)) in
  process_item (H := example_collaborators) st 100 (Ptr 0 0) 4 3 false m
  = Ok ((false, st), m')
  /\ m_errno m' <> 0.
Proof.
  intros st m m'. split; [reflexivity|].
  apply (process_item_false_sets_errno (H := example_collaborators)
           st 100 (Ptr 0 0) 4 3 false m st m').
  reflexivity.
Defined.

(** ** Rows in the text format *)

Section TextRows.
Context `{Collaborators}.

Lemma bind_assoc {S A B C : Type} (a : ST S A) (k : A -> ST S B) (k' : B -> ST S C) s :
  bind (bind a k) k' s = bind a (fun x => bind (k x) k') s.
Proof. unfold bind. destruct (a s) as [[x s']|]; reflexivity. Qed.

Lemma export_row_finish_row opts desc l is_colname st :
  export_row opts desc l is_colname st
  = (do fuel <- on_heap (row_fuel (rowstr l));
     do r <- row_tokens fuel
               (mkFmtLineIter (rowstr l) (headline_transl desc) (opt_force8bit opts) 0)
               NULL 0 (-1) is_colname (set_colno st 0);
     finish_row is_colname r).
Proof. reflexivity. Qed.

(** [next_char] at the end of the row or of the template. *)
Lemma next_char_end rp hp f8 x h sstop tstop :
  view rp h = Ok sstop -> view hp h = Ok tstop ->
  (exists r, sstop = 0 :: r) \/ (exists c r r', sstop = c :: r /\ tstop = 10 :: r') ->
  next_char (mkFmtLineIter rp hp f8 x) h = Ok ((None, mkFmtLineIter rp hp f8 x), h).
Proof.
  intros Hr Ht Hend. unfold next_char. cbn [row headline].
  destruct rp as [|rb ro]; [discriminate|]. destruct hp as [|hb ho]; [discriminate|].
  cbn [is_null orb].
  destruct Hend as [[r ->]|(c & r & r' & -> & ->)].
  - rewrite (bind_ok _ _ _ _ _ (load_head _ _ _ _ Hr)). reflexivity.
  - rewrite (bind_ok _ _ _ _ _ (load_head _ _ _ _ Hr)).
    destruct (c =? 0); [reflexivity|].
    rewrite (bind_ok _ _ _ _ _ (load_head _ _ _ _ Ht)). reflexivity.
Qed.

(** [next_char] on a byte of the row, force-8-bit mode. *)
Lemma next_char_step_8bit rp hp x h c s ty t :
  view rp h = Ok (c :: s) -> view hp h = Ok (ty :: t) ->
  c <> 0 -> ty <> 10 ->
  next_char (mkFmtLineIter rp hp true x) h
  = Ok ((Some (rp, ty, 1, 1, x),
         mkFmtLineIter (ptr_add rp 1) (ptr_add hp 1) true (x + 1)), h).
Proof.
  intros Hr Ht Hc Hty. unfold next_char. cbn [row headline iter_force8bit iter_xpos].
  destruct rp as [|rb ro]; [discriminate|]. destruct hp as [|hb ho]; [discriminate|].
  cbn [is_null orb].
  rewrite (bind_ok _ _ _ _ _ (load_head _ _ _ _ Hr)).
  replace (c =? 0) with false by (symmetry; apply Z.eqb_neq; exact Hc).
  rewrite (bind_ok _ _ _ _ _ (load_head _ _ _ _ Ht)).
  replace (ty =? 10) with false by (symmetry; apply Z.eqb_neq; exact Hty).
  reflexivity.
Qed.

(** A token other than the end of row, text format, no column range, a
    stream that takes everything. *)
Lemma process_item_text_token st typ field size xpos is_colname h e out bs :
  format st = CLIPBOARD_FORMAT_TEXT -> xmin st = -1 -> typ <> 78 ->
  load_bytes field size h = Ok (bs, h) ->
  process_item st typ field size xpos is_colname (mkMachine h e (mkFILE out None))
  = Ok ((true, st), mkMachine h 0 (mkFILE (out ++ bs) None)).
Proof.
  intros Hf Hx Htyp Hl. unfold process_item, process_item_text, outside_range.
  rewrite Hf, Hx. cbn [INSERT_FORMAT_TYPE format_eqb].
  replace (typ =? 78) with false by (symmetry; apply Z.eqb_neq; exact Htyp).
  cbn [negb Z.eqb Pos.eqb andb]. rewrite andb_false_r.
  unfold bind, set_errno, fwrite, bind, on_heap, write_out, finish, bind, get_errno, ret.
  cbn [m_heap m_errno m_out f_room f_bytes]. rewrite Hl. reflexivity.
Qed.

Lemma process_item_text_newline st field size xpos is_colname h e out :
  format st = CLIPBOARD_FORMAT_TEXT ->
  process_item st 78 field size xpos is_colname (mkMachine h e (mkFILE out None))
  = Ok ((true, st), mkMachine h 0 (mkFILE (out ++ [10]) None)).
Proof.
  intros Hf. unfold process_item, process_item_text. rewrite Hf. reflexivity.
Qed.

(** The token loop and the end of the row, from any point of the row. *)
Lemma text_row_walk s : forall t fuel rp hp x field fsize fxpos pend st h e out
    sstop tstop is_colname,
  length t = length s -> (length s < fuel)%nat ->
  view rp h = Ok (s ++ sstop) ->
  view hp h = Ok (t ++ tstop) ->
  Forall (fun c => c <> 0) s ->
  Forall (fun c => c <> 10 /\ c <> 78) t ->
  (exists r, sstop = 0 :: r) \/ (exists c r r', sstop = c :: r /\ tstop = 10 :: r') ->
  fsize = Z.of_nat (length pend) ->
  (if is_null field then pend = [] else view field h = Ok (pend ++ s ++ sstop)) ->
  format st = CLIPBOARD_FORMAT_TEXT -> xmin st = -1 ->
  (do r <- row_tokens fuel (mkFmtLineIter rp hp true x) field fsize fxpos is_colname st;
   finish_row is_colname r) (mkMachine h e (mkFILE out None))
  = Ok ((true, st), mkMachine h 0 (mkFILE (out ++ pend ++ s ++ [10]) None)).
Proof.
  induction s as [|c s IH];
    intros t fuel rp hp x field fsize fxpos pend st h e out sstop tstop is_colname
           Hlen Hfuel Hr Ht Hnz Hty Hend Hsize Hpend Hf Hx.
  - destruct t; [|discriminate]. destruct fuel as [|fuel]; [simpl in Hfuel; lia|].
    cbn [row_tokens]. rewrite bind_assoc.
    assert (Hnext : on_heap (next_char (mkFmtLineIter rp hp true x))
                      (mkMachine h e (mkFILE out None))
                    = Ok ((None, mkFmtLineIter rp hp true x),
                          mkMachine h e (mkFILE out None))).
    { unfold on_heap. cbn [m_heap m_errno m_out].
      rewrite (next_char_end rp hp true x h _ _ Hr Ht Hend). reflexivity. }
    rewrite (bind_ok _ _ _ _ _ Hnext). cbv beta iota.
    unfold bind at 1. unfold ret at 1. cbv beta iota.
    unfold finish_row. cbn [negb].
    destruct field as [|fb fo]; cbn [is_null negb] in *.
    + subst pend. unfold bind at 1. unfold ret at 1. cbv beta iota. cbn [negb].
      rewrite (process_item_text_newline st _ _ _ _ _ _ _ Hf). reflexivity.
    + subst fsize.
      rewrite (bind_ok _ _ _ _ _
                 (process_item_text_token st 100 _ _ fxpos is_colname h e out pend
                    Hf Hx ltac:(discriminate) (load_bytes_take _ _ _ _ Hpend))).
      cbv beta iota. cbn [negb].
      rewrite (process_item_text_newline st _ _ _ _ _ _ _ Hf).
      rewrite <- app_assoc. reflexivity.
  - destruct t as [|ty t]; [discriminate|]. destruct fuel as [|fuel]; [simpl in Hfuel; lia|].
    inversion Hnz as [|? ? Hc Hnz']; subst.
    inversion Hty as [|? ? [Hty10 Hty78] Hty']; subst.
    cbn [row_tokens]. rewrite bind_assoc.
    assert (Hnext : on_heap (next_char (mkFmtLineIter rp hp true x))
                      (mkMachine h e (mkFILE out None))
                    = Ok ((Some (rp, ty, 1, 1, x),
                           mkFmtLineIter (ptr_add rp 1) (ptr_add hp 1) true (x + 1)),
                          mkMachine h e (mkFILE out None))).
    { unfold on_heap. cbn [m_heap m_errno m_out].
      rewrite (next_char_step_8bit rp hp x h c (s ++ sstop) ty (t ++ tstop) Hr Ht Hc Hty10).
      reflexivity. }
    rewrite (bind_ok _ _ _ _ _ Hnext). cbv beta iota.
    assert (Hrp : is_null rp = false) by (destruct rp; [discriminate|reflexivity]).
    destruct (Z.eqb_spec ty 100) as [->|Hd].
    + rewrite (IH t fuel (ptr_add rp 1) (ptr_add hp 1) (x + 1)
                 (if is_null field then rp else field)
                 (Z.of_nat (length pend) + 1) x (pend ++ [c]) st h e out sstop tstop
                 is_colname).
      * rewrite <- !app_assoc. reflexivity.
      * simpl in Hlen. lia.
      * simpl in Hfuel. lia.
      * exact (view_next _ _ _ _ Hr).
      * exact (view_next _ _ _ _ Ht).
      * exact Hnz'.
      * exact Hty'.
      * exact Hend.
      * rewrite length_app. simpl. lia.
      * destruct (is_null field) eqn:En.
        -- rewrite Hrp. subst pend. exact Hr.
        -- rewrite En. rewrite <- app_assoc. exact Hpend.
      * exact Hf.
      * exact Hx.
    + assert (Hflush :
                (if negb (is_null field)
                 then process_item st 100 field (Z.of_nat (length pend)) fxpos is_colname
                 else ret (true, st)) (mkMachine h e (mkFILE out None))
                = Ok ((true, st),
                      mkMachine h (if is_null field then e else 0)
                                (mkFILE (out ++ pend) None))).
      { destruct (is_null field); cbn [negb].
        - subst pend. rewrite app_nil_r. reflexivity.
        - apply (process_item_text_token st 100 _ _ fxpos is_colname h e out pend
                   Hf Hx ltac:(discriminate) (load_bytes_take _ _ _ _ Hpend)). }
      rewrite bind_assoc. rewrite (bind_ok _ _ _ _ _ Hflush). cbv beta iota. cbn [negb].
      assert (Hpair : forall (b : bool) (X Y : cptr * Z * Z),
                 (let '(f, fs, fx) := (if b then X else Y) in (f, fs, fx))
                 = (if b then X else Y))
        by (intros [] [[? ?] ?] [[? ?] ?]; reflexivity).
      assert (Htok : process_item st ty rp 1 x is_colname
                       (mkMachine h (if is_null field then e else 0)
                                  (mkFILE (out ++ pend) None))
                     = Ok ((true, st),
                           mkMachine h 0 (mkFILE ((out ++ pend) ++ [c]) None))).
      { apply (process_item_text_token st ty rp 1 x is_colname h _ (out ++ pend) [c]
                 Hf Hx Hty78).
        apply (load_bytes_take rp h [c] (s ++ sstop) Hr). }
      destruct (is_null field) eqn:En; cbn [negb] in *; cbv beta iota.
      * rewrite bind_assoc. rewrite (bind_ok _ _ _ _ _ Htok). cbv beta iota. cbn [negb].
        subst pend.
        rewrite (IH t fuel (ptr_add rp 1) (ptr_add hp 1) (x + 1) field _ fxpos
                   [] st h 0 ((out ++ []) ++ [c]) sstop tstop is_colname);
          [rewrite <- !app_assoc; reflexivity
          |simpl in Hlen; lia|simpl in Hfuel; lia
          |exact (view_next _ _ _ _ Hr)|exact (view_next _ _ _ _ Ht)
          |exact Hnz'|exact Hty'|exact Hend|reflexivity
          |rewrite En; reflexivity|exact Hf|exact Hx].
      * rewrite bind_assoc. rewrite (bind_ok _ _ _ _ _ Htok). cbv beta iota. cbn [negb].
        rewrite (IH t fuel (ptr_add rp 1) (ptr_add hp 1) (x + 1) NULL 0 (-1)
                   [] st h 0 ((out ++ pend) ++ [c]) sstop tstop is_colname);
          [rewrite <- !app_assoc; reflexivity
          |simpl in Hlen; lia|simpl in Hfuel; lia
          |exact (view_next _ _ _ _ Hr)|exact (view_next _ _ _ _ Ht)
          |exact Hnz'|exact Hty'|exact Hend|reflexivity
          |reflexivity|exact Hf|exact Hx].
Qed.

(** The row loop body on a row in the text format, from the layout of the
    row. *)
Lemma export_row_text_layout opts desc l is_colname st h e out t s :
  opt_force8bit opts = true ->
  format st = CLIPBOARD_FORMAT_TEXT -> xmin st = -1 ->
  row_layout h (rowstr l) (headline_transl desc) t s ->
  export_row opts desc l is_colname st (mkMachine h e (mkFILE out None))
  = Ok ((true, set_colno st 0), mkMachine h 0 (mkFILE (out ++ s ++ [10]) None)).
Proof.
  intros H8 Hf Hx (sstop & tstop & Hr & Ht & Hlen & Hnz & Hty & Hend).
  rewrite export_row_finish_row, H8.
  assert (Hfuel : on_heap (row_fuel (rowstr l)) (mkMachine h e (mkFILE out None))
                  = Ok (S (length (s ++ sstop)), mkMachine h e (mkFILE out None))).
  { unfold on_heap, row_fuel. cbn [m_heap m_errno m_out]. rewrite Hr. reflexivity. }
  rewrite (bind_ok _ _ _ _ _ Hfuel).
  apply (text_row_walk s t _ (rowstr l) (headline_transl desc) 0 NULL 0 (-1) []
           (set_colno st 0) h e out sstop tstop is_colname);
    try assumption; try reflexivity.
  rewrite length_app. lia.
Qed.

(** X9.  A row in the text format comes out as it is.  In force-8-bit
    mode, without a column range and on a stream that takes everything,
    [export_row] appends to the stream the bytes of the row that the token
    loop walks, unchanged and in order (runs of data columns are written in
    one piece, every other column on its own), then a line feed; it returns
    [true], resets [errno] and the column counter, and leaves memory as it
    was. *)
Theorem export_row_text_verbatim opts desc l is_colname st h e out s :
  opt_force8bit opts = true ->
  format st = CLIPBOARD_FORMAT_TEXT -> xmin st = -1 ->
  row_text h (rowstr l) (headline_transl desc) s ->
  export_row opts desc l is_colname st (mkMachine h e (mkFILE out None))
  = Ok ((true, set_colno st 0), mkMachine h 0 (mkFILE (out ++ s ++ [10]) None)).
Proof.
  intros H8 Hf Hx [t Hrow].
  exact (export_row_text_layout opts desc l is_colname st h e out t s H8 Hf Hx Hrow).
Qed.

(** Every line is selected when all lines are copied as text. *)
Lemma select_row_all_lines opts desc cursor_row l m :
  last_data_row desc <= last_row desc ->
  exists is_colname,
    select_row opts desc
      (mkExportPlan (first_data_row desc) (last_row desc) true true true true)
      cmd_CopyAllLines cursor_row l m
    = Ok (Some is_colname, m).
Proof.
  intros Hlast. unfold select_row.
  cbn [min_row max_row print_header print_footer print_border print_header_line
       cmd_eqb negb andb].
  destruct ((first_data_row desc <=? rn l) && (rn l <=? last_data_row desc)) eqn:Ed.
  - apply andb_true_iff in Ed as [E1 E2]. apply Z.leb_le in E1. apply Z.leb_le in E2.
    replace (rn l <? first_data_row desc) with false by lia.
    replace (last_row desc <? rn l) with false by lia.
    eexists. reflexivity.
  - eexists. reflexivity.
Qed.

Lemma set_colno_0_id st : colno st = 0 -> set_colno st 0 = st.
Proof. destruct st. simpl. intros ->. reflexivity. Qed.

Lemma export_lines_text_verbatim opts desc cursor_row st hp : forall ls texts h e out,
  opt_force8bit opts = true -> last_data_row desc <= last_row desc ->
  hp = headline_transl desc ->
  format st = CLIPBOARD_FORMAT_TEXT -> xmin st = -1 -> colno st = 0 ->
  Forall2 (fun l s => row_text h (rowstr l) hp s) ls texts ->
  export_lines opts desc
    (mkExportPlan (first_data_row desc) (last_row desc) true true true true)
    cmd_CopyAllLines cursor_row ls st (mkMachine h e (mkFILE out None))
  = Ok ((true, st),
        mkMachine h (match texts with [] => e | _ => 0 end)
          (mkFILE (out ++ concat (map (fun s => s ++ [10]) texts)) None)).
Proof.
  intros ls texts h e out H8 Hlast -> Hf Hx Hc Hrows.
  revert e out. induction Hrows as [|l s ls texts Hrow Hrows IH]; intros e out.
  - simpl. rewrite app_nil_r. reflexivity.
  - cbn [export_lines].
    destruct (select_row_all_lines opts desc cursor_row l
                (mkMachine h e (mkFILE out None)) Hlast) as [ic Hsel].
    rewrite (bind_ok _ _ _ _ _ Hsel). cbv beta iota.
    destruct Hrow as [t Hrow].
    rewrite (bind_ok _ _ _ _ _
               (export_row_text_layout opts desc l ic st h e out t s H8 Hf Hx Hrow)).
    cbv beta iota. cbn [negb]. rewrite (set_colno_0_id st Hc).
    rewrite IH. cbn [map concat]. rewrite <- !app_assoc.
    destruct texts; reflexivity.
Qed.

(** X10.  Copying all lines as text reproduces the table.  In force-8-bit
    mode, with a stream that takes everything, [export_data] for
    [cmd_CopyAllLines] in the text format selects every line of the line
    source, border lines, header and footer included, and writes each as
    it is, followed by a line feed; it returns [true] and leaves memory as
    it was. *)
Theorem copy_all_lines_text_verbatim opts scrdesc desc cursor_row cursor_column rows
    percent tbl h e out texts :
  opt_force8bit opts = true ->
  last_data_row desc <= last_row desc ->
  Forall2 (fun l s => row_text h (rowstr l) (headline_transl desc) s) (lines desc) texts ->
  export_data opts scrdesc desc cursor_row cursor_column rows percent tbl
    cmd_CopyAllLines CLIPBOARD_FORMAT_TEXT (mkMachine h e (mkFILE out None))
  = Ok (true,
        mkMachine h (match texts with [] => e | _ => 0 end)
          (mkFILE (out ++ concat (map (fun s => s ++ [10]) texts)) None)).
Proof.
  intros H8 Hlast Hrows. unfold export_data.
  assert (Hsetup :
            export_setup opts scrdesc desc cursor_row cursor_column rows percent tbl
              cmd_CopyAllLines CLIPBOARD_FORMAT_TEXT (mkMachine h e (mkFILE out None))
            = Ok (Some (mkExportPlan (first_data_row desc) (last_row desc)
                          true true true true,
                        mkExportState CLIPBOARD_FORMAT_TEXT (-1) (-1) false NULL
                          (desc_columns desc) (opt_force8bit opts)
                          (opt_empty_string_is_null opts) 0 None),
                  mkMachine h e (mkFILE out None))) by reflexivity.
  rewrite (bind_ok _ _ _ _ _ Hsetup). cbv beta iota.
  rewrite (bind_ok _ _ _ _ _
             (export_lines_text_verbatim opts desc cursor_row
                (mkExportState CLIPBOARD_FORMAT_TEXT (-1) (-1) false NULL
                   (desc_columns desc) (opt_force8bit opts)
                   (opt_empty_string_is_null opts) 0 None)
                (headline_transl desc) (lines desc) texts
                h e out H8 Hlast eq_refl eq_refl eq_refl eq_refl Hrows)).
  reflexivity.
Qed.

End TextRows.

Lemma export_row_text_verbatim_witness :
  let h := [cstr "LddIdR"; cstr "|ab|c|"] in
  let desc := mkDataDesc 0 0 0 2 [(0, 3); (3, 5)] (Ptr 0 0) (-1) (-1) (-1) (-1) (-1)
                [mkLine (Ptr 1 0) None 0] in
  let st := mkExportState CLIPBOARD_FORMAT_TEXT (-1) (-1) false NULL 2 true false 5 None in
  export_row (H := example_collaborators) (mkOptions true false false false) desc
    (mkLine (Ptr 1 0) None 0) false st (mkMachine h 7 (mkFILE [62] None))
  = Ok ((true, set_colno st 0),
        mkMachine h 0 (mkFILE ([62] ++ bytes_of_string "|ab|c|" ++ [10]) None)).
Proof.
  intros h desc st.
  apply (export_row_text_verbatim (H := example_collaborators)
           (mkOptions true false false false) desc (mkLine (Ptr 1 0) None 0) false st
           h 7 [62] (bytes_of_string "|ab|c|"));
    [reflexivity | reflexivity | reflexivity |].
  exists (bytes_of_string "LddIdR"), [0], [0].
  split; [reflexivity|]. split; [reflexivity|]. split; [reflexivity|].
  split; [repeat constructor; discriminate|].
  split; [repeat constructor; discriminate|].
  left. exists []. reflexivity.
Defined.

Lemma copy_all_lines_text_verbatim_witness :
  let h := [cstr "LdIdR"; cstr "+-+-+"; cstr "|a|b|"] in
  let desc := mkDataDesc 1 1 2 2 [(0, 2); (2, 4)] (Ptr 0 0) 0 2 (-1) 0 (-1)
                [mkLine (Ptr 1 0) None 0; mkLine (Ptr 2 0) None 1;
                 mkLine (Ptr 1 0) None 2] in
  export_data (H := example_collaborators) (mkOptions true false false false)
    (mkScrDesc (-1) 0 (-1) 0) desc 0 0 0 (double_of_int 0) NULL
    cmd_CopyAllLines CLIPBOARD_FORMAT_TEXT (mkMachine h 0 (mkFILE [] None))
  = Ok (true,
        mkMachine h 0
          (mkFILE (bytes_of_string "+-+-+" ++ [10] ++ bytes_of_string "|a|b|" ++ [10]
                   ++ bytes_of_string "+-+-+" ++ [10]) None)).
Proof.
  intros h desc.
  apply (copy_all_lines_text_verbatim (H := example_collaborators)
           (mkOptions true false false false) (mkScrDesc (-1) 0 (-1) 0) desc
           0 0 0 (double_of_int 0) NULL h 0 []
           [bytes_of_string "+-+-+"; bytes_of_string "|a|b|"; bytes_of_string "+-+-+"]).
  - reflexivity.
  - simpl. lia.
  - repeat constructor;
      (exists (bytes_of_string "LdIdR"), [0], [0];
       split; [reflexivity|]; split; [reflexivity|]; split; [reflexivity|];
       split; [repeat constructor; discriminate|];
       split; [repeat constructor; discriminate|];
       left; exists []; reflexivity).
Defined.

(** ** Which rows are exported *)

Section RowSelection.
Context `{Collaborators}.

(** For the top and bottom commands the row loop keeps a data row exactly
    when it lies in the row range. *)
Lemma select_row_top_bottom opts desc plan cmd cursor_row l m :
  cmd = cmd_CopyTopLines \/ cmd = cmd_CopyBottomLines ->
  is_data_row desc l = true ->
  select_row opts desc plan cmd cursor_row l m
  = Ok ((if in_row_range plan l then Some false else None), m).
Proof.
  unfold is_data_row, in_row_range, select_row. intros Hcmd ->.
  destruct Hcmd as [-> | ->]; cbn [cmd_eqb andb negb];
    destruct (Z.ltb_spec (rn l) (min_row plan)), (Z.ltb_spec (max_row plan) (rn l)),
      (Z.leb_spec (min_row plan) (rn l)), (Z.leb_spec (rn l) (max_row plan));
    try lia; reflexivity.
Qed.

(** X11.  The top and bottom commands keep the first and the last data
    rows.  With [r] the row count (the [rows] argument, or the percentage of
    the data rows when a percentage is given) and no [int] overflow,
    [export_data] sets up a row range under which the row loop keeps, for
    [cmd_CopyTopLines], exactly the data rows numbered below
    [first_data_row + r], and for [cmd_CopyBottomLines] exactly those
    numbered above [last_data_row - r]. *)
Theorem top_bottom_keep_first_last_rows opts scrdesc desc cursor_row cursor_column rows
    percent tbl cmd fmt m :
  cmd = cmd_CopyTopLines \/ cmd = cmd_CopyBottomLines ->
  0 <= rows -> SFltb percent (S754_zero false) = false ->
  (INSERT_FORMAT_TYPE fmt = true -> exists r, quote_table_name opts tbl m = Ok r) ->
  0 <= first_data_row desc -> first_data_row desc <= last_data_row desc + 1 ->
  last_data_row desc < INT_MAX ->
  0 <= rows_of_percent desc rows percent ->
  first_data_row desc + rows_of_percent desc rows percent <= INT_MAX ->
  exists plan st m',
    export_setup opts scrdesc desc cursor_row cursor_column rows percent tbl cmd fmt m
    = Ok (Some (plan, st), m')
    /\ forall l m0,
         is_data_row desc l = true ->
         select_row opts desc plan cmd cursor_row l m0
         = Ok ((if (if cmd_eqb cmd cmd_CopyTopLines
                    then rn l <? first_data_row desc + rows_of_percent desc rows percent
                    else last_data_row desc - rows_of_percent desc rows percent <? rn l)
                then Some false else None), m0).
Proof.
  intros Hcmd Hrows Hpct Hq Hf Hfl Hl Hr Hfit.
  destruct (export_setup_top_bottom opts scrdesc desc cursor_row cursor_column rows
              percent tbl cmd fmt m Hcmd Hq) as (quoted & m' & _ & Hs).
  replace ((rows <? 0) || SFltb percent (S754_zero false)) with false in Hs
    by (symmetry; apply orb_false_iff; split; [apply Z.ltb_ge; exact Hrows|exact Hpct]).
  destruct (top_bottom_range desc cmd rows percent (first_data_row desc))
    as [lo hi] eqn:Hrange.
  eexists _, _, m'. split; [exact Hs|].
  intros l m0 Hdata.
  rewrite (select_row_top_bottom opts desc _ cmd cursor_row l m0 Hcmd Hdata).
  unfold in_row_range. cbn [min_row max_row].
  unfold is_data_row in Hdata. apply andb_true_iff in Hdata as [Hd1 Hd2].
  apply Z.leb_le in Hd1. apply Z.leb_le in Hd2.
  unfold top_bottom_range in Hrange.
  set (r := rows_of_percent desc rows percent) in *.
  unfold INT_MAX in *.
  assert (Hdr : int32 (last_data_row desc - first_data_row desc + 1)
                = last_data_row desc - first_data_row desc + 1)
    by (apply int32_small; unfold INT_MIN, INT_MAX; lia).
  rewrite Hdr in Hrange.
  destruct Hcmd as [-> | ->]; cbn [cmd_eqb] in *; cbv iota in Hrange.
  - rewrite !int32_small in Hrange by (unfold INT_MIN, INT_MAX; lia).
    injection Hrange as <- <-.
    destruct (Z.leb_spec (first_data_row desc + 0) (rn l)),
      (Z.leb_spec (rn l) (first_data_row desc + r - 1 + 0)),
      (Z.ltb_spec (rn l) (first_data_row desc + r)); try lia; reflexivity.
  - assert (Hskip : int32 (last_data_row desc - first_data_row desc + 1 - r)
                    = last_data_row desc - first_data_row desc + 1 - r)
      by (apply int32_small; unfold INT_MIN, INT_MAX; lia).
    rewrite Hskip in Hrange.
    rewrite !int32_small in Hrange by (unfold INT_MIN, INT_MAX; lia).
    injection Hrange as <- <-.
    destruct (Z.leb_spec
                (first_data_row desc + (last_data_row desc - first_data_row desc + 1 - r))
                (rn l)),
      (Z.leb_spec (rn l)
         (first_data_row desc + r - 1
          + (last_data_row desc - first_data_row desc + 1 - r))),
      (Z.ltb_spec (last_data_row desc - r) (rn l)); try lia; reflexivity.
Qed.

(** The setup of the single-line copy. *)
Lemma export_setup_copy_line opts scrdesc desc cursor_row cursor_column rows
    percent tbl fmt m :
  (INSERT_FORMAT_TYPE fmt = true -> exists r, quote_table_name opts tbl m = Ok r) ->
  exists quoted m',
    export_setup opts scrdesc desc cursor_row cursor_column rows percent tbl
      cmd_CopyLine fmt m
    = Ok (Some (mkExportPlan (int32 (cursor_row + first_data_row desc))
                  (int32 (cursor_row + first_data_row desc))
                  true false
                  (negb (negb (format_eqb fmt CLIPBOARD_FORMAT_TEXT)))
                  (negb (negb (format_eqb fmt CLIPBOARD_FORMAT_TEXT))),
                mkExportState fmt (-1) (-1) false quoted (desc_columns desc)
                  (opt_force8bit opts) (opt_empty_string_is_null opts) 0 None),
          m').
Proof.
  intros Hq. unfold export_setup.
  assert (Hname : exists quoted m',
             (if INSERT_FORMAT_TYPE fmt then quote_table_name opts tbl else ret NULL) m
             = Ok (quoted, m')).
  { destruct (INSERT_FORMAT_TYPE fmt).
    - destruct (Hq eq_refl) as [[p m'] Hr]. exists p, m'. exact Hr.
    - exists NULL, m. reflexivity. }
  destruct Hname as (quoted & m' & Hname).
  exists quoted, m'.
  cbn [cmd_eqb andb orb negb].
  rewrite andb_diag, (bind_ok _ _ _ _ _ Hname). reflexivity.
Qed.

(** X12.  The single-line copy keeps one data row.  For [cmd_CopyLine]
    with the cursor on a row whose number fits an [int], [export_data] sets
    up no column range and a plan under which the row loop keeps, of the
    data rows, exactly the one numbered [first_data_row + cursor_row]; the
    footer is not printed. *)
Theorem copy_line_keeps_cursor_row opts scrdesc desc cursor_row cursor_column rows
    percent tbl fmt m :
  (INSERT_FORMAT_TYPE fmt = true -> exists r, quote_table_name opts tbl m = Ok r) ->
  INT_MIN <= cursor_row <= INT_MAX ->
  INT_MIN <= cursor_row + first_data_row desc <= INT_MAX ->
  exists plan st m',
    export_setup opts scrdesc desc cursor_row cursor_column rows percent tbl
      cmd_CopyLine fmt m
    = Ok (Some (plan, st), m')
    /\ xmin st = -1 /\ print_footer plan = false
    /\ forall l m0,
         is_data_row desc l = true ->
         INT_MIN <= rn l - first_data_row desc <= INT_MAX ->
         select_row opts desc plan cmd_CopyLine cursor_row l m0
         = Ok ((if rn l =? first_data_row desc + cursor_row then Some false else None),
               m0).
Proof.
  intros Hq Hc Hcf.
  destruct (export_setup_copy_line opts scrdesc desc cursor_row cursor_column rows
              percent tbl fmt m Hq) as (quoted & m' & Hs).
  eexists _, _, m'. split; [exact Hs|]. split; [reflexivity|]. split; [reflexivity|].
  intros l m0 Hdata Hrn. unfold select_row.
  unfold is_data_row in Hdata. rewrite Hdata.
  cbn [min_row max_row cmd_eqb andb negb].
  rewrite (int32_small _ Hcf), (int32_small _ Hrn).
  destruct (Z.ltb_spec (rn l) (cursor_row + first_data_row desc)),
    (Z.ltb_spec (cursor_row + first_data_row desc) (rn l)),
    (Z.eqb_spec (rn l) (first_data_row desc + cursor_row)),
    (Z.eqb_spec (rn l - first_data_row desc) cursor_row);
    try lia; reflexivity.
Qed.

End RowSelection.

Section Decoration.
Context `{Collaborators}.

(** What the setup decides on the decoration when the local format is not
    the text format. *)
Lemma export_setup_no_decoration opts scrdesc desc cursor_row cursor_column rows
    percent tbl cmd fmt m plan st m' :
  export_setup opts scrdesc desc cursor_row cursor_column rows percent tbl cmd fmt m
  = Ok (Some (plan, st), m') ->
  fmt <> CLIPBOARD_FORMAT_TEXT \/ cmd = cmd_CopyLineExtended ->
  print_border plan = false /\ print_header_line plan = false
  /\ print_footer plan = false.
Proof.
  intros Hs Hfmt. unfold export_setup in Hs.
  assert (Hnt : format_eqb
                  (if cmd_eqb cmd cmd_CopyLineExtended && negb (DSV_FORMAT_TYPE fmt)
                   then CLIPBOARD_FORMAT_CSV else fmt) CLIPBOARD_FORMAT_TEXT = false).
  { destruct Hfmt as [Hf | ->].
    - destruct (cmd_eqb cmd cmd_CopyLineExtended && negb (DSV_FORMAT_TYPE fmt));
        [reflexivity|]. destruct fmt; try reflexivity. congruence.
    - destruct fmt; reflexivity. }
  step_back Hs. clear Hm. step_back Hs. clear Hm. destruct a0 as [xmin1 xmax1].
  step_back Hs; [discriminate|].
  step_back Hs. injection Hs as <- _ _.
  cbn [print_border print_header_line print_footer].
  rewrite Hnt. cbn [negb]. rewrite !andb_false_r. auto.
Qed.

(** X13.  Outside the text format no decoration is exported.  When the
    format is not the text format, or the command is the extended line
    copy (which exports as CSV), the plan that [export_data] sets up makes
    the row loop skip every line outside the data rows that is the top
    border, the bottom border, the line under the header, or a footer
    line. *)
Theorem non_text_formats_skip_decoration opts scrdesc desc cursor_row cursor_column rows
    percent tbl cmd fmt m plan st m' :
  export_setup opts scrdesc desc cursor_row cursor_column rows percent tbl cmd fmt m
  = Ok (Some (plan, st), m') ->
  fmt <> CLIPBOARD_FORMAT_TEXT \/ cmd = cmd_CopyLineExtended ->
  forall l m0,
    is_data_row desc l = false ->
    rn l = border_top_row desc \/ rn l = border_bottom_row desc
    \/ rn l = border_head_row desc
    \/ (footer_row desc <> -1 /\ footer_row desc <= rn l) ->
    select_row opts desc plan cmd cursor_row l m0 = Ok (None, m0).
Proof.
  intros Hs Hfmt l m0 Hdata Hline.
  destruct (export_setup_no_decoration _ _ _ _ _ _ _ _ _ _ _ _ _ _ Hs Hfmt)
    as (Hb & Hh & Hfo).
  unfold select_row. unfold is_data_row in Hdata. rewrite Hdata, Hb, Hh, Hfo.
  cbn [negb andb].
  destruct (Z.eqb_spec (rn l) (border_top_row desc)); [reflexivity|].
  destruct (Z.eqb_spec (rn l) (border_bottom_row desc)); [reflexivity|].
  destruct (Z.eqb_spec (rn l) (border_head_row desc)); [reflexivity|].
  cbn [orb].
  destruct (negb (print_header plan) && (rn l <? fixed_rows desc)); [reflexivity|].
  destruct Hline as [Ht|[Hbo|[Hhe|[Hf1 Hf2]]]]; try congruence.
  replace (footer_row desc =? -1) with false by (symmetry; apply Z.eqb_neq; exact Hf1).
  replace (footer_row desc <=? rn l) with true by (symmetry; apply Z.leb_le; exact Hf2).
  reflexivity.
Qed.

End Decoration.

Lemma top_bottom_keep_first_last_rows_witness :
  let desc := mkDataDesc 2 8 9 1 [] NULL 0 9 1 2 (-1) [] in
  let m := mkMachine [] 0 (mkFILE [] None) in
  exists plan st m',
    export_setup (H := example_collaborators) (mkOptions true false false false)
      (mkScrDesc (-1) 0 (-1) 0) desc 0 1 3 (double_of_int 0) NULL
      cmd_CopyBottomLines CLIPBOARD_FORMAT_CSV m
    = Ok (Some (plan, st), m')
    /\ forall l m0,
         is_data_row desc l = true ->
         select_row (H := example_collaborators) (mkOptions true false false false)
           desc plan cmd_CopyBottomLines 0 l m0
         = Ok ((if 5 <? rn l then Some false else None), m0).
Proof.
  intros desc m.
  apply (top_bottom_keep_first_last_rows (H := example_collaborators)
           (mkOptions true false false false) (mkScrDesc (-1) 0 (-1) 0) desc
           0 1 3 (double_of_int 0) NULL cmd_CopyBottomLines CLIPBOARD_FORMAT_CSV m).
  - right. reflexivity.
  - lia.
  - reflexivity.
  - discriminate.
  - simpl. lia.
  - simpl. lia.
  - unfold INT_MAX. simpl. lia.
  - vm_compute. discriminate.
  - vm_compute. discriminate.
Defined.

Lemma copy_line_keeps_cursor_row_witness :
  let desc := mkDataDesc 2 8 9 1 [] NULL 0 9 1 2 (-1) [] in
  let m := mkMachine [] 0 (mkFILE [] None) in
  exists plan st m',
    export_setup (H := example_collaborators) (mkOptions true false false false)
      (mkScrDesc (-1) 0 (-1) 0) desc 4 1 0 (double_of_int 0) NULL
      cmd_CopyLine CLIPBOARD_FORMAT_TSVC m
    = Ok (Some (plan, st), m')
    /\ xmin st = -1 /\ print_footer plan = false
    /\ forall l m0,
         is_data_row desc l = true ->
         INT_MIN <= rn l - 2 <= INT_MAX ->
         select_row (H := example_collaborators) (mkOptions true false false false)
           desc plan cmd_CopyLine 4 l m0
         = Ok ((if rn l =? 6 then Some false else None), m0).
Proof.
  intros desc m.
  apply (copy_line_keeps_cursor_row (H := example_collaborators)
           (mkOptions true false false false) (mkScrDesc (-1) 0 (-1) 0) desc
           4 1 0 (double_of_int 0) NULL CLIPBOARD_FORMAT_TSVC m).
  - discriminate.
  - unfold INT_MIN, INT_MAX. lia.
  - unfold INT_MIN, INT_MAX. simpl. lia.
Defined.

Lemma non_text_formats_skip_decoration_witness :
  let desc := mkDataDesc 3 8 10 1 [] NULL 0 9 2 2 10 [] in
  let m := mkMachine [] 0 (mkFILE [] None) in
  let plan := mkExportPlan 3 10 true false false false in
  let st := mkExportState CLIPBOARD_FORMAT_CSV (-1) (-1) false NULL 1 true false 0 None in
  export_setup (H := example_collaborators) (mkOptions true false false false)
    (mkScrDesc (-1) 0 (-1) 0) desc 0 1 0 (double_of_int 0) NULL
    cmd_CopyAllLines CLIPBOARD_FORMAT_CSV m
  = Ok (Some (plan, st), m)
  /\ forall l m0,
       is_data_row desc l = false ->
       rn l = 0 \/ rn l = 9 \/ rn l = 2 \/ (10 <> -1 /\ 10 <= rn l) ->
       select_row (H := example_collaborators) (mkOptions true false false false)
         desc plan cmd_CopyAllLines 0 l m0
       = Ok (None, m0).
Proof.
  intros desc m plan st. split; [reflexivity|].
  apply (non_text_formats_skip_decoration (H := example_collaborators)
           (mkOptions true false false false) (mkScrDesc (-1) 0 (-1) 0) desc
           0 1 0 (double_of_int 0) NULL cmd_CopyAllLines CLIPBOARD_FORMAT_CSV m
           plan st m).
  - reflexivity.
  - left. discriminate.
Defined.

(** ** Rows in the CSV and TSV formats *)

Section CsvRows.
Context `{Collaborators}.

Lemma drop_blanks_blanks_app a x : drop_blanks (blanks a ++ x) = drop_blanks x.
Proof. induction a as [|a IH]; simpl; [reflexivity|exact IH]. Qed.

Lemma drop_blanks_nonblank x : hd 32 x <> 32 -> drop_blanks x = x.
Proof.
  destruct x as [|c r]; simpl; [reflexivity|]. intros Hc.
  replace (c =? 32) with false by (symmetry; apply Z.eqb_neq; exact Hc). reflexivity.
Qed.

Lemma rev_blanks b : rev (blanks b) = blanks b.
Proof.
  unfold blanks. induction b as [|b IH]; simpl; [reflexivity|].
  rewrite IH. clear IH. induction b as [|b IH]; simpl; [reflexivity|].
  rewrite IH. reflexivity.
Qed.

Lemma trimmed_blanks a : trimmed (blanks a) = [].
Proof.
  unfold trimmed. rewrite <- (app_nil_r (blanks a)), drop_blanks_blanks_app. reflexivity.
Qed.

Lemma trimmed_core a core b :
  core <> [] -> hd 32 core <> 32 -> List.last core 32 <> 32 ->
  trimmed (blanks a ++ core ++ blanks b) = core.
Proof.
  intros Hne Hhd Hlast. unfold trimmed.
  rewrite drop_blanks_blanks_app.
  rewrite (drop_blanks_nonblank (core ++ blanks b))
    by (destruct core; [congruence|exact Hhd]).
  rewrite rev_app_distr, rev_blanks, drop_blanks_blanks_app.
  destruct (exists_last Hne) as (core' & z & ->).
  rewrite List.last_last in Hlast.
  rewrite rev_app_distr. change (rev [z] ++ rev core') with (z :: rev core').
  rewrite (drop_blanks_nonblank (z :: rev core')) by exact Hlast.
  simpl. rewrite rev_involutive. reflexivity.
Qed.

(** [trim_str] in terms of [trimmed], for a field with a readable byte
    after it. *)
Lemma trim_str_trimmed field cell rest h :
  view field h = Ok (cell ++ rest) -> rest <> [] ->
  exists p,
    trim_str field (Z.of_nat (length cell)) true h
    = Ok ((p, Z.of_nat (length (trimmed cell))), h)
    /\ ((trimmed cell = [] /\ p = NULL)
        \/ (trimmed cell <> [] /\ is_null p = false
            /\ exists rest', rest' <> [] /\ view p h = Ok (trimmed cell ++ rest'))).
Proof.
  intros Hv Hrest.
  destruct (blanks_split cell) as [[a ->]|(a & core & b & -> & Hne & Hhd & Hlast)].
  - destruct rest as [|c rest]; [congruence|].
    exists NULL. rewrite trimmed_blanks.
    replace (length (blanks a)) with a
      by (unfold blanks; rewrite length_replicate; reflexivity).
    split; [exact (trim_str_blank_field _ _ _ _ _ _ Hv)|]. left. auto.
  - rewrite <- !app_assoc in Hv.
    exists (ptr_add field (Z.of_nat a)).
    rewrite (trimmed_core a core b Hne Hhd Hlast).
    replace (length (blanks a ++ core ++ blanks b)) with (a + length core + b)%nat
      by (rewrite !length_app; unfold blanks; rewrite !length_replicate; lia).
    split; [exact (trim_str_8bit_core _ _ _ _ _ _ Hv Hne Hhd Hlast)|].
    right. split; [exact Hne|].
    split; [destruct field; [discriminate|reflexivity]|].
    exists (blanks b ++ rest).
    split; [destruct (blanks b); [exact Hrest|discriminate]|].
    exact (view_blanks_skip _ _ _ _ Hv).
Qed.

Lemma view_app_old p h v t : view p h = Ok v -> view p (h ++ t) = Ok v.
Proof.
  destruct p as [|b o]; simpl; [discriminate|].
  destruct (h !! b) as [x|] eqn:E; [|discriminate].
  rewrite (lookup_app_l h) by (eapply lookup_lt_Some; eauto).
  rewrite E. auto.
Qed.

Lemma cptr_eqb_refl p : cptr_eqb p p = true.
Proof. destruct p; simpl; [reflexivity|]. rewrite Nat.eqb_refl, Z.eqb_refl. reflexivity. Qed.

Lemma cptr_eqb_eq p q : cptr_eqb p q = true -> p = q.
Proof.
  destruct p, q; simpl; try discriminate; [reflexivity|].
  intros Hb. apply andb_true_iff in Hb as [Hb Ho].
  apply Nat.eqb_eq in Hb. apply Z.eqb_eq in Ho. congruence.
Qed.

Lemma free_fresh h blk : free (fresh_ptr h) (h ++ [Some blk]) = Ok (tt, h ++ [None]).
Proof.
  unfold free, fresh_ptr.
  rewrite (list_lookup_middle h [] (Some blk) (length h) eq_refl).
  cbn [Z.eqb]. f_equal. f_equal.
  rewrite (insert_app_r_alt h) by lia. rewrite Nat.sub_diag. reflexivity.
Qed.

(** The separator that the CSV and TSV formats write before a value. *)
Lemma has_byte_count_0 q bs : has_byte q bs = false -> count_byte q bs = 0%nat.
Proof.
  unfold has_byte, count_byte. induction bs as [|c bs IH]; simpl; [reflexivity|].
  destruct (c =? q); simpl; [discriminate|exact IH].
Qed.

Lemma doubled_no_quote q bs : has_byte q bs = false -> doubled q bs = bs.
Proof.
  unfold has_byte, doubled. induction bs as [|c bs IH]; simpl; [reflexivity|].
  destruct (c =? q); simpl; [discriminate|]. intros Hb. rewrite (IH Hb). reflexivity.
Qed.

(** A data token in the CSV and TSV formats, given what [trim_str] and
    [csv_format] return: the separator and the value are written, and a
    buffer that [csv_format] allocated is freed. *)
Lemma process_item_dsv_write st field size xpos is_colname hc out
    field1 size1 _field size2 h2 bs h3 :
  DSV_FORMAT_TYPE (format st) = true -> copy_line_extended st = false ->
  xmin st = -1 ->
  trim_str field size (force8bit st) hc = Ok ((field1, size1), hc) ->
  csv_format field1 size1 (force8bit st) (empty_string_is_null st) hc
  = Ok ((_field, size2), h2) ->
  (if is_null _field then bs = [] else load_bytes _field size2 h2 = Ok (bs, h2)) ->
  (if cptr_eqb _field field1 then h3 = h2 else free _field h2 = Ok (tt, h3)) ->
  process_item st 100 field size xpos is_colname (mkMachine hc 0 (mkFILE out None))
  = Ok ((true, set_colno st (colno st + 1)),
        mkMachine h3 0
          (mkFILE (out
                   ++ (if 0 <? colno st
                       then [if format_eqb (format st) CLIPBOARD_FORMAT_CSV
                             then 44 else 9]
                       else [])
                   ++ bs) None)).
Proof.
  intros Hd Hcle Hx Htrim Hcsv Hload Hfree.
  unfold process_item, process_item_dsv, outside_range.
  rewrite Hcle, Hx.
  assert (Hfmt : INSERT_FORMAT_TYPE (format st) = false
                 /\ format_eqb (format st) CLIPBOARD_FORMAT_TEXT = false
                 /\ (format_eqb (format st) CLIPBOARD_FORMAT_CSV = false ->
                     format_eqb (format st) CLIPBOARD_FORMAT_TSVC = true))
    by (destruct (format st); try discriminate; repeat split; auto; discriminate).
  destruct Hfmt as (Hi & Ht & Htsv). rewrite Hi, Ht, Hd.
  cbn [Z.eqb Pos.eqb negb andb].
  assert (Ht' : on_heap (trim_str field size (force8bit st))
                  (mkMachine hc 0 (mkFILE out None))
                = Ok ((field1, size1), mkMachine hc 0 (mkFILE out None)))
    by (unfold on_heap; cbn [m_heap m_errno m_out]; rewrite Htrim; reflexivity).
  rewrite (bind_ok _ _ _ _ _ Ht'). cbv beta iota.
  assert (Hc' : on_heap (csv_format field1 size1 (force8bit st) (empty_string_is_null st))
                  (mkMachine hc 0 (mkFILE out None))
                = Ok ((_field, size2), mkMachine h2 0 (mkFILE out None)))
    by (unfold on_heap; cbn [m_heap m_errno m_out]; rewrite Hcsv; reflexivity).
  rewrite (bind_ok _ _ _ _ _ Hc'). cbv beta iota.
  unfold bind, set_errno, get_errno, fputc, fwrite, bind, on_heap, write_out, finish,
    bind, get_errno, ret.
  cbn [m_heap m_errno m_out f_room f_bytes].
  destruct (0 <? colno st);
    [destruct (format_eqb (format st) CLIPBOARD_FORMAT_CSV) eqn:Ecsv;
     [|rewrite (Htsv eq_refl)]|];
    cbn [m_heap m_errno m_out f_room f_bytes Z.eqb andb];
    (destruct (is_null _field); cbn [negb andb m_heap m_errno m_out f_room f_bytes];
     [subst bs|rewrite Hload; cbn [m_heap m_errno m_out f_room f_bytes]]);
    (destruct (cptr_eqb _field field1);
     cbn [negb m_heap m_errno m_out f_room f_bytes Z.eqb];
     [subst h3|rewrite Hfree; cbn [m_heap m_errno m_out f_room f_bytes Z.eqb]]);
    rewrite <- ?app_assoc, ?app_nil_r; reflexivity.
Qed.

Lemma csv_format_clean_8bit str bs rest esn h :
  view str h = Ok (bs ++ rest) -> bs <> [] ->
  existsb csv_special bs = false ->
  csv_format str (Z.of_nat (length bs)) true esn h = Ok ((str, Z.of_nat (length bs)), h).
Proof.
  intros Hv Hne Hsp. unfold csv_format. simpl negb. cbn [andb].
  unfold bind at 1. unfold ret at 1.
  replace (Z.of_nat (length bs) =? 0) with false
    by (symmetry; apply Z.eqb_neq; destruct bs; [congruence|simpl; lia]).
  unfold bind at 1.
  rewrite (csv_scan_8bit bs _ str h rest Hv) by (rewrite Nat2Z.id; lia).
  rewrite Hsp. reflexivity.
Qed.

(** One cell in the CSV and TSV formats, force-8-bit mode. *)
Lemma process_item_csv_cell st field cell rest xpos is_colname hc out :
  DSV_FORMAT_TYPE (format st) = true -> copy_line_extended st = false ->
  xmin st = -1 -> force8bit st = true ->
  view field hc = Ok (cell ++ rest) -> rest <> [] ->
  has_byte 34 (trimmed cell) = false ->
  exists n,
    process_item st 100 field (Z.of_nat (length cell)) xpos is_colname
      (mkMachine hc 0 (mkFILE out None))
    = Ok ((true, set_colno st (colno st + 1)),
          mkMachine (hc ++ replicate n None) 0
            (mkFILE (out
                     ++ (if 0 <? colno st
                         then [if format_eqb (format st) CLIPBOARD_FORMAT_CSV
                               then 44 else 9]
                         else [])
                     ++ csv_cell (empty_string_is_null st) cell) None)).
Proof.
  intros Hd Hcle Hx H8 Hv Hrest Hq.
  destruct (trim_str_trimmed field cell rest hc Hv Hrest)
    as (p & Htrim & [[Hnil ->]|(Hne & Hp & rest' & _ & Hvp)]).
  - unfold csv_cell. rewrite Hnil in *.
    destruct (empty_string_is_null st) eqn:Eesn.
    + exists 0%nat. simpl replicate. rewrite app_nil_r.
      apply (process_item_dsv_write st field _ xpos is_colname hc out
               NULL 0 NULL 0 hc [] hc Hd Hcle Hx).
      * rewrite H8. exact Htrim.
      * rewrite H8, Eesn. reflexivity.
      * reflexivity.
      * reflexivity.
    + exists 1%nat.
      apply (process_item_dsv_write st field _ xpos is_colname hc out
               NULL 0 (fresh_ptr hc) 2 (hc ++ [Some [34; 34; 0]]) [34; 34]
               (hc ++ [None]) Hd Hcle Hx).
      * rewrite H8. exact Htrim.
      * rewrite H8, Eesn. reflexivity.
      * cbn [fresh_ptr is_null].
        apply (load_bytes_take (fresh_ptr hc) _ [34; 34] [0]). apply view_fresh.
      * cbn [fresh_ptr cptr_eqb]. apply free_fresh.
  - set (core := trimmed cell) in *.
    assert (Hcell : csv_cell (empty_string_is_null st) cell
                    = if existsb csv_special core then wrapped 34 core else core)
      by (unfold csv_cell; fold core; destruct core; [congruence|reflexivity]).
    rewrite Hcell.
    destruct (existsb csv_special core) eqn:Esp.
    + exists 1%nat.
      assert (Hw : wrapped 34 core = 34 :: core ++ [34])
        by (unfold wrapped; rewrite (doubled_no_quote 34 core Hq); reflexivity).
      apply (process_item_dsv_write st field _ xpos is_colname hc out
               p (Z.of_nat (length core)) (fresh_ptr hc) (Z.of_nat (length core) + 2)
               (hc ++ [Some (buffer_block (length hc)
                               (Z.of_nat (length core) * 2 + 2 + 1)
                               (wrapped 34 core ++ [0]))])
               (wrapped 34 core) (hc ++ [None]) Hd Hcle Hx).
      * rewrite H8. exact Htrim.
      * rewrite H8. apply (csv_format_quotes_8bit p core rest' _ hc Hvp Esp).
      * cbn [fresh_ptr is_null].
        replace (Z.of_nat (length core) + 2) with (Z.of_nat (length (wrapped 34 core)))
          by (rewrite Hw; simpl; rewrite length_app; simpl; lia).
        apply (load_bytes_take (fresh_ptr hc) _ (wrapped 34 core)
                 ([0] ++ map (heap_junk (length hc))
                           (seqZ (Z.of_nat (length (wrapped 34 core ++ [0])))
                              (Z.of_nat (length core) * 2 + 2 + 1
                               - Z.of_nat (length (wrapped 34 core ++ [0])))))).
        unfold buffer_block. rewrite <- app_assoc. apply view_fresh.
      * destruct (cptr_eqb (fresh_ptr hc) p) eqn:Eq.
        -- apply cptr_eqb_eq in Eq. exfalso.
           exact (fresh_ptr_not_valid _ _ _ Hvp Eq).
        -- apply free_fresh.
    + exists 0%nat. simpl replicate. rewrite app_nil_r.
      apply (process_item_dsv_write st field _ xpos is_colname hc out
               p (Z.of_nat (length core)) p (Z.of_nat (length core)) hc core hc
               Hd Hcle Hx).
      * rewrite H8. exact Htrim.
      * rewrite H8. apply (csv_format_clean_8bit p core rest' _ hc Hvp Hne Esp).
      * rewrite Hp. apply (load_bytes_take p hc core rest' Hvp).
      * rewrite cptr_eqb_refl. reflexivity.
Qed.

(** A token that is neither data nor the end of the row: the CSV and TSV
    formats write nothing for it, and test [errno] as it stands. *)
Lemma process_item_dsv_other st typ field size xpos is_colname h out :
  DSV_FORMAT_TYPE (format st) = true -> typ <> 78 -> typ <> 100 ->
  process_item st typ field size xpos is_colname (mkMachine h 0 (mkFILE out None))
  = Ok ((true, st), mkMachine h 0 (mkFILE out None)).
Proof.
  intros Hd H78 H100. unfold process_item, process_item_dsv.
  replace (INSERT_FORMAT_TYPE (format st)) with false
    by (destruct (format st); try discriminate; reflexivity).
  replace (format_eqb (format st) CLIPBOARD_FORMAT_TEXT) with false
    by (destruct (format st); try discriminate; reflexivity).
  rewrite Hd.
  replace (typ =? 78) with false by (symmetry; apply Z.eqb_neq; exact H78).
  replace (typ =? 100) with false by (symmetry; apply Z.eqb_neq; exact H100).
  reflexivity.
Qed.

Lemma process_item_dsv_newline st field size xpos is_colname h e out :
  DSV_FORMAT_TYPE (format st) = true -> copy_line_extended st = false ->
  process_item st 78 field size xpos is_colname (mkMachine h e (mkFILE out None))
  = Ok ((true, st), mkMachine h 0 (mkFILE (out ++ [10]) None)).
Proof.
  intros Hd Hcle. unfold process_item, process_item_dsv.
  replace (INSERT_FORMAT_TYPE (format st)) with false
    by (destruct (format st); try discriminate; reflexivity).
  replace (format_eqb (format st) CLIPBOARD_FORMAT_TEXT) with false
    by (destruct (format st); try discriminate; reflexivity).
  rewrite Hd, Hcle. reflexivity.
Qed.

Lemma set_colno_colno st : set_colno st (colno st) = st.
Proof. destruct st; reflexivity. Qed.

(** The token loop and the end of the row in the CSV and TSV formats, from
    any point of the row. *)
Lemma csv_row_walk s : forall t fuel rp hp x field fxpos pend st hc out
    sstop tstop is_colname,
  length t = length s -> (length s < fuel)%nat ->
  view rp hc = Ok (s ++ sstop) ->
  view hp hc = Ok (t ++ tstop) ->
  Forall (fun c => c <> 0) s ->
  Forall (fun c => c <> 10 /\ c <> 78) t ->
  (exists r, sstop = 0 :: r) \/ (exists c r r', sstop = c :: r /\ tstop = 10 :: r') ->
  (if is_null field then pend = []
   else pend <> [] /\ view field hc = Ok (pend ++ s ++ sstop)) ->
  DSV_FORMAT_TYPE (format st) = true -> copy_line_extended st = false ->
  xmin st = -1 -> force8bit st = true ->
  Forall (fun cell => has_byte 34 (trimmed cell) = false) (row_cells t s pend) ->
  exists n,
    (do r <- row_tokens fuel (mkFmtLineIter rp hp true x) field
               (Z.of_nat (length pend)) fxpos is_colname st;
     finish_row is_colname r) (mkMachine hc 0 (mkFILE out None))
    = Ok ((true, set_colno st (colno st + Z.of_nat (length (row_cells t s pend)))),
          mkMachine (hc ++ replicate n None) 0
            (mkFILE (out
                     ++ csv_fields (if format_eqb (format st) CLIPBOARD_FORMAT_CSV
                                    then 44 else 9)
                          (colno st)
                          (map (csv_cell (empty_string_is_null st)) (row_cells t s pend))
                     ++ [10]) None)).
Proof.
  induction s as [|c s IH];
    intros t fuel rp hp x field fxpos pend st hc out sstop tstop is_colname
           Hlen Hfuel Hr Ht Hnz Hty Hend Hpend Hd Hcle Hx H8 Hcells.
  - destruct t; [|discriminate]. destruct fuel as [|fuel]; [simpl in Hfuel; lia|].
    cbn [row_tokens]. rewrite bind_assoc.
    assert (Hnext : on_heap (next_char (mkFmtLineIter rp hp true x))
                      (mkMachine hc 0 (mkFILE out None))
                    = Ok ((None, mkFmtLineIter rp hp true x),
                          mkMachine hc 0 (mkFILE out None))).
    { unfold on_heap. cbn [m_heap m_errno m_out].
      rewrite (next_char_end rp hp true x hc _ _ Hr Ht Hend). reflexivity. }
    rewrite (bind_ok _ _ _ _ _ Hnext). cbv beta iota.
    unfold bind at 1. unfold ret at 1. cbv beta iota.
    unfold finish_row. cbn [negb row_cells]. cbn [row_cells app] in Hcells.
    destruct field as [|fb fo]; cbn [is_null negb] in *.
    + subst pend. exists 0%nat. unfold bind at 1. unfold ret at 1. cbv beta iota.
      cbn [negb]. rewrite (process_item_dsv_newline st _ _ _ _ _ _ _ Hd Hcle).
      cbn [flush_cell length map csv_fields app replicate].
      rewrite Z.add_0_r, set_colno_colno, app_nil_r. reflexivity.
    + destruct Hpend as [Hne Hvf].
      assert (Hflush : flush_cell pend = [pend]) by (destruct pend; [congruence|reflexivity]).
      rewrite Hflush in *. pose proof (List.Forall_inv Hcells) as Hq. cbv beta in Hq.
      destruct (process_item_csv_cell st (Ptr fb fo) pend sstop fxpos is_colname hc out
                  Hd Hcle Hx H8 Hvf) as [n Hcell]; [|exact Hq|].
      { destruct Hend as [[r ->]|(c0 & r & r' & -> & _)]; discriminate. }
      exists n. rewrite (bind_ok _ _ _ _ _ Hcell). cbv beta iota. cbn [negb].
      rewrite (process_item_dsv_newline (set_colno st (colno st + 1)) _ _ _ _ _ _ _
                 Hd Hcle).
      cbn [length map csv_fields]. rewrite app_nil_r, <- !app_assoc. reflexivity.
  - destruct t as [|ty t]; [discriminate|]. destruct fuel as [|fuel]; [simpl in Hfuel; lia|].
    inversion Hnz as [|? ? Hc Hnz']; subst.
    inversion Hty as [|? ? [Hty10 Hty78] Hty']; subst.
    cbn [row_tokens]. rewrite bind_assoc.
    assert (Hnext : on_heap (next_char (mkFmtLineIter rp hp true x))
                      (mkMachine hc 0 (mkFILE out None))
                    = Ok ((Some (rp, ty, 1, 1, x),
                           mkFmtLineIter (ptr_add rp 1) (ptr_add hp 1) true (x + 1)),
                          mkMachine hc 0 (mkFILE out None))).
    { unfold on_heap. cbn [m_heap m_errno m_out].
      rewrite (next_char_step_8bit rp hp x hc c (s ++ sstop) ty (t ++ tstop)
                 Hr Ht Hc Hty10).
      reflexivity. }
    rewrite (bind_ok _ _ _ _ _ Hnext). cbv beta iota.
    assert (Hrp : is_null rp = false) by (destruct rp; [discriminate|reflexivity]).
    cbn [row_cells] in *.
    destruct (Z.eqb_spec ty 100) as [->|Hdt].
    + replace (Z.of_nat (length pend) + 1) with (Z.of_nat (length (pend ++ [c])))
        by (rewrite length_app; simpl; lia).
      apply (IH t fuel (ptr_add rp 1) (ptr_add hp 1) (x + 1)
               (if is_null field then rp else field) x (pend ++ [c]) st hc out
               sstop tstop is_colname);
        try assumption.
      * simpl in Hlen. lia.
      * simpl in Hfuel. lia.
      * exact (view_next _ _ _ _ Hr).
      * exact (view_next _ _ _ _ Ht).
      * destruct (is_null field) eqn:En.
        -- rewrite Hrp. subst pend. split; [discriminate|exact Hr].
        -- rewrite En. destruct Hpend as [_ Hvf].
           split; [destruct pend; discriminate|].
           rewrite <- app_assoc. exact Hvf.
    + destruct (is_null field) eqn:En; cbn [negb].
      * subst pend. cbn [flush_cell app] in *.
        unfold bind at 2. unfold ret at 1. cbv beta iota. cbn [negb].
        rewrite bind_assoc.
        rewrite (bind_ok _ _ _ _ _
                   (process_item_dsv_other st ty rp 1 x is_colname hc out
                      Hd Hty78 Hdt)).
        cbv beta iota. cbn [negb].
        apply (IH t fuel (ptr_add rp 1) (ptr_add hp 1) (x + 1) field fxpos [] st hc out
                 sstop tstop is_colname);
          try assumption.
        -- simpl in Hlen. lia.
        -- simpl in Hfuel. lia.
        -- exact (view_next _ _ _ _ Hr).
        -- exact (view_next _ _ _ _ Ht).
        -- rewrite En. reflexivity.
      * destruct Hpend as [Hne Hvf].
        assert (Hflush : flush_cell pend = [pend])
          by (destruct pend; [congruence|reflexivity]).
        rewrite Hflush in *. cbn [app] in *.
        pose proof (List.Forall_inv Hcells) as Hq. cbv beta in Hq.
        pose proof (List.Forall_inv_tail Hcells) as Hcells'.
        destruct (process_item_csv_cell st field pend (c :: s ++ sstop) fxpos is_colname
                    hc out Hd Hcle Hx H8 Hvf ltac:(discriminate) Hq) as [n1 Hcell].
        rewrite bind_assoc. rewrite (bind_ok _ _ _ _ _ Hcell). cbv beta iota. cbn [negb].
        rewrite bind_assoc.
        rewrite (bind_ok _ _ _ _ _
                   (process_item_dsv_other (set_colno st (colno st + 1)) ty rp 1 x
                      is_colname _ _ Hd Hty78 Hdt)).
        cbv beta iota. cbn [negb].
        destruct (IH t fuel (ptr_add rp 1) (ptr_add hp 1) (x + 1) NULL (-1) []
                    (set_colno st (colno st + 1)) (hc ++ replicate n1 None)
                    (out
                     ++ (if 0 <? colno st
                         then [if format_eqb (format st) CLIPBOARD_FORMAT_CSV
                               then 44 else 9]
                         else [])
                     ++ csv_cell (empty_string_is_null st) pend)
                    sstop tstop is_colname) as [n2 Hrest];
          try assumption.
        -- simpl in Hlen. lia.
        -- simpl in Hfuel. lia.
        -- apply view_app_old. exact (view_next _ _ _ _ Hr).
        -- apply view_app_old. exact (view_next _ _ _ _ Ht).
        -- reflexivity.
        -- exists (n1 + n2)%nat.
           change (Z.of_nat (length (@nil Z))) with 0 in Hrest.
           rewrite Hrest. cbn [format colno empty_string_is_null set_colno
                               length map csv_fields].
           rewrite replicate_add, <- !app_assoc.
           replace (colno st + 1 + Z.of_nat (length (row_cells t s [])))
             with (colno st + Z.of_nat (S (length (row_cells t s [])))) by lia.
           reflexivity.
Qed.

(** The row loop body on a row in the CSV and TSV formats. *)
Lemma export_row_csv_layout opts desc l is_colname st h out t s :
  opt_force8bit opts = true -> force8bit st = true ->
  DSV_FORMAT_TYPE (format st) = true -> copy_line_extended st = false ->
  xmin st = -1 ->
  row_layout h (rowstr l) (headline_transl desc) t s ->
  cells_without_quote t s ->
  exists n,
    export_row opts desc l is_colname st (mkMachine h 0 (mkFILE out None))
    = Ok ((true, set_colno st (Z.of_nat (length (row_cells t s [])))),
          mkMachine (h ++ replicate n None) 0
            (mkFILE (out
                     ++ csv_line (if format_eqb (format st) CLIPBOARD_FORMAT_CSV
                                  then 44 else 9)
                          (empty_string_is_null st) t s) None)).
Proof.
  intros Ho8 H8 Hd Hcle Hx (sstop & tstop & Hr & Ht & Hlen & Hnz & Hty & Hend) Hcells.
  rewrite export_row_finish_row, Ho8.
  assert (Hfuel : on_heap (row_fuel (rowstr l)) (mkMachine h 0 (mkFILE out None))
                  = Ok (S (length (s ++ sstop)), mkMachine h 0 (mkFILE out None))).
  { unfold on_heap, row_fuel. cbn [m_heap m_errno m_out]. rewrite Hr. reflexivity. }
  rewrite (bind_ok _ _ _ _ _ Hfuel).
  destruct (csv_row_walk s t (S (length (s ++ sstop))) (rowstr l) (headline_transl desc)
              0 NULL (-1) [] (set_colno st 0) h out sstop tstop is_colname)
    as [n Hrun]; try assumption; try reflexivity.
  - rewrite length_app. lia.
  - exists n. change (Z.of_nat (length (@nil Z))) with 0 in Hrun. rewrite Hrun.
    unfold csv_line. cbn [format colno empty_string_is_null set_colno].
    rewrite Z.add_0_l, <- ?app_assoc. reflexivity.
Qed.

(** X14.  A row in the CSV and TSV formats is the line of its cells.  In
    force-8-bit mode, without a column range, with [errno] clear and a
    stream that takes everything, [export_row] writes for a row whose data
    cells hold no double quote: the cells in order, each without the blanks
    around it, a cell with a comma, tab, CR or LF between double quotes, a
    blank cell as two double quotes or as nothing (the null-as-empty
    option), a comma (CSV) or a tab (TSV) between two cells, and a line
    feed.  Border columns write nothing.  Every buffer it allocated is
    freed again, the blocks that were there are untouched, and the column
    counter ends as the number of cells. *)
Theorem export_row_csv_line opts desc l is_colname st h out t s :
  opt_force8bit opts = true -> force8bit st = true ->
  DSV_FORMAT_TYPE (format st) = true -> copy_line_extended st = false ->
  xmin st = -1 ->
  row_layout h (rowstr l) (headline_transl desc) t s ->
  cells_without_quote t s ->
  exists n,
    export_row opts desc l is_colname st (mkMachine h 0 (mkFILE out None))
    = Ok ((true, set_colno st (Z.of_nat (length (row_cells t s [])))),
          mkMachine (h ++ replicate n None) 0
            (mkFILE (out
                     ++ csv_line (if format_eqb (format st) CLIPBOARD_FORMAT_CSV
                                  then 44 else 9)
                          (empty_string_is_null st) t s) None)).
Proof.
  intros Ho8 H8 Hd Hcle Hx Hrow Hcells.
  exact (export_row_csv_layout opts desc l is_colname st h out t s
           Ho8 H8 Hd Hcle Hx Hrow Hcells).
Qed.

Lemma row_layout_app h junk rowp hp t s :
  row_layout h rowp hp t s -> row_layout (h ++ junk) rowp hp t s.
Proof.
  intros (sstop & tstop & Hr & Ht & Hrest). exists sstop, tstop.
  split; [apply view_app_old; exact Hr|]. split; [apply view_app_old; exact Ht|].
  exact Hrest.
Qed.

Lemma select_row_all_lines_csv opts desc cursor_row l m :
  last_data_row desc <= last_row desc ->
  exists is_colname,
    select_row opts desc
      (mkExportPlan (first_data_row desc) (last_row desc) true false false false)
      cmd_CopyAllLines cursor_row l m
    = Ok ((if csv_selected desc l then Some is_colname else None), m).
Proof.
  intros Hlast. unfold select_row, csv_selected, is_data_row.
  cbn [min_row max_row print_header print_footer print_border print_header_line
       cmd_eqb negb andb].
  destruct ((first_data_row desc <=? rn l) && (rn l <=? last_data_row desc)) eqn:Ed.
  - apply andb_true_iff in Ed as [E1 E2]. apply Z.leb_le in E1. apply Z.leb_le in E2.
    replace (rn l <? first_data_row desc) with false by lia.
    replace (last_row desc <? rn l) with false by lia.
    eexists. reflexivity.
  - cbn [orb].
    destruct (rn l =? border_top_row desc); [exists true; reflexivity|].
    destruct (rn l =? border_bottom_row desc); [exists true; reflexivity|].
    destruct (rn l =? border_head_row desc); [exists true; reflexivity|].
    cbn [orb negb andb].
    destruct (negb (footer_row desc =? -1) && (footer_row desc <=? rn l));
      [exists true; reflexivity|eexists; reflexivity].
Qed.

Lemma export_lines_csv opts desc cursor_row : forall ls layouts st hc out,
  opt_force8bit opts = true -> last_data_row desc <= last_row desc ->
  force8bit st = true -> DSV_FORMAT_TYPE (format st) = true ->
  copy_line_extended st = false -> xmin st = -1 ->
  Forall2 (fun l ts => row_layout hc (rowstr l) (headline_transl desc) (fst ts) (snd ts)
                       /\ cells_without_quote (fst ts) (snd ts))
          (List.filter (csv_selected desc) ls) layouts ->
  exists n st',
    export_lines opts desc
      (mkExportPlan (first_data_row desc) (last_row desc) true false false false)
      cmd_CopyAllLines cursor_row ls st (mkMachine hc 0 (mkFILE out None))
    = Ok ((true, st'),
          mkMachine (hc ++ replicate n None) 0
            (mkFILE (out
                     ++ concat (map (fun ts =>
                                       csv_line (if format_eqb (format st)
                                                      CLIPBOARD_FORMAT_CSV
                                                 then 44 else 9)
                                         (empty_string_is_null st) (fst ts) (snd ts))
                                    layouts)) None))
    /\ colnames st' = colnames st /\ table_name st' = table_name st.
Proof.
  induction ls as [|l ls IH]; intros layouts st hc out Ho8 Hlast H8 Hd Hcle Hx Hrows.
  - simpl in Hrows. inversion Hrows; subst.
    exists 0%nat, st. simpl. rewrite !app_nil_r. auto.
  - cbn [export_lines List.filter] in *.
    destruct (select_row_all_lines_csv opts desc cursor_row l
                (mkMachine hc 0 (mkFILE out None)) Hlast) as [ic Hsel].
    rewrite (bind_ok _ _ _ _ _ Hsel).
    destruct (csv_selected desc l).
    + inversion Hrows as [|? [t s] ? layouts' [Hrow Hcells] Hrows']; subst.
      cbn [fst snd] in *.
      destruct (export_row_csv_layout opts desc l ic st hc out t s
                  Ho8 H8 Hd Hcle Hx Hrow Hcells) as [n1 Hrun].
      rewrite (bind_ok _ _ _ _ _ Hrun). cbv beta iota. cbn [negb].
      destruct (IH layouts' (set_colno st (Z.of_nat (length (row_cells t s []))))
                  (hc ++ replicate n1 None)
                  (out ++ csv_line (if format_eqb (format st) CLIPBOARD_FORMAT_CSV
                                    then 44 else 9)
                            (empty_string_is_null st) t s)
                  Ho8 Hlast H8 Hd Hcle Hx)
        as (n2 & st' & Hrest & Hcn & Htn).
      { eapply Forall2_impl; [exact Hrows'|].
        intros l0 ts [Hl0 Hc0]. split; [apply row_layout_app; exact Hl0|exact Hc0]. }
      exists (n1 + n2)%nat, st'. split; [|split; [exact Hcn|exact Htn]].
      rewrite Hrest. cbn [format empty_string_is_null set_colno map concat fst snd].
      rewrite replicate_add, <- !app_assoc. reflexivity.
    + apply (IH layouts st hc out Ho8 Hlast H8 Hd Hcle Hx Hrows).
Qed.

(** X15.  Copying all lines as CSV or TSV gives one line per row.  In
    force-8-bit mode, with [errno] clear and a stream that takes
    everything, [export_data] for [cmd_CopyAllLines] in the CSV or TSV
    format exports the data rows and the header rows, skips the borders,
    the line under the header and the footer, and writes each exported row
    as the line of its cells (no cell holding a double quote); it returns
    [true], and the heap ends as it was but for buffers that were allocated
    and freed. *)
Theorem copy_all_lines_csv opts scrdesc desc cursor_row cursor_column rows percent tbl
    fmt h out layouts :
  DSV_FORMAT_TYPE fmt = true -> opt_force8bit opts = true ->
  last_data_row desc <= last_row desc ->
  Forall2 (fun l ts => row_layout h (rowstr l) (headline_transl desc) (fst ts) (snd ts)
                       /\ cells_without_quote (fst ts) (snd ts))
          (List.filter (csv_selected desc) (lines desc)) layouts ->
  exists n,
    export_data opts scrdesc desc cursor_row cursor_column rows percent tbl
      cmd_CopyAllLines fmt (mkMachine h 0 (mkFILE out None))
    = Ok (true,
          mkMachine (h ++ replicate n None) 0
            (mkFILE (out
                     ++ concat (map (fun ts =>
                                       csv_line (if format_eqb fmt CLIPBOARD_FORMAT_CSV
                                                 then 44 else 9)
                                         (opt_empty_string_is_null opts)
                                         (fst ts) (snd ts))
                                    layouts)) None)).
Proof.
  intros Hd Ho8 Hlast Hrows. unfold export_data.
  assert (Hsetup :
            export_setup opts scrdesc desc cursor_row cursor_column rows percent tbl
              cmd_CopyAllLines fmt (mkMachine h 0 (mkFILE out None))
            = Ok (Some (mkExportPlan (first_data_row desc) (last_row desc)
                          true false false false,
                        mkExportState fmt (-1) (-1) false NULL
                          (desc_columns desc) (opt_force8bit opts)
                          (opt_empty_string_is_null opts) 0 None),
                  mkMachine h 0 (mkFILE out None)))
    by (destruct fmt; try discriminate; reflexivity).
  rewrite (bind_ok _ _ _ _ _ Hsetup). cbv beta iota.
  destruct (export_lines_csv opts desc cursor_row (lines desc) layouts
              (mkExportState fmt (-1) (-1) false NULL
                 (desc_columns desc) (opt_force8bit opts)
                 (opt_empty_string_is_null opts) 0 None)
              h out Ho8 Hlast Ho8 Hd eq_refl eq_refl Hrows)
    as (n & st' & Hrun & Hcn & Htn).
  exists n. rewrite (bind_ok _ _ _ _ _ Hrun). cbv beta iota.
  unfold export_cleanup. rewrite Hcn, Htn. reflexivity.
Qed.

End CsvRows.

Lemma copy_all_lines_csv_witness :
  let h := [cstr "LdddIddR"; cstr "+---+--+"; cstr "| id|nm|"; cstr "|  7|a |"] in
  let desc := mkDataDesc 3 3 4 2 [(0, 4); (4, 7)] (Ptr 0 0) 0 4 2 1 (-1)
                [mkLine (Ptr 1 0) None 0; mkLine (Ptr 2 0) None 1;
                 mkLine (Ptr 1 0) None 2; mkLine (Ptr 3 0) None 3;
                 mkLine (Ptr 1 0) None 4] in
  exists n,
    export_data (H := example_collaborators) (mkOptions true false false false)
      (mkScrDesc (-1) 0 (-1) 0) desc 0 0 0 (double_of_int 0) NULL
      cmd_CopyAllLines CLIPBOARD_FORMAT_CSV (mkMachine h 0 (mkFILE [] None))
    = Ok (true,
          mkMachine (h ++ replicate n None) 0
            (mkFILE ([] ++ bytes_of_string "id,nm" ++ [10] ++ bytes_of_string "7,a" ++ [10])
               None)).
Proof.
  intros h desc.
  apply (copy_all_lines_csv (H := example_collaborators)
           (mkOptions true false false false) (mkScrDesc (-1) 0 (-1) 0) desc
           0 0 0 (double_of_int 0) NULL CLIPBOARD_FORMAT_CSV h []
           [(bytes_of_string "LdddIddR", bytes_of_string "| id|nm|");
            (bytes_of_string "LdddIddR", bytes_of_string "|  7|a |")]).
  - reflexivity.
  - reflexivity.
  - simpl. lia.
  - repeat constructor;
      (exists [0], [0];
       split; [reflexivity|]; split; [reflexivity|]; split; [reflexivity|];
       split; [repeat constructor; discriminate|];
       split; [repeat constructor; discriminate|];
       left; exists []; reflexivity).
Defined.

Lemma export_row_csv_line_witness :
  let h := [cstr "LdddIddIddR"; cstr "| a |x,|  |"] in
  let desc := mkDataDesc 0 0 0 3 [(0, 4); (4, 7); (7, 10)] (Ptr 0 0)
                (-1) (-1) (-1) (-1) (-1) [mkLine (Ptr 1 0) None 0] in
  let st := mkExportState CLIPBOARD_FORMAT_CSV (-1) (-1) false NULL 3 true false 0 None in
  exists n,
    export_row (H := example_collaborators) (mkOptions true false false false) desc
      (mkLine (Ptr 1 0) None 0) false st (mkMachine h 0 (mkFILE [] None))
    = Ok ((true, set_colno st 3),
          mkMachine (h ++ replicate n None) 0
            (mkFILE ([] ++ [97; 44; 34; 120; 44; 34; 44; 34; 34; 10]) None)).
Proof.
  intros h desc st.
  apply (export_row_csv_line (H := example_collaborators)
           (mkOptions true false false false) desc (mkLine (Ptr 1 0) None 0) false st
           h [] (bytes_of_string "LdddIddIddR") (bytes_of_string "| a |x,|  |"));
    try reflexivity.
  - exists [0], [0].
    split; [reflexivity|]. split; [reflexivity|]. split; [reflexivity|].
    split; [repeat constructor; discriminate|].
    split; [repeat constructor; discriminate|].
    left. exists []. reflexivity.
  - repeat constructor.
Defined.

(** ** Failure of the export *)

Section ExportFailure.
Context `{Collaborators}.

Lemma row_tokens_false_errno is_colname : forall fuel iter field fsize fxpos st m st' pending m',
  row_tokens fuel iter field fsize fxpos is_colname st m
  = Ok ((false, st', pending), m') ->
  m_errno m' <> 0.
Proof.
  induction fuel as [|fuel IH]; intros iter field fsize fxpos st m st' pending m' Hr;
    [discriminate|].
  cbn [row_tokens] in Hr.
  apply bind_inv in Hr as ([tok iter'] & m1 & _ & Hr).
  destruct tok as [[[[[ptr typ] size] width] xpos]|]; [|discriminate].
  destruct (typ =? 100); [exact (IH _ _ _ _ _ _ _ _ _ Hr)|].
  apply bind_inv in Hr as ([isok1 st1] & m2 & Hflush & Hr).
  destruct isok1; cbn [negb] in Hr.
  - destruct (if negb (is_null field) then (NULL, 0, -1) else (field, fsize, fxpos))
      as [[f' fs'] fx'].
    apply bind_inv in Hr as ([isok2 st2] & m3 & Htok & Hr).
    destruct isok2; cbn [negb] in Hr.
    + exact (IH _ _ _ _ _ _ _ _ _ Hr).
    + injection Hr as _ _ <-. exact (process_item_false_errno _ _ _ _ _ _ _ _ _ Htok).
  - injection Hr as <- _ <-.
    destruct (negb (is_null field)); [|discriminate].
    exact (process_item_false_errno _ _ _ _ _ _ _ _ _ Hflush).
Qed.

Lemma export_row_false_errno opts desc l is_colname st m st' m' :
  export_row opts desc l is_colname st m = Ok ((false, st'), m') ->
  m_errno m' <> 0.
Proof.
  intros Hr. rewrite export_row_finish_row in Hr.
  apply bind_inv in Hr as (fuel & m1 & _ & Hr).
  apply bind_inv in Hr as ([[isok st1] [[field fsize] fxpos]] & m2 & Hwalk & Hr).
  unfold finish_row in Hr.
  destruct isok; cbn [negb] in Hr.
  - apply bind_inv in Hr as ([isok2 st2] & m3 & Hflush & Hr).
    destruct isok2; cbn [negb] in Hr.
    + exact (process_item_false_errno _ _ _ _ _ _ _ _ _ Hr).
    + injection Hr as <- <-.
      destruct (negb (is_null field)); [|discriminate].
      exact (process_item_false_errno _ _ _ _ _ _ _ _ _ Hflush).
  - injection Hr as <- <-. exact (row_tokens_false_errno _ _ _ _ _ _ _ _ _ _ _ Hwalk).
Qed.

Lemma export_lines_false_errno opts desc plan cmd cursor_row : forall ls st m st' m',
  export_lines opts desc plan cmd cursor_row ls st m = Ok ((false, st'), m') ->
  m_errno m' <> 0.
Proof.
  induction ls as [|l ls IH]; intros st m st' m' Hr; [discriminate|].
  cbn [export_lines] in Hr.
  apply bind_inv in Hr as (sel & m1 & _ & Hr).
  destruct sel as [ic|]; [|exact (IH _ _ _ _ Hr)].
  apply bind_inv in Hr as ([isok st1] & m2 & Hrow & Hr).
  destruct isok; cbn [negb] in Hr.
  - exact (IH _ _ _ _ Hr).
  - injection Hr as <- <-. exact (export_row_false_errno _ _ _ _ _ _ _ _ Hrow).
Qed.

Lemma free_all_ok_errno ps m m' :
  on_heap (free_all ps) m = Ok (tt, m') -> m_errno m' = m_errno m.
Proof. intros Hf. apply on_heap_inv in Hf as (h' & _ & ->). reflexivity. Qed.

Lemma export_cleanup_errno st tbl m m' :
  export_cleanup st tbl m = Ok (tt, m') -> m_errno m' = m_errno m.
Proof.
  unfold export_cleanup. intros Hc.
  apply bind_inv in Hc as ([] & m1 & Hnames & Hc).
  assert (He : m_errno m1 = m_errno m).
  { destruct (colnames st).
    - apply on_heap_inv in Hnames as (h' & _ & ->). reflexivity.
    - injection Hnames as <-. reflexivity. }
  destruct (negb (is_null (table_name st)) && negb (cptr_eqb (table_name st) tbl)).
  - apply on_heap_inv in Hc as (h' & _ & ->). exact He.
  - injection Hc as <-. exact He.
Qed.

(** X16.  A failed export has a reason.  When [export_data] returns
    [false], either it is the argument check of the top and bottom
    commands (a negative [rows] or [percent]), or [errno] is set when the
    call returns: the row loop stops only on a [false] of [process_item],
    and the cleanup leaves [errno] alone. *)
Theorem export_data_false_has_reason opts scrdesc desc cursor_row cursor_column rows
    percent tbl cmd fmt m m' :
  export_data opts scrdesc desc cursor_row cursor_column rows percent tbl cmd fmt m
  = Ok (false, m') ->
  ((cmd = cmd_CopyTopLines \/ cmd = cmd_CopyBottomLines)
   /\ (rows < 0 \/ SFltb percent (S754_zero false) = true))
  \/ m_errno m' <> 0.
Proof.
  intros He. unfold export_data in He.
  apply bind_inv in He as (setup & m1 & Hsetup & He).
  destruct setup as [[plan st]|].
  - right. apply bind_inv in He as ([isok st'] & m2 & Hlines & He).
    apply bind_inv in He as ([] & m3 & Hclean & He).
    injection He as -> <-.
    rewrite (export_cleanup_errno _ _ _ _ Hclean).
    exact (export_lines_false_errno _ _ _ _ _ _ _ _ _ _ Hlines).
  - left. clear He. unfold export_setup in Hsetup.
    apply bind_inv in Hsetup as (quoted & m2 & _ & Hsetup).
    apply bind_inv in Hsetup as ([xmin1 xmax1] & m3 & _ & Hsetup).
    destruct ((cmd_eqb cmd cmd_CopyTopLines || cmd_eqb cmd cmd_CopyBottomLines)
              && ((rows <? 0) || SFltb percent (S754_zero false))) eqn:Echeck.
    + apply andb_true_iff in Echeck as [Ecmd Eargs]. split.
      * destruct cmd; try discriminate; auto.
      * apply orb_true_iff in Eargs as [Er|Ep];
          [left; apply Z.ltb_lt; exact Er|right; exact Ep].
    + destruct (if cmd_eqb cmd cmd_CopyTopLines || cmd_eqb cmd cmd_CopyBottomLines
                then top_bottom_range desc cmd rows percent _ else _);
        discriminate.
Qed.

End ExportFailure.

Lemma export_data_false_has_reason_witness :
  let h := [cstr "LdR"; cstr "|a|"] in
  let desc := mkDataDesc 0 0 0 1 [(0, 2)] (Ptr 0 0) (-1) (-1) (-1) (-1) (-1)
                [mkLine (Ptr 1 0) None 0] in
  let m := mkMachine h 0 (mkFILE [] (Some 2%nat)) in
  let m' := mkMachine h ENOSPC (mkFILE [124; 97] (Some 0%nat)) in
  export_data (H := example_collaborators) (mkOptions true false false false)
    (mkScrDesc (-1) 0 (-1) 0) desc 0 0 0 (double_of_int 0) NULL
    cmd_CopyAllLines CLIPBOARD_FORMAT_TEXT m
  = Ok (false, m')
  /\ (((cmd_CopyAllLines = cmd_CopyTopLines \/ cmd_CopyAllLines = cmd_CopyBottomLines)
       /\ (0 < 0 \/ SFltb (double_of_int 0) (S754_zero false) = true))
      \/ m_errno m' <> 0).
Proof.
  intros h desc m m'. split; [reflexivity|].
  apply (export_data_false_has_reason (H := example_collaborators)
           (mkOptions true false false false) (mkScrDesc (-1) 0 (-1) 0) desc
           0 0 0 (double_of_int 0) NULL cmd_CopyAllLines CLIPBOARD_FORMAT_TEXT m m').
  reflexivity.
Defined.

(** ** Memory *)

Section MemoryFacts.
Context `{Collaborators}.

Lemma reads_only_ret {A : Type} (a : A) : reads_only (ret a).
Proof. intros h a' h' [= _ <-]. reflexivity. Qed.

Lemma reads_only_bind {A B : Type} (f : ST heap A) (k : A -> ST heap B) :
  reads_only f -> (forall a, reads_only (k a)) -> reads_only (bind f k).
Proof.
  intros Hf Hk h b h' Hb. apply bind_inv in Hb as (a & h1 & Hfa & Hka).
  rewrite (Hk a _ _ _ Hka). exact (Hf _ _ _ Hfa).
Qed.

Lemma reads_only_load p : reads_only (load p).
Proof. intros h c h' Hl. exact (proj1 (load_inv _ _ _ _ Hl)). Qed.

Lemma reads_only_fail {A : Type} f : reads_only (@fail heap A f).
Proof. intros h a h' Hf. discriminate. Qed.

Lemma reads_only_lift_res {A : Type} (r : res A) : reads_only (lift_res r).
Proof. intros h a h' Hr. exact (proj2 (lift_res_inv _ _ _ _ Hr)). Qed.

Lemma reads_only_load_bytes p n : reads_only (load_bytes p n).
Proof.
  intros h bs h'. unfold load_bytes.
  destruct (n =? 0); [intros [= _ <-]; reflexivity|].
  destruct (n <? 0); [discriminate|].
  destruct (view p h) as [v|]; [|discriminate].
  destruct (_ <? n); [discriminate|]. intros [= _ <-]. reflexivity.
Qed.

Lemma reads_only_cstring p : reads_only (cstring p).
Proof. intros h s h' Hc. exact (cstring_heap _ _ _ _ Hc). Qed.

Lemma reads_only_cstring_prec p n : reads_only (cstring_prec p n).
Proof.
  unfold cstring_prec. destruct (n <? 0); [apply reads_only_cstring|].
  destruct (n =? 0); [intros h s h' [= _ <-]; reflexivity|].
  intros h s h'. destruct (view p h) as [v|]; [|discriminate].
  destruct (str_prefix _ v); [|discriminate]. intros [= _ <-]. reflexivity.
Qed.

(** Goals [reads_only c] for code built from the pieces above. *)
Ltac reads :=
  repeat first
    [ apply reads_only_ret | apply reads_only_load | apply reads_only_fail
    | apply reads_only_lift_res | apply reads_only_load_bytes
    | apply reads_only_cstring | apply reads_only_cstring_prec
    | assumption
    | apply reads_only_bind; [|intros ?]
    | match goal with
      | |- reads_only (if ?c then _ else _) => destruct c
      | |- reads_only (match ?x with _ => _ end) => destruct x
      end ].

Lemma reads_only_strncmp_eq n : forall p lit, reads_only (strncmp_eq n p lit).
Proof.
  induction n as [|n IH]; intros p lit; cbn [strncmp_eq]; reads. apply IH.
Qed.

Lemma reads_only_csv_scan f8 : forall fuel ptr n, reads_only (csv_scan fuel f8 ptr n).
Proof.
  induction fuel as [|fuel IH]; intros ptr n; cbn [csv_scan]; reads; apply IH.
Qed.

Lemma reads_only_ident_scan f8 : forall fuel ptr n, reads_only (ident_scan fuel f8 ptr n).
Proof.
  induction fuel as [|fuel IH]; intros ptr n; cbn [ident_scan]; reads; apply IH.
Qed.

Lemma reads_only_literal_scan f8 : forall fuel dot ptr n,
  reads_only (literal_scan fuel f8 dot ptr n).
Proof.
  induction fuel as [|fuel IH]; intros dot ptr n; cbn [literal_scan]; reads; apply IH.
Qed.

Lemma reads_only_trim_leading : forall fuel str size, reads_only (trim_leading fuel str size).
Proof.
  induction fuel as [|fuel IH]; intros str size; cbn [trim_leading]; reads; apply IH.
Qed.

Lemma reads_only_trim_trailing f8 : forall fuel str size after,
  reads_only (trim_trailing fuel f8 str size after).
Proof.
  induction fuel as [|fuel IH]; intros str size after; cbn [trim_trailing]; reads;
    apply IH.
Qed.

Lemma reads_only_trim_str str size f8 : reads_only (trim_str str size f8).
Proof.
  unfold trim_str. reads;
    first [apply reads_only_trim_leading | apply reads_only_trim_trailing].
Qed.

(** What the three quoting routines return. *)
Lemma quote_wrap_result q f8 str slen h p n h' :
  quote_wrap q f8 str slen h = Ok ((p, n), h') -> quoted_result str h p h'.
Proof.
  intros Hq. apply quote_wrap_starts_quoted in Hq as [-> [t ->]].
  right. split; [reflexivity|]. eexists. reflexivity.
Qed.

Lemma sstrdup_result lit str h p h' :
  sstrdup lit h = Ok (p, h') -> quoted_result str h p h'.
Proof.
  unfold sstrdup, alloc. intros [= <- <-]. right. split; [reflexivity|].
  eexists. reflexivity.
Qed.

Lemma csv_format_result str slen f8 esn h p n h' :
  csv_format str slen f8 esn h = Ok ((p, n), h') -> quoted_result str h p h'.
Proof.
  unfold csv_format. intros Hc.
  apply bind_inv in Hc as (sym & h1 & Hsym & Hc).
  assert (h1 = h) as ->.
  { destruct (negb f8 && (slen =? 3));
      [exact (reads_only_strncmp_eq _ _ _ _ _ _ Hsym)|injection Hsym as _ <-; reflexivity]. }
  destruct sym; [injection Hc as <- _ <-; left; auto|].
  destruct (slen =? 0).
  - destruct esn; [injection Hc as <- _ <-; left; auto|].
    apply bind_inv in Hc as (p0 & h2 & Hdup & Hc). injection Hc as <- _ <-.
    exact (sstrdup_result _ _ _ _ _ Hdup).
  - apply bind_inv in Hc as (needs & h2 & Hscan & Hc).
    rewrite (reads_only_csv_scan _ _ _ _ _ _ _ Hscan) in Hc.
    destruct needs; cbn [negb] in Hc.
    + exact (quote_wrap_result _ _ _ _ _ _ _ _ Hc).
    + injection Hc as <- _ <-. left. auto.
Qed.

Lemma quote_sql_identifier_result str slen f8 h p n h' :
  quote_sql_identifier str slen f8 h = Ok ((p, n), h') -> quoted_result str h p h'.
Proof.
  unfold quote_sql_identifier. intros Hq.
  apply bind_inv in Hq as (c0 & h1 & Hl0 & Hq). apply load_inv in Hl0 as [-> _].
  destruct (c0 =? 34); [injection Hq as <- _ <-; left; auto|].
  destruct (is_null str); [injection Hq as <- _ <-; left; auto|].
  apply bind_inv in Hq as (c1 & h1 & Hl1 & Hq). apply load_inv in Hl1 as [-> _].
  destruct ((c1 =? 0) || (slen =? 0)); [injection Hq as <- _ <-; left; auto|].
  apply bind_inv in Hq as (c2 & h1 & Hl2 & Hq). apply load_inv in Hl2 as [-> _].
  apply bind_inv in Hq as (needs & h2 & Hscan & Hq).
  assert (h2 = h) as ->.
  { destruct (negb (c2 =? 32) && ((c2 <? 97) || (122 <? c2)));
      [injection Hscan as _ <-; reflexivity
      |exact (reads_only_ident_scan _ _ _ _ _ _ _ Hscan)]. }
  destruct needs; cbn [negb] in Hq.
  - exact (quote_wrap_result _ _ _ _ _ _ _ _ Hq).
  - injection Hq as <- _ <-. left. auto.
Qed.

Lemma quote_sql_literal_result str slen f8 esn h p n h' :
  quote_sql_literal str slen f8 esn h = Ok ((p, n), h') -> quoted_result str h p h'.
Proof.
  unfold quote_sql_literal. intros Hq.
  destruct (slen =? 0).
  { destruct esn; apply bind_inv in Hq as (p0 & h2 & Hdup & Hq);
      injection Hq as <- _ <-; exact (sstrdup_result _ _ _ _ _ Hdup). }
  apply bind_inv in Hq as (txt & h1 & Htxt & Hq).
  assert (h1 = h) as ->.
  { destruct (slen =? 4); [|injection Htxt as _ <-; reflexivity].
    apply bind_inv in Htxt as (upper & h2 & Hup & Htxt).
    rewrite (reads_only_strncmp_eq _ _ _ _ _ _ Hup) in Htxt.
    destruct upper; [injection Htxt as _ <-; reflexivity|].
    exact (reads_only_strncmp_eq _ _ _ _ _ _ Htxt). }
  destruct txt; [injection Hq as <- _ <-; left; auto|].
  apply bind_inv in Hq as (sym & h1 & Hsym & Hq).
  assert (h1 = h) as ->.
  { destruct (negb f8 && (slen =? 3));
      [exact (reads_only_strncmp_eq _ _ _ _ _ _ Hsym)|injection Hsym as _ <-; reflexivity]. }
  destruct sym.
  { apply bind_inv in Hq as (p0 & h2 & Hdup & Hq). injection Hq as <- _ <-.
    exact (sstrdup_result _ _ _ _ _ Hdup). }
  apply bind_inv in Hq as (needs & h2 & Hscan & Hq).
  rewrite (reads_only_literal_scan _ _ _ _ _ _ _ _ Hscan) in Hq.
  destruct needs; cbn [negb] in Hq.
  - exact (quote_wrap_result _ _ _ _ _ _ _ _ Hq).
  - injection Hq as <- _ <-. left. auto.
Qed.

(** Freeing what a quoting routine returned, as [process_item] does it. *)
Lemma quoted_result_released str h p h2 m2 m3 :
  quoted_result str h p h2 -> m_heap m2 = h2 ->
  (if negb (cptr_eqb p str) then on_heap (free p) else ret tt) m2 = Ok (tt, m3) ->
  exists t, m_heap m3 = h ++ t.
Proof.
  intros Hres Hm2 Hfree.
  destruct Hres as [[-> [-> | ->]]|[-> [blk ->]]].
  - rewrite cptr_eqb_refl in Hfree. injection Hfree as <-.
    exists []. rewrite app_nil_r. exact Hm2.
  - exists []. rewrite app_nil_r.
    destruct (negb (cptr_eqb NULL str)).
    + apply on_heap_inv in Hfree as (h' & Hf & ->). injection Hf as <-. exact Hm2.
    + injection Hfree as <-. exact Hm2.
  - destruct (negb (cptr_eqb (fresh_ptr h) str)).
    + apply on_heap_inv in Hfree as (h' & Hf & ->). rewrite Hm2, free_fresh in Hf.
      injection Hf as <-. eexists. reflexivity.
    + injection Hfree as <-. eexists. exact Hm2.
Qed.

Lemma keeps_ret {A : Type} (a : A) : keeps_heap (ret a).
Proof. intros m a' m' [= _ <-]. reflexivity. Qed.

Lemma keeps_bind {A B : Type} (c : ST machine A) (k : A -> ST machine B) :
  keeps_heap c -> (forall a, keeps_heap (k a)) -> keeps_heap (bind c k).
Proof.
  intros Hc Hk m b m' Hb. apply bind_inv in Hb as (a & m1 & Hca & Hka).
  rewrite (Hk a _ _ _ Hka). exact (Hc _ _ _ Hca).
Qed.

Lemma keeps_on_heap {A : Type} (f : ST heap A) : reads_only f -> keeps_heap (on_heap f).
Proof.
  intros Hf m a m' Ho. apply on_heap_inv in Ho as (h' & Hfa & ->).
  exact (Hf _ _ _ Hfa).
Qed.

Lemma keeps_lift_res {A : Type} (r : res A) : keeps_heap (lift_res r).
Proof. intros m a m' Hr. apply lift_res_inv in Hr as [_ ->]. reflexivity. Qed.

Lemma keeps_set_errno e : keeps_heap (set_errno e).
Proof. intros m [] m' [= <-]. reflexivity. Qed.

Lemma keeps_get_errno : keeps_heap get_errno.
Proof. intros m a m' [= _ <-]. reflexivity. Qed.

Lemma keeps_write_out bs : keeps_heap (write_out bs).
Proof.
  intros m [] m'. unfold write_out. destruct (f_room (m_out m)) as [room|].
  - destruct (Nat.leb (length bs) room); intros [= <-]; reflexivity.
  - intros [= <-]. reflexivity.
Qed.

(** Goals [keeps_heap c] for code built from the pieces above. *)
Ltac keeps :=
  repeat first
    [ apply keeps_ret | apply keeps_lift_res | apply keeps_set_errno
    | apply keeps_get_errno | apply keeps_write_out
    | assumption
    | apply keeps_on_heap;
      first [ apply reads_only_cstring | apply reads_only_cstring_prec
            | apply reads_only_load_bytes | apply reads_only_trim_str ]
    | apply keeps_bind; [|intros ?]
    | match goal with
      | |- keeps_heap (if ?c then _ else _) => destruct c
      | |- keeps_heap (match ?x with _ => _ end) => destruct x
      end ].

Lemma keeps_fputs p : keeps_heap (fputs p).
Proof. unfold fputs. keeps. Qed.

Lemma keeps_fwrite p n : keeps_heap (fwrite p n).
Proof. unfold fwrite. keeps. Qed.

Lemma keeps_finish st : keeps_heap (finish st).
Proof. unfold finish. keeps. Qed.

Lemma keeps_emit_names_terse : forall names is_first,
  keeps_heap (emit_names_terse is_first names).
Proof.
  induction names as [|p names IH]; intros is_first; cbn [emit_names_terse].
  - keeps.
  - unfold fputs_lit. keeps; first [apply keeps_fputs | apply IH].
Qed.

Lemma keeps_emit_names_commented indent ncols : forall names k,
  keeps_heap (emit_names_commented indent ncols k names).
Proof.
  induction names as [|p names IH]; intros k; cbn [emit_names_commented].
  - keeps.
  - keeps; first [apply keeps_fputs | apply IH].
Qed.

Lemma keeps_emit_insert_head st : keeps_heap (emit_insert_head st).
Proof.
  unfold emit_insert_head, fputs_lit, fputc.
  keeps; first [apply keeps_fputs | apply keeps_emit_names_terse
               | apply keeps_emit_names_commented].
Qed.

Lemma keeps_emit_column_comment st lead : keeps_heap (emit_column_comment st lead).
Proof. unfold emit_column_comment. keeps. Qed.

Lemma capture_colname_heap st field _field size m st2 m2 :
  capture_colname st field _field size m = Ok (st2, m2) ->
  exists t, m_heap m2 = m_heap m ++ t.
Proof.
  unfold capture_colname. intros Hc.
  apply bind_inv in Hc as (p & m1 & Hp & Hc).
  apply bind_inv in Hc as (st' & m1' & Hs & Hc).
  apply lift_res_inv in Hs as [_ ->]. injection Hc as _ <-.
  destruct (is_null _field).
  - apply on_heap_inv in Hp as (h' & Hd & ->). injection Hd as _ <-.
    eexists. reflexivity.
  - destruct (negb (cptr_eqb _field field)).
    + injection Hp as _ <-. exists []. rewrite app_nil_r. reflexivity.
    + apply on_heap_inv in Hp as (h' & Hd & ->). unfold sstrndup in Hd.
      apply bind_inv in Hd as (s & h1 & Hs & Hd).
      rewrite (reads_only_cstring_prec _ _ _ _ _ Hs) in Hd.
      injection Hd as _ <-. eexists. reflexivity.
Qed.

(** The heap after a step that kept it. *)
Ltac kept Hx :=
  match type of Hx with
  | ?c ?m1 = Ok (?a, ?m2) =>
      let E := fresh "E" in
      assert (E : m_heap m2 = m_heap m1)
        by (apply (fun K : keeps_heap c => K m1 a m2 Hx);
            unfold fputs_lit, fputc;
            keeps;
            first [ apply keeps_fputs | apply keeps_fwrite | apply keeps_finish
                  | apply keeps_emit_insert_head | apply keeps_emit_column_comment
                  | apply keeps_emit_names_terse | apply keeps_emit_names_commented ])
  end.

Lemma on_heap_quoted {A : Type} (f : ST heap (cptr * A)) str m p n m2 :
  (forall h p n h', f h = Ok ((p, n), h') -> quoted_result str h p h') ->
  on_heap f m = Ok ((p, n), m2) ->
  quoted_result str (m_heap m) p (m_heap m2).
Proof.
  intros Hf Ho. apply on_heap_inv in Ho as (h' & Hfa & ->). exact (Hf _ _ _ _ Hfa).
Qed.

Lemma quoted_result_extends str h p h2 :
  quoted_result str h p h2 -> exists t, h2 = h ++ t.
Proof.
  intros [[-> _]|[_ [blk ->]]]; [exists []; rewrite app_nil_r; reflexivity|].
  eexists. reflexivity.
Qed.

Lemma process_item_heap st typ field size xpos is_colname m r m' :
  process_item st typ field size xpos is_colname m = Ok (r, m') ->
  exists t, m_heap m' = m_heap m ++ t.
Proof.
  intros Hp.
  assert (Hsame : m_heap m' = m_heap m -> exists t, m_heap m' = m_heap m ++ t)
    by (intros ->; exists []; rewrite app_nil_r; reflexivity).
  unfold process_item in Hp.
  destruct (INSERT_FORMAT_TYPE (format st)).
  { unfold process_item_insert in Hp.
    apply bind_inv in Hp as ([] & m1 & Hse & Hp). kept Hse.
    destruct ((typ =? 78) && negb is_colname).
    { kept Hp. apply Hsame. congruence. }
    destruct (typ =? 100); [|kept Hp; apply Hsame; congruence].
    destruct (outside_range st xpos); [injection Hp as _ <-; apply Hsame; congruence|].
    destruct is_colname.
    - apply bind_inv in Hp as ([field1 size1] & m2 & Htrim & Hp). kept Htrim.
      apply bind_inv in Hp as ([_field size2] & m3 & Hq & Hp).
      apply (on_heap_quoted _ field1) in Hq;
        [|intros ? ? ? ?; apply quote_sql_identifier_result].
      apply quoted_result_extends in Hq as [t1 Hq].
      apply bind_inv in Hp as (st2 & m4 & Hcap & Hp).
      apply capture_colname_heap in Hcap as [t2 Hcap]. kept Hp.
      exists (t1 ++ t2). rewrite app_assoc. congruence.
    - apply bind_inv in Hp as ([] & m2 & Hhead & Hp). kept Hhead.
      apply bind_inv in Hp as ([] & m3 & Hsep & Hp). kept Hsep.
      apply bind_inv in Hp as ([field1 size1] & m4 & Htrim & Hp). kept Htrim.
      apply bind_inv in Hp as ([_field size2] & m5 & Hq & Hp).
      apply (on_heap_quoted _ field1) in Hq;
        [|intros ? ? ? ?; apply quote_sql_literal_result].
      apply bind_inv in Hp as ([] & m6 & Hw & Hp). kept Hw.
      apply bind_inv in Hp as ([] & m7 & Hfree & Hp). kept Hp.
      destruct (quoted_result_released _ _ _ _ _ _ Hq E3 Hfree) as [t Ht].
      exists t. congruence. }
  destruct (format_eqb (format st) CLIPBOARD_FORMAT_TEXT).
  { unfold process_item_text in Hp. kept Hp. apply Hsame. exact E. }
  destruct (DSV_FORMAT_TYPE (format st)); [|kept Hp; apply Hsame; exact E].
  unfold process_item_dsv in Hp.
  destruct ((typ =? 78) && negb (copy_line_extended st)).
  { kept Hp. apply Hsame. exact E. }
  destruct (typ =? 100); [|kept Hp; apply Hsame; exact E].
  destruct (outside_range st xpos); [injection Hp as _ <-; apply Hsame; reflexivity|].
  apply bind_inv in Hp as ([field1 size1] & m2 & Htrim & Hp). kept Htrim.
  apply bind_inv in Hp as ([_field size2] & m3 & Hq & Hp).
  apply (on_heap_quoted _ field1) in Hq; [|intros ? ? ? ?; apply csv_format_result].
  destruct (copy_line_extended st && is_colname).
  - apply quoted_result_extends in Hq as [t1 Hq].
    apply bind_inv in Hp as (st2 & m4 & Hcap & Hp).
    apply capture_colname_heap in Hcap as [t2 Hcap]. injection Hp as _ <-.
    exists (t1 ++ t2). rewrite app_assoc. congruence.
  - apply bind_inv in Hp as ([] & m4 & Hse & Hp). kept Hse.
    apply bind_inv in Hp as ([] & m5 & Hw & Hp). kept Hw.
    apply bind_inv in Hp as (saved & m6 & Hge & Hp). kept Hge.
    apply bind_inv in Hp as ([] & m7 & Hfree & Hp). kept Hp.
    assert (E6 : m_heap m6 = m_heap m3) by congruence.
    destruct (quoted_result_released _ _ _ _ _ _ Hq E6 Hfree) as [t Ht].
    exists t. congruence.
Qed.

(** X17.  [process_item] never frees or overwrites memory that was there
    before the call: the heap after the call is the heap before it followed
    by blocks of its own (column names it keeps, buffers it has freed), in
    every format and in both modes, so everything that could be read before
    the call reads the same after it. *)
Theorem process_item_keeps_memory st typ field size xpos is_colname m r m' :
  process_item st typ field size xpos is_colname m = Ok (r, m') ->
  (exists t, m_heap m' = m_heap m ++ t)
  /\ forall p v, view p (m_heap m) = Ok v -> view p (m_heap m') = Ok v.
Proof.
  intros Hp. destruct (process_item_heap _ _ _ _ _ _ _ _ _ Hp) as [t Ht].
  split; [exists t; exact Ht|].
  intros p v Hv. rewrite Ht. apply view_app_old. exact Hv.
Qed.


(** *** Memory of the caller *)

Lemma free_own h0 t p h' :
  own_ptr h0 p -> free p (h0 ++ t) = Ok (tt, h') -> exists t', h' = h0 ++ t'.
Proof.
  destruct p as [|b o]; simpl; intros Hown Hf.
  - injection Hf as <-. eexists. reflexivity.
  - destruct ((h0 ++ t) !! b) as [[blk|]|]; try discriminate.
    destruct (o =? 0); [|discriminate]. injection Hf as <-.
    exists (<[(b - length h0)%nat := None]> t).
    apply insert_app_r_alt. exact Hown.
Qed.

Lemma free_all_own h0 : forall ps t h',
  Forall (own_ptr h0) ps -> free_all ps (h0 ++ t) = Ok (tt, h') ->
  exists t', h' = h0 ++ t'.
Proof.
  induction ps as [|p ps IH]; intros t h' Hown Hf.
  - injection Hf as <-. eexists. reflexivity.
  - cbn [free_all] in Hf. apply bind_inv in Hf as ([] & h1 & Hp & Hf).
    destruct (free_own h0 t p h1 (List.Forall_inv Hown) Hp) as [t1 ->].
    exact (IH t1 h' (List.Forall_inv_tail Hown) Hf).
Qed.

Lemma own_ptr_fresh h0 t : own_ptr h0 (fresh_ptr (h0 ++ t)).
Proof. unfold fresh_ptr, own_ptr. rewrite length_app. lia. Qed.

Lemma names_own_ensure h0 st : names_own h0 st -> names_own h0 (ensure_colnames st).
Proof.
  unfold names_own, ensure_colnames. destruct (colnames st) eqn:E; [rewrite E; auto|].
  intros _. cbn [colnames set_colnames]. apply Forall_replicate. exact I.
Qed.

(** The name that the header branch stores is a block of its own. *)
Lemma capture_colname_own h0 t st field _field size m h2 st2 m2 :
  m_heap m = h2 -> quoted_result field (h0 ++ t) _field h2 ->
  names_own h0 st ->
  capture_colname st field _field size m = Ok (st2, m2) ->
  names_own h0 st2.
Proof.
  intros Hm Hres Hown Hc. unfold capture_colname in Hc.
  apply bind_inv in Hc as (p & m1 & Hp & Hc).
  apply bind_inv in Hc as (st' & m1' & Hs & Hc).
  apply lift_res_inv in Hs as [Hs ->]. injection Hc as <- _.
  assert (Hpown : own_ptr h0 p).
  { assert (Hext : exists t2, h2 = h0 ++ t2).
    { destruct (quoted_result_extends _ _ _ _ Hres) as [t1 ->].
      exists (t ++ t1). rewrite app_assoc. reflexivity. }
    destruct Hext as [t2 Hh2].
    destruct (is_null _field) eqn:En.
    - apply on_heap_inv in Hp as (h' & Hd & _). injection Hd as <- _.
      rewrite Hm, Hh2. apply own_ptr_fresh.
    - destruct (cptr_eqb _field field) eqn:Eq; cbn [negb] in Hp.
      + apply on_heap_inv in Hp as (h' & Hd & _). unfold sstrndup in Hd.
        apply bind_inv in Hd as (s & h1 & Hs' & Hd).
        rewrite (reads_only_cstring_prec _ _ _ _ _ Hs') in Hd.
        injection Hd as <- _. rewrite Hm, Hh2. apply own_ptr_fresh.
      + injection Hp as <- _.
        destruct Hres as [[_ [-> | ->]]|[-> _]].
        * rewrite cptr_eqb_refl in Eq. discriminate.
        * discriminate.
        * apply own_ptr_fresh. }
  unfold colname_store in Hs. unfold names_own in *.
  destruct (colnames st) as [names|]; [|discriminate].
  destruct (_ && _); [|discriminate]. injection Hs as <-.
  cbn [colnames set_colnames set_colno].
  apply Forall_insert; assumption.
Qed.

Lemma names_own_colnames h0 st st' :
  colnames st' = colnames st -> names_own h0 st -> names_own h0 st'.
Proof. unfold names_own. intros ->. auto. Qed.

Lemma process_item_own h0 t st typ field size xpos is_colname m b st' m' :
  m_heap m = h0 ++ t -> names_own h0 st ->
  process_item st typ field size xpos is_colname m = Ok ((b, st'), m') ->
  names_own h0 st'.
Proof.
  intros Hm Hown Hp.
  destruct (process_item_settings _ _ _ _ _ _ _ _ _ _ Hp) as (_ & _ & Hdata & Htyp).
  destruct is_colname; [|exact (names_own_colnames _ _ _ (Hdata eq_refl) Hown)].
  destruct (Z.eq_dec typ 100) as [->|Hne]; [|rewrite (Htyp Hne); exact Hown].
  clear Hdata Htyp. unfold process_item in Hp.
  destruct (INSERT_FORMAT_TYPE (format st)).
  { unfold process_item_insert in Hp.
    apply bind_inv in Hp as ([] & m1 & Hse & Hp). kept Hse.
    cbn [Z.eqb Pos.eqb negb andb] in Hp.
    destruct (outside_range st xpos); [injection Hp as _ <- _; exact Hown|].
    apply bind_inv in Hp as ([field1 size1] & m2 & Htrim & Hp). kept Htrim.
    apply bind_inv in Hp as ([_field size2] & m3 & Hq & Hp).
    apply (on_heap_quoted _ field1) in Hq;
      [|intros ? ? ? ?; apply quote_sql_identifier_result].
    apply bind_inv in Hp as (st2 & m4 & Hcap & Hp).
    apply finish_inv in Hp as (-> & _ & _).
    apply (capture_colname_own h0 t (ensure_colnames st) field1 _field size2 m3
             (m_heap m3) st2 m4 eq_refl).
    - rewrite <- Hm, <- E, <- E0. exact Hq.
    - apply names_own_ensure. exact Hown.
    - exact Hcap. }
  destruct (format_eqb (format st) CLIPBOARD_FORMAT_TEXT).
  { unfold process_item_text in Hp.
    apply bind_inv in Hp as ([] & m1 & _ & Hp). cbn [Z.eqb Pos.eqb negb orb andb] in Hp.
    destruct (outside_range st xpos); [injection Hp as _ <- _; exact Hown|].
    apply bind_inv in Hp as ([] & m2 & _ & Hp).
    apply finish_inv in Hp as (-> & _ & _). exact Hown. }
  destruct (DSV_FORMAT_TYPE (format st));
    [|apply finish_inv in Hp as (-> & _ & _); exact Hown].
  unfold process_item_dsv in Hp. cbn [Z.eqb Pos.eqb andb] in Hp.
  destruct (outside_range st xpos); [injection Hp as _ <- _; exact Hown|].
  apply bind_inv in Hp as ([field1 size1] & m2 & Htrim & Hp). kept Htrim.
  apply bind_inv in Hp as ([_field size2] & m3 & Hq & Hp).
  apply (on_heap_quoted _ field1) in Hq; [|intros ? ? ? ?; apply csv_format_result].
  destruct (copy_line_extended st); cbn [andb negb] in Hp.
  - apply bind_inv in Hp as (st2 & m4 & Hcap & Hp). injection Hp as _ <- _.
    apply (capture_colname_own h0 t (ensure_colnames st) field1 _field size2 m3
             (m_heap m3) st2 m4 eq_refl).
    + rewrite <- Hm, <- E. exact Hq.
    + apply names_own_ensure. exact Hown.
    + exact Hcap.
  - apply bind_inv in Hp as ([] & m4 & _ & Hp).
    apply bind_inv in Hp as ([] & m5 & _ & Hp).
    apply bind_inv in Hp as (saved & m6 & _ & Hp).
    apply bind_inv in Hp as ([] & m7 & _ & Hp).
    apply bind_inv in Hp as ([] & m8 & _ & Hp).
    apply finish_inv in Hp as (-> & _ & _). exact Hown.
Qed.

Lemma process_item_caller_kept h0 tbl st typ field size xpos is_colname m b st' m' :
  caller_kept h0 tbl st m ->
  process_item st typ field size xpos is_colname m = Ok ((b, st'), m') ->
  caller_kept h0 tbl st' m'.
Proof.
  intros ([t Ht] & Hown & Htn) Hp.
  destruct (process_item_heap _ _ _ _ _ _ _ _ _ Hp) as [t' Ht'].
  destruct (process_item_settings _ _ _ _ _ _ _ _ _ _ Hp)
    as ((_ & _ & _ & _ & Etn & _) & _).
  split; [|split].
  - exists (t ++ t'). rewrite Ht', Ht, app_assoc. reflexivity.
  - exact (process_item_own h0 t _ _ _ _ _ _ _ _ _ _ Ht Hown Hp).
  - rewrite Etn. exact Htn.
Qed.

Lemma reads_only_next_char iter : reads_only (next_char iter).
Proof. unfold next_char. reads. Qed.

Lemma row_tokens_caller_kept h0 tbl is_colname :
  forall fuel iter field fsize fxpos st m b st' pending m',
  caller_kept h0 tbl st m ->
  row_tokens fuel iter field fsize fxpos is_colname st m = Ok ((b, st', pending), m') ->
  caller_kept h0 tbl st' m'.
Proof.
  induction fuel as [|fuel IH];
    intros iter field fsize fxpos st m b st' pending m' Hinv Hr; [discriminate|].
  cbn [row_tokens] in Hr.
  apply bind_inv in Hr as ([tok iter'] & m1 & Hnext & Hr).
  assert (Hinv1 : caller_kept h0 tbl st m1).
  { destruct Hinv as ([t Ht] & Hrest). split; [|exact Hrest].
    exists t. rewrite <- Ht.
    exact (keeps_on_heap _ (reads_only_next_char iter) _ _ _ Hnext). }
  destruct tok as [[[[[ptr typ] size] width] xpos]|];
    [|injection Hr as _ <- _ <-; exact Hinv1].
  destruct (typ =? 100); [exact (IH _ _ _ _ _ _ _ _ _ _ Hinv1 Hr)|].
  apply bind_inv in Hr as ([isok1 st1] & m2 & Hflush & Hr).
  assert (Hinv2 : caller_kept h0 tbl st1 m2).
  { destruct (negb (is_null field)).
    - exact (process_item_caller_kept _ _ _ _ _ _ _ _ _ _ _ _ Hinv1 Hflush).
    - injection Hflush as _ <- <-. exact Hinv1. }
  destruct isok1; cbn [negb] in Hr; [|injection Hr as _ <- _ <-; exact Hinv2].
  destruct (if negb (is_null field) then (NULL, 0, -1) else (field, fsize, fxpos))
    as [[f' fs'] fx'].
  apply bind_inv in Hr as ([isok2 st2] & m3 & Htok & Hr).
  pose proof (process_item_caller_kept _ _ _ _ _ _ _ _ _ _ _ _ Hinv2 Htok) as Hinv3.
  destruct isok2; cbn [negb] in Hr; [|injection Hr as _ <- _ <-; exact Hinv3].
  exact (IH _ _ _ _ _ _ _ _ _ _ Hinv3 Hr).
Qed.

Lemma caller_kept_set_colno h0 tbl st n m :
  caller_kept h0 tbl st m -> caller_kept h0 tbl (set_colno st n) m.
Proof. intros H0. exact H0. Qed.

Lemma export_row_caller_kept h0 tbl opts desc l is_colname st m b st' m' :
  caller_kept h0 tbl st m ->
  export_row opts desc l is_colname st m = Ok ((b, st'), m') ->
  caller_kept h0 tbl st' m'.
Proof.
  intros Hinv Hr. rewrite export_row_finish_row in Hr.
  apply bind_inv in Hr as (fuel & m1 & Hfuel & Hr).
  assert (m1 = m) as ->.
  { unfold on_heap, row_fuel in Hfuel. destruct m as [h e o]. cbn in Hfuel.
    destruct (view (rowstr l) h); injection Hfuel as _ <-; reflexivity. }
  apply bind_inv in Hr as ([[isok st1] [[field fsize] fxpos]] & m2 & Hwalk & Hr).
  pose proof (row_tokens_caller_kept h0 tbl _ _ _ _ _ _ _ _ _ _ _ _
                (caller_kept_set_colno _ _ _ 0 _ Hinv) Hwalk) as Hinv2.
  unfold finish_row in Hr.
  destruct isok; cbn [negb] in Hr; [|injection Hr as _ <- <-; exact Hinv2].
  apply bind_inv in Hr as ([isok2 st2] & m3 & Hflush & Hr).
  assert (Hinv3 : caller_kept h0 tbl st2 m3).
  { destruct (negb (is_null field)).
    - exact (process_item_caller_kept _ _ _ _ _ _ _ _ _ _ _ _ Hinv2 Hflush).
    - injection Hflush as _ <- <-. exact Hinv2. }
  destruct isok2; cbn [negb] in Hr; [|injection Hr as _ <- <-; exact Hinv3].
  exact (process_item_caller_kept _ _ _ _ _ _ _ _ _ _ _ _ Hinv3 Hr).
Qed.

Lemma select_row_machine opts desc plan cmd cursor_row l m r m' :
  select_row opts desc plan cmd cursor_row l m = Ok (r, m') -> m' = m.
Proof.
  unfold select_row. intros Hs.
  repeat match type of Hs with
         | (if ?c then _ else _) _ = Ok _ => destruct c
         end;
    try (injection Hs as _ <-; reflexivity).
  destruct (set_line_info (m_heap m) (rowstr l)) as [mask|];
    [destruct (Z.land mask LINEINFO_FOUNDSTR =? 0)|];
    injection Hs as _ <-; reflexivity.
Qed.

Lemma export_lines_caller_kept h0 tbl opts desc plan cmd cursor_row :
  forall ls st m b st' m',
  caller_kept h0 tbl st m ->
  export_lines opts desc plan cmd cursor_row ls st m = Ok ((b, st'), m') ->
  caller_kept h0 tbl st' m'.
Proof.
  induction ls as [|l ls IH]; intros st m b st' m' Hinv Hr.
  - injection Hr as _ <- <-. exact Hinv.
  - cbn [export_lines] in Hr.
    apply bind_inv in Hr as (sel & m1 & Hsel & Hr).
    apply select_row_machine in Hsel as ->.
    destruct sel as [ic|]; [|exact (IH _ _ _ _ _ Hinv Hr)].
    apply bind_inv in Hr as ([isok st1] & m2 & Hrow & Hr).
    pose proof (export_row_caller_kept _ _ _ _ _ _ _ _ _ _ _ Hinv Hrow) as Hinv2.
    destruct isok; cbn [negb] in Hr; [|injection Hr as _ <- <-; exact Hinv2].
    exact (IH _ _ _ _ _ Hinv2 Hr).
Qed.

Lemma export_cleanup_caller_kept h0 tbl st m m' :
  caller_kept h0 tbl st m ->
  export_cleanup st tbl m = Ok (tt, m') ->
  exists t, m_heap m' = h0 ++ t.
Proof.
  intros ([t Ht] & Hown & Htn) Hc. unfold export_cleanup in Hc.
  apply bind_inv in Hc as ([] & m1 & Hnames & Hc).
  assert (Hm1 : exists t1, m_heap m1 = h0 ++ t1).
  { unfold names_own in Hown. destruct (colnames st) as [names|].
    - apply on_heap_inv in Hnames as (h' & Hf & ->). rewrite Ht in Hf.
      apply (free_all_own h0 _ t h') in Hf; [exact Hf|].
      apply Forall_take. exact Hown.
    - injection Hnames as <-. exists t. exact Ht. }
  destruct Hm1 as [t1 Ht1].
  destruct (negb (is_null (table_name st)) && negb (cptr_eqb (table_name st) tbl)) eqn:Efree.
  - apply on_heap_inv in Hc as (h' & Hf & ->). rewrite Ht1 in Hf.
    apply andb_true_iff in Efree as [_ Ene].
    destruct Htn as [Etn|Hto].
    + rewrite Etn, cptr_eqb_refl in Ene. discriminate.
    + exact (free_own h0 t1 _ h' Hto Hf).
  - injection Hc as <-. exists t1. exact Ht1.
Qed.

(** The setup touches the machine in the call that quotes the table name,
    and nowhere else. *)
Lemma export_setup_inv opts scrdesc desc cursor_row cursor_column rows
    percent tbl cmd fmt m r m' :
  export_setup opts scrdesc desc cursor_row cursor_column rows percent tbl cmd fmt m
  = Ok (r, m') ->
  exists quoted,
    ((quote_table_name opts tbl m = Ok (quoted, m'))
     \/ (quoted = NULL /\ m' = m))
    /\ match r with
       | Some (plan, st) => table_name st = quoted /\ colnames st = None
       | None => True
       end.
Proof.
  intros Hs. unfold export_setup in Hs.
  apply bind_inv in Hs as (quoted & m1 & Hq & Hs).
  apply bind_inv in Hs as ([xmin1 xmax1] & m2 & Hrange & Hs).
  assert (m2 = m1) as ->.
  { match type of Hrange with
    | (if ?c then _ else _) _ = _ => destruct c
    end; [|injection Hrange as _ _ <-; reflexivity].
    destruct (lookupZ (cranges desc) (cursor_column - 1));
      [injection Hrange as _ <-; reflexivity|discriminate]. }
  assert (Hres : m' = m1
                 /\ match r with
                    | Some (plan, st) => table_name st = quoted /\ colnames st = None
                    | None => True
                    end).
  { match type of Hs with
    | (if ?c then _ else _) _ = _ => destruct c
    end; [injection Hs as <- <-; auto|].
    match type of Hs with
    | (let (_, _) := ?x in _) _ = _ => destruct x
    end.
    injection Hs as <- <-. cbn [table_name colnames]. auto. }
  destruct Hres as [-> Hr]. exists quoted. split; [|exact Hr].
  match type of Hq with
  | (if ?c then _ else _) _ = _ => destruct c
  end; [left; exact Hq|right]. injection Hq as <- <-. auto.
Qed.

Lemma quote_table_name_result opts tbl m quoted m' :
  quote_table_name opts tbl m = Ok (quoted, m') ->
  (exists t, m_heap m' = m_heap m ++ t)
  /\ (quoted = tbl \/ own_ptr (m_heap m) quoted).
Proof.
  unfold quote_table_name. intros Hq.
  apply bind_inv in Hq as (s & m2 & Hstr & Hq).
  pose proof (keeps_on_heap _ (reads_only_cstring tbl) _ _ _ Hstr) as E.
  apply bind_inv in Hq as ([p n] & m3 & Hquote & Hq). injection Hq as <- <-.
  apply (on_heap_quoted _ tbl) in Hquote;
    [|intros ? ? ? ?; apply quote_sql_identifier_result].
  rewrite E in Hquote.
  split; [exact (quoted_result_extends _ _ _ _ Hquote)|].
  destruct Hquote as [[_ [-> | ->]]|[-> _]];
    [left; reflexivity|right; exact I|right].
  unfold own_ptr, fresh_ptr. lia.
Qed.

Lemma export_setup_heap opts scrdesc desc cursor_row cursor_column rows
    percent tbl cmd fmt m r m' :
  export_setup opts scrdesc desc cursor_row cursor_column rows percent tbl cmd fmt m
  = Ok (r, m') ->
  (exists t, m_heap m' = m_heap m ++ t)
  /\ match r with
     | Some (plan, st) => caller_kept (m_heap m) tbl st m'
     | None => True
     end.
Proof.
  intros Hs. apply export_setup_inv in Hs as (quoted & Hq & Hr).
  assert (Hq' : (exists t, m_heap m' = m_heap m ++ t)
                /\ (quoted = tbl \/ own_ptr (m_heap m) quoted)).
  { destruct Hq as [Hq|[-> ->]]; [exact (quote_table_name_result _ _ _ _ _ Hq)|].
    split; [exists []; rewrite app_nil_r; reflexivity|right; exact I]. }
  destruct Hq' as [Hheap Htn]. split; [exact Hheap|].
  destruct r as [[plan st]|]; [|exact I]. destruct Hr as [Etn Ecn].
  split; [exact Hheap|]. split.
  - unfold names_own. rewrite Ecn. exact I.
  - rewrite Etn. exact Htn.
Qed.

(** X18.  [export_data] never frees or overwrites memory of its caller.
    Whenever a call returns, in any format and mode and for any command,
    the heap is the heap before the call followed by blocks of the call's
    own: the rows, the template and the table name read after the call as
    they did before it.  What the cleanup frees are the column names and
    the quoted table name that the call itself allocated. *)
Theorem export_data_keeps_caller_memory opts scrdesc desc cursor_row cursor_column rows
    percent tbl cmd fmt m b m' :
  export_data opts scrdesc desc cursor_row cursor_column rows percent tbl cmd fmt m
  = Ok (b, m') ->
  (exists t, m_heap m' = m_heap m ++ t)
  /\ forall p v, view p (m_heap m) = Ok v -> view p (m_heap m') = Ok v.
Proof.
  intros He.
  assert (Hext : exists t, m_heap m' = m_heap m ++ t).
  { unfold export_data in He.
    apply bind_inv in He as (setup & m1 & Hsetup & He).
    apply export_setup_heap in Hsetup as [Hheap Hkept].
    destruct setup as [[plan st]|].
    - apply bind_inv in He as ([isok st'] & m2 & Hlines & He).
      apply (export_lines_caller_kept _ _ _ _ _ _ _ _ _ _ _ _ _ Hkept) in Hlines.
      apply bind_inv in He as ([] & m3 & Hclean & He). injection He as _ <-.
      exact (export_cleanup_caller_kept _ _ _ _ _ Hlines Hclean).
    - injection He as _ <-. exact Hheap. }
  split; [exact Hext|].
  destruct Hext as [t Ht]. intros p v Hv. rewrite Ht. apply view_app_old. exact Hv.
Qed.

End MemoryFacts.


Lemma process_item_keeps_memory_witness :
  let st := mkExportState CLIPBOARD_FORMAT_INSERT (-1) (-1) false (Ptr 0 0) 1 false false
              0 None in
  let m := mkMachine [cstr "t"; cstr " abc "] 0 (mkFILE [] None) in
  let m' := mkMachine [cstr "t"; cstr " abc "; None] 0
              (mkFILE (bytes_of_string "INSERT INTO t VALUES('abc'") None) in
  process_item (H := example_collaborators) st 100 (Ptr 1 0) 5 4 false m
  = Ok ((true, set_colno st 1), m')
  /\ (exists t, m_heap m' = m_heap m ++ t)
  /\ forall p v, view p (m_heap m) = Ok v -> view p (m_heap m') = Ok v.
Proof.
  intros st m m'. split; [reflexivity|].
  apply (process_item_keeps_memory (H := example_collaborators)
           st 100 (Ptr 1 0) 5 4 false m (true, set_colno st 1) m').
  reflexivity.
Defined.

Lemma export_data_keeps_caller_memory_witness :
  let h := [cstr "LdddIddR"; cstr "+---+--+"; cstr "| id|nm|"; cstr "|  7|a |";
            cstr "My Table"] in
  let desc := mkDataDesc 3 3 4 2 [(0, 4); (4, 7)] (Ptr 0 0) 0 4 2 1 (-1)
                [mkLine (Ptr 1 0) None 0; mkLine (Ptr 2 0) None 1;
                 mkLine (Ptr 1 0) None 2; mkLine (Ptr 3 0) None 3;
                 mkLine (Ptr 1 0) None 4] in
  let m := mkMachine h 0 (mkFILE [] None) in
  let m' := mkMachine (h ++ [None; None; None; None]) 0
              (mkFILE (bytes_of_string "INSERT INTO " ++ [34]
                       ++ bytes_of_string "My Table" ++ [34]
                       ++ bytes_of_string "(id, nm) VALUES(7, 'a');" ++ [10]) None) in
  export_data (H := example_collaborators) (mkOptions true false false false)
    (mkScrDesc (-1) 0 (-1) 0) desc 0 0 0 (double_of_int 0) (Ptr 4 0)
    cmd_CopyAllLines CLIPBOARD_FORMAT_INSERT m
  = Ok (true, m')
  /\ (exists t, m_heap m' = m_heap m ++ t)
  /\ forall p v, view p (m_heap m) = Ok v -> view p (m_heap m') = Ok v.
Proof.
  intros h desc m m'. split; [reflexivity|].
  apply (export_data_keeps_caller_memory (H := example_collaborators)
           (mkOptions true false false false) (mkScrDesc (-1) 0 (-1) 0) desc
           0 0 0 (double_of_int 0) (Ptr 4 0) cmd_CopyAllLines CLIPBOARD_FORMAT_INSERT
           m true m').
  reflexivity.
Defined.

(** ** Rows in the SQL INSERT format *)

Section InsertRows.
Context `{Collaborators}.

Lemma cstring_app_old p h t s : cstring p h = Ok (s, h) -> cstring p (h ++ t) = Ok (s, h ++ t).
Proof.
  unfold cstring. destruct (view p h) as [v|] eqn:Ev; [|discriminate].
  rewrite (view_app_old _ _ _ t Ev).
  destruct (until_nul v); [|discriminate]. intros [= ->]. reflexivity.
Qed.

Lemma names_read_app h t st names :
  names_read h st names -> names_read (h ++ t) st names.
Proof.
  unfold names_read. destruct (colnames st), names; auto.
  intros Hall. eapply Forall2_impl; [exact Hall|].
  intros p s Hs. apply cstring_app_old. exact Hs.
Qed.

Lemma fputs_run p s h e out :
  cstring p h = Ok (s, h) ->
  fputs p (mkMachine h e (mkFILE out None))
  = Ok (tt, mkMachine h e (mkFILE (out ++ s) None)).
Proof.
  intros Hs. unfold fputs, bind, on_heap, write_out. cbn [m_heap m_errno m_out].
  rewrite Hs. reflexivity.
Qed.

Lemma emit_names_terse_run h e : forall ps ss is_first out,
  Forall2 (fun p s => cstring p h = Ok (s, h)) ps ss ->
  emit_names_terse is_first ps (mkMachine h e (mkFILE out None))
  = Ok (tt, mkMachine h e (mkFILE (out ++ comma_list is_first ss) None)).
Proof.
  intros ps ss is_first out Hall. revert is_first out.
  induction Hall as [|p s ps ss Hs _ IH]; intros is_first out.
  - simpl. rewrite app_nil_r. reflexivity.
  - cbn [emit_names_terse comma_list].
    assert (Hsep : (if negb is_first then fputs_lit ", " else ret tt)
                     (mkMachine h e (mkFILE out None))
                   = Ok (tt, mkMachine h e
                               (mkFILE (out ++ (if is_first then [] else [44; 32])) None)))
      by (destruct is_first; [cbn [negb]; rewrite app_nil_r|]; reflexivity).
    rewrite (bind_ok _ _ _ _ _ Hsep).
    rewrite (bind_ok _ _ _ _ _ (fputs_run p s h e _ Hs)).
    rewrite IH, <- !app_assoc. reflexivity.
Qed.

Lemma write_out_run bs h e out :
  write_out bs (mkMachine h e (mkFILE out None))
  = Ok (tt, mkMachine h e (mkFILE (out ++ bs) None)).
Proof. reflexivity. Qed.

(** The head of the statement, terse INSERT format. *)
Lemma emit_insert_head_run st h e out tn names :
  format st = CLIPBOARD_FORMAT_INSERT ->
  cstring (table_name st) h = Ok (tn, h) ->
  names_read h st names ->
  emit_insert_head st (mkMachine h e (mkFILE out None))
  = Ok (tt, mkMachine h 0 (mkFILE (out ++ insert_head tn names) None)).
Proof.
  intros Hf Htn Hnames. unfold emit_insert_head, insert_head. rewrite Hf.
  cbn [format_eqb]. unfold fputs_lit, fputc.
  unfold bind at 1. unfold set_errno at 1. cbn [m_heap m_errno m_out].
  rewrite (bind_ok _ _ _ _ _ (write_out_run _ h 0 out)).
  rewrite (bind_ok _ _ _ _ _ (fputs_run _ tn h 0 _ Htn)).
  unfold names_read in Hnames.
  destruct (colnames st) as [ps|], names as [ss|]; try contradiction.
  - rewrite !bind_assoc.
    rewrite (bind_ok _ _ _ _ _ (write_out_run _ h 0 _)).
    rewrite !bind_assoc.
    rewrite (bind_ok _ _ _ _ _ (emit_names_terse_run h 0 _ ss true _ Hnames)).
    rewrite (bind_ok _ _ _ _ _ (write_out_run _ h 0 _)).
    rewrite write_out_run, <- !app_assoc. reflexivity.
  - unfold bind at 1. unfold ret at 1.
    rewrite write_out_run, <- !app_assoc. reflexivity.
Qed.

(** A data token of a data row in the terse INSERT format, given what
    [trim_str] and [quote_sql_literal] return. *)
Lemma process_item_insert_write st field size xpos hc e out tn names
    field1 size1 _field size2 h2 bs h3 :
  format st = CLIPBOARD_FORMAT_INSERT -> xmin st = -1 ->
  cstring (table_name st) hc = Ok (tn, hc) ->
  names_read hc st names ->
  trim_str field size (force8bit st) hc = Ok ((field1, size1), hc) ->
  quote_sql_literal field1 size1 (force8bit st) (empty_string_is_null st) hc
  = Ok ((_field, size2), h2) ->
  load_bytes _field size2 h2 = Ok (bs, h2) ->
  (if cptr_eqb _field field1 then h3 = h2 else free _field h2 = Ok (tt, h3)) ->
  process_item st 100 field size xpos false (mkMachine hc e (mkFILE out None))
  = Ok ((true, set_colno st (colno st + 1)),
        mkMachine h3 0
          (mkFILE (out
                   ++ (if colno st =? 0 then insert_head tn names else [])
                   ++ (if 0 <? colno st then [44; 32] else [])
                   ++ bs) None)).
Proof.
  intros Hf Hx Htn Hnames Htrim Hq Hload Hfree.
  unfold process_item, process_item_insert, outside_range.
  rewrite Hf, Hx. cbn [INSERT_FORMAT_TYPE format_eqb Z.eqb Pos.eqb negb andb].
  unfold bind at 1. unfold set_errno at 1. cbn [m_heap m_errno m_out].
  assert (Hhead : (if colno st =? 0 then emit_insert_head st else ret tt)
                    (mkMachine hc 0 (mkFILE out None))
                  = Ok (tt, mkMachine hc 0
                              (mkFILE (out ++ (if colno st =? 0
                                               then insert_head tn names else []))
                                 None))).
  { destruct (colno st =? 0).
    - exact (emit_insert_head_run st hc 0 out tn names Hf Htn Hnames).
    - rewrite app_nil_r. reflexivity. }
  rewrite (bind_ok _ _ _ _ _ Hhead).
  set (out1 := out ++ (if colno st =? 0 then insert_head tn names else [])).
  assert (Hsep : (if 0 <? colno st then fputs_lit ", " else ret tt)
                   (mkMachine hc 0 (mkFILE out1 None))
                 = Ok (tt, mkMachine hc 0
                             (mkFILE (out1 ++ (if 0 <? colno st then [44; 32] else []))
                                None)))
    by (destruct (0 <? colno st); [|rewrite app_nil_r]; reflexivity).
  rewrite (bind_ok _ _ _ _ _ Hsep).
  set (out2 := out1 ++ (if 0 <? colno st then [44; 32] else [])).
  assert (Ht' : on_heap (trim_str field size (force8bit st))
                  (mkMachine hc 0 (mkFILE out2 None))
                = Ok ((field1, size1), mkMachine hc 0 (mkFILE out2 None)))
    by (unfold on_heap; cbn [m_heap m_errno m_out]; rewrite Htrim; reflexivity).
  rewrite (bind_ok _ _ _ _ _ Ht'). cbv beta iota.
  assert (Hq' : on_heap (quote_sql_literal field1 size1 (force8bit st)
                           (empty_string_is_null st))
                  (mkMachine hc 0 (mkFILE out2 None))
                = Ok ((_field, size2), mkMachine h2 0 (mkFILE out2 None)))
    by (unfold on_heap; cbn [m_heap m_errno m_out]; rewrite Hq; reflexivity).
  rewrite (bind_ok _ _ _ _ _ Hq'). cbv beta iota.
  unfold bind, fwrite, bind, on_heap, write_out, finish, bind, get_errno, ret.
  cbn [m_heap m_errno m_out f_room f_bytes]. rewrite Hload.
  cbn [m_heap m_errno m_out f_room f_bytes].
  destruct (cptr_eqb _field field1); cbn [negb m_heap m_errno m_out f_room f_bytes];
    [subst h3|rewrite Hfree; cbn [m_heap m_errno m_out f_room f_bytes]];
    unfold out2, out1; rewrite <- !app_assoc; reflexivity.
Qed.

Lemma trimmed_Forall (P : Z -> Prop) cell : Forall P cell -> Forall P (trimmed cell).
Proof.
  intros Hall.
  destruct (blanks_split cell) as [[a ->]|(a & core & b & -> & Hne & Hhd & Hlast)].
  - rewrite trimmed_blanks. constructor.
  - rewrite (trimmed_core a core b Hne Hhd Hlast).
    apply Forall_app in Hall as [_ Hall]. apply Forall_app in Hall as [Hall _].
    exact Hall.
Qed.

(** The text NULL, in upper or lower case, is a literal as it is. *)
Lemma quote_sql_literal_null_text str bs rest f8 esn h :
  view str h = Ok (bs ++ rest) ->
  bs = bytes_of_string "NULL" \/ bs = bytes_of_string "null" ->
  quote_sql_literal str 4 f8 esn h = Ok ((str, 4), h).
Proof.
  intros Hv Hb. unfold quote_sql_literal. simpl (4 =? 0). cbv iota.
  simpl (4 =? 4). cbv iota. change (Z.to_nat 4) with 4%nat.
  assert (Hnz : forall s, s = bytes_of_string "NULL" \/ s = bytes_of_string "null" ->
                          Forall (fun c => c <> 0) s)
    by (intros s [-> | ->]; repeat constructor; discriminate).
  destruct Hb as [-> | ->].
  - pose proof (strncmp_eq_same (bytes_of_string "NULL") str h rest
                  (Hnz _ (or_introl eq_refl)) Hv) as Hs.
    change (length (bytes_of_string "NULL")) with 4%nat in Hs.
    unfold bind at 1. unfold bind at 1. rewrite Hs. reflexivity.
  - assert (Hd : bytes_of_string "null" <> bytes_of_string "NULL") by discriminate.
    pose proof (strncmp_eq_diff (bytes_of_string "NULL") (bytes_of_string "null")
                  str h rest (Hnz _ (or_introl eq_refl)) eq_refl Hd Hv) as Hs1.
    pose proof (strncmp_eq_same (bytes_of_string "null") str h rest
                  (Hnz _ (or_intror eq_refl)) Hv) as Hs2.
    change (length (bytes_of_string "NULL")) with 4%nat in Hs1.
    change (length (bytes_of_string "null")) with 4%nat in Hs2.
    unfold bind at 1. unfold bind at 1. rewrite Hs1. cbv iota. rewrite Hs2.
    reflexivity.
Qed.

(** One cell of a data row in the terse INSERT format, force-8-bit mode. *)
Lemma process_item_insert_cell st field cell rest xpos hc e out tn names :
  format st = CLIPBOARD_FORMAT_INSERT -> xmin st = -1 -> force8bit st = true ->
  cstring (table_name st) hc = Ok (tn, hc) ->
  names_read hc st names ->
  view field hc = Ok (cell ++ rest) -> rest <> [] ->
  Forall (fun c => c <> 0) cell ->
  has_byte 39 (trimmed cell) = false ->
  exists n,
    process_item st 100 field (Z.of_nat (length cell)) xpos false
      (mkMachine hc e (mkFILE out None))
    = Ok ((true, set_colno st (colno st + 1)),
          mkMachine (hc ++ replicate n None) 0
            (mkFILE (out
                     ++ (if colno st =? 0 then insert_head tn names else [])
                     ++ (if 0 <? colno st then [44; 32] else [])
                     ++ sql_value (empty_string_is_null st) cell) None)).
Proof.
  intros Hf Hx H8 Htn Hnames Hv Hrest Hnz Hq.
  pose proof (trimmed_Forall _ _ Hnz) as Hnzc.
  destruct (trim_str_trimmed field cell rest hc Hv Hrest)
    as (p & Htrim & [[Hnil ->]|(Hne & Hp & rest' & Hrest' & Hvp)]).
  - unfold sql_value. rewrite Hnil in *.
    exists 1%nat.
    destruct (empty_string_is_null st) eqn:Eesn.
    + apply (process_item_insert_write st field _ xpos hc e out tn names
               NULL 0 (fresh_ptr hc) 4 (hc ++ [cstr "NULL"]) (bytes_of_string "NULL")
               (hc ++ [None]) Hf Hx Htn Hnames).
      * rewrite H8. exact Htrim.
      * rewrite H8, Eesn. reflexivity.
      * apply (load_bytes_take (fresh_ptr hc) _ (bytes_of_string "NULL") [0]).
        apply view_fresh.
      * cbn [fresh_ptr cptr_eqb]. apply free_fresh.
    + apply (process_item_insert_write st field _ xpos hc e out tn names
               NULL 0 (fresh_ptr hc) 2 (hc ++ [Some [39; 39; 0]]) [39; 39]
               (hc ++ [None]) Hf Hx Htn Hnames).
      * rewrite H8. exact Htrim.
      * rewrite H8, Eesn. reflexivity.
      * apply (load_bytes_take (fresh_ptr hc) _ [39; 39] [0]). apply view_fresh.
      * cbn [fresh_ptr cptr_eqb]. apply free_fresh.
  - set (core := trimmed cell) in *.
    assert (Hval : sql_value (empty_string_is_null st) cell
                   = if bool_decide (core = bytes_of_string "NULL")
                        || bool_decide (core = bytes_of_string "null")
                     then core
                     else if literal_needs_quoting false core then wrapped 39 core
                          else core)
      by (unfold sql_value; fold core; destruct core; [congruence|reflexivity]).
    rewrite Hval.
    assert (Hsame : forall n0,
               quote_sql_literal p (Z.of_nat (length core)) (force8bit st)
                 (empty_string_is_null st) hc
               = Ok ((p, Z.of_nat (length core)), hc) ->
               n0 = 0%nat ->
               process_item st 100 field (Z.of_nat (length cell)) xpos false
                 (mkMachine hc e (mkFILE out None))
               = Ok ((true, set_colno st (colno st + 1)),
                     mkMachine (hc ++ replicate n0 None) 0
                       (mkFILE (out
                                ++ (if colno st =? 0 then insert_head tn names else [])
                                ++ (if 0 <? colno st then [44; 32] else [])
                                ++ core) None))).
    { intros n0 Hlit ->. simpl replicate. rewrite app_nil_r.
      apply (process_item_insert_write st field _ xpos hc e out tn names
               p (Z.of_nat (length core)) p (Z.of_nat (length core)) hc core hc
               Hf Hx Htn Hnames).
      - rewrite H8. exact Htrim.
      - exact Hlit.
      - apply (load_bytes_take p hc core rest' Hvp).
      - rewrite cptr_eqb_refl. reflexivity. }
    destruct (decide (core = bytes_of_string "NULL")) as [Eu|Eu].
    { rewrite (bool_decide_eq_true_2 _ Eu). cbn [orb]. exists 0%nat.
      apply Hsame; [|reflexivity]. rewrite Eu in *.
      exact (quote_sql_literal_null_text p _ rest' _ _ hc Hvp (or_introl eq_refl)). }
    destruct (decide (core = bytes_of_string "null")) as [El|El].
    { rewrite (bool_decide_eq_true_2 _ El), orb_true_r. exists 0%nat.
      apply Hsame; [|reflexivity]. rewrite El in *.
      exact (quote_sql_literal_null_text p _ rest' _ _ hc Hvp (or_intror eq_refl)). }
    rewrite (bool_decide_eq_false_2 _ Eu), (bool_decide_eq_false_2 _ El). cbn [orb].
    assert (Hscan : quote_sql_literal p (Z.of_nat (length core)) true
                      (empty_string_is_null st) hc
                    = if literal_needs_quoting false core
                      then quote_wrap 39 true p (Z.of_nat (length core)) hc
                      else Ok ((p, Z.of_nat (length core)), hc)).
    { destruct core as [|c bs] eqn:Ecore; [congruence|].
      apply (quote_sql_literal_scan p bs c rest' true _ hc Hvp Hnzc Eu El).
      - discriminate.
      - intros x _. reflexivity.
      - right. exact Hrest'. }
    destruct (literal_needs_quoting false core) eqn:Eneed.
    + exists 1%nat.
      assert (Hw : wrapped 39 core = 39 :: core ++ [39])
        by (unfold wrapped; rewrite (doubled_no_quote 39 core Hq); reflexivity).
      apply (process_item_insert_write st field _ xpos hc e out tn names
               p (Z.of_nat (length core)) (fresh_ptr hc) (Z.of_nat (length core) + 2)
               (hc ++ [Some (buffer_block (length hc)
                               (Z.of_nat (length core) * 2 + 2 + 1)
                               (wrapped 39 core ++ [0]))])
               (wrapped 39 core) (hc ++ [None]) Hf Hx Htn Hnames).
      * rewrite H8. exact Htrim.
      * rewrite H8, Hscan. apply (quote_wrap_8bit 39 p core rest' hc Hvp).
      * replace (Z.of_nat (length core) + 2) with (Z.of_nat (length (wrapped 39 core)))
          by (rewrite Hw; simpl; rewrite length_app; simpl; lia).
        apply (load_bytes_take (fresh_ptr hc) _ (wrapped 39 core)
                 ([0] ++ map (heap_junk (length hc))
                           (seqZ (Z.of_nat (length (wrapped 39 core ++ [0])))
                              (Z.of_nat (length core) * 2 + 2 + 1
                               - Z.of_nat (length (wrapped 39 core ++ [0])))))).
        unfold buffer_block. rewrite <- app_assoc. apply view_fresh.
      * destruct (cptr_eqb (fresh_ptr hc) p) eqn:Eq.
        -- apply cptr_eqb_eq in Eq. exfalso.
           exact (fresh_ptr_not_valid _ _ _ Hvp Eq).
        -- apply free_fresh.
    + exists 0%nat. apply Hsame; [|reflexivity]. rewrite H8. exact Hscan.
Qed.

Lemma process_item_insert_other st typ field size xpos h e out :
  INSERT_FORMAT_TYPE (format st) = true -> typ <> 78 -> typ <> 100 ->
  process_item st typ field size xpos false (mkMachine h e (mkFILE out None))
  = Ok ((true, st), mkMachine h 0 (mkFILE out None)).
Proof.
  intros Hi H78 H100. unfold process_item, process_item_insert. rewrite Hi.
  replace (typ =? 78) with false by (symmetry; apply Z.eqb_neq; exact H78).
  replace (typ =? 100) with false by (symmetry; apply Z.eqb_neq; exact H100).
  reflexivity.
Qed.

Lemma process_item_insert_end st field size xpos h e out :
  format st = CLIPBOARD_FORMAT_INSERT ->
  process_item st 78 field size xpos false (mkMachine h e (mkFILE out None))
  = Ok ((true, st), mkMachine h 0 (mkFILE (out ++ bytes_of_string ");" ++ [10]) None)).
Proof.
  intros Hf. unfold process_item, process_item_insert. rewrite Hf. reflexivity.
Qed.

(** The token loop and the end of a data row in the terse INSERT format,
    from any point of the row. *)
Lemma insert_row_walk tn names s : forall t fuel rp hp x field fxpos pend st hc e out
    sstop tstop,
  length t = length s -> (length s < fuel)%nat ->
  view rp hc = Ok (s ++ sstop) ->
  view hp hc = Ok (t ++ tstop) ->
  Forall (fun c => c <> 0) s ->
  Forall (fun c => c <> 10 /\ c <> 78) t ->
  (exists r, sstop = 0 :: r) \/ (exists c r r', sstop = c :: r /\ tstop = 10 :: r') ->
  (if is_null field then pend = []
   else pend <> [] /\ view field hc = Ok (pend ++ s ++ sstop)) ->
  Forall (fun c => c <> 0) pend ->
  format st = CLIPBOARD_FORMAT_INSERT -> xmin st = -1 -> force8bit st = true ->
  cstring (table_name st) hc = Ok (tn, hc) ->
  names_read hc st names ->
  Forall (fun cell => has_byte 39 (trimmed cell) = false) (row_cells t s pend) ->
  exists n,
    (do r <- row_tokens fuel (mkFmtLineIter rp hp true x) field
               (Z.of_nat (length pend)) fxpos false st;
     finish_row false r) (mkMachine hc e (mkFILE out None))
    = Ok ((true, set_colno st (colno st + Z.of_nat (length (row_cells t s pend)))),
          mkMachine (hc ++ replicate n None) 0
            (mkFILE (out
                     ++ insert_fields (insert_head tn names) (colno st)
                          (map (sql_value (empty_string_is_null st)) (row_cells t s pend))
                     ++ bytes_of_string ");" ++ [10]) None)).
Proof.
  induction s as [|c s IH];
    intros t fuel rp hp x field fxpos pend st hc e out sstop tstop
           Hlen Hfuel Hr Ht Hnz Hty Hend Hpend Hpnz Hf Hx H8 Htn Hnames Hcells.
  - destruct t; [|discriminate]. destruct fuel as [|fuel]; [simpl in Hfuel; lia|].
    cbn [row_tokens]. rewrite bind_assoc.
    assert (Hnext : on_heap (next_char (mkFmtLineIter rp hp true x))
                      (mkMachine hc e (mkFILE out None))
                    = Ok ((None, mkFmtLineIter rp hp true x),
                          mkMachine hc e (mkFILE out None))).
    { unfold on_heap. cbn [m_heap m_errno m_out].
      rewrite (next_char_end rp hp true x hc _ _ Hr Ht Hend). reflexivity. }
    rewrite (bind_ok _ _ _ _ _ Hnext). cbv beta iota.
    unfold bind at 1. unfold ret at 1. cbv beta iota.
    unfold finish_row. cbn [negb row_cells]. cbn [row_cells app] in Hcells.
    destruct field as [|fb fo]; cbn [is_null negb] in *.
    + subst pend. exists 0%nat. unfold bind at 1. unfold ret at 1. cbv beta iota.
      cbn [negb]. rewrite (process_item_insert_end st _ _ _ _ _ _ Hf).
      cbn [flush_cell length map insert_fields app replicate].
      rewrite Z.add_0_r, set_colno_colno, app_nil_r. reflexivity.
    + destruct Hpend as [Hne Hvf].
      assert (Hflush : flush_cell pend = [pend]) by (destruct pend; [congruence|reflexivity]).
      rewrite Hflush in *. pose proof (List.Forall_inv Hcells) as Hq. cbv beta in Hq.
      destruct (process_item_insert_cell st (Ptr fb fo) pend sstop fxpos hc e out tn names
                  Hf Hx H8 Htn Hnames Hvf) as [n Hcell]; [|exact Hpnz|exact Hq|].
      { destruct Hend as [[r ->]|(c0 & r & r' & -> & _)]; discriminate. }
      exists n. rewrite (bind_ok _ _ _ _ _ Hcell). cbv beta iota. cbn [negb].
      rewrite (process_item_insert_end (set_colno st (colno st + 1)) _ _ _ _ _ _ Hf).
      cbn [length map insert_fields]. rewrite app_nil_r, <- !app_assoc. reflexivity.
  - destruct t as [|ty t]; [discriminate|]. destruct fuel as [|fuel]; [simpl in Hfuel; lia|].
    inversion Hnz as [|? ? Hc Hnz']; subst.
    inversion Hty as [|? ? [Hty10 Hty78] Hty']; subst.
    cbn [row_tokens]. rewrite bind_assoc.
    assert (Hnext : on_heap (next_char (mkFmtLineIter rp hp true x))
                      (mkMachine hc e (mkFILE out None))
                    = Ok ((Some (rp, ty, 1, 1, x),
                           mkFmtLineIter (ptr_add rp 1) (ptr_add hp 1) true (x + 1)),
                          mkMachine hc e (mkFILE out None))).
    { unfold on_heap. cbn [m_heap m_errno m_out].
      rewrite (next_char_step_8bit rp hp x hc c (s ++ sstop) ty (t ++ tstop)
                 Hr Ht Hc Hty10).
      reflexivity. }
    rewrite (bind_ok _ _ _ _ _ Hnext). cbv beta iota.
    assert (Hrp : is_null rp = false) by (destruct rp; [discriminate|reflexivity]).
    assert (Hi : INSERT_FORMAT_TYPE (format st) = true) by (rewrite Hf; reflexivity).
    cbn [row_cells] in *.
    destruct (Z.eqb_spec ty 100) as [->|Hdt].
    + replace (Z.of_nat (length pend) + 1) with (Z.of_nat (length (pend ++ [c])))
        by (rewrite length_app; simpl; lia).
      apply (IH t fuel (ptr_add rp 1) (ptr_add hp 1) (x + 1)
               (if is_null field then rp else field) x (pend ++ [c]) st hc e out
               sstop tstop);
        try assumption.
      * simpl in Hlen. lia.
      * simpl in Hfuel. lia.
      * exact (view_next _ _ _ _ Hr).
      * exact (view_next _ _ _ _ Ht).
      * destruct (is_null field) eqn:En.
        -- rewrite Hrp. subst pend. split; [discriminate|exact Hr].
        -- rewrite En. destruct Hpend as [_ Hvf].
           split; [destruct pend; discriminate|].
           rewrite <- app_assoc. exact Hvf.
      * apply Forall_app. split; [exact Hpnz|]. constructor; [exact Hc|constructor].
    + destruct (is_null field) eqn:En; cbn [negb].
      * subst pend. cbn [flush_cell app] in *.
        unfold bind at 2. unfold ret at 1. cbv beta iota. cbn [negb].
        rewrite bind_assoc.
        rewrite (bind_ok _ _ _ _ _
                   (process_item_insert_other st ty rp 1 x hc e out Hi Hty78 Hdt)).
        cbv beta iota. cbn [negb].
        apply (IH t fuel (ptr_add rp 1) (ptr_add hp 1) (x + 1) field fxpos [] st hc 0 out
                 sstop tstop);
          try assumption.
        -- simpl in Hlen. lia.
        -- simpl in Hfuel. lia.
        -- exact (view_next _ _ _ _ Hr).
        -- exact (view_next _ _ _ _ Ht).
        -- rewrite En. reflexivity.
      * destruct Hpend as [Hne Hvf].
        assert (Hflush : flush_cell pend = [pend])
          by (destruct pend; [congruence|reflexivity]).
        rewrite Hflush in *. cbn [app] in *.
        pose proof (List.Forall_inv Hcells) as Hq. cbv beta in Hq.
        pose proof (List.Forall_inv_tail Hcells) as Hcells'.
        destruct (process_item_insert_cell st field pend (c :: s ++ sstop) fxpos hc e out
                    tn names Hf Hx H8 Htn Hnames Hvf ltac:(discriminate) Hpnz Hq)
          as [n1 Hcell].
        rewrite bind_assoc. rewrite (bind_ok _ _ _ _ _ Hcell). cbv beta iota. cbn [negb].
        rewrite bind_assoc.
        rewrite (bind_ok _ _ _ _ _
                   (process_item_insert_other (set_colno st (colno st + 1)) ty rp 1 x
                      _ _ _ Hi Hty78 Hdt)).
        cbv beta iota. cbn [negb].
        destruct (IH t fuel (ptr_add rp 1) (ptr_add hp 1) (x + 1) NULL (-1) []
                    (set_colno st (colno st + 1)) (hc ++ replicate n1 None) 0
                    (out
                     ++ (if colno st =? 0 then insert_head tn names else [])
                     ++ (if 0 <? colno st then [44; 32] else [])
                     ++ sql_value (empty_string_is_null st) pend)
                    sstop tstop) as [n2 Hrest];
          try assumption.
        -- simpl in Hlen. lia.
        -- simpl in Hfuel. lia.
        -- apply view_app_old. exact (view_next _ _ _ _ Hr).
        -- apply view_app_old. exact (view_next _ _ _ _ Ht).
        -- reflexivity.
        -- constructor.
        -- apply cstring_app_old. exact Htn.
        -- apply (names_read_app hc _ st names Hnames).
        -- exists (n1 + n2)%nat.
           change (Z.of_nat (length (@nil Z))) with 0 in Hrest.
           rewrite Hrest. cbn [format colno empty_string_is_null set_colno
                               length map insert_fields].
           rewrite replicate_add, <- !app_assoc.
           replace (colno st + 1 + Z.of_nat (length (row_cells t s [])))
             with (colno st + Z.of_nat (S (length (row_cells t s [])))) by lia.
           reflexivity.
Qed.

(** The row loop body on a data row in the terse INSERT format. *)
Lemma export_row_insert_layout opts desc l st h e out t s tn names :
  opt_force8bit opts = true -> force8bit st = true ->
  format st = CLIPBOARD_FORMAT_INSERT -> xmin st = -1 ->
  cstring (table_name st) h = Ok (tn, h) ->
  names_read h st names ->
  row_layout h (rowstr l) (headline_transl desc) t s ->
  cells_without_apostrophe t s ->
  exists n,
    export_row opts desc l false st (mkMachine h e (mkFILE out None))
    = Ok ((true, set_colno st (Z.of_nat (length (row_cells t s [])))),
          mkMachine (h ++ replicate n None) 0
            (mkFILE (out ++ insert_line tn names (empty_string_is_null st) t s) None)).
Proof.
  intros Ho8 H8 Hf Hx Htn Hnames (sstop & tstop & Hr & Ht & Hlen & Hnz & Hty & Hend)
         Hcells.
  rewrite export_row_finish_row, Ho8.
  assert (Hfuel : on_heap (row_fuel (rowstr l)) (mkMachine h e (mkFILE out None))
                  = Ok (S (length (s ++ sstop)), mkMachine h e (mkFILE out None))).
  { unfold on_heap, row_fuel. cbn [m_heap m_errno m_out]. rewrite Hr. reflexivity. }
  rewrite (bind_ok _ _ _ _ _ Hfuel).
  destruct (insert_row_walk tn names s t (S (length (s ++ sstop))) (rowstr l)
              (headline_transl desc) 0 NULL (-1) [] (set_colno st 0) h e out sstop tstop)
    as [n Hrun]; try assumption; try reflexivity.
  - rewrite length_app. lia.
  - constructor.
  - exists n. change (Z.of_nat (length (@nil Z))) with 0 in Hrun. rewrite Hrun.
    unfold insert_line. cbn [format colno empty_string_is_null set_colno].
    rewrite Z.add_0_l, <- ?app_assoc. reflexivity.
Qed.

(** X19.  A data row in the SQL INSERT format is one INSERT statement.  In
    force-8-bit mode, without a column range and with a stream that takes
    everything, [export_row] writes for a data row none of whose trimmed
    cells holds a single quote: INSERT INTO, the table name, the captured
    column names between parentheses when there are any, VALUES and, between
    parentheses, the cells in order separated by a comma and a blank, then a
    semicolon and a line feed.  A cell is written without the blanks around
    it: as it is when it is a number or the text NULL, between single
    quotes otherwise, and a blank cell as NULL or as two single quotes (the
    null-as-empty option).  Every buffer it allocated is freed again and
    the blocks that were there are untouched. *)
Theorem export_row_insert_line opts desc l st h e out t s tn names :
  opt_force8bit opts = true -> force8bit st = true ->
  format st = CLIPBOARD_FORMAT_INSERT -> xmin st = -1 ->
  cstring (table_name st) h = Ok (tn, h) ->
  names_read h st names ->
  row_layout h (rowstr l) (headline_transl desc) t s ->
  cells_without_apostrophe t s ->
  exists n,
    export_row opts desc l false st (mkMachine h e (mkFILE out None))
    = Ok ((true, set_colno st (Z.of_nat (length (row_cells t s [])))),
          mkMachine (h ++ replicate n None) 0
            (mkFILE (out ++ insert_line tn names (empty_string_is_null st) t s) None)).
Proof.
  intros Ho8 H8 Hf Hx Htn Hnames Hrow Hcells.
  exact (export_row_insert_layout opts desc l st h e out t s tn names
           Ho8 H8 Hf Hx Htn Hnames Hrow Hcells).
Qed.

End InsertRows.

Lemma export_row_insert_line_witness :
  let h := [cstr "LdddIddddddIddR"; cstr "| 42| it is|  |"; cstr "t"; cstr "id"; cstr "txt"] in
  let desc := mkDataDesc 0 0 0 3 [(0, 4); (4, 11); (11, 14)] (Ptr 0 0)
                (-1) (-1) (-1) (-1) (-1) [mkLine (Ptr 1 0) None 0] in
  let st := mkExportState CLIPBOARD_FORMAT_INSERT (-1) (-1) false (Ptr 2 0) 3 true true 0
              (Some [Ptr 3 0; Ptr 4 0; NULL]) in
  exists n,
    export_row (H := example_collaborators) (mkOptions true true false false) desc
      (mkLine (Ptr 1 0) None 0) false st (mkMachine h 0 (mkFILE [] None))
    = Ok ((true, set_colno st 3),
          mkMachine (h ++ replicate n None) 0
            (mkFILE ([] ++ bytes_of_string "INSERT INTO t(id, txt) VALUES(42, 'it is', NULL);"
                     ++ [10]) None)).
Proof.
  intros h desc st.
  apply (export_row_insert_line (H := example_collaborators)
           (mkOptions true true false false) desc (mkLine (Ptr 1 0) None 0) st
           h 0 [] (bytes_of_string "LdddIddddddIddR") (bytes_of_string "| 42| it is|  |")
           (bytes_of_string "t") (Some [bytes_of_string "id"; bytes_of_string "txt"]));
    try reflexivity.
  - repeat constructor.
  - exists [0], [0].
    split; [reflexivity|]. split; [reflexivity|]. split; [reflexivity|].
    split; [repeat constructor; discriminate|].
    split; [repeat constructor; discriminate|].
    left. exists []. reflexivity.
  - repeat constructor.
Defined.

(** ** Header rows in the SQL INSERT formats *)

Section HeaderRows.
Context `{Collaborators}.

Lemma str_prefix_app s r :
  Forall (fun c => c <> 0) s -> str_prefix (length s) (s ++ r) = Some s.
Proof.
  induction 1 as [|c s Hc _ IH]; simpl; [reflexivity|].
  replace (c =? 0) with false by (symmetry; apply Z.eqb_neq; exact Hc).
  rewrite IH. reflexivity.
Qed.

Lemma sstrndup_run p s r h :
  view p h = Ok (s ++ r) -> Forall (fun c => c <> 0) s ->
  sstrndup p (Z.of_nat (length s)) h = Ok (fresh_ptr h, h ++ [Some (s ++ [0])]).
Proof.
  intros Hv Hnz. unfold sstrndup, cstring_prec.
  replace (Z.max 0 (Z.of_nat (length s))) with (Z.of_nat (length s)) by lia.
  replace (Z.of_nat (length s) <? 0) with false by (symmetry; apply Z.ltb_ge; lia).
  destruct s as [|c s]; [reflexivity|].
  replace (Z.of_nat (length (c :: s)) =? 0) with false
    by (symmetry; apply Z.eqb_neq; simpl; lia).
  unfold bind. rewrite Hv, Nat2Z.id, (str_prefix_app (c :: s) r Hnz). reflexivity.
Qed.

(** A header cell in the SQL INSERT formats, force-8-bit mode: the name is
    stored in a block of its own, as an SQL identifier, and nothing is
    written. *)
Lemma process_item_header_cell st field cell rest xpos hc e out done q todo :
  INSERT_FORMAT_TYPE (format st) = true -> xmin st = -1 -> force8bit st = true ->
  view field hc = Ok (cell ++ rest) -> rest <> [] ->
  Forall (fun c => c <> 0) cell -> trimmed cell <> [] ->
  colnames (ensure_colnames st) = Some (done ++ q :: todo) ->
  colno st = Z.of_nat (length done) ->
  exists blk,
    process_item st 100 field (Z.of_nat (length cell)) xpos true
      (mkMachine hc e (mkFILE out None))
    = Ok ((true,
           set_colno (set_colnames (ensure_colnames st)
                        (Some (done ++ fresh_ptr hc :: todo)))
                     (colno st + 1)),
          mkMachine (hc ++ [Some blk]) 0 (mkFILE out None))
    /\ cstring (fresh_ptr hc) (hc ++ [Some blk])
       = Ok (sql_identifier (trimmed cell), hc ++ [Some blk]).
Proof.
  intros Hi Hx H8 Hv Hrest Hnz Hne Harr Hcol.
  pose proof (trimmed_Forall _ _ Hnz) as Hnzc.
  destruct (trim_str_trimmed field cell rest hc Hv Hrest)
    as (p & Htrim & [[Hnil _]|(_ & Hp & rest' & Hrest' & Hvp)]); [congruence|].
  set (core := trimmed cell) in *.
  pose proof (quote_sql_identifier_8bit p core rest' hc Hvp Hrest' Hnzc Hne) as Hquote.
  assert (Hstore : forall ptr,
             colname_store (ensure_colnames st) (colno (ensure_colnames st)) ptr
             = Ok (set_colnames (ensure_colnames st) (Some (done ++ ptr :: todo)))).
  { intros ptr. unfold colname_store. rewrite Harr, colno_ensure_colnames, Hcol.
    rewrite length_app. cbn [length].
    replace ((0 <=? Z.of_nat (length done))
             && (Z.of_nat (length done) <? Z.of_nat (length done + S (length todo))))
      with true
      by (symmetry; apply andb_true_iff; split; [apply Z.leb_le|apply Z.ltb_lt]; lia).
    rewrite Nat2Z.id.
    replace (length done) with (length done + 0)%nat at 1 by lia.
    rewrite insert_app_r. reflexivity. }
  assert (Hrun : forall _field size2 h2 name_ptr h3,
             quote_sql_identifier p (Z.of_nat (length core)) true hc
             = Ok ((_field, size2), h2) ->
             (if is_null _field then on_heap (sstrdup [])
              else if negb (cptr_eqb _field p) then ret _field
                   else on_heap (sstrndup p size2))
               (mkMachine h2 0 (mkFILE out None))
             = Ok (name_ptr, mkMachine h3 0 (mkFILE out None)) ->
             process_item st 100 field (Z.of_nat (length cell)) xpos true
               (mkMachine hc e (mkFILE out None))
             = Ok ((true,
                    set_colno (set_colnames (ensure_colnames st)
                                 (Some (done ++ name_ptr :: todo)))
                              (colno st + 1)),
                   mkMachine h3 0 (mkFILE out None))).
  { intros _field size2 h2 name_ptr h3 Hq Hname.
    unfold process_item, process_item_insert, outside_range.
    rewrite Hi, Hx. cbn [Z.eqb Pos.eqb negb andb].
    unfold bind at 1. unfold set_errno at 1. cbn [m_heap m_errno m_out].
    assert (Ht' : on_heap (trim_str field (Z.of_nat (length cell)) (force8bit st))
                    (mkMachine hc 0 (mkFILE out None))
                  = Ok ((p, Z.of_nat (length core)), mkMachine hc 0 (mkFILE out None)))
      by (unfold on_heap; cbn [m_heap m_errno m_out]; rewrite H8, Htrim; reflexivity).
    rewrite (bind_ok _ _ _ _ _ Ht'). cbv beta iota.
    assert (Hq' : on_heap (quote_sql_identifier p (Z.of_nat (length core)) (force8bit st))
                    (mkMachine hc 0 (mkFILE out None))
                  = Ok ((_field, size2), mkMachine h2 0 (mkFILE out None)))
      by (unfold on_heap; cbn [m_heap m_errno m_out]; rewrite H8, Hq; reflexivity).
    rewrite (bind_ok _ _ _ _ _ Hq'). cbv beta iota.
    unfold capture_colname. rewrite !bind_assoc.
    rewrite (bind_ok _ _ _ _ _ Hname). rewrite !bind_assoc.
    unfold bind at 1. unfold lift_res at 1. rewrite Hstore.
    unfold bind, ret, finish, bind, get_errno, ret. cbn [m_heap m_errno m_out Z.eqb].
    cbn [colno set_colnames]. rewrite colno_ensure_colnames. reflexivity. }
  destruct ((hd 0 core =? 34) || plain_identifier core) eqn:Ekeep.
  - exists (core ++ [0]). split.
    + apply (Hrun p (Z.of_nat (length core)) hc (fresh_ptr hc) (hc ++ [Some (core ++ [0])])
               Hquote).
      rewrite Hp, cptr_eqb_refl. cbn [negb]. unfold on_heap. cbn [m_heap m_errno m_out].
      rewrite (sstrndup_run p core rest' hc Hvp Hnzc). reflexivity.
    + unfold sql_identifier. fold core. destruct core as [|c0 core0]; [congruence|].
      cbn [hd] in Ekeep. rewrite Ekeep.
      apply (cstring_fresh hc (c0 :: core0) []). exact Hnzc.
  - exists (buffer_block (length hc) (Z.of_nat (length core) * 2 + 2 + 1)
              (wrapped 34 core ++ [0])).
    split.
    + apply (Hrun (fresh_ptr hc) (Z.of_nat (length core) + 2)
               (hc ++ [Some (buffer_block (length hc)
                               (Z.of_nat (length core) * 2 + 2 + 1)
                               (wrapped 34 core ++ [0]))])
               (fresh_ptr hc)
               (hc ++ [Some (buffer_block (length hc)
                               (Z.of_nat (length core) * 2 + 2 + 1)
                               (wrapped 34 core ++ [0]))])).
      * rewrite Hquote. apply (quote_wrap_8bit 34 p core rest' hc Hvp).
      * change (is_null (fresh_ptr hc)) with false. cbv iota.
        destruct (cptr_eqb (fresh_ptr hc) p) eqn:Eq.
        -- apply cptr_eqb_eq in Eq. exfalso.
           exact (fresh_ptr_not_valid _ _ _ Hvp Eq).
        -- reflexivity.
    + unfold sql_identifier. fold core. destruct core as [|c0 core0]; [congruence|].
      cbn [hd] in Ekeep. rewrite Ekeep.
      apply cstring_wrapped; [lia|exact Hnzc].
Qed.

Lemma process_item_header_other st typ field size xpos h e out :
  INSERT_FORMAT_TYPE (format st) = true -> typ <> 100 ->
  process_item st typ field size xpos true (mkMachine h e (mkFILE out None))
  = Ok ((true, st), mkMachine h 0 (mkFILE out None)).
Proof.
  intros Hi H100. unfold process_item, process_item_insert. rewrite Hi.
  rewrite andb_false_r.
  replace (typ =? 100) with false by (symmetry; apply Z.eqb_neq; exact H100).
  reflexivity.
Qed.

Lemma same_settings_captured st names n :
  same_settings st (set_colno (set_colnames (ensure_colnames st) names) n).
Proof. unfold same_settings, ensure_colnames. destruct (colnames st); repeat split. Qed.

Lemma captured_as_none namef h st done todo dnames :
  colnames (ensure_colnames st) = Some (done ++ todo) ->
  Forall2 (fun p s => cstring p h = Ok (s, h)) done dnames ->
  captured_as namef h st done todo dnames [] st h.
Proof.
  intros Harr Hdone. exists [], [].
  rewrite !app_nil_r. cbn [length map drop app]. rewrite Z.add_0_r.
  split; [reflexivity|]. split; [reflexivity|]. split; [constructor|].
  split; [reflexivity|]. split; [apply same_settings_refl|].
  split; [reflexivity|]. split; [exact Harr|].
  split; [|split; [constructor|exact Hdone]].
  intros [Hsome|Hne]; [|congruence].
  unfold ensure_colnames in Harr.
  destruct (colnames st) as [names|] eqn:En; [|congruence].
  rewrite En in Harr. exact Harr.
Qed.

(** One more name in front of what the rest of the row captures. *)
Lemma captured_as_cons namef h st done q todo dnames cell cells blk st' h' :
  cstring (fresh_ptr h) (h ++ [Some blk])
  = Ok (namef (trimmed cell), h ++ [Some blk]) ->
  captured_as namef (h ++ [Some blk])
    (set_colno (set_colnames (ensure_colnames st) (Some (done ++ fresh_ptr h :: todo)))
               (colno st + 1))
    (done ++ [fresh_ptr h]) todo (dnames ++ [namef (trimmed cell)]) cells st' h' ->
  captured_as namef h st done (q :: todo) dnames (cell :: cells) st' h'.
Proof.
  intros Hname (t & ptrs & -> & Hlen & Hlive & Hptrs & Hset & Hno & Harr & Harr' & Hnn
                & Hread).
  exists ([Some blk] ++ t), (fresh_ptr h :: ptrs).
  cbn [length drop map]. rewrite <- !app_assoc in *. cbn [app] in *.
  split; [reflexivity|].
  split; [simpl; rewrite Hlen; reflexivity|].
  split; [constructor; [discriminate|exact Hlive]|].
  split; [rewrite Hptrs, length_app; unfold fresh_run, fresh_ptr; cbn [length seq map];
          rewrite Nat.add_1_r; reflexivity|].
  split; [exact (same_settings_trans _ _ _ (same_settings_captured st _ _) Hset)|].
  split; [rewrite Hno; cbn [colno set_colno]; lia|].
  split; [exact Harr|].
  split; [intros _; apply Harr'; left; discriminate|].
  split; [constructor; [reflexivity|exact Hnn]|exact Hread].
Qed.

Lemma same_settings_format_insert st st' :
  same_settings st st' ->
  (INSERT_FORMAT_TYPE (format st) = true -> INSERT_FORMAT_TYPE (format st') = true)
  /\ True.
Proof. intros (Ef & _). rewrite Ef. auto. Qed.

(** The state after a captured cell, ready for the next one. *)
Lemma header_cell_next h st done todo dnames blk name :
  colno st = Z.of_nat (length done) ->
  Forall2 (fun p s => cstring p h = Ok (s, h)) done dnames ->
  cstring (fresh_ptr h) (h ++ [Some blk]) = Ok (name, h ++ [Some blk]) ->
  let st1 := set_colno (set_colnames (ensure_colnames st)
                          (Some (done ++ fresh_ptr h :: todo))) (colno st + 1) in
  colnames (ensure_colnames st1) = Some ((done ++ [fresh_ptr h]) ++ todo)
  /\ colno st1 = Z.of_nat (length (done ++ [fresh_ptr h]))
  /\ Forall2 (fun p s => cstring p (h ++ [Some blk]) = Ok (s, h ++ [Some blk]))
             (done ++ [fresh_ptr h]) (dnames ++ [name]).
Proof.
  intros Hcol Hdone Hname st1. split; [|split].
  - rewrite <- app_assoc. reflexivity.
  - subst st1. cbn [colno set_colno]. rewrite Hcol, length_app. simpl. lia.
  - apply Forall2_app.
    + eapply Forall2_impl; [exact Hdone|]. intros p s Hs. apply cstring_app_old. exact Hs.
    + constructor; [exact Hname|constructor].
Qed.

(** The token loop and the end of a header row in the SQL INSERT formats,
    from any point of the row. *)
Lemma header_row_walk s : forall t fuel rp hp x field fxpos pend st hc e out
    sstop tstop done todo dnames,
  length t = length s -> (length s < fuel)%nat ->
  view rp hc = Ok (s ++ sstop) ->
  view hp hc = Ok (t ++ tstop) ->
  Forall (fun c => c <> 0) s ->
  Forall (fun c => c <> 10 /\ c <> 78) t ->
  (exists r, sstop = 0 :: r) \/ (exists c r r', sstop = c :: r /\ tstop = 10 :: r') ->
  (if is_null field then pend = []
   else pend <> [] /\ view field hc = Ok (pend ++ s ++ sstop)) ->
  Forall (fun c => c <> 0) pend ->
  INSERT_FORMAT_TYPE (format st) = true -> xmin st = -1 -> force8bit st = true ->
  colnames (ensure_colnames st) = Some (done ++ todo) ->
  colno st = Z.of_nat (length done) ->
  (length (row_cells t s pend) <= length todo)%nat ->
  Forall (fun cell => trimmed cell <> []) (row_cells t s pend) ->
  Forall2 (fun p s => cstring p hc = Ok (s, hc)) done dnames ->
  exists st' h',
    (do r <- row_tokens fuel (mkFmtLineIter rp hp true x) field
               (Z.of_nat (length pend)) fxpos true st;
     finish_row true r) (mkMachine hc e (mkFILE out None))
    = Ok ((true, st'), mkMachine h' 0 (mkFILE out None))
    /\ header_captured hc st done todo dnames (row_cells t s pend) st' h'.
Proof.
  induction s as [|c s IH];
    intros t fuel rp hp x field fxpos pend st hc e out sstop tstop done todo dnames
           Hlen Hfuel Hr Ht Hnz Hty Hend Hpend Hpnz Hi Hx H8 Harr Hcol Hroom Hcells Hdone.
  - destruct t; [|discriminate]. destruct fuel as [|fuel]; [simpl in Hfuel; lia|].
    cbn [row_tokens]. rewrite bind_assoc.
    assert (Hnext : on_heap (next_char (mkFmtLineIter rp hp true x))
                      (mkMachine hc e (mkFILE out None))
                    = Ok ((None, mkFmtLineIter rp hp true x),
                          mkMachine hc e (mkFILE out None))).
    { unfold on_heap. cbn [m_heap m_errno m_out].
      rewrite (next_char_end rp hp true x hc _ _ Hr Ht Hend). reflexivity. }
    rewrite (bind_ok _ _ _ _ _ Hnext). cbv beta iota.
    unfold bind at 1. unfold ret at 1. cbv beta iota.
    unfold finish_row. cbn [negb row_cells]. cbn [row_cells app] in Hcells, Hroom.
    destruct field as [|fb fo]; cbn [is_null negb] in *.
    + subst pend. exists st, hc. unfold bind at 1. unfold ret at 1. cbv beta iota.
      cbn [negb].
      split; [apply (process_item_header_other st 78 _ _ _ _ _ _ Hi); discriminate|].
      cbn [flush_cell].
      exact (captured_as_none sql_identifier hc st done todo dnames Harr Hdone).
    + destruct Hpend as [Hne Hvf].
      assert (Hflush : flush_cell pend = [pend]) by (destruct pend; [congruence|reflexivity]).
      rewrite Hflush in *. pose proof (List.Forall_inv Hcells) as Hq. cbv beta in Hq.
      destruct todo as [|q todo]; [simpl in Hroom; lia|].
      destruct (process_item_header_cell st (Ptr fb fo) pend sstop fxpos hc e out
                  done q todo Hi Hx H8 Hvf) as (blk & Hcell & Hname);
        [|exact Hpnz|exact Hq|exact Harr|exact Hcol|].
      { destruct Hend as [[r ->]|(c0 & r & r' & -> & _)]; discriminate. }
      eexists _, _. rewrite (bind_ok _ _ _ _ _ Hcell). cbv beta iota. cbn [negb].
      split; [apply process_item_header_other;
              [exact (proj1 (same_settings_format_insert _ _ (same_settings_captured st _ _)) Hi)
              |discriminate]|].
      destruct (header_cell_next hc st done todo dnames blk _ Hcol Hdone Hname)
        as (Harr1 & Hcol1 & Hdone1).
      apply (captured_as_cons sql_identifier hc st done q todo dnames pend [] blk _ _ Hname).
      apply captured_as_none; assumption.
  - destruct t as [|ty t]; [discriminate|]. destruct fuel as [|fuel]; [simpl in Hfuel; lia|].
    inversion Hnz as [|? ? Hc Hnz']; subst.
    inversion Hty as [|? ? [Hty10 Hty78] Hty']; subst.
    cbn [row_tokens]. rewrite bind_assoc.
    assert (Hnext : on_heap (next_char (mkFmtLineIter rp hp true x))
                      (mkMachine hc e (mkFILE out None))
                    = Ok ((Some (rp, ty, 1, 1, x),
                           mkFmtLineIter (ptr_add rp 1) (ptr_add hp 1) true (x + 1)),
                          mkMachine hc e (mkFILE out None))).
    { unfold on_heap. cbn [m_heap m_errno m_out].
      rewrite (next_char_step_8bit rp hp x hc c (s ++ sstop) ty (t ++ tstop)
                 Hr Ht Hc Hty10).
      reflexivity. }
    rewrite (bind_ok _ _ _ _ _ Hnext). cbv beta iota.
    assert (Hrp : is_null rp = false) by (destruct rp; [discriminate|reflexivity]).
    cbn [row_cells] in *.
    destruct (Z.eqb_spec ty 100) as [->|Hdt].
    + replace (Z.of_nat (length pend) + 1) with (Z.of_nat (length (pend ++ [c])))
        by (rewrite length_app; simpl; lia).
      apply (IH t fuel (ptr_add rp 1) (ptr_add hp 1) (x + 1)
               (if is_null field then rp else field) x (pend ++ [c]) st hc e out
               sstop tstop done todo dnames);
        try assumption.
      * simpl in Hlen. lia.
      * simpl in Hfuel. lia.
      * exact (view_next _ _ _ _ Hr).
      * exact (view_next _ _ _ _ Ht).
      * destruct (is_null field) eqn:En.
        -- rewrite Hrp. subst pend. split; [discriminate|exact Hr].
        -- rewrite En. destruct Hpend as [_ Hvf].
           split; [destruct pend; discriminate|].
           rewrite <- app_assoc. exact Hvf.
      * apply Forall_app. split; [exact Hpnz|]. constructor; [exact Hc|constructor].
    + destruct (is_null field) eqn:En; cbn [negb].
      * subst pend. cbn [flush_cell app] in *.
        unfold bind at 2. unfold ret at 1. cbv beta iota. cbn [negb].
        rewrite bind_assoc.
        rewrite (bind_ok _ _ _ _ _
                   (process_item_header_other st ty rp 1 x hc e out Hi Hdt)).
        cbv beta iota. cbn [negb].
        apply (IH t fuel (ptr_add rp 1) (ptr_add hp 1) (x + 1) field fxpos [] st hc 0 out
                 sstop tstop done todo dnames);
          try assumption.
        -- simpl in Hlen. lia.
        -- simpl in Hfuel. lia.
        -- exact (view_next _ _ _ _ Hr).
        -- exact (view_next _ _ _ _ Ht).
        -- rewrite En. reflexivity.
      * destruct Hpend as [Hne Hvf].
        assert (Hflush : flush_cell pend = [pend])
          by (destruct pend; [congruence|reflexivity]).
        rewrite Hflush in *. cbn [app length] in *.
        pose proof (List.Forall_inv Hcells) as Hq. cbv beta in Hq.
        pose proof (List.Forall_inv_tail Hcells) as Hcells'.
        destruct todo as [|q todo]; [simpl in Hroom; lia|].
        destruct (process_item_header_cell st field pend (c :: s ++ sstop) fxpos hc e out
                    done q todo Hi Hx H8 Hvf ltac:(discriminate) Hpnz Hq Harr Hcol)
          as (blk & Hcell & Hname).
        rewrite bind_assoc. rewrite (bind_ok _ _ _ _ _ Hcell). cbv beta iota. cbn [negb].
        rewrite bind_assoc.
        assert (Hi1 : INSERT_FORMAT_TYPE
                        (format (set_colno (set_colnames (ensure_colnames st)
                                              (Some (done ++ fresh_ptr hc :: todo)))
                                           (colno st + 1))) = true)
          by exact (proj1 (same_settings_format_insert _ _
                             (same_settings_captured st _ _)) Hi).
        rewrite (bind_ok _ _ _ _ _
                   (process_item_header_other _ ty rp 1 x _ _ _ Hi1 Hdt)).
        cbv beta iota. cbn [negb].
        destruct (header_cell_next hc st done todo dnames blk _ Hcol Hdone Hname)
          as (Harr1 & Hcol1 & Hdone1).
        destruct (IH t fuel (ptr_add rp 1) (ptr_add hp 1) (x + 1) NULL (-1) []
                    (set_colno (set_colnames (ensure_colnames st)
                                  (Some (done ++ fresh_ptr hc :: todo))) (colno st + 1))
                    (hc ++ [Some blk]) 0 out sstop tstop
                    (done ++ [fresh_ptr hc]) todo
                    (dnames ++ [sql_identifier (trimmed pend)]))
          as (st' & h' & Hrest & Hcap);
          try assumption;
          try (simpl in Hlen, Hfuel, Hroom; lia);
          try (apply view_app_old;
               first [exact (view_next _ _ _ _ Hr)|exact (view_next _ _ _ _ Ht)]);
          try reflexivity;
          try (constructor; fail);
          try (destruct (same_settings_captured st
                           (Some (done ++ fresh_ptr hc :: todo)) (colno st + 1))
                 as (_ & Ex & _ & _ & _ & _ & E8 & _); congruence).
        exists st', h'. split.
        -- change (Z.of_nat (length (@nil Z))) with 0 in Hrest. exact Hrest.
        -- exact (captured_as_cons sql_identifier hc st done q todo dnames pend _ blk _ _
                   Hname Hcap).
Qed.

(** The row loop body on a header row in the SQL INSERT formats. *)
Lemma export_row_header_layout opts desc l st h e out t s todo :
  opt_force8bit opts = true -> force8bit st = true ->
  INSERT_FORMAT_TYPE (format st) = true -> xmin st = -1 ->
  colnames (ensure_colnames st) = Some todo ->
  row_layout h (rowstr l) (headline_transl desc) t s ->
  Forall (fun cell => trimmed cell <> []) (row_cells t s []) ->
  (length (row_cells t s []) <= length todo)%nat ->
  exists st' h',
    export_row opts desc l true st (mkMachine h e (mkFILE out None))
    = Ok ((true, st'), mkMachine h' 0 (mkFILE out None))
    /\ header_captured h (set_colno st 0) [] todo [] (row_cells t s []) st' h'.
Proof.
  intros Ho8 H8 Hi Hx Harr (sstop & tstop & Hr & Ht & Hlen & Hnz & Hty & Hend)
         Hcells Hroom.
  rewrite export_row_finish_row, Ho8.
  assert (Hfuel : on_heap (row_fuel (rowstr l)) (mkMachine h e (mkFILE out None))
                  = Ok (S (length (s ++ sstop)), mkMachine h e (mkFILE out None))).
  { unfold on_heap, row_fuel. cbn [m_heap m_errno m_out]. rewrite Hr. reflexivity. }
  rewrite (bind_ok _ _ _ _ _ Hfuel).
  destruct (header_row_walk s t (S (length (s ++ sstop))) (rowstr l)
              (headline_transl desc) 0 NULL (-1) [] (set_colno st 0) h e out sstop tstop
              [] todo [])
    as (st' & h' & Hrun & Hcap); try assumption; try reflexivity;
    try (constructor; fail).
  - rewrite length_app. lia.
  - unfold ensure_colnames in *. cbn [colnames set_colno].
    destruct (colnames st); exact Harr.
  - exists st', h'. split; [|exact Hcap].
    change (Z.of_nat (length (@nil Z))) with 0 in Hrun. exact Hrun.
Qed.

Lemma leading_names_filled ptrs k :
  Forall (fun p => is_null p = false) ptrs ->
  leading_names (ptrs ++ replicate k NULL) = ptrs.
Proof.
  induction 1 as [|p ptrs Hp _ IH]; cbn [app leading_names].
  - destruct k; reflexivity.
  - rewrite Hp, IH. reflexivity.
Qed.

(** X20.  A header row in the SQL INSERT formats supplies the column names
    and writes nothing.  In force-8-bit mode, without a column range, with
    no names captured before and a name array of [columns] entries that has
    room for the cells of the row, [export_row] on a header row whose cells
    are not blank succeeds, leaves the stream as it was, sets errno to 0,
    keeps every block of the heap and appends its own, changes no setting
    of the export state, and leaves as captured names, in order, the cells
    without the blanks around them, each as an SQL identifier: as it is
    when it is a plain lower-case identifier or starts with a double quote,
    and between double quotes otherwise. *)
Theorem export_row_header_names opts desc l st h e out t s :
  opt_force8bit opts = true -> force8bit st = true ->
  INSERT_FORMAT_TYPE (format st) = true -> xmin st = -1 ->
  colnames st = None ->
  row_layout h (rowstr l) (headline_transl desc) t s ->
  row_cells t s [] <> [] ->
  Forall (fun cell => trimmed cell <> []) (row_cells t s []) ->
  (length (row_cells t s []) <= Z.to_nat (columns st))%nat ->
  exists st' blocks,
    export_row opts desc l true st (mkMachine h e (mkFILE out None))
    = Ok ((true, st'), mkMachine (h ++ blocks) 0 (mkFILE out None))
    /\ same_settings st st'
    /\ colno st' = Z.of_nat (length (row_cells t s []))
    /\ names_read (h ++ blocks) st'
         (Some (map (fun cell => sql_identifier (trimmed cell)) (row_cells t s []))).
Proof.
  intros Ho8 H8 Hi Hx Hnone Hrow Hne Hcells Hroom.
  destruct (export_row_header_layout opts desc l st h e out t s
              (replicate (Z.to_nat (columns st)) NULL) Ho8 H8 Hi Hx)
    as (st' & h' & Hrun & (blocks & ptrs & -> & _ & _ & _ & Hset & Hno & _ & Harr & Hnn
                            & Hread));
    try assumption.
  - unfold ensure_colnames. rewrite Hnone. reflexivity.
  - rewrite length_replicate. exact Hroom.
  - exists st', blocks. split; [exact Hrun|].
    assert (Hset' : same_settings st st').
    { destruct Hset as (E1 & E2 & E3 & E4 & E5 & E6 & E7 & E8).
      repeat split; assumption. }
    split; [exact Hset'|]. split; [exact Hno|].
    unfold names_read. rewrite (Harr (or_intror Hne)).
    cbn [app] in *.
    destruct Hset' as (_ & _ & _ & _ & _ & Ecols & _).
    rewrite Ecols, drop_replicate.
    pose proof (Forall2_length _ _ _ Hread) as Hl. rewrite length_map in Hl.
    rewrite take_ge by (rewrite length_app, length_replicate; lia).
    rewrite (leading_names_filled _ _ Hnn). exact Hread.
Qed.

End HeaderRows.

Lemma export_row_header_names_witness :
  let h := [cstr "LdddIdddddddIddR"; cstr "| id| my col| x|"; cstr "t"] in
  let desc := mkDataDesc 0 0 0 3 [(0, 4); (4, 12); (12, 15)] (Ptr 0 0)
                (-1) (-1) (-1) (-1) (-1) [mkLine (Ptr 1 0) None 0] in
  let st := mkExportState CLIPBOARD_FORMAT_INSERT (-1) (-1) false (Ptr 2 0) 3 true true 0
              None in
  exists st' blocks,
    export_row (H := example_collaborators) (mkOptions true true false false) desc
      (mkLine (Ptr 1 0) None 0) true st (mkMachine h 0 (mkFILE [] None))
    = Ok ((true, st'), mkMachine (h ++ blocks) 0 (mkFILE [] None))
    /\ same_settings st st'
    /\ colno st' = 3
    /\ names_read (h ++ blocks) st'
         (Some [bytes_of_string "id"; [34] ++ bytes_of_string "my col" ++ [34];
                bytes_of_string "x"]).
Proof.
  intros h desc st.
  apply (export_row_header_names (H := example_collaborators)
           (mkOptions true true false false) desc (mkLine (Ptr 1 0) None 0) st
           h 0 [] (bytes_of_string "LdddIdddddddIddR") (bytes_of_string "| id| my col| x|"));
    try reflexivity.
  - exists [0], [0].
    split; [reflexivity|]. split; [reflexivity|]. split; [reflexivity|].
    split; [repeat constructor; discriminate|].
    split; [repeat constructor; discriminate|].
    left. exists []. reflexivity.
  - discriminate.
  - repeat constructor; discriminate.
Defined.

(** ** The extended line copy in the SQL INSERT formats *)

Section NullTableName.
Context `{Collaborators}.

(** What [export_data] sets up for [cmd_CopyLineExtended]: the export state
    keeps the requested format, the table name is never quoted. *)
Lemma export_setup_line_extended opts scrdesc desc cursor_row cursor_column rows
    percent tbl fmt m :
  export_setup opts scrdesc desc cursor_row cursor_column rows percent tbl
    cmd_CopyLineExtended fmt m
  = Ok (Some (mkExportPlan (int32 (cursor_row + first_data_row desc))
                (int32 (cursor_row + first_data_row desc))
                true false false false,
              mkExportState fmt (-1) (-1) true NULL (desc_columns desc)
                (opt_force8bit opts) (opt_empty_string_is_null opts) 0 None), m).
Proof.
  unfold export_setup.
  cbn [cmd_eqb andb orb negb].
  assert (Hq : INSERT_FORMAT_TYPE
                 (if negb (DSV_FORMAT_TYPE fmt) then CLIPBOARD_FORMAT_CSV else fmt)
               = false) by (destruct fmt; reflexivity).
  rewrite Hq. cbn [andb orb negb bind ret].
  destruct fmt; reflexivity.
Qed.

(** A token that is neither a data token nor the end of the row, SQL INSERT
    formats, any stream. *)
Lemma process_item_insert_skip st typ field size xpos m :
  INSERT_FORMAT_TYPE (format st) = true -> typ <> 78 -> typ <> 100 ->
  process_item st typ field size xpos false m
  = Ok ((true, st), mkMachine (m_heap m) 0 (m_out m)).
Proof.
  intros Hi H78 H100. unfold process_item, process_item_insert. rewrite Hi.
  replace (typ =? 78) with false by (symmetry; apply Z.eqb_neq; exact H78).
  replace (typ =? 100) with false by (symmetry; apply Z.eqb_neq; exact H100).
  reflexivity.
Qed.

Lemma bind_fault {S A B : Type} (m : ST S A) (k : A -> ST S B) s f :
  m s = Fault f -> bind m k s = Fault f.
Proof. intros Hm. unfold bind. rewrite Hm. reflexivity. Qed.

(** The head of the statement with a null table name: [fputs] reads through
    the null pointer. *)
Lemma emit_insert_head_null st m :
  table_name st = NULL -> emit_insert_head st m = Fault NullDeref.
Proof.
  intros Htn. unfold emit_insert_head. rewrite Htn.
  unfold bind, set_errno, fputs_lit, fputs, write_out, on_heap.
  cbn [m_heap m_errno m_out f_bytes f_room].
  destruct (f_room (m_out m)) as [room|]; [|reflexivity].
  destruct (Nat.leb _ room); reflexivity.
Qed.

(** The first data token of a row with a null table name. *)
Lemma process_item_null_table_name st field size xpos m :
  INSERT_FORMAT_TYPE (format st) = true -> table_name st = NULL ->
  colno st = 0 -> outside_range st xpos = false ->
  process_item st 100 field size xpos false m = Fault NullDeref.
Proof.
  intros Hi Htn Hc Hout. unfold process_item, process_item_insert.
  rewrite Hi, Hout, Hc.
  change (100 =? 78) with false. change (100 =? 100) with true.
  change (0 =? 0) with true. cbv beta iota. cbn [andb negb]. cbv beta iota.
  unfold bind at 1. unfold set_errno at 1. cbv beta iota.
  apply bind_fault. apply emit_insert_head_null. exact Htn.
Qed.

(** The token loop and the end of a data row when the table name is null,
    from any point of the row before its first cell is exported. *)
Lemma null_table_walk s : forall t fuel rp hp x field fsize fxpos pend st h e fp
    sstop tstop,
  length t = length s -> (length s < fuel)%nat ->
  view rp h = Ok (s ++ sstop) ->
  view hp h = Ok (t ++ tstop) ->
  Forall (fun c => c <> 0) s ->
  Forall (fun c => c <> 10 /\ c <> 78) t ->
  (exists r, sstop = 0 :: r) \/ (exists c r r', sstop = c :: r /\ tstop = 10 :: r') ->
  (if is_null field then pend = [] else pend <> []) ->
  INSERT_FORMAT_TYPE (format st) = true -> table_name st = NULL ->
  xmin st = -1 -> colno st = 0 ->
  row_cells t s pend <> [] ->
  (do r <- row_tokens fuel (mkFmtLineIter rp hp true x) field fsize fxpos false st;
   finish_row false r) (mkMachine h e fp)
  = Fault NullDeref.
Proof.
  assert (Hrange : forall st xpos, xmin st = -1 -> outside_range st xpos = false).
  { intros st0 xpos Hx. unfold outside_range. rewrite Hx. reflexivity. }
  induction s as [|c s IH];
    intros t fuel rp hp x field fsize fxpos pend st h e fp sstop tstop
           Hlen Hfuel Hr Ht Hnz Hty Hend Hfield Hi Htn Hx Hc Hcells.
  - destruct t as [|ty t]; [|discriminate].
    destruct fuel as [|fuel]; [simpl in Hfuel; lia|].
    cbn [app] in Hr, Ht. cbn [row_tokens].
    assert (Hnext : on_heap (next_char (mkFmtLineIter rp hp true x)) (mkMachine h e fp)
                    = Ok ((None, mkFmtLineIter rp hp true x), mkMachine h e fp)).
    { unfold on_heap. cbn [m_heap m_errno m_out].
      rewrite (next_char_end rp hp true x h sstop tstop Hr Ht Hend). reflexivity. }
    rewrite bind_assoc, (bind_ok _ _ _ _ _ Hnext). cbv beta iota.
    unfold ret at 1. unfold bind at 1. unfold finish_row. cbn [negb].
    cbn [row_cells] in Hcells.
    destruct (is_null field) eqn:En.
    + subst pend. exfalso. apply Hcells. reflexivity.
    + cbn [negb]. unfold bind at 1.
      rewrite (process_item_null_table_name st field fsize fxpos _ Hi Htn Hc
                 (Hrange st fxpos Hx)).
      reflexivity.
  - destruct t as [|ty t]; [discriminate|].
    destruct fuel as [|fuel]; [simpl in Hfuel; lia|].
    cbn [app] in Hr, Ht. cbn [row_tokens].
    pose proof (List.Forall_inv Hnz) as Hc0.
    pose proof (List.Forall_inv_tail Hnz) as Hnz'.
    destruct (List.Forall_inv Hty) as [Hty10 Hty78].
    pose proof (List.Forall_inv_tail Hty) as Hty'.
    assert (Hnext : on_heap (next_char (mkFmtLineIter rp hp true x)) (mkMachine h e fp)
                    = Ok ((Some (rp, ty, 1, 1, x),
                           mkFmtLineIter (ptr_add rp 1) (ptr_add hp 1) true (x + 1)),
                          mkMachine h e fp)).
    { unfold on_heap. cbn [m_heap m_errno m_out].
      rewrite (next_char_step_8bit rp hp x h c _ ty _ Hr Ht Hc0 Hty10). reflexivity. }
    rewrite bind_assoc, (bind_ok _ _ _ _ _ Hnext). cbv beta iota.
    assert (Hrp : is_null rp = false) by (destruct rp; [discriminate|reflexivity]).
    cbn [row_cells] in Hcells.
    destruct (ty =? 100) eqn:Ed.
    + apply (IH t fuel (ptr_add rp 1) (ptr_add hp 1) (x + 1)
                (if is_null field then rp else field) (fsize + 1) x (pend ++ [c])
                st h e fp sstop tstop); try assumption.
      * simpl in Hlen. lia.
      * simpl in Hfuel. lia.
      * exact (view_next _ _ _ _ Hr).
      * exact (view_next _ _ _ _ Ht).
      * destruct (is_null field) eqn:En; rewrite ?Hrp, ?En;
          destruct pend; discriminate.
    + apply Z.eqb_neq in Ed.
      destruct (is_null field) eqn:En.
      * subst pend. cbn [negb]. rewrite !bind_assoc. unfold ret at 1.
        unfold bind at 1. cbv beta iota. cbn [negb].
        rewrite !bind_assoc.
        rewrite (bind_ok _ _ _ _ _
                   (process_item_insert_skip st ty rp 1 x (mkMachine h e fp) Hi Hty78 Ed)).
        cbv beta iota. cbn [negb m_heap m_out].
        apply (IH t fuel (ptr_add rp 1) (ptr_add hp 1) (x + 1) field fsize fxpos []
                  st h 0 fp sstop tstop); try assumption.
        -- simpl in Hlen. lia.
        -- simpl in Hfuel. lia.
        -- exact (view_next _ _ _ _ Hr).
        -- exact (view_next _ _ _ _ Ht).
        -- rewrite En. reflexivity.
      * cbn [negb]. rewrite !bind_assoc. unfold bind at 1.
        rewrite (process_item_null_table_name st field fsize fxpos _ Hi Htn Hc
                   (Hrange st fxpos Hx)).
        reflexivity.
Qed.

(** A data row with at least one cell, SQL INSERT formats, null table
    name. *)
Lemma export_row_null_table_name opts desc l st h e fp t s :
  opt_force8bit opts = true ->
  INSERT_FORMAT_TYPE (format st) = true -> table_name st = NULL -> xmin st = -1 ->
  row_layout h (rowstr l) (headline_transl desc) t s ->
  row_cells t s [] <> [] ->
  export_row opts desc l false st (mkMachine h e fp) = Fault NullDeref.
Proof.
  intros Ho8 Hi Htn Hx (sstop & tstop & Hr & Ht & Hlen & Hnz & Hty & Hend) Hcells.
  rewrite export_row_finish_row, Ho8.
  assert (Hfuel : on_heap (row_fuel (rowstr l)) (mkMachine h e fp)
                  = Ok (S (length (s ++ sstop)), mkMachine h e fp)).
  { unfold on_heap, row_fuel. cbn [m_heap m_errno m_out]. rewrite Hr. reflexivity. }
  rewrite (bind_ok _ _ _ _ _ Hfuel).
  apply (null_table_walk s t (S (length (s ++ sstop))) (rowstr l)
           (headline_transl desc) 0 NULL 0 (-1) [] (set_colno st 0) h e fp sstop tstop);
    try assumption; try reflexivity.
  rewrite length_app. lia.
Qed.

(** X21.  The extended line copy in an SQL INSERT format writes through a
    null table name.  For [cmd_CopyLineExtended] [export_data] replaces a
    format that is neither CSV nor TSV by CSV in its local variable only:
    the export state keeps the requested format, and because the local is
    no INSERT format the table name is not quoted and stays null.  With an
    SQL INSERT format requested, the row loop body then fails on every data
    row that has a cell: the head of the statement passes the null table
    name to [fputs].  This holds for every state with the settings of the
    set-up state, so also after header rows have supplied column names. *)
Theorem copy_line_extended_insert_null_table_name opts scrdesc desc cursor_row
    cursor_column rows percent tbl fmt m :
  INSERT_FORMAT_TYPE fmt = true ->
  exists plan st,
    export_setup opts scrdesc desc cursor_row cursor_column rows percent tbl
      cmd_CopyLineExtended fmt m = Ok (Some (plan, st), m)
    /\ format st = fmt /\ table_name st = NULL /\ copy_line_extended st = true
    /\ forall st' l h e fp t s,
         opt_force8bit opts = true -> same_settings st st' ->
         row_layout h (rowstr l) (headline_transl desc) t s ->
         row_cells t s [] <> [] ->
         export_row opts desc l false st' (mkMachine h e fp) = Fault NullDeref.
Proof.
  intros Hi. eexists _, _. split; [apply export_setup_line_extended|].
  cbn [format table_name copy_line_extended].
  split; [reflexivity|]. split; [reflexivity|]. split; [reflexivity|].
  intros st' l h e fp t s Ho8 (Ef & Ex & _ & _ & Et & _) Hrow Hcells.
  cbn [format xmin table_name] in Ef, Ex, Et.
  apply (export_row_null_table_name opts desc l st' h e fp t s); try assumption.
  rewrite Ef. exact Hi.
Qed.

End NullTableName.

Lemma copy_line_extended_insert_null_table_name_witness :
  let h := [cstr "LdddIddddddIddR"; cstr "| 42| it is|  |"; cstr "t"] in
  let l := mkLine (Ptr 1 0) None 0 in
  let desc := mkDataDesc 0 0 0 3 [(0, 4); (4, 11); (11, 14)] (Ptr 0 0)
                (-1) (-1) (-1) (-1) (-1) [l] in
  let opts := mkOptions true true false false in
  let m := mkMachine h 0 (mkFILE [] None) in
  (exists plan st,
     export_setup (H := example_collaborators) opts (mkScrDesc (-1) 0 (-1) 0) desc 0 0 0
       (S754_zero false) (Ptr 2 0) cmd_CopyLineExtended CLIPBOARD_FORMAT_INSERT m
     = Ok (Some (plan, st), m)
     /\ format st = CLIPBOARD_FORMAT_INSERT /\ table_name st = NULL
     /\ copy_line_extended st = true
     /\ export_row (H := example_collaborators) opts desc l false st m = Fault NullDeref)
  /\ export_data (H := example_collaborators) opts (mkScrDesc (-1) 0 (-1) 0) desc 0 0 0
       (S754_zero false) (Ptr 2 0) cmd_CopyLineExtended CLIPBOARD_FORMAT_INSERT m
     = Fault NullDeref.
Proof.
  intros h l desc opts m. split; [|reflexivity].
  destruct (copy_line_extended_insert_null_table_name (H := example_collaborators)
              opts (mkScrDesc (-1) 0 (-1) 0) desc 0 0 0 (S754_zero false) (Ptr 2 0)
              CLIPBOARD_FORMAT_INSERT m eq_refl)
    as (plan & st & Hsetup & Hf & Htn & Hcle & Hrow).
  exists plan, st. split; [exact Hsetup|].
  split; [exact Hf|]. split; [exact Htn|]. split; [exact Hcle|].
  apply (Hrow st l h 0 (mkFILE [] None) (bytes_of_string "LdddIddddddIddR")
           (bytes_of_string "| 42| it is|  |")).
  - reflexivity.
  - repeat split.
  - exists [0], [0].
    split; [reflexivity|]. split; [reflexivity|]. split; [reflexivity|].
    split; [repeat constructor; discriminate|].
    split; [repeat constructor; discriminate|].
    left. exists []. reflexivity.
  - discriminate.
Defined.

(** ** Marked lines, searched lines, columns and selections *)

Section MoreSelection.
Context `{Collaborators}.

(** The table name of the export state, whatever the format. *)
Lemma quoted_name_result opts tbl fmt m :
  (INSERT_FORMAT_TYPE fmt = true -> exists r, quote_table_name opts tbl m = Ok r) ->
  exists quoted m',
    (if INSERT_FORMAT_TYPE fmt then quote_table_name opts tbl else ret NULL) m
    = Ok (quoted, m').
Proof.
  intros Hq. destruct (INSERT_FORMAT_TYPE fmt).
  - destruct (Hq eq_refl) as [[p m'] Hr]. exists p, m'. exact Hr.
  - exists NULL, m. reflexivity.
Qed.

(** The setup of the marked-lines and of the searched-lines copy. *)
Lemma export_setup_flagged opts scrdesc desc cursor_row cursor_column rows
    percent tbl cmd fmt m :
  cmd = cmd_CopyMarkedLines \/ cmd = cmd_CopySearchedLines ->
  (INSERT_FORMAT_TYPE fmt = true -> exists r, quote_table_name opts tbl m = Ok r) ->
  exists quoted m',
    export_setup opts scrdesc desc cursor_row cursor_column rows percent tbl cmd fmt m
    = Ok (Some (mkExportPlan (first_data_row desc) (last_row desc)
                  true false
                  (negb (negb (format_eqb fmt CLIPBOARD_FORMAT_TEXT)))
                  (negb (negb (format_eqb fmt CLIPBOARD_FORMAT_TEXT))),
                mkExportState fmt (-1) (-1) false quoted (desc_columns desc)
                  (opt_force8bit opts) (opt_empty_string_is_null opts) 0 None),
          m').
Proof.
  intros Hcmd Hq. unfold export_setup.
  destruct (quoted_name_result opts tbl fmt m Hq) as (quoted & m' & Hname).
  exists quoted, m'.
  destruct Hcmd as [-> | ->]; cbn [cmd_eqb andb orb negb];
    rewrite andb_diag, (bind_ok _ _ _ _ _ Hname); reflexivity.
Qed.

(** X22.  The marked-lines and the searched-lines copy keep the flagged
    data rows.  For [cmd_CopyMarkedLines] and [cmd_CopySearchedLines]
    [export_data] sets up no column range, no footer and the row range from
    the first data row to the last row; the row loop then keeps a data row
    (up to the last row) exactly when, for the marked lines, the line has a
    line-info record with the bookmark bit and, for the searched lines,
    [set_line_info] returns a record with the found-string bit: the record
    the line already has is not consulted there.  A line without a record
    is skipped. *)
Theorem flagged_lines_keep_flagged_rows opts scrdesc desc cursor_row cursor_column
    rows percent tbl cmd fmt m :
  cmd = cmd_CopyMarkedLines \/ cmd = cmd_CopySearchedLines ->
  (INSERT_FORMAT_TYPE fmt = true -> exists r, quote_table_name opts tbl m = Ok r) ->
  exists plan st m',
    export_setup opts scrdesc desc cursor_row cursor_column rows percent tbl cmd fmt m
    = Ok (Some (plan, st), m')
    /\ xmin st = -1 /\ print_footer plan = false
    /\ forall l m0,
         is_data_row desc l = true -> rn l <= last_row desc ->
         select_row opts desc plan cmd cursor_row l m0
         = Ok ((if (if cmd_eqb cmd cmd_CopyMarkedLines
                    then has_flag LINEINFO_BOOKMARK (linfo l)
                    else has_flag LINEINFO_FOUNDSTR
                           (set_line_info (m_heap m0) (rowstr l)))
                then Some false else None), m0).
Proof.
  intros Hcmd Hq.
  destruct (export_setup_flagged opts scrdesc desc cursor_row cursor_column rows
              percent tbl cmd fmt m Hcmd Hq) as (quoted & m' & Hs).
  eexists _, _, m'. split; [exact Hs|]. split; [reflexivity|]. split; [reflexivity|].
  intros l m0 Hdata Hlast. unfold select_row.
  pose proof Hdata as Hd. unfold is_data_row in Hd. rewrite Hd.
  apply andb_true_iff in Hd as [Hd1 Hd2]. apply Z.leb_le in Hd1.
  cbn [min_row max_row].
  replace (rn l <? first_data_row desc) with false by (symmetry; apply Z.ltb_ge; lia).
  replace (last_row desc <? rn l) with false by (symmetry; apply Z.ltb_ge; lia).
  destruct Hcmd as [-> | ->]; cbn [cmd_eqb andb orb negb]; unfold has_flag, ret.
  - destruct (linfo l) as [mask|]; [|reflexivity].
    destruct (Z.land mask LINEINFO_BOOKMARK =? 0); reflexivity.
  - destruct (set_line_info (m_heap m0) (rowstr l)) as [mask|]; [|reflexivity].
    destruct (Z.land mask LINEINFO_FOUNDSTR =? 0); reflexivity.
Qed.

(** X23.  The column copy takes its range from the column table, and reads
    outside the table for a cursor column that is not one of its columns.
    For [cmd_CopyColumn] the column range of the export state is entry
    [cursor_column - 1] of [cranges]; the rows run from the first data row
    to the last row and the footer is off.  With [cursor_column] below 1 or
    above the number of entries the read of [cranges[cursor_column - 1]] is
    out of bounds. *)
Theorem copy_column_range opts scrdesc desc cursor_row cursor_column rows percent
    tbl fmt m :
  (INSERT_FORMAT_TYPE fmt = true -> exists r, quote_table_name opts tbl m = Ok r) ->
  (forall lo hi,
     1 <= cursor_column ->
     cranges desc !! Z.to_nat (cursor_column - 1) = Some (lo, hi) ->
     exists plan st m',
       export_setup opts scrdesc desc cursor_row cursor_column rows percent tbl
         cmd_CopyColumn fmt m
       = Ok (Some (plan, st), m')
       /\ xmin st = lo /\ xmax st = hi
       /\ min_row plan = first_data_row desc /\ max_row plan = last_row desc
       /\ print_footer plan = false)
  /\ (cursor_column < 1 \/ Z.of_nat (length (cranges desc)) < cursor_column ->
      export_setup opts scrdesc desc cursor_row cursor_column rows percent tbl
        cmd_CopyColumn fmt m
      = Fault OutOfBounds).
Proof.
  intros Hq.
  destruct (quoted_name_result opts tbl fmt m Hq) as (quoted & m' & Hname).
  split.
  - intros lo hi Hc Hlook.
    exists (mkExportPlan (first_data_row desc) (last_row desc) true false
              (negb (negb (format_eqb fmt CLIPBOARD_FORMAT_TEXT)))
              (negb (negb (format_eqb fmt CLIPBOARD_FORMAT_TEXT)))),
           (mkExportState fmt lo hi false quoted (desc_columns desc)
              (opt_force8bit opts) (opt_empty_string_is_null opts) 0 None), m'.
    split; [|repeat split].
    unfold export_setup. cbn [cmd_eqb andb orb negb].
    rewrite andb_diag, (bind_ok _ _ _ _ _ Hname).
    rewrite ?orb_true_r. unfold lookupZ.
    replace (cursor_column - 1 <? 0) with false by (symmetry; apply Z.ltb_ge; lia).
    rewrite Hlook. reflexivity.
  - intros Hout.
    unfold export_setup. cbn [cmd_eqb andb orb negb].
    rewrite andb_diag, (bind_ok _ _ _ _ _ Hname).
    rewrite ?orb_true_r. unfold lookupZ.
    destruct (Z.ltb_spec (cursor_column - 1) 0) as [Hneg|Hpos]; [reflexivity|].
    rewrite (proj2 (lookup_ge_None (cranges desc) (Z.to_nat (cursor_column - 1))))
      by lia.
    reflexivity.
Qed.

(** X24.  A selection gives the row range and the column range.  For
    [cmd_CopySelected], and for [cmd_Copy] with a selection and no vertical
    cursor, and no [int] overflow in the sums: with a selected first row the
    row loop keeps exactly the data rows numbered from
    [selected_first_row + first_data_row] for [selected_rows] rows, without
    one all data rows up to the last row; with a selected first column and a
    positive number of columns the column range is
    [selected_first_column] and [selected_first_column + selected_columns - 1],
    without them there is none. *)
Theorem selection_gives_row_and_column_range opts scrdesc desc cursor_row cursor_column
    rows percent tbl cmd fmt m :
  cmd = cmd_CopySelected
  \/ (cmd = cmd_Copy /\ has_selection scrdesc = true /\ vertical_cursor opts = false) ->
  (INSERT_FORMAT_TYPE fmt = true -> exists r, quote_table_name opts tbl m = Ok r) ->
  INT_MIN <= selected_first_row scrdesc + first_data_row desc <= INT_MAX ->
  INT_MIN <= selected_first_row scrdesc + first_data_row desc
             + selected_rows scrdesc - 1 <= INT_MAX ->
  INT_MIN <= selected_first_column scrdesc + selected_columns scrdesc - 1 <= INT_MAX ->
  exists plan st m',
    export_setup opts scrdesc desc cursor_row cursor_column rows percent tbl cmd fmt m
    = Ok (Some (plan, st), m')
    /\ (xmin st, xmax st)
       = (if negb (selected_first_column scrdesc =? -1) && (0 <? selected_columns scrdesc)
          then (selected_first_column scrdesc,
                selected_first_column scrdesc + selected_columns scrdesc - 1)
          else (-1, -1))
    /\ forall l m0,
         is_data_row desc l = true ->
         select_row opts desc plan cmd cursor_row l m0
         = Ok ((if (if selected_first_row scrdesc =? -1
                    then rn l <=? last_row desc
                    else (selected_first_row scrdesc + first_data_row desc <=? rn l)
                         && (rn l <=? selected_first_row scrdesc + first_data_row desc
                                      + selected_rows scrdesc - 1))
                then Some false else None), m0).
Proof.
  intros Hcmd Hq Hr1 Hr2 Hc.
  destruct (quoted_name_result opts tbl fmt m Hq) as (quoted & m' & Hname).
  assert (Hs : exists plan st,
             export_setup opts scrdesc desc cursor_row cursor_column rows percent tbl
               cmd fmt m = Ok (Some (plan, st), m')
             /\ xmin st = (if negb (selected_first_column scrdesc =? -1)
                              && (0 <? selected_columns scrdesc)
                           then selected_first_column scrdesc else -1)
             /\ xmax st = (if negb (selected_first_column scrdesc =? -1)
                              && (0 <? selected_columns scrdesc)
                           then int32 (selected_first_column scrdesc
                                       + selected_columns scrdesc - 1) else -1)
             /\ min_row plan = (if negb (selected_first_row scrdesc =? -1)
                                then int32 (selected_first_row scrdesc + first_data_row desc)
                                else first_data_row desc)
             /\ max_row plan = (if negb (selected_first_row scrdesc =? -1)
                                then int32 (int32 (selected_first_row scrdesc
                                                   + first_data_row desc)
                                            + selected_rows scrdesc - 1)
                                else last_row desc)).
  { unfold export_setup.
    destruct Hcmd as [-> | (-> & Hsel & Hv)]; cbn [cmd_eqb andb orb negb].
    - rewrite andb_diag, (bind_ok _ _ _ _ _ Hname).
      eexists _, _. split; [reflexivity|]. cbn [xmin xmax min_row max_row].
      repeat split;
        try (destruct (negb (selected_first_column scrdesc =? -1)
                       && (0 <? selected_columns scrdesc)); reflexivity);
        destruct (negb (selected_first_row scrdesc =? -1)); reflexivity.
    - rewrite Hsel, Hv. cbn [andb orb negb]. rewrite !andb_false_r.
      cbn [andb orb negb].
      rewrite andb_diag, (bind_ok _ _ _ _ _ Hname).
      eexists _, _. split; [reflexivity|]. cbn [xmin xmax min_row max_row].
      repeat split;
        try (destruct (negb (selected_first_column scrdesc =? -1)
                       && (0 <? selected_columns scrdesc)); reflexivity);
        destruct (negb (selected_first_row scrdesc =? -1)); reflexivity. }
  destruct Hs as (plan & st & Hs & Hxmin & Hxmax & Hmin & Hmax).
  exists plan, st, m'. split; [exact Hs|]. split.
  - rewrite Hxmin, Hxmax.
    destruct (negb (selected_first_column scrdesc =? -1)
              && (0 <? selected_columns scrdesc)); [|reflexivity].
    rewrite (int32_small _ Hc). reflexivity.
  - intros l m0 Hdata. unfold select_row.
    pose proof Hdata as Hd. unfold is_data_row in Hd. rewrite Hd.
    apply andb_true_iff in Hd as [Hd1 Hd2]. apply Z.leb_le in Hd1.
    rewrite Hmin, Hmax.
    assert (Hflags : cmd_eqb cmd cmd_CopyMarkedLines = false
                     /\ cmd_eqb cmd cmd_CopyLine = false
                     /\ cmd_eqb cmd cmd_CopySearchedLines = false)
      by (destruct Hcmd as [-> | (-> & _)]; repeat split).
    destruct Hflags as (-> & -> & ->). cbn [andb negb]. unfold ret.
    destruct (selected_first_row scrdesc =? -1); cbn [negb].
    + replace (rn l <? first_data_row desc) with false
        by (symmetry; apply Z.ltb_ge; lia).
      cbn [orb].
      destruct (Z.ltb_spec (last_row desc) (rn l)), (Z.leb_spec (rn l) (last_row desc));
        try lia; reflexivity.
    + rewrite (int32_small _ Hr1), (int32_small _ Hr2).
      destruct (Z.ltb_spec (rn l) (selected_first_row scrdesc + first_data_row desc)),
        (Z.ltb_spec (selected_first_row scrdesc + first_data_row desc
                     + selected_rows scrdesc - 1) (rn l)),
        (Z.leb_spec (selected_first_row scrdesc + first_data_row desc) (rn l)),
        (Z.leb_spec (rn l) (selected_first_row scrdesc + first_data_row desc
                            + selected_rows scrdesc - 1));
        try lia; reflexivity.
Qed.

End MoreSelection.

Lemma flagged_lines_keep_flagged_rows_witness :
  let desc := mkDataDesc 2 8 9 1 [] NULL 0 9 1 2 (-1) [] in
  let m := mkMachine [] 0 (mkFILE [] None) in
  exists plan st m',
    export_setup (H := example_collaborators) (mkOptions true false false false)
      (mkScrDesc (-1) 0 (-1) 0) desc 0 1 0 (double_of_int 0) NULL
      cmd_CopyMarkedLines CLIPBOARD_FORMAT_CSV m
    = Ok (Some (plan, st), m')
    /\ xmin st = -1 /\ print_footer plan = false
    /\ forall l m0,
         is_data_row desc l = true -> rn l <= 9 ->
         select_row (H := example_collaborators) (mkOptions true false false false)
           desc plan cmd_CopyMarkedLines 0 l m0
         = Ok ((if has_flag 1 (linfo l) then Some false else None), m0).
Proof.
  intros desc m.
  apply (flagged_lines_keep_flagged_rows (H := example_collaborators)
           (mkOptions true false false false) (mkScrDesc (-1) 0 (-1) 0) desc
           0 1 0 (double_of_int 0) NULL cmd_CopyMarkedLines CLIPBOARD_FORMAT_CSV m).
  - left. reflexivity.
  - discriminate.
Defined.

Lemma copy_column_range_witness :
  let desc := mkDataDesc 2 8 9 2 [(0, 4); (4, 11)] NULL 0 9 1 2 (-1) [] in
  let m := mkMachine [] 0 (mkFILE [] None) in
  let opts := mkOptions true false false false in
  (exists plan st m',
     export_setup (H := example_collaborators) opts (mkScrDesc (-1) 0 (-1) 0) desc
       0 2 0 (double_of_int 0) NULL cmd_CopyColumn CLIPBOARD_FORMAT_CSV m
     = Ok (Some (plan, st), m')
     /\ xmin st = 4 /\ xmax st = 11
     /\ min_row plan = 2 /\ max_row plan = 9 /\ print_footer plan = false)
  /\ export_setup (H := example_collaborators) opts (mkScrDesc (-1) 0 (-1) 0) desc
       0 0 0 (double_of_int 0) NULL cmd_CopyColumn CLIPBOARD_FORMAT_CSV m
     = Fault OutOfBounds.
Proof.
  intros desc m opts. split.
  - apply (proj1 (copy_column_range (H := example_collaborators) opts
                    (mkScrDesc (-1) 0 (-1) 0) desc 0 2 0 (double_of_int 0) NULL
                    CLIPBOARD_FORMAT_CSV m ltac:(discriminate)) 4 11).
    + lia.
    + reflexivity.
  - apply (proj2 (copy_column_range (H := example_collaborators) opts
                    (mkScrDesc (-1) 0 (-1) 0) desc 0 0 0 (double_of_int 0) NULL
                    CLIPBOARD_FORMAT_CSV m ltac:(discriminate))).
    left. lia.
Defined.

Lemma selection_gives_row_and_column_range_witness :
  let desc := mkDataDesc 2 8 9 2 [(0, 4); (4, 11)] NULL 0 9 1 2 (-1) [] in
  let m := mkMachine [] 0 (mkFILE [] None) in
  let opts := mkOptions true false false false in
  exists plan st m',
    export_setup (H := example_collaborators) opts (mkScrDesc 1 3 4 7) desc
      0 1 0 (double_of_int 0) NULL cmd_CopySelected CLIPBOARD_FORMAT_CSV m
    = Ok (Some (plan, st), m')
    /\ (xmin st, xmax st) = (4, 10)
    /\ forall l m0,
         is_data_row desc l = true ->
         select_row (H := example_collaborators) opts desc plan cmd_CopySelected 0 l m0
         = Ok ((if (3 <=? rn l) && (rn l <=? 5) then Some false else None), m0).
Proof.
  intros desc m opts.
  apply (selection_gives_row_and_column_range (H := example_collaborators) opts
           (mkScrDesc 1 3 4 7) desc 0 1 0 (double_of_int 0) NULL cmd_CopySelected
           CLIPBOARD_FORMAT_CSV m).
  - left. reflexivity.
  - discriminate.
  - unfold INT_MIN, INT_MAX. simpl. lia.
  - unfold INT_MIN, INT_MAX. simpl. lia.
  - unfold INT_MIN, INT_MAX. simpl. lia.
Defined.

(** ** Data rows of the extended line copy *)

Section ExtendedRows.
Context `{Collaborators}.

Lemma cstring_prec_prefix p s r h :
  view p h = Ok (s ++ r) -> Forall (fun c => c <> 0) s ->
  cstring_prec p (Z.of_nat (length s)) h = Ok (s, h).
Proof.
  intros Hv Hnz. unfold cstring_prec.
  replace (Z.of_nat (length s) <? 0) with false by (symmetry; apply Z.ltb_ge; lia).
  destruct s as [|c s]; [reflexivity|].
  replace (Z.of_nat (length (c :: s)) =? 0) with false
    by (symmetry; apply Z.eqb_neq; simpl; lia).
  rewrite Hv, Nat2Z.id, (str_prefix_app (c :: s) r Hnz). reflexivity.
Qed.

(** A data token of the extended line copy, given what [trim_str] and
    [csv_format] return and what the two conversions of the format string
    read. *)
Lemma process_item_extended_write st field size xpos hc e out
    field1 size1 _field size2 h2 p name v h3 :
  DSV_FORMAT_TYPE (format st) = true -> copy_line_extended st = true ->
  xmin st = -1 ->
  trim_str field size (force8bit st) hc = Ok ((field1, size1), hc) ->
  csv_format field1 size1 (force8bit st) (empty_string_is_null st) hc
  = Ok ((_field, size2), h2) ->
  colname_at st (colno st) = Ok p ->
  cstring p h2 = Ok (name, h2) ->
  cstring_prec _field size2 h2 = Ok (v, h2) ->
  (if cptr_eqb _field field1 then h3 = h2 else free _field h2 = Ok (tt, h3)) ->
  process_item st 100 field size xpos false (mkMachine hc e (mkFILE out None))
  = Ok ((true, set_colno st (colno st + 1)),
        mkMachine h3 0 (mkFILE (out ++ name ++ [44] ++ v ++ [10]) None)).
Proof.
  intros Hd Hcle Hx Htrim Hcsv Hat Hname Hval Hfree.
  unfold process_item, process_item_dsv, outside_range.
  rewrite Hcle, Hx.
  assert (Hfmt : INSERT_FORMAT_TYPE (format st) = false
                 /\ format_eqb (format st) CLIPBOARD_FORMAT_TEXT = false)
    by (destruct (format st); try discriminate; split; reflexivity).
  destruct Hfmt as (Hi & Ht). rewrite Hi, Ht, Hd.
  cbn [Z.eqb Pos.eqb negb andb].
  assert (Ht' : on_heap (trim_str field size (force8bit st))
                  (mkMachine hc e (mkFILE out None))
                = Ok ((field1, size1), mkMachine hc e (mkFILE out None)))
    by (unfold on_heap; cbn [m_heap m_errno m_out]; rewrite Htrim; reflexivity).
  rewrite (bind_ok _ _ _ _ _ Ht'). cbv beta iota.
  assert (Hc' : on_heap (csv_format field1 size1 (force8bit st) (empty_string_is_null st))
                  (mkMachine hc e (mkFILE out None))
                = Ok ((_field, size2), mkMachine h2 e (mkFILE out None)))
    by (unfold on_heap; cbn [m_heap m_errno m_out]; rewrite Hcsv; reflexivity).
  rewrite (bind_ok _ _ _ _ _ Hc'). cbv beta iota.
  unfold bind, set_errno, get_errno, lift_res, on_heap, write_out, finish,
    bind, get_errno, ret.
  cbn [m_heap m_errno m_out f_room f_bytes].
  rewrite Hat. cbn [m_heap m_errno m_out f_room f_bytes].
  rewrite Hname. cbn [m_heap m_errno m_out f_room f_bytes].
  rewrite Hval. cbn [m_heap m_errno m_out f_room f_bytes].
  destruct (cptr_eqb _field field1);
    cbn [negb m_heap m_errno m_out f_room f_bytes Z.eqb];
    [subst h3|rewrite Hfree; cbn [m_heap m_errno m_out f_room f_bytes Z.eqb]];
    reflexivity.
Qed.

(** One cell of the extended line copy, force-8-bit mode. *)
Lemma process_item_extended_cell st field cell rest xpos hc e out p name :
  DSV_FORMAT_TYPE (format st) = true -> copy_line_extended st = true ->
  xmin st = -1 -> force8bit st = true ->
  view field hc = Ok (cell ++ rest) -> rest <> [] ->
  Forall (fun c => c <> 0) cell ->
  has_byte 34 (trimmed cell) = false ->
  colname_at st (colno st) = Ok p ->
  cstring p hc = Ok (name, hc) ->
  exists n,
    process_item st 100 field (Z.of_nat (length cell)) xpos false
      (mkMachine hc e (mkFILE out None))
    = Ok ((true, set_colno st (colno st + 1)),
          mkMachine (hc ++ replicate n None) 0
            (mkFILE (out ++ name ++ [44] ++ csv_cell (empty_string_is_null st) cell
                     ++ [10]) None)).
Proof.
  intros Hd Hcle Hx H8 Hv Hrest Hnz Hq Hat Hname.
  pose proof (trimmed_Forall _ _ Hnz) as Hnzc.
  destruct (trim_str_trimmed field cell rest hc Hv Hrest)
    as (q & Htrim & [[Hnil ->]|(Hne & Hp & rest' & _ & Hvp)]).
  - unfold csv_cell. rewrite Hnil in *.
    destruct (empty_string_is_null st) eqn:Eesn.
    { exists 0%nat. simpl replicate. rewrite app_nil_r.
      apply (process_item_extended_write st field _ xpos hc e out
               NULL 0 NULL 0 hc p name [] hc Hd Hcle Hx).
      - rewrite H8. exact Htrim.
      - rewrite H8, Eesn. reflexivity.
      - exact Hat.
      - exact Hname.
      - reflexivity.
      - reflexivity. }
    exists 1%nat.
    apply (process_item_extended_write st field _ xpos hc e out
             NULL 0 (fresh_ptr hc) 2 (hc ++ [Some [34; 34; 0]]) p name [34; 34]
             (hc ++ [None]) Hd Hcle Hx).
    + rewrite H8. exact Htrim.
    + rewrite H8, Eesn. reflexivity.
    + exact Hat.
    + apply cstring_app_old. exact Hname.
    + apply (cstring_prec_prefix (fresh_ptr hc) [34; 34] [0]).
      * apply view_fresh.
      * repeat constructor; discriminate.
    + cbn [fresh_ptr cptr_eqb]. apply free_fresh.
  - set (core := trimmed cell) in *.
    assert (Hcell : csv_cell (empty_string_is_null st) cell
                    = if existsb csv_special core then wrapped 34 core else core)
      by (unfold csv_cell; fold core; destruct core; [congruence|reflexivity]).
    rewrite Hcell.
    destruct (existsb csv_special core) eqn:Esp.
    + exists 1%nat.
      assert (Hw : wrapped 34 core = 34 :: core ++ [34])
        by (unfold wrapped; rewrite (doubled_no_quote 34 core Hq); reflexivity).
      apply (process_item_extended_write st field _ xpos hc e out
               q (Z.of_nat (length core)) (fresh_ptr hc) (Z.of_nat (length core) + 2)
               (hc ++ [Some (buffer_block (length hc)
                               (Z.of_nat (length core) * 2 + 2 + 1)
                               (wrapped 34 core ++ [0]))])
               p name (wrapped 34 core) (hc ++ [None]) Hd Hcle Hx).
      * rewrite H8. exact Htrim.
      * rewrite H8. apply (csv_format_quotes_8bit q core rest' _ hc Hvp Esp).
      * exact Hat.
      * apply cstring_app_old. exact Hname.
      * replace (Z.of_nat (length core) + 2) with (Z.of_nat (length (wrapped 34 core)))
          by (rewrite Hw; simpl; rewrite length_app; simpl; lia).
        apply (cstring_prec_prefix (fresh_ptr hc) (wrapped 34 core)
                 ([0] ++ map (heap_junk (length hc))
                           (seqZ (Z.of_nat (length (wrapped 34 core ++ [0])))
                              (Z.of_nat (length core) * 2 + 2 + 1
                               - Z.of_nat (length (wrapped 34 core ++ [0])))))).
        -- unfold buffer_block. rewrite <- app_assoc. apply view_fresh.
        -- apply wrapped_nonzero; [discriminate|exact Hnzc].
      * destruct (cptr_eqb (fresh_ptr hc) q) eqn:Eq.
        -- apply cptr_eqb_eq in Eq. exfalso.
           exact (fresh_ptr_not_valid _ _ _ Hvp Eq).
        -- apply free_fresh.
    + exists 0%nat. simpl replicate. rewrite app_nil_r.
      apply (process_item_extended_write st field _ xpos hc e out
               q (Z.of_nat (length core)) q (Z.of_nat (length core)) hc p name core hc
               Hd Hcle Hx).
      * rewrite H8. exact Htrim.
      * rewrite H8. apply (csv_format_clean_8bit q core rest' _ hc Hvp Hne Esp).
      * exact Hat.
      * exact Hname.
      * apply (cstring_prec_prefix q core rest' hc Hvp Hnzc).
      * rewrite cptr_eqb_refl. reflexivity.
Qed.

(** A token that is no data token, the end of the row included: the
    extended line copy writes nothing for it and tests [errno] as it
    stands. *)
Lemma process_item_extended_other st typ field size xpos is_colname h out :
  DSV_FORMAT_TYPE (format st) = true -> copy_line_extended st = true ->
  typ <> 100 ->
  process_item st typ field size xpos is_colname (mkMachine h 0 (mkFILE out None))
  = Ok ((true, st), mkMachine h 0 (mkFILE out None)).
Proof.
  intros Hd Hcle H100. unfold process_item, process_item_dsv.
  replace (INSERT_FORMAT_TYPE (format st)) with false
    by (destruct (format st); try discriminate; reflexivity).
  replace (format_eqb (format st) CLIPBOARD_FORMAT_TEXT) with false
    by (destruct (format st); try discriminate; reflexivity).
  rewrite Hd, Hcle. rewrite andb_false_r.
  replace (typ =? 100) with false by (symmetry; apply Z.eqb_neq; exact H100).
  reflexivity.
Qed.

Lemma colname_at_middle st before p after :
  colnames st = Some (before ++ p :: after) ->
  colno st = Z.of_nat (length before) ->
  colname_at st (colno st) = Ok p.
Proof.
  intros Hps Hcol. unfold colname_at, lookupZ. rewrite Hps, Hcol.
  replace (Z.of_nat (length before) <? 0) with false by (symmetry; apply Z.ltb_ge; lia).
  rewrite Nat2Z.id, (list_lookup_middle before after p (length before) eq_refl).
  reflexivity.
Qed.

Lemma Forall2_cstring_app_old ps names h t :
  Forall2 (fun p s => cstring p h = Ok (s, h)) ps names ->
  Forall2 (fun p s => cstring p (h ++ t) = Ok (s, h ++ t)) ps names.
Proof.
  intros Hall. eapply Forall2_impl; [exact Hall|].
  intros p s Hp. apply cstring_app_old. exact Hp.
Qed.

(** The token loop and the end of a data row of the extended line copy,
    from any point of the row. *)
Lemma extended_row_walk s : forall t fuel rp hp x field fxpos pend st hc out
    sstop tstop before cur after names,
  length t = length s -> (length s < fuel)%nat ->
  view rp hc = Ok (s ++ sstop) ->
  view hp hc = Ok (t ++ tstop) ->
  Forall (fun c => c <> 0) s ->
  Forall (fun c => c <> 10 /\ c <> 78) t ->
  (exists r, sstop = 0 :: r) \/ (exists c r r', sstop = c :: r /\ tstop = 10 :: r') ->
  (if is_null field then pend = []
   else pend <> [] /\ view field hc = Ok (pend ++ s ++ sstop)) ->
  Forall (fun c => c <> 0) pend ->
  DSV_FORMAT_TYPE (format st) = true -> copy_line_extended st = true ->
  xmin st = -1 -> force8bit st = true ->
  colnames st = Some (before ++ cur ++ after) ->
  colno st = Z.of_nat (length before) ->
  Forall2 (fun p s => cstring p hc = Ok (s, hc)) cur names ->
  length names = length (row_cells t s pend) ->
  Forall (fun cell => has_byte 34 (trimmed cell) = false) (row_cells t s pend) ->
  exists n,
    (do r <- row_tokens fuel (mkFmtLineIter rp hp true x) field
               (Z.of_nat (length pend)) fxpos false st;
     finish_row false r) (mkMachine hc 0 (mkFILE out None))
    = Ok ((true, set_colno st (colno st + Z.of_nat (length (row_cells t s pend)))),
          mkMachine (hc ++ replicate n None) 0
            (mkFILE (out ++ extended_lines (empty_string_is_null st) names
                              (row_cells t s pend)) None)).
Proof.
  induction s as [|c s IH];
    intros t fuel rp hp x field fxpos pend st hc out sstop tstop before cur after names
           Hlen Hfuel Hr Ht Hnz Hty Hend Hpend Hpnz Hd Hcle Hx H8 Hps Hcol Hnames
           Hcount Hcells.
  - destruct t; [|discriminate]. destruct fuel as [|fuel]; [simpl in Hfuel; lia|].
    cbn [row_tokens]. rewrite bind_assoc.
    assert (Hnext : on_heap (next_char (mkFmtLineIter rp hp true x))
                      (mkMachine hc 0 (mkFILE out None))
                    = Ok ((None, mkFmtLineIter rp hp true x),
                          mkMachine hc 0 (mkFILE out None))).
    { unfold on_heap. cbn [m_heap m_errno m_out].
      rewrite (next_char_end rp hp true x hc _ _ Hr Ht Hend). reflexivity. }
    rewrite (bind_ok _ _ _ _ _ Hnext). cbv beta iota.
    unfold bind at 1. unfold ret at 1. cbv beta iota.
    unfold finish_row. cbn [negb row_cells]. cbn [row_cells app] in Hcells, Hcount.
    destruct (is_null field) eqn:En; cbn [negb].
    + subst pend. exists 0%nat. unfold bind at 1. unfold ret at 1. cbv beta iota.
      cbn [negb].
      rewrite (process_item_extended_other st 78 NULL 0 (-1) false hc out Hd Hcle)
        by discriminate.
      cbn [flush_cell length]. destruct names; [|discriminate].
      cbn [extended_lines replicate].
      rewrite Z.add_0_r, set_colno_colno, !app_nil_r. reflexivity.
    + destruct Hpend as [Hne Hvf].
      assert (Hflush : flush_cell pend = [pend]) by (destruct pend; [congruence|reflexivity]).
      rewrite Hflush in *.
      pose proof (List.Forall_inv Hcells) as Hq. cbv beta in Hq.
      destruct names as [|name [|? ?]]; try discriminate.
      inversion Hnames as [|p ? cur' ? Hname Hcur']; subst.
      inversion Hcur'; subst.
      destruct (process_item_extended_cell st field pend sstop fxpos hc 0 out p name
                  Hd Hcle Hx H8 Hvf) as [n Hcell]; try assumption.
      { destruct Hend as [[r ->]|(c0 & r & r' & -> & _)]; discriminate. }
      { exact (colname_at_middle st before p ([] ++ after) Hps Hcol). }
      exists n. rewrite (bind_ok _ _ _ _ _ Hcell). cbv beta iota. cbn [negb].
      rewrite (process_item_extended_other (set_colno st (colno st + 1)) 78 NULL 0 (-1)
                 false _ _ Hd Hcle) by discriminate.
      cbn [length extended_lines]. rewrite ?app_nil_r. reflexivity.
  - destruct t as [|ty t]; [discriminate|]. destruct fuel as [|fuel]; [simpl in Hfuel; lia|].
    pose proof (List.Forall_inv Hnz) as Hc.
    pose proof (List.Forall_inv_tail Hnz) as Hnz'.
    destruct (List.Forall_inv Hty) as [Hty10 Hty78].
    pose proof (List.Forall_inv_tail Hty) as Hty'.
    cbn [row_tokens]. rewrite bind_assoc.
    assert (Hnext : on_heap (next_char (mkFmtLineIter rp hp true x))
                      (mkMachine hc 0 (mkFILE out None))
                    = Ok ((Some (rp, ty, 1, 1, x),
                           mkFmtLineIter (ptr_add rp 1) (ptr_add hp 1) true (x + 1)),
                          mkMachine hc 0 (mkFILE out None))).
    { unfold on_heap. cbn [m_heap m_errno m_out].
      rewrite (next_char_step_8bit rp hp x hc c (s ++ sstop) ty (t ++ tstop)
                 Hr Ht Hc Hty10).
      reflexivity. }
    rewrite (bind_ok _ _ _ _ _ Hnext). cbv beta iota.
    assert (Hrp : is_null rp = false) by (destruct rp; [discriminate|reflexivity]).
    cbn [row_cells] in *.
    destruct (Z.eqb_spec ty 100) as [->|Hdt].
    + replace (Z.of_nat (length pend) + 1) with (Z.of_nat (length (pend ++ [c])))
        by (rewrite length_app; simpl; lia).
      apply (IH t fuel (ptr_add rp 1) (ptr_add hp 1) (x + 1)
               (if is_null field then rp else field) x (pend ++ [c]) st hc out
               sstop tstop before cur after names);
        try assumption.
      * simpl in Hlen. lia.
      * simpl in Hfuel. lia.
      * exact (view_next _ _ _ _ Hr).
      * exact (view_next _ _ _ _ Ht).
      * destruct (is_null field) eqn:En.
        -- rewrite Hrp. subst pend. split; [discriminate|exact Hr].
        -- rewrite En. destruct Hpend as [_ Hvf].
           split; [destruct pend; discriminate|].
           rewrite <- app_assoc. exact Hvf.
      * apply Forall_app. split; [exact Hpnz|]. constructor; [exact Hc|constructor].
    + destruct (is_null field) eqn:En; cbn [negb].
      * subst pend. cbn [flush_cell app] in *.
        unfold bind at 2. unfold ret at 1. cbv beta iota. cbn [negb].
        rewrite bind_assoc.
        rewrite (bind_ok _ _ _ _ _
                   (process_item_extended_other st ty rp 1 x false hc out Hd Hcle Hdt)).
        cbv beta iota. cbn [negb].
        apply (IH t fuel (ptr_add rp 1) (ptr_add hp 1) (x + 1) field fxpos [] st hc out
                 sstop tstop before cur after names);
          try assumption.
        -- simpl in Hlen. lia.
        -- simpl in Hfuel. lia.
        -- exact (view_next _ _ _ _ Hr).
        -- exact (view_next _ _ _ _ Ht).
        -- rewrite En. reflexivity.
      * destruct Hpend as [Hne Hvf].
        assert (Hflush : flush_cell pend = [pend])
          by (destruct pend; [congruence|reflexivity]).
        rewrite Hflush in *. cbn [app length] in *.
        pose proof (List.Forall_inv Hcells) as Hq. cbv beta in Hq.
        pose proof (List.Forall_inv_tail Hcells) as Hcells'.
        destruct names as [|name names']; [discriminate|].
        inversion Hnames as [|p ? cur' ? Hname Hcur']; subst.
        destruct (process_item_extended_cell st field pend (c :: s ++ sstop) fxpos hc 0
                    out p name Hd Hcle Hx H8 Hvf ltac:(discriminate) Hpnz Hq
                    (colname_at_middle st before p (cur' ++ after) Hps Hcol) Hname)
          as [n1 Hcell].
        rewrite bind_assoc. rewrite (bind_ok _ _ _ _ _ Hcell). cbv beta iota. cbn [negb].
        rewrite bind_assoc.
        rewrite (bind_ok _ _ _ _ _
                   (process_item_extended_other (set_colno st (colno st + 1)) ty rp 1 x
                      false _ _ Hd Hcle Hdt)).
        cbv beta iota. cbn [negb].
        destruct (IH t fuel (ptr_add rp 1) (ptr_add hp 1) (x + 1) NULL (-1) []
                    (set_colno st (colno st + 1)) (hc ++ replicate n1 None)
                    (out ++ name ++ [44] ++ csv_cell (empty_string_is_null st) pend
                     ++ [10])
                    sstop tstop (before ++ [p]) cur' after names') as [n2 Hrest];
          try assumption; try reflexivity; try (constructor; fail).
        -- simpl in Hlen. lia.
        -- simpl in Hfuel. lia.
        -- apply view_app_old. exact (view_next _ _ _ _ Hr).
        -- apply view_app_old. exact (view_next _ _ _ _ Ht).
        -- cbn [colnames set_colno]. rewrite Hps, <- app_assoc. reflexivity.
        -- cbn [colno set_colno]. rewrite Hcol, length_app. simpl. lia.
        -- apply Forall2_cstring_app_old. exact Hcur'.
        -- simpl in Hcount. lia.
        -- exists (n1 + n2)%nat.
           change (Z.of_nat (length (@nil Z))) with 0 in Hrest.
           rewrite Hrest. cbn [format colno empty_string_is_null set_colno
                               length extended_lines].
           rewrite replicate_add, <- !app_assoc.
           replace (colno st + 1 + Z.of_nat (length (row_cells t s [])))
             with (colno st + Z.of_nat (S (length (row_cells t s [])))) by lia.
           reflexivity.
Qed.

(** The row loop body on a data row of the extended line copy. *)
Lemma export_row_extended_layout opts desc l st h out t s ps names :
  opt_force8bit opts = true -> force8bit st = true ->
  DSV_FORMAT_TYPE (format st) = true -> copy_line_extended st = true ->
  xmin st = -1 ->
  row_layout h (rowstr l) (headline_transl desc) t s ->
  colnames st = Some ps ->
  Forall2 (fun p s => cstring p h = Ok (s, h)) (take (length (row_cells t s [])) ps) names ->
  length names = length (row_cells t s []) ->
  cells_without_quote t s ->
  exists n,
    export_row opts desc l false st (mkMachine h 0 (mkFILE out None))
    = Ok ((true, set_colno st (Z.of_nat (length (row_cells t s [])))),
          mkMachine (h ++ replicate n None) 0
            (mkFILE (out ++ extended_lines (empty_string_is_null st) names
                              (row_cells t s [])) None)).
Proof.
  intros Ho8 H8 Hd Hcle Hx (sstop & tstop & Hr & Ht & Hlen & Hnz & Hty & Hend)
         Hps Hnames Hcount Hcells.
  rewrite export_row_finish_row, Ho8.
  assert (Hfuel : on_heap (row_fuel (rowstr l)) (mkMachine h 0 (mkFILE out None))
                  = Ok (S (length (s ++ sstop)), mkMachine h 0 (mkFILE out None))).
  { unfold on_heap, row_fuel. cbn [m_heap m_errno m_out]. rewrite Hr. reflexivity. }
  rewrite (bind_ok _ _ _ _ _ Hfuel).
  destruct (extended_row_walk s t (S (length (s ++ sstop))) (rowstr l)
              (headline_transl desc) 0 NULL (-1) [] (set_colno st 0) h out sstop tstop
              [] (take (length (row_cells t s [])) ps)
              (drop (length (row_cells t s [])) ps) names)
    as [n Hrun]; try assumption; try reflexivity; try (constructor; fail).
  - rewrite length_app. lia.
  - cbn [colnames set_colno app]. rewrite take_drop. exact Hps.
  - exists n. change (Z.of_nat (length (@nil Z))) with 0 in Hrun. rewrite Hrun.
    cbn [format colno empty_string_is_null set_colno].
    rewrite Z.add_0_l. reflexivity.
Qed.

(** X25.  A data row of the extended line copy is one line per cell.  In
    force-8-bit mode, without a column range, with [errno] clear and a
    stream that takes everything, in the CSV or TSV format with
    [copy_line_extended] set, [export_row] writes for a data row, cell by
    cell, the captured name of the cell's column, a comma (in the TSV
    format too), the cell as a CSV value (without the blanks around it,
    between double quotes when it holds a comma, a tab, a CR or a LF) and a
    line feed; nothing is written for the end of the row.  The cells hold
    no double quote, there is a readable name for each, and a blank cell is
    allowed only when it has the CSV value of two double quotes.  Every
    buffer allocated is freed again and [colno] ends as the number of
    cells. *)
Theorem export_row_extended_lines opts desc l st h out t s ps names :
  opt_force8bit opts = true -> force8bit st = true ->
  DSV_FORMAT_TYPE (format st) = true -> copy_line_extended st = true ->
  xmin st = -1 ->
  row_layout h (rowstr l) (headline_transl desc) t s ->
  colnames st = Some ps ->
  Forall2 (fun p s => cstring p h = Ok (s, h)) (take (length (row_cells t s [])) ps) names ->
  length names = length (row_cells t s []) ->
  printable_cells (empty_string_is_null st) (row_cells t s []) ->
  exists n,
    export_row opts desc l false st (mkMachine h 0 (mkFILE out None))
    = Ok ((true, set_colno st (Z.of_nat (length (row_cells t s [])))),
          mkMachine (h ++ replicate n None) 0
            (mkFILE (out ++ extended_lines (empty_string_is_null st) names
                              (row_cells t s [])) None)).
Proof.
  intros Ho8 H8 Hd Hcle Hx Hrow Hps Hnames Hcount Hcells.
  apply (export_row_extended_layout opts desc l st h out t s ps names
           Ho8 H8 Hd Hcle Hx Hrow Hps Hnames Hcount).
  unfold cells_without_quote. eapply Forall_impl; [exact Hcells|].
  intros cell [Hq _]. exact Hq.
Qed.

Lemma take_length_extended_lines esn : forall names cells,
  extended_lines esn (take (length cells) names) cells = extended_lines esn names cells.
Proof.
  induction names as [|name names IH]; intros [|cell cells]; try reflexivity.
  cbn [length take extended_lines]. rewrite IH. reflexivity.
Qed.

End ExtendedRows.

(** ** Header rows of the extended line copy *)

Section ExtendedHeader.
Context `{Collaborators}.

(** A header cell of the extended line copy, force-8-bit mode: the name is
    stored in a block of its own, as a CSV value, and nothing is written. *)
Lemma process_item_extended_header_cell st field cell rest xpos hc e out done q todo :
  DSV_FORMAT_TYPE (format st) = true -> copy_line_extended st = true ->
  xmin st = -1 -> force8bit st = true ->
  view field hc = Ok (cell ++ rest) -> rest <> [] ->
  Forall (fun c => c <> 0) cell -> trimmed cell <> [] ->
  has_byte 34 (trimmed cell) = false ->
  colnames (ensure_colnames st) = Some (done ++ q :: todo) ->
  colno st = Z.of_nat (length done) ->
  exists blk,
    process_item st 100 field (Z.of_nat (length cell)) xpos true
      (mkMachine hc e (mkFILE out None))
    = Ok ((true,
           set_colno (set_colnames (ensure_colnames st)
                        (Some (done ++ fresh_ptr hc :: todo)))
                     (colno st + 1)),
          mkMachine (hc ++ [Some blk]) e (mkFILE out None))
    /\ cstring (fresh_ptr hc) (hc ++ [Some blk])
       = Ok (csv_value (trimmed cell), hc ++ [Some blk]).
Proof.
  intros Hd Hcle Hx H8 Hv Hrest Hnz Hne Hq Harr Hcol.
  pose proof (trimmed_Forall _ _ Hnz) as Hnzc.
  destruct (trim_str_trimmed field cell rest hc Hv Hrest)
    as (p & Htrim & [[Hnil _]|(_ & Hp & rest' & Hrest' & Hvp)]); [congruence|].
  set (core := trimmed cell) in *.
  assert (Hstore : forall ptr,
             colname_store (ensure_colnames st) (colno (ensure_colnames st)) ptr
             = Ok (set_colnames (ensure_colnames st) (Some (done ++ ptr :: todo)))).
  { intros ptr. unfold colname_store. rewrite Harr, colno_ensure_colnames, Hcol.
    rewrite length_app. cbn [length].
    replace ((0 <=? Z.of_nat (length done))
             && (Z.of_nat (length done) <? Z.of_nat (length done + S (length todo))))
      with true
      by (symmetry; apply andb_true_iff; split; [apply Z.leb_le|apply Z.ltb_lt]; lia).
    rewrite Nat2Z.id.
    replace (length done) with (length done + 0)%nat at 1 by lia.
    rewrite insert_app_r. reflexivity. }
  assert (Hrun : forall _field size2 h2 name_ptr h3,
             csv_format p (Z.of_nat (length core)) true (empty_string_is_null st) hc
             = Ok ((_field, size2), h2) ->
             (if is_null _field then on_heap (sstrdup [])
              else if negb (cptr_eqb _field p) then ret _field
                   else on_heap (sstrndup p size2))
               (mkMachine h2 e (mkFILE out None))
             = Ok (name_ptr, mkMachine h3 e (mkFILE out None)) ->
             process_item st 100 field (Z.of_nat (length cell)) xpos true
               (mkMachine hc e (mkFILE out None))
             = Ok ((true,
                    set_colno (set_colnames (ensure_colnames st)
                                 (Some (done ++ name_ptr :: todo)))
                              (colno st + 1)),
                   mkMachine h3 e (mkFILE out None))).
  { intros _field size2 h2 name_ptr h3 Hcsv Hname.
    unfold process_item, process_item_dsv, outside_range.
    assert (Hfmt : INSERT_FORMAT_TYPE (format st) = false
                   /\ format_eqb (format st) CLIPBOARD_FORMAT_TEXT = false)
      by (destruct (format st); try discriminate; split; reflexivity).
    destruct Hfmt as (Hi & Ht). rewrite Hi, Ht, Hd, Hcle, Hx.
    cbn [Z.eqb Pos.eqb negb andb].
    assert (Ht' : on_heap (trim_str field (Z.of_nat (length cell)) (force8bit st))
                    (mkMachine hc e (mkFILE out None))
                  = Ok ((p, Z.of_nat (length core)), mkMachine hc e (mkFILE out None)))
      by (unfold on_heap; cbn [m_heap m_errno m_out]; rewrite H8, Htrim; reflexivity).
    rewrite (bind_ok _ _ _ _ _ Ht'). cbv beta iota.
    assert (Hc' : on_heap (csv_format p (Z.of_nat (length core)) (force8bit st)
                             (empty_string_is_null st))
                    (mkMachine hc e (mkFILE out None))
                  = Ok ((_field, size2), mkMachine h2 e (mkFILE out None)))
      by (unfold on_heap; cbn [m_heap m_errno m_out]; rewrite H8, Hcsv; reflexivity).
    rewrite (bind_ok _ _ _ _ _ Hc'). cbv beta iota.
    unfold capture_colname. rewrite !bind_assoc.
    rewrite (bind_ok _ _ _ _ _ Hname). rewrite !bind_assoc.
    unfold bind at 1. unfold lift_res at 1. rewrite Hstore.
    unfold bind, ret. cbn [colno set_colnames]. rewrite colno_ensure_colnames.
    reflexivity. }
  unfold csv_value. destruct (existsb csv_special core) eqn:Esp.
  - exists (buffer_block (length hc) (Z.of_nat (length core) * 2 + 2 + 1)
              (wrapped 34 core ++ [0])).
    split.
    + apply (Hrun (fresh_ptr hc) (Z.of_nat (length core) + 2)
               (hc ++ [Some (buffer_block (length hc)
                               (Z.of_nat (length core) * 2 + 2 + 1)
                               (wrapped 34 core ++ [0]))])
               (fresh_ptr hc)
               (hc ++ [Some (buffer_block (length hc)
                               (Z.of_nat (length core) * 2 + 2 + 1)
                               (wrapped 34 core ++ [0]))])).
      * apply (csv_format_quotes_8bit p core rest' _ hc Hvp Esp).
      * change (is_null (fresh_ptr hc)) with false. cbv iota.
        destruct (cptr_eqb (fresh_ptr hc) p) eqn:Eq.
        -- apply cptr_eqb_eq in Eq. exfalso.
           exact (fresh_ptr_not_valid _ _ _ Hvp Eq).
        -- reflexivity.
    + apply cstring_wrapped; [lia|exact Hnzc].
  - exists (core ++ [0]). split.
    + apply (Hrun p (Z.of_nat (length core)) hc (fresh_ptr hc) (hc ++ [Some (core ++ [0])])).
      * apply (csv_format_clean_8bit p core rest' _ hc Hvp Hne Esp).
      * rewrite Hp, cptr_eqb_refl. cbn [negb]. unfold on_heap. cbn [m_heap m_errno m_out].
        rewrite (sstrndup_run p core rest' hc Hvp Hnzc). reflexivity.
    + apply (cstring_fresh hc core []). exact Hnzc.
Qed.

Lemma same_settings_extended st st' :
  same_settings st st' ->
  DSV_FORMAT_TYPE (format st) = true -> copy_line_extended st = true ->
  xmin st = -1 -> force8bit st = true ->
  DSV_FORMAT_TYPE (format st') = true /\ copy_line_extended st' = true
  /\ xmin st' = -1 /\ force8bit st' = true.
Proof.
  intros (Ef & Ex & _ & Ec & _ & _ & E8 & _) Hd Hcle Hx H8.
  rewrite Ef, Ex, Ec, E8. auto.
Qed.

(** The token loop and the end of a header row of the extended line copy,
    from any point of the row. *)
Lemma extended_header_walk s : forall t fuel rp hp x field fxpos pend st hc out
    sstop tstop done todo dnames,
  length t = length s -> (length s < fuel)%nat ->
  view rp hc = Ok (s ++ sstop) ->
  view hp hc = Ok (t ++ tstop) ->
  Forall (fun c => c <> 0) s ->
  Forall (fun c => c <> 10 /\ c <> 78) t ->
  (exists r, sstop = 0 :: r) \/ (exists c r r', sstop = c :: r /\ tstop = 10 :: r') ->
  (if is_null field then pend = []
   else pend <> [] /\ view field hc = Ok (pend ++ s ++ sstop)) ->
  Forall (fun c => c <> 0) pend ->
  DSV_FORMAT_TYPE (format st) = true -> copy_line_extended st = true ->
  xmin st = -1 -> force8bit st = true ->
  colnames (ensure_colnames st) = Some (done ++ todo) ->
  colno st = Z.of_nat (length done) ->
  (length (row_cells t s pend) <= length todo)%nat ->
  Forall (fun cell => trimmed cell <> [] /\ has_byte 34 (trimmed cell) = false)
         (row_cells t s pend) ->
  Forall2 (fun p s => cstring p hc = Ok (s, hc)) done dnames ->
  exists st' h',
    (do r <- row_tokens fuel (mkFmtLineIter rp hp true x) field
               (Z.of_nat (length pend)) fxpos true st;
     finish_row true r) (mkMachine hc 0 (mkFILE out None))
    = Ok ((true, st'), mkMachine h' 0 (mkFILE out None))
    /\ captured_as csv_value hc st done todo dnames (row_cells t s pend) st' h'.
Proof.
  induction s as [|c s IH];
    intros t fuel rp hp x field fxpos pend st hc out sstop tstop done todo dnames
           Hlen Hfuel Hr Ht Hnz Hty Hend Hpend Hpnz Hd Hcle Hx H8 Harr Hcol Hroom
           Hcells Hdone.
  - destruct t; [|discriminate]. destruct fuel as [|fuel]; [simpl in Hfuel; lia|].
    cbn [row_tokens]. rewrite bind_assoc.
    assert (Hnext : on_heap (next_char (mkFmtLineIter rp hp true x))
                      (mkMachine hc 0 (mkFILE out None))
                    = Ok ((None, mkFmtLineIter rp hp true x),
                          mkMachine hc 0 (mkFILE out None))).
    { unfold on_heap. cbn [m_heap m_errno m_out].
      rewrite (next_char_end rp hp true x hc _ _ Hr Ht Hend). reflexivity. }
    rewrite (bind_ok _ _ _ _ _ Hnext). cbv beta iota.
    unfold bind at 1. unfold ret at 1. cbv beta iota.
    unfold finish_row. cbn [negb row_cells]. cbn [row_cells app] in Hcells, Hroom.
    destruct (is_null field) eqn:En; cbn [negb].
    + subst pend. exists st, hc. unfold bind at 1. unfold ret at 1. cbv beta iota.
      cbn [negb].
      split; [apply (process_item_extended_other st 78 _ _ _ _ _ _ Hd Hcle);
              discriminate|].
      cbn [flush_cell].
      exact (captured_as_none csv_value hc st done todo dnames Harr Hdone).
    + destruct Hpend as [Hne Hvf].
      assert (Hflush : flush_cell pend = [pend]) by (destruct pend; [congruence|reflexivity]).
      rewrite Hflush in *. destruct (List.Forall_inv Hcells) as [Hnb Hq].
      destruct todo as [|q todo]; [simpl in Hroom; lia|].
      destruct (process_item_extended_header_cell st field pend sstop fxpos hc 0 out
                  done q todo Hd Hcle Hx H8 Hvf) as (blk & Hcell & Hname);
        try assumption.
      { destruct Hend as [[r ->]|(c0 & r & r' & -> & _)]; discriminate. }
      destruct (same_settings_extended _ _
                  (same_settings_captured st (Some (done ++ fresh_ptr hc :: todo))
                     (colno st + 1)) Hd Hcle Hx H8) as (Hd1 & Hcle1 & Hx1 & H81).
      eexists _, _. rewrite (bind_ok _ _ _ _ _ Hcell). cbv beta iota. cbn [negb].
      split; [apply (process_item_extended_other _ 78 _ _ _ _ _ _ Hd1 Hcle1);
              discriminate|].
      destruct (header_cell_next hc st done todo dnames blk _ Hcol Hdone Hname)
        as (Harr1 & Hcol1 & Hdone1).
      apply (captured_as_cons csv_value hc st done q todo dnames pend [] blk _ _ Hname).
      apply captured_as_none; assumption.
  - destruct t as [|ty t]; [discriminate|]. destruct fuel as [|fuel]; [simpl in Hfuel; lia|].
    pose proof (List.Forall_inv Hnz) as Hc.
    pose proof (List.Forall_inv_tail Hnz) as Hnz'.
    destruct (List.Forall_inv Hty) as [Hty10 Hty78].
    pose proof (List.Forall_inv_tail Hty) as Hty'.
    cbn [row_tokens]. rewrite bind_assoc.
    assert (Hnext : on_heap (next_char (mkFmtLineIter rp hp true x))
                      (mkMachine hc 0 (mkFILE out None))
                    = Ok ((Some (rp, ty, 1, 1, x),
                           mkFmtLineIter (ptr_add rp 1) (ptr_add hp 1) true (x + 1)),
                          mkMachine hc 0 (mkFILE out None))).
    { unfold on_heap. cbn [m_heap m_errno m_out].
      rewrite (next_char_step_8bit rp hp x hc c (s ++ sstop) ty (t ++ tstop)
                 Hr Ht Hc Hty10).
      reflexivity. }
    rewrite (bind_ok _ _ _ _ _ Hnext). cbv beta iota.
    assert (Hrp : is_null rp = false) by (destruct rp; [discriminate|reflexivity]).
    cbn [row_cells] in *.
    destruct (Z.eqb_spec ty 100) as [->|Hdt].
    + replace (Z.of_nat (length pend) + 1) with (Z.of_nat (length (pend ++ [c])))
        by (rewrite length_app; simpl; lia).
      apply (IH t fuel (ptr_add rp 1) (ptr_add hp 1) (x + 1)
               (if is_null field then rp else field) x (pend ++ [c]) st hc out
               sstop tstop done todo dnames);
        try assumption.
      * simpl in Hlen. lia.
      * simpl in Hfuel. lia.
      * exact (view_next _ _ _ _ Hr).
      * exact (view_next _ _ _ _ Ht).
      * destruct (is_null field) eqn:En.
        -- rewrite Hrp. subst pend. split; [discriminate|exact Hr].
        -- rewrite En. destruct Hpend as [_ Hvf].
           split; [destruct pend; discriminate|].
           rewrite <- app_assoc. exact Hvf.
      * apply Forall_app. split; [exact Hpnz|]. constructor; [exact Hc|constructor].
    + destruct (is_null field) eqn:En; cbn [negb].
      * subst pend. cbn [flush_cell app] in *.
        unfold bind at 2. unfold ret at 1. cbv beta iota. cbn [negb].
        rewrite bind_assoc.
        rewrite (bind_ok _ _ _ _ _
                   (process_item_extended_other st ty rp 1 x true hc out Hd Hcle Hdt)).
        cbv beta iota. cbn [negb].
        apply (IH t fuel (ptr_add rp 1) (ptr_add hp 1) (x + 1) field fxpos [] st hc out
                 sstop tstop done todo dnames);
          try assumption.
        -- simpl in Hlen. lia.
        -- simpl in Hfuel. lia.
        -- exact (view_next _ _ _ _ Hr).
        -- exact (view_next _ _ _ _ Ht).
        -- rewrite En. reflexivity.
      * destruct Hpend as [Hne Hvf].
        assert (Hflush : flush_cell pend = [pend])
          by (destruct pend; [congruence|reflexivity]).
        rewrite Hflush in *. cbn [app length] in *.
        destruct (List.Forall_inv Hcells) as [Hnb Hq].
        pose proof (List.Forall_inv_tail Hcells) as Hcells'.
        destruct todo as [|q todo]; [simpl in Hroom; lia|].
        destruct (process_item_extended_header_cell st field pend (c :: s ++ sstop) fxpos
                    hc 0 out done q todo Hd Hcle Hx H8 Hvf ltac:(discriminate) Hpnz Hnb Hq
                    Harr Hcol)
          as (blk & Hcell & Hname).
        rewrite bind_assoc. rewrite (bind_ok _ _ _ _ _ Hcell). cbv beta iota. cbn [negb].
        rewrite bind_assoc.
        destruct (same_settings_extended _ _
                    (same_settings_captured st (Some (done ++ fresh_ptr hc :: todo))
                       (colno st + 1)) Hd Hcle Hx H8) as (Hd1 & Hcle1 & Hx1 & H81).
        rewrite (bind_ok _ _ _ _ _
                   (process_item_extended_other _ ty rp 1 x true _ _ Hd1 Hcle1 Hdt)).
        cbv beta iota. cbn [negb].
        destruct (header_cell_next hc st done todo dnames blk _ Hcol Hdone Hname)
          as (Harr1 & Hcol1 & Hdone1).
        destruct (IH t fuel (ptr_add rp 1) (ptr_add hp 1) (x + 1) NULL (-1) []
                    (set_colno (set_colnames (ensure_colnames st)
                                  (Some (done ++ fresh_ptr hc :: todo))) (colno st + 1))
                    (hc ++ [Some blk]) out sstop tstop
                    (done ++ [fresh_ptr hc]) todo
                    (dnames ++ [csv_value (trimmed pend)]))
          as (st' & h' & Hrest & Hcap);
          try assumption;
          try (simpl in Hlen, Hfuel, Hroom; lia);
          try (apply view_app_old;
               first [exact (view_next _ _ _ _ Hr)|exact (view_next _ _ _ _ Ht)]);
          try reflexivity;
          try (constructor; fail).
        exists st', h'. split.
        -- change (Z.of_nat (length (@nil Z))) with 0 in Hrest. exact Hrest.
        -- exact (captured_as_cons csv_value hc st done q todo dnames pend _ blk _ _
                    Hname Hcap).
Qed.

(** The row loop body on a header row of the extended line copy. *)
Lemma export_row_extended_header_layout opts desc l st h out t s todo :
  opt_force8bit opts = true -> force8bit st = true ->
  DSV_FORMAT_TYPE (format st) = true -> copy_line_extended st = true ->
  xmin st = -1 ->
  colnames (ensure_colnames st) = Some todo ->
  row_layout h (rowstr l) (headline_transl desc) t s ->
  Forall (fun cell => trimmed cell <> [] /\ has_byte 34 (trimmed cell) = false)
         (row_cells t s []) ->
  (length (row_cells t s []) <= length todo)%nat ->
  exists st' h',
    export_row opts desc l true st (mkMachine h 0 (mkFILE out None))
    = Ok ((true, st'), mkMachine h' 0 (mkFILE out None))
    /\ captured_as csv_value h (set_colno st 0) [] todo [] (row_cells t s []) st' h'.
Proof.
  intros Ho8 H8 Hd Hcle Hx Harr (sstop & tstop & Hr & Ht & Hlen & Hnz & Hty & Hend)
         Hcells Hroom.
  rewrite export_row_finish_row, Ho8.
  assert (Hfuel : on_heap (row_fuel (rowstr l)) (mkMachine h 0 (mkFILE out None))
                  = Ok (S (length (s ++ sstop)), mkMachine h 0 (mkFILE out None))).
  { unfold on_heap, row_fuel. cbn [m_heap m_errno m_out]. rewrite Hr. reflexivity. }
  rewrite (bind_ok _ _ _ _ _ Hfuel).
  destruct (extended_header_walk s t (S (length (s ++ sstop))) (rowstr l)
              (headline_transl desc) 0 NULL (-1) [] (set_colno st 0) h out sstop tstop
              [] todo [])
    as (st' & h' & Hrun & Hcap); try assumption; try reflexivity;
    try (constructor; fail).
  - rewrite length_app. lia.
  - unfold ensure_colnames in *. cbn [colnames set_colno].
    destruct (colnames st); exact Harr.
  - exists st', h'. split; [|exact Hcap].
    change (Z.of_nat (length (@nil Z))) with 0 in Hrun. exact Hrun.
Qed.

Lemma csv_cell_value esn cell : trimmed cell <> [] -> csv_cell esn cell = csv_value (trimmed cell).
Proof.
  intros Hne. unfold csv_cell, csv_value. destruct (trimmed cell); [congruence|reflexivity].
Qed.

Lemma csv_cell_values esn cells :
  Forall (fun cell => trimmed cell <> [] /\ has_byte 34 (trimmed cell) = false) cells ->
  map (fun cell => csv_value (trimmed cell)) cells = map (csv_cell esn) cells.
Proof.
  induction 1 as [|cell cells [Hne _] _ IH]; [reflexivity|].
  cbn [map]. rewrite IH, (csv_cell_value esn cell Hne). reflexivity.
Qed.

(** X26.  A header row of the extended line copy supplies the column names
    as CSV values and writes nothing.  In force-8-bit mode, without a
    column range, with [errno] clear, in the CSV or TSV format with
    [copy_line_extended] set, with no names captured before and room in the
    name array, [export_row] on a header row whose cells are not blank and
    hold no double quote succeeds, leaves the stream as it was, keeps every
    block of the heap and only appends blocks to it, changes no setting,
    and leaves in the first entries of the name array, in order, the cells
    as CSV values: without the blanks around them, between double quotes
    when they hold a comma, a tab, a CR or a LF.  How many blocks the call
    allocates is not stated: the array of names is one of them in the
    program and is kept outside the heap here. *)
Theorem export_row_extended_header_names opts desc l st h out t s :
  opt_force8bit opts = true -> force8bit st = true ->
  DSV_FORMAT_TYPE (format st) = true -> copy_line_extended st = true ->
  xmin st = -1 -> colnames st = None ->
  row_layout h (rowstr l) (headline_transl desc) t s ->
  row_cells t s [] <> [] ->
  Forall (fun cell => trimmed cell <> [] /\ has_byte 34 (trimmed cell) = false)
         (row_cells t s []) ->
  (length (row_cells t s []) <= Z.to_nat (columns st))%nat ->
  exists st' blocks ps,
    export_row opts desc l true st (mkMachine h 0 (mkFILE out None))
    = Ok ((true, st'), mkMachine (h ++ blocks) 0 (mkFILE out None))
    /\ same_settings st st'
    /\ colno st' = Z.of_nat (length (row_cells t s []))
    /\ colnames st' = Some ps
    /\ Forall2 (fun p s => cstring p (h ++ blocks) = Ok (s, h ++ blocks))
         (take (length (row_cells t s [])) ps)
         (map (csv_cell (empty_string_is_null st)) (row_cells t s [])).
Proof.
  intros Ho8 H8 Hd Hcle Hx Hnone Hrow Hne Hcells Hroom.
  destruct (export_row_extended_header_layout opts desc l st h out t s
              (replicate (Z.to_nat (columns st)) NULL) Ho8 H8 Hd Hcle Hx)
    as (st' & h' & Hrun
        & (blocks & ptrs & -> & _ & _ & _ & Hset & Hno & _ & Harr & Hnn & Hread));
    try assumption.
  - unfold ensure_colnames. rewrite Hnone. reflexivity.
  - rewrite length_replicate. exact Hroom.
  - exists st', blocks, (ptrs ++ drop (length (row_cells t s []))
                                   (replicate (Z.to_nat (columns st)) NULL)).
    split; [exact Hrun|].
    split; [destruct Hset as (E1 & E2 & E3 & E4 & E5 & E6 & E7 & E8);
            repeat split; assumption|].
    split; [exact Hno|].
    split; [exact (Harr (or_intror Hne))|].
    cbn [app] in Hread.
    pose proof (Forall2_length _ _ _ Hread) as Hl. rewrite length_map in Hl.
    rewrite take_app_length' by (symmetry; exact Hl).
    rewrite <- (csv_cell_values (empty_string_is_null st) _ Hcells). exact Hread.
Qed.

End ExtendedHeader.

(** ** The extended line copy from end to end *)

Section ExtendedCopy.
Context `{Collaborators}.

(** The head of the row loop under the plan of the extended line copy. *)
Lemma select_row_extended opts desc cursor_row l m :
  select_row opts desc
    (mkExportPlan (int32 (cursor_row + first_data_row desc))
       (int32 (cursor_row + first_data_row desc)) true false false false)
    cmd_CopyLineExtended cursor_row l m
  = Ok (extended_kind desc cursor_row l, m).
Proof.
  unfold select_row, extended_kind, is_data_row.
  cbn [min_row max_row print_header print_footer print_border print_header_line
       cmd_eqb negb andb].
  destruct ((first_data_row desc <=? rn l) && (rn l <=? last_data_row desc)).
  - destruct (Z.ltb_spec (rn l) (int32 (cursor_row + first_data_row desc))),
      (Z.ltb_spec (int32 (cursor_row + first_data_row desc)) (rn l)),
      (Z.eqb_spec (rn l) (int32 (cursor_row + first_data_row desc)));
      try lia; reflexivity.
  - destruct (rn l =? border_top_row desc); [reflexivity|].
    destruct (rn l =? border_bottom_row desc); [reflexivity|].
    destruct (rn l =? border_head_row desc); [reflexivity|].
    cbn [orb negb andb].
    destruct (negb (footer_row desc =? -1) && (footer_row desc <=? rn l)); reflexivity.
Qed.

(** Lines that the row loop skips leave everything as it is. *)
Lemma export_lines_skip opts desc cursor_row : forall pre ls st m,
  Forall (fun l => extended_kind desc cursor_row l = None) pre ->
  export_lines opts desc
    (mkExportPlan (int32 (cursor_row + first_data_row desc))
       (int32 (cursor_row + first_data_row desc)) true false false false)
    cmd_CopyLineExtended cursor_row (pre ++ ls) st m
  = export_lines opts desc
      (mkExportPlan (int32 (cursor_row + first_data_row desc))
         (int32 (cursor_row + first_data_row desc)) true false false false)
      cmd_CopyLineExtended cursor_row ls st m.
Proof.
  induction pre as [|l pre IH]; intros ls st m Hskip; [reflexivity|].
  cbn [app export_lines].
  rewrite (bind_ok _ _ _ _ _ (select_row_extended opts desc cursor_row l m)).
  rewrite (List.Forall_inv Hskip).
  apply IH. exact (List.Forall_inv_tail Hskip).
Qed.

(** A line that the row loop keeps. *)
Lemma export_lines_keep opts desc cursor_row l ls st m is_colname :
  extended_kind desc cursor_row l = Some is_colname ->
  export_lines opts desc
    (mkExportPlan (int32 (cursor_row + first_data_row desc))
       (int32 (cursor_row + first_data_row desc)) true false false false)
    cmd_CopyLineExtended cursor_row (l :: ls) st m
  = (do '(isok, st') <- export_row opts desc l is_colname st;
     if negb isok then ret (false, st')
     else export_lines opts desc
            (mkExportPlan (int32 (cursor_row + first_data_row desc))
               (int32 (cursor_row + first_data_row desc)) true false false false)
            cmd_CopyLineExtended cursor_row ls st') m.
Proof.
  intros Hkind. cbn [export_lines].
  rewrite (bind_ok _ _ _ _ _ (select_row_extended opts desc cursor_row l m)).
  rewrite Hkind. reflexivity.
Qed.

(** The cleanup frees the blocks of the names. *)
Lemma free_all_app ps qs h :
  free_all (ps ++ qs) h = (free_all ps ;; free_all qs) h.
Proof.
  revert h. induction ps as [|p ps IH]; intros h; [reflexivity|].
  cbn [app free_all]. unfold bind.
  destruct (free p h) as [[[] h1]|f]; [|reflexivity].
  specialize (IH h1). unfold bind in IH. exact IH.
Qed.

Lemma free_all_null k h : free_all (replicate k NULL) h = Ok (tt, h).
Proof. induction k as [|k IH]; [reflexivity|]. cbn [replicate free_all]. exact IH. Qed.

Lemma free_all_run : forall n h t u,
  length t = n -> Forall (fun b => b <> None) t ->
  free_all (fresh_run (length h) n) (h ++ t ++ u) = Ok (tt, h ++ replicate n None ++ u).
Proof.
  induction n as [|n IH]; intros h t u Hlen Hlive.
  - destruct t; [reflexivity|discriminate].
  - destruct t as [|b t]; [discriminate|].
    pose proof (List.Forall_inv Hlive) as Hb.
    pose proof (List.Forall_inv_tail Hlive) as Hlive'.
    destruct b as [blk|]; [|congruence].
    unfold fresh_run. cbn [seq map free_all app replicate].
    unfold bind at 1. unfold free at 1.
    rewrite (list_lookup_middle h (t ++ u) (Some blk) (length h) eq_refl).
    cbn [Z.eqb].
    replace (<[length h:=None]> (h ++ Some blk :: t ++ u)) with ((h ++ [None]) ++ t ++ u).
    + replace (S (length h)) with (length (h ++ [None]))
        by (rewrite length_app; simpl; lia).
      fold (fresh_run (length (h ++ [None])) n).
      rewrite (IH (h ++ [None]) t u ltac:(simpl in Hlen; lia) Hlive').
      rewrite <- app_assoc. reflexivity.
    + rewrite (insert_app_r_alt h) by lia. rewrite Nat.sub_diag.
      rewrite <- app_assoc. reflexivity.
Qed.

(** X27.  The extended line copy of a row under one header row.  In
    force-8-bit mode, with [errno] clear and a stream that takes
    everything, [export_data] for [cmd_CopyLineExtended] in the CSV or TSV
    format, on a table of which the row loop keeps one header row and the
    cursor row, writes one line for each cell of the cursor row: the header
    cell of the column as a CSV value, a comma, the cell as a CSV value.
    The header cells are not blank, no cell holds a double quote, the
    header has a cell for every cell of the row and the name array has room
    for them.  A blank cell of the cursor row is allowed: with
    [empty_string_is_null] on its line is the name and the comma, with it
    off the name, the comma and an empty pair of quotes.  The call returns
    [true], and every block it allocated is freed when it returns. *)
Theorem copy_line_extended_names_and_values opts scrdesc desc cursor_row cursor_column
    rows percent tbl fmt h out pre hl mid dl post th sh td sd :
  DSV_FORMAT_TYPE fmt = true -> opt_force8bit opts = true ->
  lines desc = pre ++ hl :: mid ++ dl :: post ->
  Forall (fun l => extended_kind desc cursor_row l = None) (pre ++ mid ++ post) ->
  extended_kind desc cursor_row hl = Some true ->
  extended_kind desc cursor_row dl = Some false ->
  row_layout h (rowstr hl) (headline_transl desc) th sh ->
  row_layout h (rowstr dl) (headline_transl desc) td sd ->
  row_cells th sh [] <> [] ->
  Forall (fun cell => trimmed cell <> [] /\ has_byte 34 (trimmed cell) = false)
         (row_cells th sh []) ->
  cells_without_quote td sd ->
  (length (row_cells td sd []) <= length (row_cells th sh []))%nat ->
  (length (row_cells th sh []) <= Z.to_nat (desc_columns desc))%nat ->
  exists n,
    export_data opts scrdesc desc cursor_row cursor_column rows percent tbl
      cmd_CopyLineExtended fmt (mkMachine h 0 (mkFILE out None))
    = Ok (true,
          mkMachine (h ++ replicate n None) 0
            (mkFILE (out
                     ++ extended_lines (opt_empty_string_is_null opts)
                          (map (csv_cell (opt_empty_string_is_null opts))
                               (row_cells th sh []))
                          (row_cells td sd [])) None)).
Proof.
  intros Hd Ho8 Hlines Hskip Hhl Hdl Hhrow Hdrow Hne Hnames Hcells Hcount Hroom.
  apply Forall_app in Hskip as [Hpre Hskip].
  apply Forall_app in Hskip as [Hmid Hpost].
  set (esn := opt_empty_string_is_null opts) in *.
  set (st0 := mkExportState fmt (-1) (-1) true NULL (desc_columns desc)
                (opt_force8bit opts) esn 0 None).
  unfold export_data.
  rewrite (bind_ok _ _ _ _ _
             (export_setup_line_extended opts scrdesc desc cursor_row cursor_column rows
                percent tbl fmt (mkMachine h 0 (mkFILE out None)))).
  cbv beta iota. fold esn. fold st0.
  rewrite Hlines.
  (* the header row *)
  destruct (export_row_extended_header_layout opts desc hl st0 h out th sh
              (replicate (Z.to_nat (desc_columns desc)) NULL) Ho8 Ho8 Hd eq_refl eq_refl
              eq_refl Hhrow Hnames)
    as (st1 & h1 & Hrun1
        & (blocks & ptrs & -> & Hlen & Hlive & Hptrs & Hset & Hno & _ & Harr & Hnn
           & Hread)).
  { rewrite length_replicate. exact Hroom. }
  cbn [app] in Harr, Hread.
  specialize (Harr (or_intror Hne)).
  destruct Hset as (Ef & Ex & _ & Ec & Et & Ecols & E8 & Ee).
  cbn [format xmin copy_line_extended table_name columns force8bit empty_string_is_null
       set_colno st0] in Ef, Ex, Ec, Et, Ecols, E8, Ee.
  pose proof (Forall2_length _ _ _ Hread) as Hl. rewrite length_map in Hl.
  (* the cursor row *)
  destruct (export_row_extended_layout opts desc dl st1 (h ++ blocks) out td sd
              (ptrs ++ drop (length (row_cells th sh []))
                         (replicate (Z.to_nat (desc_columns desc)) NULL))
              (take (length (row_cells td sd []))
                 (map (csv_cell esn) (row_cells th sh []))))
    as [n Hrun2].
  { exact Ho8. }
  { rewrite E8. exact Ho8. }
  { rewrite Ef. exact Hd. }
  { exact Ec. }
  { exact Ex. }
  { apply row_layout_app. exact Hdrow. }
  { exact Harr. }
  { rewrite take_app_le by lia.
    apply Forall2_take.
    rewrite <- (csv_cell_values esn _ Hnames). exact Hread. }
  { rewrite length_take, length_map. lia. }
  { exact Hcells. }
  rewrite Ee in Hrun2.
  assert (Hrun : export_lines opts desc
                   (mkExportPlan (int32 (cursor_row + first_data_row desc))
                      (int32 (cursor_row + first_data_row desc)) true false false false)
                   cmd_CopyLineExtended cursor_row (pre ++ hl :: mid ++ dl :: post) st0
                   (mkMachine h 0 (mkFILE out None))
                 = Ok ((true, set_colno st1 (Z.of_nat (length (row_cells td sd [])))),
                       mkMachine ((h ++ blocks) ++ replicate n None) 0
                         (mkFILE (out
                                  ++ extended_lines esn
                                       (take (length (row_cells td sd []))
                                          (map (csv_cell esn) (row_cells th sh [])))
                                       (row_cells td sd [])) None))).
  { rewrite (export_lines_skip opts desc cursor_row pre _ st0 _ Hpre).
    rewrite (export_lines_keep opts desc cursor_row hl _ st0 _ true Hhl).
    rewrite (bind_ok _ _ _ _ _ Hrun1). cbv beta iota. cbn [negb].
    rewrite (export_lines_skip opts desc cursor_row mid _ st1 _ Hmid).
    rewrite (export_lines_keep opts desc cursor_row dl _ st1 _ false Hdl).
    rewrite (bind_ok _ _ _ _ _ Hrun2). cbv beta iota. cbn [negb].
    rewrite <- (app_nil_r post).
    rewrite (export_lines_skip opts desc cursor_row post [] _ _ Hpost).
    reflexivity. }
  rewrite (bind_ok _ _ _ _ _ Hrun). cbv beta iota.
  (* the cleanup *)
  exists (length (row_cells th sh []) + n)%nat.
  unfold export_cleanup. cbn [colnames set_colno columns table_name].
  rewrite Harr, Ecols, Et. cbn [is_null negb andb].
  rewrite take_ge by (rewrite length_app, length_drop, length_replicate; lia).
  unfold bind, on_heap, ret. cbn [m_heap m_errno m_out].
  rewrite free_all_app. unfold bind.
  rewrite Hptrs, <- app_assoc.
  rewrite (free_all_run (length (row_cells th sh [])) h blocks (replicate n None)
             Hlen Hlive).
  rewrite drop_replicate, free_all_null.
  rewrite replicate_add.
  rewrite (take_length_extended_lines esn). reflexivity.
Qed.

End ExtendedCopy.

Lemma export_row_extended_lines_witness :
  let h := [cstr "LdddIddddR"; cstr "| 42| a,b|"; cstr "id"; cstr "txt"] in
  let desc := mkDataDesc 0 0 0 2 [(0, 4); (4, 9)] (Ptr 0 0)
                (-1) (-1) (-1) (-1) (-1) [mkLine (Ptr 1 0) None 0] in
  let st := mkExportState CLIPBOARD_FORMAT_CSV (-1) (-1) true NULL 2 true true 0
              (Some [Ptr 2 0; Ptr 3 0]) in
  exists n,
    export_row (H := example_collaborators) (mkOptions true true false false) desc
      (mkLine (Ptr 1 0) None 0) false st (mkMachine h 0 (mkFILE [] None))
    = Ok ((true, set_colno st 2),
          mkMachine (h ++ replicate n None) 0
            (mkFILE ([] ++ bytes_of_string "id,42" ++ [10] ++ bytes_of_string "txt,"
                     ++ [34] ++ bytes_of_string "a,b" ++ [34; 10]) None)).
Proof.
  intros h desc st.
  apply (export_row_extended_lines (H := example_collaborators)
           (mkOptions true true false false) desc (mkLine (Ptr 1 0) None 0) st
           h [] (bytes_of_string "LdddIddddR") (bytes_of_string "| 42| a,b|")
           [Ptr 2 0; Ptr 3 0] [bytes_of_string "id"; bytes_of_string "txt"]);
    try reflexivity.
  - exists [0], [0].
    split; [reflexivity|]. split; [reflexivity|]. split; [reflexivity|].
    split; [repeat constructor; discriminate|].
    split; [repeat constructor; discriminate|].
    left. exists []. reflexivity.
  - repeat constructor.
  - repeat constructor; discriminate.
Defined.

Lemma export_row_extended_header_names_witness :
  let h := [cstr "LdddIdddddddR"; cstr "| id| my,col|"] in
  let desc := mkDataDesc 0 0 0 2 [(0, 4); (4, 12)] (Ptr 0 0)
                (-1) (-1) (-1) (-1) (-1) [mkLine (Ptr 1 0) None 0] in
  let st := mkExportState CLIPBOARD_FORMAT_CSV (-1) (-1) true NULL 2 true true 0 None in
  exists st' blocks ps,
    export_row (H := example_collaborators) (mkOptions true true false false) desc
      (mkLine (Ptr 1 0) None 0) true st (mkMachine h 0 (mkFILE [] None))
    = Ok ((true, st'), mkMachine (h ++ blocks) 0 (mkFILE [] None))
    /\ same_settings st st'
    /\ colno st' = 2
    /\ colnames st' = Some ps
    /\ Forall2 (fun p s => cstring p (h ++ blocks) = Ok (s, h ++ blocks))
         (take 2 ps)
         [bytes_of_string "id"; [34] ++ bytes_of_string "my,col" ++ [34]].
Proof.
  intros h desc st.
  apply (export_row_extended_header_names (H := example_collaborators)
           (mkOptions true true false false) desc (mkLine (Ptr 1 0) None 0) st
           h [] (bytes_of_string "LdddIdddddddR") (bytes_of_string "| id| my,col|"));
    try reflexivity.
  - exists [0], [0].
    split; [reflexivity|]. split; [reflexivity|]. split; [reflexivity|].
    split; [repeat constructor; discriminate|].
    split; [repeat constructor; discriminate|].
    left. exists []. reflexivity.
  - discriminate.
  - repeat constructor; discriminate.
Defined.

Lemma copy_line_extended_names_and_values_witness :
  let h := [cstr "LdddIddddR"; cstr "+---+----+"; cstr "| id| txt|"; cstr "| 42|    |"] in
  let top := mkLine (Ptr 1 0) None 0 in
  let hl := mkLine (Ptr 2 0) None 1 in
  let under := mkLine (Ptr 1 0) None 2 in
  let dl := mkLine (Ptr 3 0) None 3 in
  let bottom := mkLine (Ptr 1 0) None 4 in
  let desc := mkDataDesc 3 3 4 2 [(0, 4); (4, 9)] (Ptr 0 0) 0 4 2 2 (-1)
                [top; hl; under; dl; bottom] in
  exists n,
    export_data (H := example_collaborators) (mkOptions true true false false)
      (mkScrDesc (-1) 0 (-1) 0) desc 0 1 0 (S754_zero false) NULL
      cmd_CopyLineExtended CLIPBOARD_FORMAT_CSV (mkMachine h 0 (mkFILE [] None))
    = Ok (true,
          mkMachine (h ++ replicate n None) 0
            (mkFILE ([] ++ bytes_of_string "id,42" ++ [10] ++ bytes_of_string "txt,"
                     ++ [10]) None)).
Proof.
  intros h top hl under dl bottom desc.
  apply (copy_line_extended_names_and_values (H := example_collaborators)
           (mkOptions true true false false) (mkScrDesc (-1) 0 (-1) 0) desc 0 1 0
           (S754_zero false) NULL CLIPBOARD_FORMAT_CSV h []
           [top] hl [under] dl [bottom]
           (bytes_of_string "LdddIddddR") (bytes_of_string "| id| txt|")
           (bytes_of_string "LdddIddddR") (bytes_of_string "| 42|    |"));
    try reflexivity.
  - repeat constructor.
  - exists [0], [0].
    split; [reflexivity|]. split; [reflexivity|]. split; [reflexivity|].
    split; [repeat constructor; discriminate|].
    split; [repeat constructor; discriminate|].
    left. exists []. reflexivity.
  - exists [0], [0].
    split; [reflexivity|]. split; [reflexivity|]. split; [reflexivity|].
    split; [repeat constructor; discriminate|].
    split; [repeat constructor; discriminate|].
    left. exists []. reflexivity.
  - discriminate.
  - repeat constructor; discriminate.
  - repeat constructor; discriminate.
Defined.

(** ** A whole table as SQL INSERT statements *)

Section InsertTable.
Context `{Collaborators}.

(** The head of the row loop when all lines are copied in a format other
    than text. *)
Lemma select_row_all_lines_kind opts desc cursor_row l m :
  select_row opts desc
    (mkExportPlan (first_data_row desc) (last_row desc) true false false false)
    cmd_CopyAllLines cursor_row l m
  = Ok (all_lines_kind desc l, m).
Proof.
  unfold select_row, all_lines_kind, is_data_row.
  cbn [min_row max_row print_header print_footer print_border print_header_line
       cmd_eqb negb andb].
  destruct ((first_data_row desc <=? rn l) && (rn l <=? last_data_row desc)) eqn:Ed.
  - apply andb_true_iff in Ed as [E1 _]. apply Z.leb_le in E1.
    replace (rn l <? first_data_row desc) with false by (symmetry; apply Z.ltb_ge; lia).
    cbn [orb].
    destruct (Z.ltb_spec (last_row desc) (rn l)), (Z.leb_spec (rn l) (last_row desc));
      try lia; reflexivity.
  - destruct (rn l =? border_top_row desc); [reflexivity|].
    destruct (rn l =? border_bottom_row desc); [reflexivity|].
    destruct (rn l =? border_head_row desc); [reflexivity|].
    cbn [orb negb andb].
    destruct (negb (footer_row desc =? -1) && (footer_row desc <=? rn l)); reflexivity.
Qed.

(** The table name as [export_data] quotes it, force-8-bit mode. *)
Lemma quote_table_name_8bit opts tbl tn rest h e fp :
  opt_force8bit opts = true ->
  view tbl h = Ok (tn ++ 0 :: rest) -> Forall (fun c => c <> 0) tn -> tn <> [] ->
  exists p blocks,
    quote_table_name opts tbl (mkMachine h e fp) = Ok (p, mkMachine (h ++ blocks) e fp)
    /\ cstring p (h ++ blocks) = Ok (sql_identifier tn, h ++ blocks)
    /\ ((p = tbl /\ blocks = [])
        \/ (p = fresh_ptr h /\ p <> tbl /\ exists blk, blocks = [Some blk])).
Proof.
  intros Ho8 Hv Hnz Hne.
  assert (Hstr : cstring tbl h = Ok (tn, h))
    by (unfold cstring; rewrite Hv, (until_nul_app tn rest Hnz); reflexivity).
  pose proof (quote_sql_identifier_8bit tbl tn (0 :: rest) h Hv ltac:(discriminate)
                Hnz Hne) as Hquote.
  unfold quote_table_name, on_heap, bind, ret. cbn [m_heap m_errno m_out].
  rewrite Hstr. cbn [m_heap m_errno m_out]. rewrite Ho8, Hquote.
  unfold sql_identifier. destruct tn as [|c tn']; [congruence|]. cbn [hd].
  destruct ((c =? 34) || plain_identifier (c :: tn')).
  - exists tbl, []. rewrite app_nil_r. cbn [m_heap m_errno m_out].
    split; [reflexivity|]. split; [exact Hstr|]. left. split; reflexivity.
  - rewrite (quote_wrap_8bit 34 tbl (c :: tn') (0 :: rest) h Hv).
    cbn [m_heap m_errno m_out].
    eexists (fresh_ptr h), [_]. split; [reflexivity|].
    split; [apply cstring_wrapped; [lia|exact Hnz]|].
    right. split; [reflexivity|]. split; [|eexists; reflexivity].
    exact (fresh_ptr_not_valid _ _ _ Hv).
Qed.

(** The rows after the header row, SQL INSERT format. *)
Lemma export_lines_insert_rows opts desc cursor_row tn names :
  forall ls layouts st hc e out,
  opt_force8bit opts = true -> force8bit st = true ->
  format st = CLIPBOARD_FORMAT_INSERT -> xmin st = -1 ->
  cstring (table_name st) hc = Ok (tn, hc) ->
  names_read hc st names ->
  Forall (fun l => all_lines_kind desc l <> Some true) ls ->
  Forall2 (fun l ts => row_layout hc (rowstr l) (headline_transl desc) (fst ts) (snd ts)
                       /\ cells_without_apostrophe (fst ts) (snd ts))
          (kept_rows desc ls) layouts ->
  exists n st',
    export_lines opts desc
      (mkExportPlan (first_data_row desc) (last_row desc) true false false false)
      cmd_CopyAllLines cursor_row ls st (mkMachine hc e (mkFILE out None))
    = Ok ((true, st'),
          mkMachine (hc ++ replicate n None) (match layouts with [] => e | _ => 0 end)
            (mkFILE (out
                     ++ concat (map (fun ts =>
                                       insert_line tn names (empty_string_is_null st)
                                         (fst ts) (snd ts))
                                    layouts)) None))
    /\ colnames st' = colnames st /\ table_name st' = table_name st
    /\ columns st' = columns st.
Proof.
  induction ls as [|l ls IH];
    intros layouts st hc e out Ho8 H8 Hf Hx Htn Hnames Hnohdr Hrows.
  - cbn [kept_rows List.filter] in Hrows. inversion Hrows; subst.
    exists 0%nat, st. cbn [export_lines replicate map concat].
    rewrite !app_nil_r. auto.
  - cbn [export_lines].
    rewrite (bind_ok _ _ _ _ _ (select_row_all_lines_kind opts desc cursor_row l _)).
    pose proof (List.Forall_inv Hnohdr) as Hl.
    pose proof (List.Forall_inv_tail Hnohdr) as Hnohdr'.
    unfold kept_rows in Hrows. cbn [List.filter] in Hrows.
    destruct (all_lines_kind desc l) as [[|]|] eqn:Ek.
    + congruence.
    + rewrite bool_decide_eq_true_2 in Hrows by reflexivity.
      inversion Hrows as [|? [t s] ? layouts' [Hrow Hcells] Hrows']; subst.
      cbn [fst snd] in *.
      destruct (export_row_insert_layout opts desc l st hc e out t s tn names
                  Ho8 H8 Hf Hx Htn Hnames Hrow Hcells) as [n1 Hrun].
      rewrite (bind_ok _ _ _ _ _ Hrun). cbv beta iota. cbn [negb].
      destruct (IH layouts' (set_colno st (Z.of_nat (length (row_cells t s []))))
                  (hc ++ replicate n1 None) 0
                  (out ++ insert_line tn names (empty_string_is_null st) t s)
                  Ho8 H8 Hf Hx)
        as (n2 & st' & Hrest & Hcn & Htn' & Hcols); try assumption.
      { apply cstring_app_old. exact Htn. }
      { apply names_read_app. exact Hnames. }
      { eapply Forall2_impl; [exact Hrows'|].
        intros l0 ts [Hl0 Hc0]. split; [apply row_layout_app; exact Hl0|exact Hc0]. }
      exists (n1 + n2)%nat, st'. split; [|split; [exact Hcn|split; [exact Htn'|exact Hcols]]].
      rewrite Hrest. cbn [format empty_string_is_null set_colno map concat fst snd].
      rewrite replicate_add, <- !app_assoc.
      destruct layouts'; reflexivity.
    + rewrite bool_decide_eq_false_2 in Hrows by discriminate.
      apply (IH layouts st hc e out Ho8 H8 Hf Hx Htn Hnames Hnohdr' Hrows).
Qed.

(** Lines that the row loop skips, and a line that it keeps. *)
Lemma export_lines_all_skip opts desc cursor_row : forall pre ls st m,
  Forall (fun l => all_lines_kind desc l = None) pre ->
  export_lines opts desc
    (mkExportPlan (first_data_row desc) (last_row desc) true false false false)
    cmd_CopyAllLines cursor_row (pre ++ ls) st m
  = export_lines opts desc
      (mkExportPlan (first_data_row desc) (last_row desc) true false false false)
      cmd_CopyAllLines cursor_row ls st m.
Proof.
  induction pre as [|l pre IH]; intros ls st m Hskip; [reflexivity|].
  cbn [app export_lines].
  rewrite (bind_ok _ _ _ _ _ (select_row_all_lines_kind opts desc cursor_row l m)).
  rewrite (List.Forall_inv Hskip).
  apply IH. exact (List.Forall_inv_tail Hskip).
Qed.

Lemma export_lines_all_keep opts desc cursor_row l ls st m is_colname :
  all_lines_kind desc l = Some is_colname ->
  export_lines opts desc
    (mkExportPlan (first_data_row desc) (last_row desc) true false false false)
    cmd_CopyAllLines cursor_row (l :: ls) st m
  = (do '(isok, st') <- export_row opts desc l is_colname st;
     if negb isok then ret (false, st')
     else export_lines opts desc
            (mkExportPlan (first_data_row desc) (last_row desc) true false false false)
            cmd_CopyAllLines cursor_row ls st') m.
Proof.
  intros Hkind. cbn [export_lines].
  rewrite (bind_ok _ _ _ _ _ (select_row_all_lines_kind opts desc cursor_row l m)).
  rewrite Hkind. reflexivity.
Qed.

Lemma free_middle h blk u :
  free (fresh_ptr h) (h ++ Some blk :: u) = Ok (tt, h ++ None :: u).
Proof.
  unfold free, fresh_ptr.
  rewrite (list_lookup_middle h u (Some blk) (length h) eq_refl).
  cbn [Z.eqb]. rewrite (insert_app_r_alt h) by lia. rewrite Nat.sub_diag. reflexivity.
Qed.

(** The names that a header row has left, as the rows after it read
    them. *)
Lemma captured_names_read namef h st cells st' h' k :
  captured_as namef h st [] (replicate k NULL) [] cells st' h' ->
  cells <> [] -> (length cells <= k)%nat -> k = Z.to_nat (columns st) ->
  names_read h' st' (Some (map (fun cell => namef (trimmed cell)) cells)).
Proof.
  intros (t & ptrs & -> & _ & _ & _ & Hset & _ & _ & Harr & Hnn & Hread) Hne Hroom ->.
  cbn [app] in *. unfold names_read. rewrite (Harr (or_intror Hne)).
  destruct Hset as (_ & _ & _ & _ & _ & Ecols & _).
  rewrite Ecols, drop_replicate.
  pose proof (Forall2_length _ _ _ Hread) as Hl. rewrite length_map in Hl.
  rewrite take_ge by (rewrite length_app, length_replicate; lia).
  rewrite (leading_names_filled _ _ Hnn). exact Hread.
Qed.

(** X28.  A whole table as SQL INSERT statements.  In force-8-bit mode,
    with a stream that takes everything, [export_data] for
    [cmd_CopyAllLines] in the terse SQL INSERT format, on a table whose
    first kept line is its one header row, writes nothing for the header
    and one INSERT statement for each data row: the table name as an SQL
    identifier, the header cells as SQL identifiers between parentheses,
    and the cells of the row as SQL values.  The borders, the line under
    the header and the footer are skipped.  The header cells are not
    blank and fit the name array; no cell of a data row holds a single
    quote.  The call returns [true], and every block it allocated (the
    quoted table name, the names, the quoting buffers) is freed when it
    returns. *)
Theorem copy_all_lines_insert opts scrdesc desc cursor_row cursor_column rows percent
    tbl h e out tn rest pre hl ls th sh layouts :
  opt_force8bit opts = true ->
  view tbl h = Ok (tn ++ 0 :: rest) -> Forall (fun c => c <> 0) tn -> tn <> [] ->
  lines desc = pre ++ hl :: ls ->
  Forall (fun l => all_lines_kind desc l = None) pre ->
  all_lines_kind desc hl = Some true ->
  Forall (fun l => all_lines_kind desc l <> Some true) ls ->
  row_layout h (rowstr hl) (headline_transl desc) th sh ->
  row_cells th sh [] <> [] ->
  Forall (fun cell => trimmed cell <> []) (row_cells th sh []) ->
  (length (row_cells th sh []) <= Z.to_nat (desc_columns desc))%nat ->
  Forall2 (fun l ts => row_layout h (rowstr l) (headline_transl desc) (fst ts) (snd ts)
                       /\ cells_without_apostrophe (fst ts) (snd ts))
          (kept_rows desc ls) layouts ->
  exists n,
    export_data opts scrdesc desc cursor_row cursor_column rows percent tbl
      cmd_CopyAllLines CLIPBOARD_FORMAT_INSERT (mkMachine h e (mkFILE out None))
    = Ok (true,
          mkMachine (h ++ replicate n None) 0
            (mkFILE (out
                     ++ concat
                          (map (fun ts =>
                                  insert_line (sql_identifier tn)
                                    (Some (map (fun cell => sql_identifier (trimmed cell))
                                               (row_cells th sh [])))
                                    (opt_empty_string_is_null opts) (fst ts) (snd ts))
                               layouts)) None)).
Proof.
  intros Ho8 Hv Hnz Hne Hlines Hpre Hhl Hnohdr Hhrow Hcne Hnames Hroom Hrows.
  destruct (quote_table_name_8bit opts tbl tn rest h e (mkFILE out None) Ho8 Hv Hnz Hne)
    as (p & tblk & Hquote & Hpstr & Hp).
  set (esn := opt_empty_string_is_null opts) in *.
  set (st0 := mkExportState CLIPBOARD_FORMAT_INSERT (-1) (-1) false p (desc_columns desc)
                (opt_force8bit opts) esn 0 None).
  set (plan := mkExportPlan (first_data_row desc) (last_row desc) true false false false).
  assert (Hsetup :
            export_setup opts scrdesc desc cursor_row cursor_column rows percent tbl
              cmd_CopyAllLines CLIPBOARD_FORMAT_INSERT (mkMachine h e (mkFILE out None))
            = Ok (Some (plan, st0), mkMachine (h ++ tblk) e (mkFILE out None))).
  { unfold export_setup. cbn [cmd_eqb andb orb negb INSERT_FORMAT_TYPE DSV_FORMAT_TYPE].
    rewrite (bind_ok _ _ _ _ _ Hquote). reflexivity. }
  unfold export_data. rewrite (bind_ok _ _ _ _ _ Hsetup). cbv beta iota.
  rewrite Hlines.
  (* the header row *)
  destruct (export_row_header_layout opts desc hl st0 (h ++ tblk) e out th sh
              (replicate (Z.to_nat (desc_columns desc)) NULL) Ho8 Ho8 eq_refl eq_refl
              eq_refl (row_layout_app _ tblk _ _ _ _ Hhrow) Hnames)
    as (st1 & h1 & Hrun1 & Hcap).
  { rewrite length_replicate. exact Hroom. }
  pose proof (captured_names_read sql_identifier (h ++ tblk) (set_colno st0 0)
                _ st1 h1 _ Hcap Hcne Hroom eq_refl) as Hread1.
  destruct Hcap as (blocks & ptrs & -> & Hlen & Hlive & Hptrs & Hset & Hno & _ & Harr
                    & Hnn & Hread).
  cbn [app] in Harr, Hread. specialize (Harr (or_intror Hcne)).
  destruct Hset as (Ef & Ex & _ & Ec & Et & Ecols & E8 & Ee).
  cbn [format xmin copy_line_extended table_name columns force8bit empty_string_is_null
       set_colno st0] in Ef, Ex, Ec, Et, Ecols, E8, Ee.
  (* the data rows *)
  destruct (export_lines_insert_rows opts desc cursor_row (sql_identifier tn)
              (Some (map (fun cell => sql_identifier (trimmed cell)) (row_cells th sh [])))
              ls layouts st1 ((h ++ tblk) ++ blocks) 0 out Ho8)
    as (n & st2 & Hrun2 & Hcn & Htn2 & Hcols2); try assumption.
  { rewrite E8. exact Ho8. }
  { rewrite Et. apply cstring_app_old. exact Hpstr. }
  { eapply Forall2_impl; [exact Hrows|].
    intros l0 ts [Hl0 Hc0]. split; [|exact Hc0].
    rewrite <- app_assoc. apply row_layout_app. exact Hl0. }
  rewrite Ee in Hrun2.
  assert (Hrun : export_lines opts desc plan cmd_CopyAllLines cursor_row
                   (pre ++ hl :: ls) st0 (mkMachine (h ++ tblk) e (mkFILE out None))
                 = Ok ((true, st2),
                       mkMachine (((h ++ tblk) ++ blocks) ++ replicate n None) 0
                         (mkFILE (out
                                  ++ concat
                                       (map (fun ts =>
                                               insert_line (sql_identifier tn)
                                                 (Some (map (fun cell =>
                                                               sql_identifier (trimmed cell))
                                                            (row_cells th sh [])))
                                                 esn (fst ts) (snd ts))
                                            layouts)) None))).
  { rewrite (export_lines_all_skip opts desc cursor_row pre _ st0 _ Hpre).
    rewrite (export_lines_all_keep opts desc cursor_row hl _ st0 _ true Hhl).
    rewrite (bind_ok _ _ _ _ _ Hrun1). cbv beta iota. cbn [negb].
    unfold plan. rewrite Hrun2. destruct layouts; reflexivity. }
  rewrite (bind_ok _ _ _ _ _ Hrun). cbv beta iota.
  (* the cleanup *)
  unfold export_cleanup. rewrite Hcn, Harr, Hcols2, Ecols, Htn2, Et.
  rewrite drop_replicate.
  pose proof (Forall2_length _ _ _ Hread) as Hl. rewrite length_map in Hl.
  rewrite take_ge by (rewrite length_app, length_replicate; lia).
  set (fp := mkFILE (out ++ concat (map (fun ts =>
                                          insert_line (sql_identifier tn)
                                            (Some (map (fun cell =>
                                                          sql_identifier (trimmed cell))
                                                       (row_cells th sh [])))
                                            esn (fst ts) (snd ts)) layouts)) None).
  assert (Hfree : on_heap (free_all (ptrs ++ replicate (Z.to_nat (desc_columns desc)
                                                         - length (row_cells th sh []))
                                               NULL))
                    (mkMachine (((h ++ tblk) ++ blocks) ++ replicate n None) 0 fp)
                  = Ok (tt, mkMachine ((h ++ tblk)
                                        ++ replicate (length (row_cells th sh [])) None
                                        ++ replicate n None) 0 fp)).
  { unfold on_heap. cbn [m_heap m_errno m_out].
    rewrite free_all_app. unfold bind.
    rewrite Hptrs, <- (app_assoc (h ++ tblk)).
    rewrite (free_all_run (length (row_cells th sh [])) (h ++ tblk) blocks
               (replicate n None) Hlen Hlive).
    rewrite free_all_null. reflexivity. }
  rewrite bind_assoc, (bind_ok _ _ _ _ _ Hfree).
  destruct Hp as [[-> ->]|(-> & Hfresh & blk & ->)].
  - rewrite cptr_eqb_refl, andb_false_r. rewrite app_nil_r.
    exists (length (row_cells th sh []) + n)%nat.
    unfold bind, ret. rewrite replicate_add. reflexivity.
  - change (is_null (fresh_ptr h)) with false.
    destruct (cptr_eqb (fresh_ptr h) tbl) eqn:Eq;
      [apply cptr_eqb_eq in Eq; congruence|].
    cbn [negb andb]. unfold bind, ret, on_heap. cbn [m_heap m_errno m_out].
    rewrite <- app_assoc. cbn [app]. rewrite free_middle.
    exists (S (length (row_cells th sh []) + n)).
    cbn [replicate]. rewrite replicate_add. reflexivity.
Qed.

End InsertTable.

Lemma copy_all_lines_insert_witness :
  let h := [cstr "LdddIddR"; cstr "+---+--+"; cstr "| id|nm|"; cstr "|  7|a |";
            cstr "| 12|  |"; cstr "My Table"] in
  let desc := mkDataDesc 3 4 5 2 [(0, 4); (4, 7)] (Ptr 0 0) 0 5 2 1 (-1)
                [mkLine (Ptr 1 0) None 0; mkLine (Ptr 2 0) None 1;
                 mkLine (Ptr 1 0) None 2; mkLine (Ptr 3 0) None 3;
                 mkLine (Ptr 4 0) None 4; mkLine (Ptr 1 0) None 5] in
  exists n,
    export_data (H := example_collaborators) (mkOptions true false false false)
      (mkScrDesc (-1) 0 (-1) 0) desc 0 0 0 (double_of_int 0) (Ptr 5 0)
      cmd_CopyAllLines CLIPBOARD_FORMAT_INSERT (mkMachine h 0 (mkFILE [] None))
    = Ok (true,
          mkMachine (h ++ replicate n None) 0
            (mkFILE ([] ++ bytes_of_string "INSERT INTO " ++ [34]
                     ++ bytes_of_string "My Table" ++ [34]
                     ++ bytes_of_string "(id, nm) VALUES(7, 'a');" ++ [10]
                     ++ bytes_of_string "INSERT INTO " ++ [34]
                     ++ bytes_of_string "My Table" ++ [34]
                     ++ bytes_of_string "(id, nm) VALUES(12, '');" ++ [10]) None)).
Proof.
  intros h desc.
  apply (copy_all_lines_insert (H := example_collaborators)
           (mkOptions true false false false) (mkScrDesc (-1) 0 (-1) 0) desc 0 0 0
           (double_of_int 0) (Ptr 5 0) h 0 [] (bytes_of_string "My Table") []
           [mkLine (Ptr 1 0) None 0] (mkLine (Ptr 2 0) None 1)
           [mkLine (Ptr 1 0) None 2; mkLine (Ptr 3 0) None 3;
            mkLine (Ptr 4 0) None 4; mkLine (Ptr 1 0) None 5]
           (bytes_of_string "LdddIddR") (bytes_of_string "| id|nm|")
           [(bytes_of_string "LdddIddR", bytes_of_string "|  7|a |");
            (bytes_of_string "LdddIddR", bytes_of_string "| 12|  |")]);
    try reflexivity.
  - repeat constructor; discriminate.
  - discriminate.
  - repeat constructor.
  - repeat constructor; discriminate.
  - exists [0], [0].
    split; [reflexivity|]. split; [reflexivity|]. split; [reflexivity|].
    split; [repeat constructor; discriminate|].
    split; [repeat constructor; discriminate|].
    left. exists []. reflexivity.
  - discriminate.
  - repeat constructor; discriminate.
  - unfold kept_rows. cbn [List.filter]. repeat constructor;
      try (exists [0], [0];
           split; [reflexivity|]; split; [reflexivity|]; split; [reflexivity|];
           split; [repeat constructor; discriminate|];
           split; [repeat constructor; discriminate|];
           left; exists []; reflexivity).
Defined.

(** ** Rows in the commented SQL INSERT format *)

Section CommentedRows.
Context `{Collaborators}.

(** What [trim_str] and [quote_sql_literal] make of a cell, force-8-bit
    mode: the value is the cell as an SQL value, and a buffer that was
    allocated for it can be freed. *)
Lemma sql_value_quoted esn field cell rest hc :
  view field hc = Ok (cell ++ rest) -> rest <> [] ->
  Forall (fun c => c <> 0) cell ->
  has_byte 39 (trimmed cell) = false ->
  exists field1 size1 _field size2 h2 n,
    trim_str field (Z.of_nat (length cell)) true hc = Ok ((field1, size1), hc)
    /\ quote_sql_literal field1 size1 true esn hc = Ok ((_field, size2), h2)
    /\ load_bytes _field size2 h2 = Ok (sql_value esn cell, h2)
    /\ (if cptr_eqb _field field1 then hc ++ replicate n None = h2
        else free _field h2 = Ok (tt, hc ++ replicate n None)).
Proof.
  intros Hv Hrest Hnz Hq.
  pose proof (trimmed_Forall _ _ Hnz) as Hnzc.
  destruct (trim_str_trimmed field cell rest hc Hv Hrest)
    as (p & Htrim & [[Hnil ->]|(Hne & Hp & rest' & Hrest' & Hvp)]).
  - unfold sql_value. rewrite Hnil in *.
    destruct esn.
    + exists NULL, 0, (fresh_ptr hc), 4, (hc ++ [cstr "NULL"]), 1%nat.
      split; [exact Htrim|]. split; [reflexivity|].
      split; [apply (load_bytes_take (fresh_ptr hc) _ (bytes_of_string "NULL") [0]);
              apply view_fresh|].
      cbn [fresh_ptr cptr_eqb]. apply free_fresh.
    + exists NULL, 0, (fresh_ptr hc), 2, (hc ++ [Some [39; 39; 0]]), 1%nat.
      split; [exact Htrim|]. split; [reflexivity|].
      split; [apply (load_bytes_take (fresh_ptr hc) _ [39; 39] [0]); apply view_fresh|].
      cbn [fresh_ptr cptr_eqb]. apply free_fresh.
  - set (core := trimmed cell) in *.
    assert (Hval : sql_value esn cell
                   = if bool_decide (core = bytes_of_string "NULL")
                        || bool_decide (core = bytes_of_string "null")
                     then core
                     else if literal_needs_quoting false core then wrapped 39 core
                          else core)
      by (unfold sql_value; fold core; destruct core; [congruence|reflexivity]).
    rewrite Hval.
    assert (Hsame : quote_sql_literal p (Z.of_nat (length core)) true esn hc
                    = Ok ((p, Z.of_nat (length core)), hc) ->
                    exists field1 size1 _field size2 h2 n,
                      trim_str field (Z.of_nat (length cell)) true hc
                      = Ok ((field1, size1), hc)
                      /\ quote_sql_literal field1 size1 true esn hc
                         = Ok ((_field, size2), h2)
                      /\ load_bytes _field size2 h2 = Ok (core, h2)
                      /\ (if cptr_eqb _field field1 then hc ++ replicate n None = h2
                          else free _field h2 = Ok (tt, hc ++ replicate n None))).
    { intros Hlit.
      exists p, (Z.of_nat (length core)), p, (Z.of_nat (length core)), hc, 0%nat.
      split; [exact Htrim|]. split; [exact Hlit|].
      split; [apply (load_bytes_take p hc core rest' Hvp)|].
      rewrite cptr_eqb_refl. simpl replicate. apply app_nil_r. }
    destruct (decide (core = bytes_of_string "NULL")) as [Eu|Eu].
    { rewrite (bool_decide_eq_true_2 _ Eu). cbn [orb].
      apply Hsame. rewrite Eu in *.
      exact (quote_sql_literal_null_text p _ rest' _ _ hc Hvp (or_introl eq_refl)). }
    destruct (decide (core = bytes_of_string "null")) as [El|El].
    { rewrite (bool_decide_eq_true_2 _ El), orb_true_r.
      apply Hsame. rewrite El in *.
      exact (quote_sql_literal_null_text p _ rest' _ _ hc Hvp (or_intror eq_refl)). }
    rewrite (bool_decide_eq_false_2 _ Eu), (bool_decide_eq_false_2 _ El). cbn [orb].
    assert (Hscan : quote_sql_literal p (Z.of_nat (length core)) true esn hc
                    = if literal_needs_quoting false core
                      then quote_wrap 39 true p (Z.of_nat (length core)) hc
                      else Ok ((p, Z.of_nat (length core)), hc)).
    { destruct core as [|c bs] eqn:Ecore; [congruence|].
      apply (quote_sql_literal_scan p bs c rest' true _ hc Hvp Hnzc Eu El).
      - discriminate.
      - intros x _. reflexivity.
      - right. exact Hrest'. }
    destruct (literal_needs_quoting false core) eqn:Eneed.
    + assert (Hw : wrapped 39 core = 39 :: core ++ [39])
        by (unfold wrapped; rewrite (doubled_no_quote 39 core Hq); reflexivity).
      exists p, (Z.of_nat (length core)), (fresh_ptr hc), (Z.of_nat (length core) + 2),
             (hc ++ [Some (buffer_block (length hc)
                             (Z.of_nat (length core) * 2 + 2 + 1)
                             (wrapped 39 core ++ [0]))]), 1%nat.
      split; [exact Htrim|].
      split; [rewrite Hscan; apply (quote_wrap_8bit 39 p core rest' hc Hvp)|].
      split.
      * replace (Z.of_nat (length core) + 2) with (Z.of_nat (length (wrapped 39 core)))
          by (rewrite Hw; simpl; rewrite length_app; simpl; lia).
        apply (load_bytes_take (fresh_ptr hc) _ (wrapped 39 core)
                 ([0] ++ map (heap_junk (length hc))
                           (seqZ (Z.of_nat (length (wrapped 39 core ++ [0])))
                              (Z.of_nat (length core) * 2 + 2 + 1
                               - Z.of_nat (length (wrapped 39 core ++ [0])))))).
        unfold buffer_block. rewrite <- app_assoc. apply view_fresh.
      * destruct (cptr_eqb (fresh_ptr hc) p) eqn:Eq.
        -- apply cptr_eqb_eq in Eq. exfalso.
           exact (fresh_ptr_not_valid _ _ _ Hvp Eq).
        -- apply free_fresh.
    + apply Hsame. exact Hscan.
Qed.

(** The column list of the head. *)
Lemma emit_names_commented_run h e indent n : forall ps ss i out,
  Forall2 (fun p s => cstring p h = Ok (s, h)) ps ss ->
  emit_names_commented indent n i ps (mkMachine h e (mkFILE out None))
  = Ok (tt, mkMachine h e
              (mkFILE (out ++ commented_names (Z.to_nat (Z.abs indent)) n i ss) None)).
Proof.
  intros ps ss i out Hall. revert i out.
  induction Hall as [|p s ps ss Hs _ IH]; intros i out.
  - simpl. rewrite app_nil_r. reflexivity.
  - cbn [emit_names_commented commented_names].
    assert (Hind : (if 0 <? i
                    then write_out (replicate (Z.to_nat (Z.abs indent)) 32)
                    else ret tt) (mkMachine h e (mkFILE out None))
                   = Ok (tt, mkMachine h e
                               (mkFILE (out ++ (if 0 <? i
                                                then replicate (Z.to_nat (Z.abs indent)) 32
                                                else [])) None)))
      by (destruct (0 <? i); [|rewrite app_nil_r]; reflexivity).
    rewrite (bind_ok _ _ _ _ _ Hind).
    rewrite (bind_ok _ _ _ _ _ (fputs_run p s h e _ Hs)).
    rewrite (bind_ok _ _ _ _ _ (write_out_run _ h e _)).
    rewrite IH, <- !app_assoc. reflexivity.
Qed.

(** The head of the statement, commented INSERT format. *)
Lemma emit_insert_head_commented st h e out tn names :
  format st = CLIPBOARD_FORMAT_INSERT_WITH_COMMENTS -> force8bit st = true ->
  cstring (table_name st) h = Ok (tn, h) ->
  names_read h st names ->
  emit_insert_head st (mkMachine h e (mkFILE out None))
  = Ok (tt, mkMachine h 0 (mkFILE (out ++ commented_head tn names) None)).
Proof.
  intros Hf H8 Htn Hnames. unfold emit_insert_head, commented_head. rewrite Hf, H8.
  cbn [format_eqb]. unfold fputs_lit, fputc.
  unfold bind at 1. unfold set_errno at 1. cbn [m_heap m_errno m_out].
  rewrite (bind_ok _ _ _ _ _ (write_out_run _ h 0 out)).
  rewrite (bind_ok _ _ _ _ _ (fputs_run _ tn h 0 _ Htn)).
  unfold names_read in Hnames.
  destruct (colnames st) as [ps|], names as [ss|]; try contradiction.
  - rewrite !bind_assoc.
    rewrite (bind_ok _ _ _ _ _ (write_out_run _ h 0 _)).
    rewrite !bind_assoc.
    assert (Hstr : on_heap (cstring (table_name st))
                     (mkMachine h 0 (mkFILE ((out ++ bytes_of_string "INSERT INTO " ++ tn)
                                             ++ [40]) None))
                   = Ok (tn, mkMachine h 0
                               (mkFILE ((out ++ bytes_of_string "INSERT INTO " ++ tn)
                                        ++ [40]) None)))
      by (unfold on_heap; cbn [m_heap m_errno m_out]; rewrite Htn; reflexivity).
    rewrite <- !app_assoc in Hstr. rewrite <- !app_assoc.
    rewrite (bind_ok _ _ _ _ _ Hstr).
    pose proof (Forall2_length _ _ _ Hnames) as Hl.
    rewrite (bind_ok _ _ _ _ _
               (emit_names_commented_run h 0 _ _ _ ss 0 _ Hnames)).
    rewrite write_out_run, <- !app_assoc. rewrite Hl.
    replace (Z.to_nat (Z.abs (Z.of_nat (length tn) + 1 + 12))) with (length tn + 13)%nat
      by lia.
    reflexivity.
  - unfold bind at 1. unfold ret at 1.
    rewrite write_out_run, <- !app_assoc. reflexivity.
Qed.

(** A captured name by its number. *)
Lemma leading_names_lookup : forall l i p,
  leading_names l !! i = Some p -> l !! i = Some p.
Proof.
  induction l as [|q l IH]; intros i p; cbn [leading_names]; [discriminate|].
  destruct (is_null q); [discriminate|].
  destruct i as [|i]; cbn; [auto|apply IH].
Qed.

Lemma names_read_lookup h st names i :
  names_read h st (Some names) -> 0 <= i < Z.of_nat (length names) ->
  exists p, colname_at st i = Ok p
            /\ cstring p h = Ok (nth (Z.to_nat i) names [], h).
Proof.
  unfold names_read. destruct (colnames st) as [ps|] eqn:Eps; [|contradiction].
  intros Hall Hi.
  destruct (lookup_lt_is_Some_2 names (Z.to_nat i) ltac:(lia)) as [s Hs].
  destruct (Forall2_lookup_r _ _ _ _ _ Hall Hs) as (p & Hp & Hstr).
  exists p. split.
  - unfold colname_at, lookupZ. rewrite Eps.
    replace (i <? 0) with false by (symmetry; apply Z.ltb_ge; lia).
    apply leading_names_lookup in Hp. apply lookup_take_Some in Hp as [Hp _].
    rewrite Hp. reflexivity.
  - rewrite (nth_lookup_Some _ _ [] _ Hs). exact Hstr.
Qed.

Lemma emit_column_comment_run st lead h e out p name :
  colname_at st (colno st - 1) = Ok p -> cstring p h = Ok (name, h) ->
  emit_column_comment st lead (mkMachine h e (mkFILE out None))
  = Ok (tt, mkMachine h e (mkFILE (out ++ column_comment lead (colno st) name) None)).
Proof.
  intros Hat Hname. unfold emit_column_comment, column_comment, bind, lift_res, on_heap.
  rewrite Hat. cbn [m_heap m_errno m_out]. rewrite Hname. reflexivity.
Qed.

(** One cell of a data row in the commented INSERT format, force-8-bit
    mode. *)
Lemma process_item_commented_cell st field cell rest xpos hc e out tn names :
  format st = CLIPBOARD_FORMAT_INSERT_WITH_COMMENTS -> xmin st = -1 ->
  force8bit st = true ->
  cstring (table_name st) hc = Ok (tn, hc) ->
  names_read hc st (Some names) ->
  0 <= colno st <= Z.of_nat (length names) ->
  view field hc = Ok (cell ++ rest) -> rest <> [] ->
  Forall (fun c => c <> 0) cell ->
  has_byte 39 (trimmed cell) = false ->
  exists n,
    process_item st 100 field (Z.of_nat (length cell)) xpos false
      (mkMachine hc e (mkFILE out None))
    = Ok ((true, set_colno st (colno st + 1)),
          mkMachine (hc ++ replicate n None) 0
            (mkFILE (out ++ commented_prefix tn names (colno st)
                     ++ sql_value (empty_string_is_null st) cell) None)).
Proof.
  intros Hf Hx H8 Htn Hnames Hk Hv Hrest Hnz Hq.
  destruct (sql_value_quoted (empty_string_is_null st) field cell rest hc Hv Hrest Hnz Hq)
    as (field1 & size1 & _field & size2 & h2 & n & Htrim & Hquote & Hload & Hfree).
  exists n.
  unfold process_item, process_item_insert, outside_range.
  rewrite Hf, Hx, H8. cbn [INSERT_FORMAT_TYPE format_eqb Z.eqb Pos.eqb negb andb].
  unfold bind at 1. unfold set_errno at 1. cbn [m_heap m_errno m_out].
  assert (Hpre : ((if colno st =? 0 then emit_insert_head st else ret tt) ;;
                  (if 0 <? colno st
                   then emit_column_comment st [44] ;; fputs_lit "          "
                   else ret tt))
                   (mkMachine hc 0 (mkFILE out None))
                 = Ok (tt, mkMachine hc 0
                             (mkFILE (out ++ commented_prefix tn names (colno st)) None))).
  { unfold commented_prefix.
    destruct (Z.eqb_spec (colno st) 0) as [E0|E0].
    - rewrite (bind_ok _ _ _ _ _
                 (emit_insert_head_commented st hc 0 out tn (Some names) Hf H8 Htn Hnames)).
      rewrite E0. reflexivity.
    - unfold bind at 1. unfold ret at 1.
      replace (0 <? colno st) with true by (symmetry; apply Z.ltb_lt; lia).
      destruct (names_read_lookup hc st names (colno st - 1) Hnames ltac:(lia))
        as (p & Hat & Hname).
      rewrite (bind_ok _ _ _ _ _ (emit_column_comment_run st [44] hc 0 out p _ Hat Hname)).
      unfold fputs_lit. rewrite write_out_run, <- app_assoc. reflexivity. }
  rewrite <- bind_assoc, (bind_ok _ _ _ _ _ Hpre).
  set (out2 := out ++ commented_prefix tn names (colno st)).
  assert (Ht' : on_heap (trim_str field (Z.of_nat (length cell)) true)
                  (mkMachine hc 0 (mkFILE out2 None))
                = Ok ((field1, size1), mkMachine hc 0 (mkFILE out2 None)))
    by (unfold on_heap; cbn [m_heap m_errno m_out]; rewrite Htrim; reflexivity).
  rewrite (bind_ok _ _ _ _ _ Ht'). cbv beta iota.
  assert (Hq' : on_heap (quote_sql_literal field1 size1 true (empty_string_is_null st))
                  (mkMachine hc 0 (mkFILE out2 None))
                = Ok ((_field, size2), mkMachine h2 0 (mkFILE out2 None)))
    by (unfold on_heap; cbn [m_heap m_errno m_out]; rewrite Hquote; reflexivity).
  rewrite (bind_ok _ _ _ _ _ Hq'). cbv beta iota.
  unfold bind, fwrite, bind, on_heap, write_out, finish, bind, get_errno, ret.
  cbn [m_heap m_errno m_out f_room f_bytes]. rewrite Hload.
  cbn [m_heap m_errno m_out f_room f_bytes].
  destruct (cptr_eqb _field field1); cbn [negb m_heap m_errno m_out f_room f_bytes];
    [subst h2|rewrite Hfree; cbn [m_heap m_errno m_out f_room f_bytes]];
    unfold out2; rewrite <- !app_assoc; reflexivity.
Qed.

(** The end of a data row in the commented INSERT format. *)
Lemma process_item_commented_end st field size xpos h e out names :
  format st = CLIPBOARD_FORMAT_INSERT_WITH_COMMENTS ->
  names_read h st (Some names) ->
  0 < colno st <= Z.of_nat (length names) ->
  process_item st 78 field size xpos false (mkMachine h e (mkFILE out None))
  = Ok ((true, st),
        mkMachine h 0
          (mkFILE (out ++ column_comment (bytes_of_string ");") (colno st)
                            (nth (Z.to_nat (colno st - 1)) names [])) None)).
Proof.
  intros Hf Hnames Hk. unfold process_item, process_item_insert. rewrite Hf.
  cbn [INSERT_FORMAT_TYPE format_eqb Z.eqb Pos.eqb negb andb].
  unfold bind at 1. unfold set_errno at 1. cbn [m_heap m_errno m_out].
  destruct (names_read_lookup h st names (colno st - 1) Hnames ltac:(lia))
    as (p & Hat & Hname).
  rewrite (bind_ok _ _ _ _ _ (emit_column_comment_run st _ h 0 out p _ Hat Hname)).
  reflexivity.
Qed.

(** The token loop and the end of a data row in the commented INSERT
    format, from any point of the row. *)
Lemma commented_row_walk tn names s : forall t fuel rp hp x field fxpos pend st hc e out
    sstop tstop,
  length t = length s -> (length s < fuel)%nat ->
  view rp hc = Ok (s ++ sstop) ->
  view hp hc = Ok (t ++ tstop) ->
  Forall (fun c => c <> 0) s ->
  Forall (fun c => c <> 10 /\ c <> 78) t ->
  (exists r, sstop = 0 :: r) \/ (exists c r r', sstop = c :: r /\ tstop = 10 :: r') ->
  (if is_null field then pend = []
   else pend <> [] /\ view field hc = Ok (pend ++ s ++ sstop)) ->
  Forall (fun c => c <> 0) pend ->
  format st = CLIPBOARD_FORMAT_INSERT_WITH_COMMENTS -> xmin st = -1 ->
  force8bit st = true ->
  cstring (table_name st) hc = Ok (tn, hc) ->
  names_read hc st (Some names) ->
  0 <= colno st ->
  colno st + Z.of_nat (length (row_cells t s pend)) <= Z.of_nat (length names) ->
  0 < colno st + Z.of_nat (length (row_cells t s pend)) ->
  Forall (fun cell => has_byte 39 (trimmed cell) = false) (row_cells t s pend) ->
  exists n,
    (do r <- row_tokens fuel (mkFmtLineIter rp hp true x) field
               (Z.of_nat (length pend)) fxpos false st;
     finish_row false r) (mkMachine hc e (mkFILE out None))
    = Ok ((true, set_colno st (colno st + Z.of_nat (length (row_cells t s pend)))),
          mkMachine (hc ++ replicate n None) 0
            (mkFILE (out
                     ++ commented_fields (commented_head tn (Some names)) (colno st) names
                          (map (sql_value (empty_string_is_null st)) (row_cells t s pend))
                     ++ column_comment (bytes_of_string ");")
                          (colno st + Z.of_nat (length (row_cells t s pend)))
                          (nth (Z.to_nat (colno st + Z.of_nat (length (row_cells t s pend))
                                          - 1)) names [])) None)).
Proof.
  induction s as [|c s IH];
    intros t fuel rp hp x field fxpos pend st hc e out sstop tstop
           Hlen Hfuel Hr Ht Hnz Hty Hend Hpend Hpnz Hf Hx H8 Htn Hnames Hk0 Hkn Hk1 Hcells.
  - destruct t; [|discriminate]. destruct fuel as [|fuel]; [simpl in Hfuel; lia|].
    cbn [row_tokens]. rewrite bind_assoc.
    assert (Hnext : on_heap (next_char (mkFmtLineIter rp hp true x))
                      (mkMachine hc e (mkFILE out None))
                    = Ok ((None, mkFmtLineIter rp hp true x),
                          mkMachine hc e (mkFILE out None))).
    { unfold on_heap. cbn [m_heap m_errno m_out].
      rewrite (next_char_end rp hp true x hc _ _ Hr Ht Hend). reflexivity. }
    rewrite (bind_ok _ _ _ _ _ Hnext). cbv beta iota.
    unfold bind at 1. unfold ret at 1. cbv beta iota.
    unfold finish_row. cbn [negb row_cells]. cbn [row_cells app] in Hcells, Hkn, Hk1.
    destruct (is_null field) eqn:En; cbn [negb].
    + subst pend. exists 0%nat. unfold bind at 1. unfold ret at 1. cbv beta iota.
      cbn [negb]. cbn [flush_cell length] in *.
      rewrite (process_item_commented_end st _ _ _ _ _ _ names Hf Hnames) by lia.
      cbn [map commented_fields app replicate].
      rewrite Z.add_0_r, set_colno_colno, app_nil_r. reflexivity.
    + destruct Hpend as [Hne Hvf].
      assert (Hflush : flush_cell pend = [pend]) by (destruct pend; [congruence|reflexivity]).
      rewrite Hflush in *. cbn [length] in *.
      pose proof (List.Forall_inv Hcells) as Hq. cbv beta in Hq.
      destruct (process_item_commented_cell st field pend sstop fxpos hc e out tn names
                  Hf Hx H8 Htn Hnames ltac:(lia) Hvf) as [n Hcell]; [|exact Hpnz|exact Hq|].
      { destruct Hend as [[r ->]|(c0 & r & r' & -> & _)]; discriminate. }
      exists n. rewrite (bind_ok _ _ _ _ _ Hcell). cbv beta iota. cbn [negb].
      rewrite (process_item_commented_end (set_colno st (colno st + 1)) _ _ _ _ _ _ names
                 Hf (names_read_app _ _ _ _ Hnames))
        by (cbn [colno set_colno]; lia).
      cbn [map commented_fields colno set_colno]. unfold commented_prefix.
      rewrite app_nil_r, <- !app_assoc. reflexivity.
  - destruct t as [|ty t]; [discriminate|]. destruct fuel as [|fuel]; [simpl in Hfuel; lia|].
    pose proof (List.Forall_inv Hnz) as Hc.
    pose proof (List.Forall_inv_tail Hnz) as Hnz'.
    destruct (List.Forall_inv Hty) as [Hty10 Hty78].
    pose proof (List.Forall_inv_tail Hty) as Hty'.
    cbn [row_tokens]. rewrite bind_assoc.
    assert (Hnext : on_heap (next_char (mkFmtLineIter rp hp true x))
                      (mkMachine hc e (mkFILE out None))
                    = Ok ((Some (rp, ty, 1, 1, x),
                           mkFmtLineIter (ptr_add rp 1) (ptr_add hp 1) true (x + 1)),
                          mkMachine hc e (mkFILE out None))).
    { unfold on_heap. cbn [m_heap m_errno m_out].
      rewrite (next_char_step_8bit rp hp x hc c (s ++ sstop) ty (t ++ tstop)
                 Hr Ht Hc Hty10).
      reflexivity. }
    rewrite (bind_ok _ _ _ _ _ Hnext). cbv beta iota.
    assert (Hrp : is_null rp = false) by (destruct rp; [discriminate|reflexivity]).
    assert (Hi : INSERT_FORMAT_TYPE (format st) = true) by (rewrite Hf; reflexivity).
    cbn [row_cells] in *.
    destruct (Z.eqb_spec ty 100) as [->|Hdt].
    + replace (Z.of_nat (length pend) + 1) with (Z.of_nat (length (pend ++ [c])))
        by (rewrite length_app; simpl; lia).
      apply (IH t fuel (ptr_add rp 1) (ptr_add hp 1) (x + 1)
               (if is_null field then rp else field) x (pend ++ [c]) st hc e out
               sstop tstop);
        try assumption.
      * simpl in Hlen. lia.
      * simpl in Hfuel. lia.
      * exact (view_next _ _ _ _ Hr).
      * exact (view_next _ _ _ _ Ht).
      * destruct (is_null field) eqn:En.
        -- rewrite Hrp. subst pend. split; [discriminate|exact Hr].
        -- rewrite En. destruct Hpend as [_ Hvf].
           split; [destruct pend; discriminate|].
           rewrite <- app_assoc. exact Hvf.
      * apply Forall_app. split; [exact Hpnz|]. constructor; [exact Hc|constructor].
    + destruct (is_null field) eqn:En; cbn [negb].
      * subst pend. cbn [flush_cell app] in *.
        unfold bind at 2. unfold ret at 1. cbv beta iota. cbn [negb].
        rewrite bind_assoc.
        rewrite (bind_ok _ _ _ _ _
                   (process_item_insert_other st ty rp 1 x hc e out Hi Hty78 Hdt)).
        cbv beta iota. cbn [negb].
        apply (IH t fuel (ptr_add rp 1) (ptr_add hp 1) (x + 1) field fxpos [] st hc 0 out
                 sstop tstop);
          try assumption.
        -- simpl in Hlen. lia.
        -- simpl in Hfuel. lia.
        -- exact (view_next _ _ _ _ Hr).
        -- exact (view_next _ _ _ _ Ht).
        -- rewrite En. reflexivity.
      * destruct Hpend as [Hne Hvf].
        assert (Hflush : flush_cell pend = [pend])
          by (destruct pend; [congruence|reflexivity]).
        rewrite Hflush in *. cbn [app length] in *.
        pose proof (List.Forall_inv Hcells) as Hq. cbv beta in Hq.
        pose proof (List.Forall_inv_tail Hcells) as Hcells'.
        destruct (process_item_commented_cell st field pend (c :: s ++ sstop) fxpos hc e
                    out tn names Hf Hx H8 Htn Hnames ltac:(lia) Hvf ltac:(discriminate)
                    Hpnz Hq)
          as [n1 Hcell].
        rewrite bind_assoc. rewrite (bind_ok _ _ _ _ _ Hcell). cbv beta iota. cbn [negb].
        rewrite bind_assoc.
        rewrite (bind_ok _ _ _ _ _
                   (process_item_insert_other (set_colno st (colno st + 1)) ty rp 1 x
                      _ _ _ Hi Hty78 Hdt)).
        cbv beta iota. cbn [negb].
        destruct (IH t fuel (ptr_add rp 1) (ptr_add hp 1) (x + 1) NULL (-1) []
                    (set_colno st (colno st + 1)) (hc ++ replicate n1 None) 0
                    (out ++ commented_prefix tn names (colno st)
                     ++ sql_value (empty_string_is_null st) pend)
                    sstop tstop) as [n2 Hrest];
          try assumption; try reflexivity; try (constructor; fail);
          try (cbn [colno set_colno]; simpl in Hlen, Hfuel; lia).
        -- apply view_app_old. exact (view_next _ _ _ _ Hr).
        -- apply view_app_old. exact (view_next _ _ _ _ Ht).
        -- apply cstring_app_old. exact Htn.
        -- apply (names_read_app hc _ st (Some names) Hnames).
        -- exists (n1 + n2)%nat.
           change (Z.of_nat (length (@nil Z))) with 0 in Hrest.
           rewrite Hrest. cbn [format colno empty_string_is_null set_colno
                               length map commented_fields].
           unfold commented_prefix.
           rewrite replicate_add, <- !app_assoc.
           replace (colno st + 1 + Z.of_nat (length (row_cells t s [])))
             with (colno st + Z.of_nat (S (length (row_cells t s [])))) by lia.
           reflexivity.
Qed.

(** The row loop body on a data row in the commented INSERT format. *)
Lemma export_row_commented_layout opts desc l st h e out t s tn names :
  opt_force8bit opts = true -> force8bit st = true ->
  format st = CLIPBOARD_FORMAT_INSERT_WITH_COMMENTS -> xmin st = -1 ->
  cstring (table_name st) h = Ok (tn, h) ->
  names_read h st (Some names) ->
  row_layout h (rowstr l) (headline_transl desc) t s ->
  cells_without_apostrophe t s ->
  row_cells t s [] <> [] ->
  (length (row_cells t s []) <= length names)%nat ->
  exists n,
    export_row opts desc l false st (mkMachine h e (mkFILE out None))
    = Ok ((true, set_colno st (Z.of_nat (length (row_cells t s [])))),
          mkMachine (h ++ replicate n None) 0
            (mkFILE (out ++ commented_line tn names (empty_string_is_null st) t s) None)).
Proof.
  intros Ho8 H8 Hf Hx Htn Hnames (sstop & tstop & Hr & Ht & Hlen & Hnz & Hty & Hend)
         Hcells Hne Hcount.
  rewrite export_row_finish_row, Ho8.
  assert (Hfuel : on_heap (row_fuel (rowstr l)) (mkMachine h e (mkFILE out None))
                  = Ok (S (length (s ++ sstop)), mkMachine h e (mkFILE out None))).
  { unfold on_heap, row_fuel. cbn [m_heap m_errno m_out]. rewrite Hr. reflexivity. }
  rewrite (bind_ok _ _ _ _ _ Hfuel).
  assert (Hpos : (0 < length (row_cells t s []))%nat)
    by (destruct (row_cells t s []); [congruence|simpl; lia]).
  destruct (commented_row_walk tn names s t (S (length (s ++ sstop))) (rowstr l)
              (headline_transl desc) 0 NULL (-1) [] (set_colno st 0) h e out sstop tstop)
    as [n Hrun]; try assumption; try reflexivity; try (constructor; fail);
    try (cbn [colno set_colno]; lia).
  - rewrite length_app. lia.
  - exists n. change (Z.of_nat (length (@nil Z))) with 0 in Hrun. rewrite Hrun.
    unfold commented_line. cbn [format colno empty_string_is_null set_colno].
    rewrite !Z.add_0_l, <- ?app_assoc.
    replace (Z.to_nat (Z.of_nat (length (row_cells t s [])) - 1))
      with (length (row_cells t s []) - 1)%nat by lia.
    reflexivity.
Qed.

(** X29.  A data row in the commented SQL INSERT format.  In force-8-bit
    mode, without a column range and with a stream that takes everything,
    [export_row] writes for a data row with at least one cell, none of
    whose trimmed cells holds a single quote, and with a captured name for
    every cell: INSERT INTO, the table name, an opening parenthesis and the
    captured names one on a line, each followed by a comma (the last by the
    closing parenthesis), two tabs and a comment with its number, the names
    after the first indented by the length of the table name plus 13; then
    VALUES and the cells as SQL values one on a line, each followed by a
    comma (the last by the closing parenthesis and a semicolon), two tabs
    and a comment with the number and the name of its column, the values
    after the first indented by ten blanks.  Every buffer allocated is
    freed again. *)
Theorem export_row_commented_statement opts desc l st h e out t s tn names :
  opt_force8bit opts = true -> force8bit st = true ->
  format st = CLIPBOARD_FORMAT_INSERT_WITH_COMMENTS -> xmin st = -1 ->
  cstring (table_name st) h = Ok (tn, h) ->
  names_read h st (Some names) ->
  row_layout h (rowstr l) (headline_transl desc) t s ->
  cells_without_apostrophe t s ->
  row_cells t s [] <> [] ->
  (length (row_cells t s []) <= length names)%nat ->
  exists n,
    export_row opts desc l false st (mkMachine h e (mkFILE out None))
    = Ok ((true, set_colno st (Z.of_nat (length (row_cells t s [])))),
          mkMachine (h ++ replicate n None) 0
            (mkFILE (out ++ commented_line tn names (empty_string_is_null st) t s) None)).
Proof.
  intros Ho8 H8 Hf Hx Htn Hnames Hrow Hcells Hne Hcount.
  exact (export_row_commented_layout opts desc l st h e out t s tn names
           Ho8 H8 Hf Hx Htn Hnames Hrow Hcells Hne Hcount).
Qed.

End CommentedRows.

Lemma export_row_commented_statement_witness :
  let h := [cstr "LdddIddddddIddR"; cstr "| 42| it is|  |"; cstr "t"; cstr "id"; cstr "txt";
            cstr "n"] in
  let desc := mkDataDesc 0 0 0 3 [(0, 4); (4, 11); (11, 14)] (Ptr 0 0)
                (-1) (-1) (-1) (-1) (-1) [mkLine (Ptr 1 0) None 0] in
  let st := mkExportState CLIPBOARD_FORMAT_INSERT_WITH_COMMENTS (-1) (-1) false (Ptr 2 0)
              3 true true 0 (Some [Ptr 3 0; Ptr 4 0; Ptr 5 0]) in
  exists n,
    export_row (H := example_collaborators) (mkOptions true true false false) desc
      (mkLine (Ptr 1 0) None 0) false st (mkMachine h 0 (mkFILE [] None))
    = Ok ((true, set_colno st 3),
          mkMachine (h ++ replicate n None) 0
            (mkFILE ([] ++ bytes_of_string "INSERT INTO t(id," ++ [9; 9]
                     ++ bytes_of_string " -- 1." ++ [10]
                     ++ replicate 14 32 ++ bytes_of_string "txt," ++ [9; 9]
                     ++ bytes_of_string " -- 2." ++ [10]
                     ++ replicate 14 32 ++ bytes_of_string "n)" ++ [9; 9]
                     ++ bytes_of_string " -- 3." ++ [10]
                     ++ bytes_of_string "   VALUES(42," ++ [9; 9]
                     ++ bytes_of_string " -- 1. id" ++ [10]
                     ++ replicate 10 32 ++ bytes_of_string "'it is'," ++ [9; 9]
                     ++ bytes_of_string " -- 2. txt" ++ [10]
                     ++ replicate 10 32 ++ bytes_of_string "NULL);" ++ [9; 9]
                     ++ bytes_of_string " -- 3. n" ++ [10]) None)).
Proof.
  intros h desc st.
  apply (export_row_commented_statement (H := example_collaborators)
           (mkOptions true true false false) desc (mkLine (Ptr 1 0) None 0) st
           h 0 [] (bytes_of_string "LdddIddddddIddR") (bytes_of_string "| 42| it is|  |")
           (bytes_of_string "t")
           [bytes_of_string "id"; bytes_of_string "txt"; bytes_of_string "n"]);
    try reflexivity.
  - repeat constructor.
  - exists [0], [0].
    split; [reflexivity|]. split; [reflexivity|]. split; [reflexivity|].
    split; [repeat constructor; discriminate|].
    split; [repeat constructor; discriminate|].
    left. exists []. reflexivity.
  - repeat constructor.
  - discriminate.
Defined.

(** ** A stale [errno] *)

Section StaleErrno.
Context `{Collaborators}.

(** The SQL INSERT formats and the text format clear [errno] before
    anything else. *)
Lemma process_item_clears_errno st typ field size xpos is_colname h e1 e2 fp :
  INSERT_FORMAT_TYPE (format st) = true \/ format st = CLIPBOARD_FORMAT_TEXT ->
  process_item st typ field size xpos is_colname (mkMachine h e1 fp)
  = process_item st typ field size xpos is_colname (mkMachine h e2 fp).
Proof.
  intros [Hi|Ht]; unfold process_item.
  - rewrite Hi. unfold process_item_insert. reflexivity.
  - rewrite Ht. cbn [INSERT_FORMAT_TYPE format_eqb]. unfold process_item_text.
    reflexivity.
Qed.

(** A token that is neither data nor the end of the row, CSV and TSV
    formats, with [errno] set. *)
Lemma process_item_dsv_stale st typ field size xpos is_colname h e fp :
  DSV_FORMAT_TYPE (format st) = true -> typ <> 78 -> typ <> 100 -> e <> 0 ->
  process_item st typ field size xpos is_colname (mkMachine h e fp)
  = Ok ((false, st), mkMachine h e fp).
Proof.
  intros Hd H78 H100 He. unfold process_item, process_item_dsv.
  replace (INSERT_FORMAT_TYPE (format st)) with false
    by (destruct (format st); try discriminate; reflexivity).
  replace (format_eqb (format st) CLIPBOARD_FORMAT_TEXT) with false
    by (destruct (format st); try discriminate; reflexivity).
  rewrite Hd.
  replace (typ =? 78) with false by (symmetry; apply Z.eqb_neq; exact H78).
  replace (typ =? 100) with false by (symmetry; apply Z.eqb_neq; exact H100).
  cbn [andb]. unfold finish, bind, get_errno, ret. cbn [m_errno].
  replace (e =? 0) with false by (symmetry; apply Z.eqb_neq; exact He).
  reflexivity.
Qed.

(** X30.  A stale [errno] fails an export in the CSV and TSV formats, and
    only there.  [process_item] tests [errno] when it returns, but in the
    CSV and TSV formats it clears it only on the paths that write: a token
    that is neither data nor the end of the row leaves it as it was.  So
    when [errno] is not 0 on entry and the row starts with such a token (a
    border), [export_row] returns [false] at once, with nothing written and
    [errno] as it was (force-8-bit mode).  In the SQL INSERT formats and in
    the text format every call clears [errno] first, so its value on entry
    has no influence. *)
Theorem stale_errno_fails_csv_row opts desc l st h e fp is_colname c rest ty trest :
  opt_force8bit opts = true ->
  DSV_FORMAT_TYPE (format st) = true ->
  view (rowstr l) h = Ok (c :: rest) -> c <> 0 ->
  view (headline_transl desc) h = Ok (ty :: trest) ->
  ty <> 10 -> ty <> 78 -> ty <> 100 ->
  e <> 0 ->
  export_row opts desc l is_colname st (mkMachine h e fp)
  = Ok ((false, set_colno st 0), mkMachine h e fp)
  /\ forall st' typ field size xpos ic h' e1 e2 fp',
       INSERT_FORMAT_TYPE (format st') = true \/ format st' = CLIPBOARD_FORMAT_TEXT ->
       process_item st' typ field size xpos ic (mkMachine h' e1 fp')
       = process_item st' typ field size xpos ic (mkMachine h' e2 fp').
Proof.
  intros Ho8 Hd Hr Hc Ht H10 H78 H100 He. split.
  - unfold export_row. rewrite Ho8.
    assert (Hfuel : on_heap (row_fuel (rowstr l)) (mkMachine h e fp)
                    = Ok (S (length (c :: rest)), mkMachine h e fp)).
    { unfold on_heap, row_fuel. cbn [m_heap m_errno m_out]. rewrite Hr. reflexivity. }
    rewrite (bind_ok _ _ _ _ _ Hfuel). cbn [row_tokens].
    assert (Hnext : on_heap (next_char (mkFmtLineIter (rowstr l) (headline_transl desc)
                                          true 0)) (mkMachine h e fp)
                    = Ok ((Some (rowstr l, ty, 1, 1, 0),
                           mkFmtLineIter (ptr_add (rowstr l) 1)
                             (ptr_add (headline_transl desc) 1) true (0 + 1)),
                          mkMachine h e fp)).
    { unfold on_heap. cbn [m_heap m_errno m_out].
      rewrite (next_char_step_8bit _ _ 0 h c rest ty trest Hr Ht Hc H10). reflexivity. }
    rewrite !bind_assoc, (bind_ok _ _ _ _ _ Hnext). cbv beta iota.
    replace (ty =? 100) with false by (symmetry; apply Z.eqb_neq; exact H100).
    cbn [is_null negb]. rewrite !bind_assoc.
    unfold ret at 1. unfold bind at 1. cbv beta iota. cbn [negb].
    rewrite !bind_assoc.
    rewrite (bind_ok _ _ _ _ _
               (process_item_dsv_stale (set_colno st 0) ty (rowstr l) 1 0 is_colname
                  h e fp Hd H78 H100 He)).
    reflexivity.
  - intros st' typ field size xpos ic h' e1 e2 fp' Hfmt.
    exact (process_item_clears_errno st' typ field size xpos ic h' e1 e2 fp' Hfmt).
Qed.

End StaleErrno.

Lemma stale_errno_fails_csv_row_witness :
  let h := [cstr "LdddIddR"; cstr "|  7|a |"] in
  let desc := mkDataDesc 0 0 0 2 [(0, 4); (4, 7)] (Ptr 0 0)
                (-1) (-1) (-1) (-1) (-1) [mkLine (Ptr 1 0) None 0] in
  let st := mkExportState CLIPBOARD_FORMAT_CSV (-1) (-1) false NULL 2 true false 0 None in
  export_row (H := example_collaborators) (mkOptions true false false false) desc
    (mkLine (Ptr 1 0) None 0) false st (mkMachine h 5 (mkFILE [] None))
  = Ok ((false, set_colno st 0), mkMachine h 5 (mkFILE [] None))
  /\ export_row (H := example_collaborators) (mkOptions true false false false) desc
       (mkLine (Ptr 1 0) None 0) false st (mkMachine h 0 (mkFILE [] None))
     = Ok ((true, set_colno st 2),
           mkMachine h 0 (mkFILE (bytes_of_string "7,a" ++ [10]) None)).
Proof.
  intros h desc st. split; [|reflexivity].
  apply (stale_errno_fails_csv_row (H := example_collaborators)
           (mkOptions true false false false) desc (mkLine (Ptr 1 0) None 0) st h 5
           (mkFILE [] None) false 124 (bytes_of_string "  7|a |" ++ [0])
           76 (bytes_of_string "dddIddR" ++ [0]));
    try reflexivity; discriminate.
Defined.
